(** * NAND programmer firmware: protocol core (firmware/nand_programmer.c)

    A shallow embedding of the command layer of the firmware.  The C
    translation unit keeps one [np_prog_t] for the whole run and talks to
    four collaborators that live in other files: the transport callbacks
    ([np_comm_cb]), the FSMC NAND driver, the chip database and the bad
    block table.  Every call that leaves the translation unit is recorded
    as an [event] of the world's trace, in call order; what a call returns
    is read from an [env], as a function of the trace up to that call. *)

From Stdlib Require Import ZArith List Lia Bool Sorted.
From Stdlib.Strings Require Import Byte.
Import ListNotations.
Open Scope Z_scope.

(** ** Constants of the translation unit *)

Definition NP_PACKET_BUF_SIZE : Z := 64.
Definition NP_MAX_PAGE_SIZE : Z := 0x0800.
Definition NP_NAND_TIMEOUT : Z := 0x1000000.

(** [np_cmd_code_t] *)
Definition NP_CMD_NAND_READ_ID : Z := 0x00.
Definition NP_CMD_NAND_ERASE : Z := 0x01.
Definition NP_CMD_NAND_READ : Z := 0x02.
Definition NP_CMD_NAND_WRITE_S : Z := 0x03.
Definition NP_CMD_NAND_WRITE_D : Z := 0x04.
Definition NP_CMD_NAND_WRITE_E : Z := 0x05.
Definition NP_CMD_NAND_SELECT : Z := 0x06.
Definition NP_CMD_NAND_READ_BB : Z := 0x07.
Definition NP_CMD_NAND_LAST : Z := 0x08.

(** Error codes: the handlers return them as negative [int]s. *)
Definition NP_ERR_INTERNAL : Z := -1.
Definition NP_ERR_ADDR_EXCEEDED : Z := -100.
Definition NP_ERR_ADDR_INVALID : Z := -101.
Definition NP_ERR_ADDR_NOT_ALIGN : Z := -102.
Definition NP_ERR_NAND_WR : Z := -103.
Definition NP_ERR_NAND_RD : Z := -104.
Definition NP_ERR_NAND_ERASE : Z := -105.
Definition NP_ERR_CHIP_NOT_SEL : Z := -106.
Definition NP_ERR_CHIP_NOT_FOUND : Z := -107.
Definition NP_ERR_CMD_DATA_SIZE : Z := -108.
Definition NP_ERR_CMD_INVALID : Z := -109.
Definition NP_ERR_BUF_OVERFLOW : Z := -110.
Definition NP_ERR_LEN_NOT_ALIGN : Z := -111.
Definition NP_ERR_LEN_EXCEEDED : Z := -112.
Definition NP_ERR_LEN_INVALID : Z := -113.

(** ** Machine integers *)

(** [uint32_t] and [uint8_t] values are integers reduced modulo the width. *)
Definition u32 (z : Z) : Z := z mod 2 ^ 32.
Definition u8 (z : Z) : Z := z mod 2 ^ 8.

(** ** Data model *)

(** The fields of [chip_info_t] (chip_db.h) that this file reads. *)
Record chip_info_t : Type := mk_chip_info {
  page_size : Z;
  block_size : Z;
  size : Z
}.

(** The receive buffer, seen through the packed command structs that the
    handlers overlay on it: [code] is [np_cmd_t.code]; [cmd_addr] and
    [cmd_len] are the two [uint32_t] of the erase, read and write-start
    commands; [chip_num] is the select command's argument; [wd_len] and
    [wd_data] are the [uint8_t len] and the [data[]] bytes of a write-data
    command. *)
Record np_rx_t : Type := mk_rx {
  code : Z;
  cmd_addr : Z;
  cmd_len : Z;
  chip_num : Z;
  wd_len : Z;
  wd_data : list byte
}.

Module np_page_t.
Record t : Type := mk {
  buf : list byte;
  page : Z;
  offset : Z
}.
End np_page_t.

Record np_prog_t : Type := mk_prog {
  addr : Z;
  len : Z;
  addr_is_set : bool;
  page : np_page_t.t;
  bytes_written : Z;
  bytes_ack : Z;
  nand_wr_in_progress : bool;
  nand_timeout : Z;
  chip_info : option chip_info_t
}.

(** Status words of the FSMC driver (fsmc_nand.h); a value that is none of
    the four named ones is what the [default:] branches see. *)
Inductive nand_status : Type :=
| NAND_READY
| NAND_ERROR
| NAND_BUSY
| NAND_TIMEOUT_ERROR
| NAND_UNKNOWN (v : Z).

(** Status responses ([np_resp_t] with code [NP_RESP_STATUS]). *)
Inductive np_resp : Type :=
| NP_STATUS_OK
| NP_STATUS_ERROR (err_code : Z)
| NP_STATUS_BAD_BLOCK (bb_addr : Z)
| NP_STATUS_WRITE_ACK (ack : Z).

(** Calls that leave the translation unit. *)
Inductive event : Type :=
| EvSend (r : np_resp) (rc : Z)
| EvLedWr (on : bool)
| EvLedRd (on : bool)
| EvBadBlockLookup (a : Z) (is_bad : bool)
| EvEraseBlock (pg : Z) (st : nand_status)
| EvWritePageAsync (data : list byte) (pg : Z) (sz : Z)
| EvReadStatus (st : nand_status)
| EvChipSelect (n : Z) (found : bool)
| EvNandInit
| EvBadBlockTableInit.

(** What the collaborators answer, as a function of the calls made so far;
    [sizeof_np_write_data_cmd_t] is the size the target ABI gives the packed
    write-data header. *)
Record env : Type := mk_env {
  comm_send : list event -> np_resp -> Z;
  nand_read_status : list event -> nand_status;
  nand_erase_block : list event -> Z -> nand_status;
  chip_db : Z -> option chip_info_t;
  sizeof_np_write_data_cmd_t : Z
}.

Record world : Type := mk_world {
  prog : np_prog_t;
  bad_blocks : list Z;
  trace : list event
}.

(** Field updates of [np_prog_t]. *)
Definition set_addr (v : Z) (p : np_prog_t) : np_prog_t :=
  mk_prog v (len p) (addr_is_set p) (page p) (bytes_written p) (bytes_ack p)
          (nand_wr_in_progress p) (nand_timeout p) (chip_info p).
Definition set_len (v : Z) (p : np_prog_t) : np_prog_t :=
  mk_prog (addr p) v (addr_is_set p) (page p) (bytes_written p) (bytes_ack p)
          (nand_wr_in_progress p) (nand_timeout p) (chip_info p).
Definition set_addr_is_set (v : bool) (p : np_prog_t) : np_prog_t :=
  mk_prog (addr p) (len p) v (page p) (bytes_written p) (bytes_ack p)
          (nand_wr_in_progress p) (nand_timeout p) (chip_info p).
Definition set_page (v : np_page_t.t) (p : np_prog_t) : np_prog_t :=
  mk_prog (addr p) (len p) (addr_is_set p) v (bytes_written p) (bytes_ack p)
          (nand_wr_in_progress p) (nand_timeout p) (chip_info p).
Definition set_bytes_written (v : Z) (p : np_prog_t) : np_prog_t :=
  mk_prog (addr p) (len p) (addr_is_set p) (page p) v (bytes_ack p)
          (nand_wr_in_progress p) (nand_timeout p) (chip_info p).
Definition set_bytes_ack (v : Z) (p : np_prog_t) : np_prog_t :=
  mk_prog (addr p) (len p) (addr_is_set p) (page p) (bytes_written p) v
          (nand_wr_in_progress p) (nand_timeout p) (chip_info p).
Definition set_nand_wr_in_progress (v : bool) (p : np_prog_t) : np_prog_t :=
  mk_prog (addr p) (len p) (addr_is_set p) (page p) (bytes_written p)
          (bytes_ack p) v (nand_timeout p) (chip_info p).
Definition set_nand_timeout (v : Z) (p : np_prog_t) : np_prog_t :=
  mk_prog (addr p) (len p) (addr_is_set p) (page p) (bytes_written p)
          (bytes_ack p) (nand_wr_in_progress p) v (chip_info p).
Definition set_chip_info (v : option chip_info_t) (p : np_prog_t) : np_prog_t :=
  mk_prog (addr p) (len p) (addr_is_set p) (page p) (bytes_written p)
          (bytes_ack p) (nand_wr_in_progress p) (nand_timeout p) v.

(** Field updates of the page buffer [prog->page]. *)
Definition set_buf (v : list byte) (g : np_page_t.t) : np_page_t.t :=
  np_page_t.mk v (np_page_t.page g) (np_page_t.offset g).
Definition set_page_page (v : Z) (g : np_page_t.t) : np_page_t.t :=
  np_page_t.mk (np_page_t.buf g) v (np_page_t.offset g).
Definition set_offset (v : Z) (g : np_page_t.t) : np_page_t.t :=
  np_page_t.mk (np_page_t.buf g) (np_page_t.page g) v.

(** [memcpy (dst + off, src, n)] on the buffer contents.  C defines it when
    [off + n] stays inside [dst] and [n] inside [src]; there the result has
    the length of [dst].  The page buffer is [uint8_t buf[NP_MAX_PAGE_SIZE]]
    and the copies of [np_cmd_nand_write_data] are bounded by the page size
    of the chip only: where a copy would leave the array the C code
    overruns it, and the list function below does not follow it there.
    What is proved about the bytes, the pages and the acknowledgements of
    write-data commands is therefore stated for a page buffer of
    [NP_MAX_PAGE_SIZE] bytes, chips whose page fits it and is not shorter
    than a write-data payload, a fill offset inside the page and commands
    that carry the bytes they announce. *)
Definition memcpy (dst : list byte) (off : Z) (src : list byte) (n : Z)
  : list byte :=
  firstn (Z.to_nat off) dst ++ firstn (Z.to_nat n) src
    ++ skipn (Z.to_nat (off + n)) dst.

(** ** The monad of the handlers

    A handler runs on the [world] and either yields a value and the next
    world, or nothing: nothing stands for a loop that was given too little
    fuel and for a dereference of the null [prog->chip_info]. *)

Definition M (A : Type) : Type := world -> option (A * world).

Definition ret {A : Type} (a : A) : M A := fun w => Some (a, w).

Definition bind {A B : Type} (m : M A) (k : A -> M B) : M B :=
  fun w => match m w with
           | Some (a, w') => k a w'
           | None => None
           end.

Declare Scope np_scope.
Delimit Scope np_scope with np.
Notation "x <- m ;; k" := (bind m (fun x => k))
  (at level 61, m at next level, right associativity) : np_scope.
Notation "m ;;; k" := (bind m (fun _ => k))
  (at level 61, right associativity) : np_scope.
Open Scope np_scope.

Definition stop {A : Type} : M A := fun _ => None.

Definition get_prog : M np_prog_t := fun w => Some (prog w, w).

Definition modify_prog (f : np_prog_t -> np_prog_t) : M unit :=
  fun w => Some (tt, mk_world (f (prog w)) (bad_blocks w) (trace w)).

Definition history : M (list event) := fun w => Some (trace w, w).

Definition emit (e : event) : M unit :=
  fun w => Some (tt, mk_world (prog w) (bad_blocks w) (trace w ++ [e])).

(** [prog->chip_info->...]: no result when the pointer is null. *)
Definition get_chip : M chip_info_t :=
  fun w => match chip_info (prog w) with
           | Some c => Some (c, w)
           | None => None
           end.

(** A C condition on an [int]. *)
Definition nonzero (z : Z) : bool := negb (z =? 0).

Section Firmware.

Variable E : env.

(** ** Collaborators *)

(** [np_comm_cb->send]: the transport is registered for the whole run. *)
Definition np_comm_cb_send (r : np_resp) : M Z :=
  tr <- history ;;
  let rc := comm_send E tr r in
  emit (EvSend r rc) ;;;
  ret rc.

Definition led_wr_set (on : bool) : M unit := emit (EvLedWr on).
Definition led_rd_set (on : bool) : M unit := emit (EvLedRd on).

(** Modelled from the spec: nand_bad_block.c is not among the sources.  The
    table is a set of block start addresses, emptied by its init and
    queried by address. *)
Definition get_bad_blocks : M (list Z) := fun w => Some (bad_blocks w, w).

Definition nand_bad_block_table_lookup (a : Z) : M bool :=
  bb <- get_bad_blocks ;;
  let is_bad := existsb (Z.eqb a) bb in
  emit (EvBadBlockLookup a is_bad) ;;;
  ret is_bad.

Definition nand_bad_block_table_init : M unit :=
  fun w => Some (tt, mk_world (prog w) [] (trace w ++ [EvBadBlockTableInit])).

Definition nand_init : M unit := emit EvNandInit.

Definition drv_nand_erase_block (pg : Z) : M nand_status :=
  tr <- history ;;
  let st := nand_erase_block E tr pg in
  emit (EvEraseBlock pg st) ;;;
  ret st.

Definition drv_nand_read_status : M nand_status :=
  tr <- history ;;
  let st := nand_read_status E tr in
  emit (EvReadStatus st) ;;;
  ret st.

Definition nand_write_page_async (b : list byte) (pg : Z) (sz : Z) : M unit :=
  emit (EvWritePageAsync (firstn (Z.to_nat sz) b) pg sz).

(** Modelled from the spec: chip_db.c is not among the sources.
    [chip_select] succeeds (returns 0) exactly for the indices the database
    knows, and [chip_info_selected_get] then yields that chip's geometry. *)
Definition chip_select (n : Z) : M (option chip_info_t) :=
  let c := chip_db E n in
  emit (EvChipSelect n (match c with Some _ => true | None => false end)) ;;;
  ret c.

(** ** Responses *)

Definition np_send_ok_status : M Z :=
  np_comm_cb_send NP_STATUS_OK ;;;
  ret 0.

(** [err_code] is a [uint8_t] parameter. *)
Definition np_send_error (err_code : Z) : M Z :=
  np_comm_cb_send (NP_STATUS_ERROR (u8 err_code)) ;;;
  ret 0.

Definition np_send_bad_block_info (a : Z) : M Z :=
  rc <- np_comm_cb_send (NP_STATUS_BAD_BLOCK a) ;;
  if nonzero rc then ret (-1) else ret 0.

Definition np_send_write_ack (n : Z) : M Z :=
  rc <- np_comm_cb_send (NP_STATUS_WRITE_ACK n) ;;
  if nonzero rc then ret (-1) else ret 0.

(** ** Erase *)

Definition np_nand_erase (pg : Z) : M Z :=
  c <- get_chip ;;
  let a := u32 (pg * page_size c) in
  st <- drv_nand_erase_block pg ;;
  match st with
  | NAND_READY => ret 0
  | NAND_ERROR =>
      rc <- np_send_bad_block_info a ;;
      if nonzero rc then ret (-1) else ret 0
  | NAND_TIMEOUT_ERROR => ret 0
  | _ => ret (-1)
  end.

(** The [while (len)] loop of [_np_cmd_nand_erase], with its locals as
    arguments; [cmd] is the command the loop re-reads [erase_cmd->len]
    from. *)
Fixpoint np_erase_loop (fuel : nat) (cmd : np_rx_t)
    (a pg pages_in_block l : Z) {struct fuel} : M Z :=
  if l =? 0 then np_send_ok_status
  else
    match fuel with
    | O => stop
    | S fuel' =>
        c <- get_chip ;;
        if a >=? size c then ret NP_ERR_ADDR_EXCEEDED
        else
          is_bad <- nand_bad_block_table_lookup a ;;
          rc <- (if is_bad then np_send_bad_block_info a else ret 0) ;;
          if nonzero rc then ret (-1)
          else
            rc' <- (if negb is_bad then np_nand_erase pg else ret 0) ;;
            if nonzero rc' then ret NP_ERR_NAND_ERASE
            else
              let a' := u32 (a + block_size c) in
              let pg' := u32 (pg + pages_in_block) in
              (* On partial erase do not count bad blocks *)
              let l' := if negb is_bad || (is_bad && (cmd_len cmd =? size c))
                        then u32 (l - block_size c) else l in
              np_erase_loop fuel' cmd a' pg' pages_in_block l'
    end.

Definition _np_cmd_nand_erase (fuel : nat) (cmd : np_rx_t) : M Z :=
  c <- get_chip ;;
  let l := cmd_len cmd in
  let a := cmd_addr cmd in
  if nonzero (Z.land a (u32 (block_size c - 1))) then ret NP_ERR_ADDR_NOT_ALIGN
  else if l =? 0 then ret NP_ERR_LEN_INVALID
  else if nonzero (Z.land l (u32 (block_size c - 1))) then
    ret NP_ERR_LEN_NOT_ALIGN
  else if u32 (a + l) >? size c then ret NP_ERR_ADDR_EXCEEDED
  else
    let pg := a / page_size c in
    let pages_in_block := block_size c / page_size c in
    np_erase_loop fuel cmd a pg pages_in_block l.

Definition np_cmd_nand_erase (fuel : nat) (cmd : np_rx_t) : M Z :=
  led_wr_set true ;;;
  r <- _np_cmd_nand_erase fuel cmd ;;
  led_wr_set false ;;;
  ret r.

(** ** Write: start, data, end *)

Definition np_cmd_nand_write_start (cmd : np_rx_t) : M Z :=
  c <- get_chip ;;
  let a := cmd_addr cmd in
  let l := cmd_len cmd in
  if u32 (a + l) >? size c then ret NP_ERR_ADDR_EXCEEDED
  else if nonzero (Z.land a (u32 (page_size c - 1))) then
    ret NP_ERR_ADDR_NOT_ALIGN
  else if l =? 0 then ret NP_ERR_LEN_INVALID
  else if nonzero (Z.land l (u32 (page_size c - 1))) then
    ret NP_ERR_ADDR_NOT_ALIGN
  else
    modify_prog (set_addr a) ;;;
    modify_prog (set_len l) ;;;
    modify_prog (set_addr_is_set true) ;;;
    modify_prog (fun p => set_page (set_page_page (a / page_size c) (page p)) p) ;;;
    modify_prog (fun p => set_page (set_offset 0 (page p)) p) ;;;
    modify_prog (set_bytes_written 0) ;;;
    modify_prog (set_bytes_ack 0) ;;;
    np_send_ok_status.

(** Both exits of the poller that end a pending write reset the same two
    fields. *)
Definition clear_nand_wr : M unit :=
  modify_prog (set_nand_wr_in_progress false) ;;;
  modify_prog (set_nand_timeout 0).

Definition np_nand_handle_status : M Z :=
  st <- drv_nand_read_status ;;
  match st with
  | NAND_ERROR =>
      p <- get_prog ;;
      rc <- np_send_bad_block_info (addr p) ;;
      if nonzero rc then ret (-1)
      else (* falls through to NAND_READY *) clear_nand_wr ;;; ret 0
  | NAND_READY => clear_nand_wr ;;; ret 0
  | NAND_BUSY =>
      p <- get_prog ;;
      let t := u32 (nand_timeout p + 1) in
      modify_prog (set_nand_timeout t) ;;;
      if t =? NP_NAND_TIMEOUT then clear_nand_wr ;;; ret (-1)
      else ret 0
  | _ => clear_nand_wr ;;; ret (-1)
  end.

(** The [do ... while (prog->nand_wr_in_progress)] of [np_nand_write]. *)
Fixpoint np_nand_wait (fuel : nat) : M Z :=
  match fuel with
  | O => stop
  | S fuel' =>
      rc <- np_nand_handle_status ;;
      if nonzero rc then ret (-1)
      else
        p <- get_prog ;;
        if nand_wr_in_progress p then np_nand_wait fuel' else ret 0
  end.

Definition np_nand_write (fuel : nat) (c : chip_info_t) : M Z :=
  p <- get_prog ;;
  rc <- (if nand_wr_in_progress p then np_nand_wait fuel else ret 0) ;;
  if nonzero rc then ret (-1)
  else
    p <- get_prog ;;
    nand_write_page_async (np_page_t.buf (page p)) (np_page_t.page (page p))
                          (page_size c) ;;;
    modify_prog (set_nand_wr_in_progress true) ;;;
    ret 0.

(** The two copies follow the C code in the range given at [memcpy]. *)
Definition np_cmd_nand_write_data (fuel : nat) (cmd : np_rx_t) : M Z :=
  let l := wd_len cmd in
  if u32 (l + sizeof_np_write_data_cmd_t E) >? NP_PACKET_BUF_SIZE then
    ret NP_ERR_CMD_DATA_SIZE
  else
    p <- get_prog ;;
    if negb (addr_is_set p) then ret NP_ERR_ADDR_INVALID
    else
      c <- get_chip ;;
      if addr p >=? size c then ret NP_ERR_ADDR_EXCEEDED
      else
        let off := np_page_t.offset (page p) in
        let write_len :=
          if u32 (off + l) >? page_size c then u32 (page_size c - off)
          else l in
        modify_prog (fun p =>
          set_page (set_buf (memcpy (np_page_t.buf (page p)) off
                                    (wd_data cmd) write_len) (page p)) p) ;;;
        modify_prog (fun p => set_page (set_offset (u32 (off + write_len))
                                                   (page p)) p) ;;;
        p <- get_prog ;;
        rc <- (if np_page_t.offset (page p) =? page_size c then
                 rc <- np_nand_write fuel c ;;
                 if nonzero rc then ret NP_ERR_NAND_WR
                 else
                   modify_prog (fun p => set_addr (u32 (addr p + page_size c)) p) ;;;
                   modify_prog (fun p =>
                     set_page (set_page_page (u32 (np_page_t.page (page p) + 1))
                                             (page p)) p) ;;;
                   modify_prog (fun p => set_page (set_offset 0 (page p)) p) ;;;
                   ret 0
               else ret 0) ;;
        if nonzero rc then ret rc
        else
          let bytes_left := u32 (l - write_len) in
          (if nonzero bytes_left then
             modify_prog (fun p =>
               set_page (set_buf (memcpy (np_page_t.buf (page p)) 0
                                         (skipn (Z.to_nat write_len) (wd_data cmd))
                                         bytes_left) (page p)) p) ;;;
             modify_prog (fun p =>
               set_page (set_offset (u32 (np_page_t.offset (page p) + bytes_left))
                                    (page p)) p)
           else ret tt) ;;;
          modify_prog (fun p => set_bytes_written (u32 (bytes_written p + l)) p) ;;;
          p <- get_prog ;;
          rc <- (if (u32 (bytes_written p - bytes_ack p) >=? page_size c)
                    || (bytes_written p =? len p)
                 then
                   rc <- np_send_write_ack (bytes_written p) ;;
                   if nonzero rc then ret (-1)
                   else modify_prog (set_bytes_ack (bytes_written p)) ;;; ret 0
                 else ret 0) ;;
          if nonzero rc then ret rc
          else if bytes_written p >? len p then ret NP_ERR_LEN_EXCEEDED
          else ret 0.

Definition np_cmd_nand_write_end (cmd : np_rx_t) : M Z :=
  modify_prog (set_addr_is_set false) ;;;
  p <- get_prog ;;
  if nonzero (np_page_t.offset (page p)) then ret NP_ERR_NAND_WR
  else np_send_ok_status.

Definition np_cmd_nand_write (fuel : nat) (cmd : np_rx_t) : M Z :=
  if code cmd =? NP_CMD_NAND_WRITE_S then
    led_wr_set true ;;;
    np_cmd_nand_write_start cmd
  else if code cmd =? NP_CMD_NAND_WRITE_D then
    np_cmd_nand_write_data fuel cmd
  else if code cmd =? NP_CMD_NAND_WRITE_E then
    r <- np_cmd_nand_write_end cmd ;;
    led_wr_set false ;;;
    ret r
  else ret 0.

(** ** Chip select *)

Definition np_cmd_nand_select (fuel : nat) (cmd : np_rx_t) : M Z :=
  found <- chip_select (chip_num cmd) ;;
  match found with
  | Some c =>
      nand_init ;;;
      nand_bad_block_table_init ;;;
      modify_prog (set_chip_info (Some c)) ;;;
      np_send_ok_status
  | None =>
      modify_prog (set_chip_info None) ;;;
      ret NP_ERR_CHIP_NOT_FOUND
  end.

(** ** Dispatch *)

Record np_cmd_handler_t : Type := mk_handler {
  id : Z;
  exec : nat -> np_rx_t -> M Z
}.

(** The read-id, read and bad-block-scan handlers are left as parameters:
    nothing proved below depends on what they do. *)
Variables np_cmd_nand_read_id np_cmd_nand_read np_cmd_read_bad_blocks
  : nat -> np_rx_t -> M Z.

Definition cmd_handler : list np_cmd_handler_t :=
  [ mk_handler NP_CMD_NAND_READ_ID np_cmd_nand_read_id;
    mk_handler NP_CMD_NAND_ERASE np_cmd_nand_erase;
    mk_handler NP_CMD_NAND_READ np_cmd_nand_read;
    mk_handler NP_CMD_NAND_WRITE_S np_cmd_nand_write;
    mk_handler NP_CMD_NAND_WRITE_D np_cmd_nand_write;
    mk_handler NP_CMD_NAND_WRITE_E np_cmd_nand_write;
    mk_handler NP_CMD_NAND_SELECT np_cmd_nand_select;
    mk_handler NP_CMD_NAND_READ_BB np_cmd_read_bad_blocks ].

Definition np_cmd_is_valid (c : Z) : bool :=
  (c >=? 0) && (c <? NP_CMD_NAND_LAST).

(** [np_cmd_handler] over an arbitrary handler table; the firmware's is
    [cmd_handler]. *)
Definition np_cmd_dispatch (table : list np_cmd_handler_t)
    (fuel : nat) (cmd : np_rx_t) : M Z :=
  p <- get_prog ;;
  if match chip_info p with None => true | Some _ => false end
     && negb (code cmd =? NP_CMD_NAND_SELECT)
  then ret NP_ERR_CHIP_NOT_SEL
  else if negb (np_cmd_is_valid (code cmd)) then ret NP_ERR_CMD_INVALID
  else
    match nth_error table (Z.to_nat (code cmd)) with
    | Some h => exec h fuel cmd
    | None => stop
    end.

Definition np_cmd_handler : nat -> np_rx_t -> M Z :=
  np_cmd_dispatch cmd_handler.

(** [np_packet_handler]: [pending] lists the buffers that [peek] hands out
    before it reports none.  The C function returns nothing; the codes the
    handlers returned are kept for the statements below. *)
Fixpoint np_packet_handler (fuel : nat) (pending : list np_rx_t)
  : M (list Z) :=
  match pending with
  | [] => ret []
  | cmd :: rest =>
      r <- np_cmd_handler fuel cmd ;;
      (if r <? 0 then np_send_error (- r) else ret 0) ;;;
      rs <- np_packet_handler fuel rest ;;
      ret (r :: rs)
  end.

Definition np_nand_handler : M unit :=
  p <- get_prog ;;
  if nand_wr_in_progress p then
    rc <- np_nand_handle_status ;;
    if nonzero rc then np_send_error NP_ERR_NAND_WR ;;; ret tt
    else ret tt
  else ret tt.

(** One call of [np_handler], with the buffers pending at that call. *)
Definition np_handler (fuel : nat) (pending : list np_rx_t) : M (list Z) :=
  rs <- np_packet_handler fuel pending ;;
  np_nand_handler ;;;
  ret rs.

(** The scheduling loop of the caller: one [np_handler] call per entry. *)
Fixpoint np_run (fuel : nat) (ticks : list (list np_rx_t)) : M (list Z) :=
  match ticks with
  | [] => ret []
  | pending :: later =>
      rs <- np_handler fuel pending ;;
      rs' <- np_run fuel later ;;
      ret (rs ++ rs')
  end.

End Firmware.

(** ** Commands as the host builds them *)

Definition cmd_select (n : Z) : np_rx_t :=
  mk_rx NP_CMD_NAND_SELECT 0 0 n 0 [].
Definition cmd_erase (a l : Z) : np_rx_t :=
  mk_rx NP_CMD_NAND_ERASE a l 0 0 [].
Definition cmd_write_start (a l : Z) : np_rx_t :=
  mk_rx NP_CMD_NAND_WRITE_S a l 0 0 [].
Definition cmd_write_data (d : list byte) : np_rx_t :=
  mk_rx NP_CMD_NAND_WRITE_D 0 0 0 (Z.of_nat (length d)) d.
Definition cmd_write_end : np_rx_t :=
  mk_rx NP_CMD_NAND_WRITE_E 0 0 0 0 [].

(** ** Geometry *)

Definition pow2 (x : Z) : Prop := 0 < x /\ x = 2 ^ Z.log2 x.

(** A chip as the database describes real parts: page and block sizes are
    powers of two, a block holds whole pages, the chip whole blocks, and
    every address fits 32 bits. *)
Definition chip_wf (c : chip_info_t) : Prop :=
  pow2 (page_size c) /\ pow2 (block_size c) /\
  page_size c <= block_size c /\
  0 < size c < 2 ^ 32 /\ size c mod block_size c = 0.

(** ** A bench set-up for the examples: one 64 MiB chip with 2 KiB pages
    and 128 KiB blocks at index 0, a transport that always accepts, a
    driver whose status register always reads [st] and whose erase always
    returns [est], and a two-byte write-data header. *)

Definition bench_chip : chip_info_t := mk_chip_info 0x800 0x20000 0x4000000.

Definition bench_env (st est : nand_status) : env :=
  mk_env (fun _ _ => 0) (fun _ => st) (fun _ _ => est)
         (fun n => if n =? 0 then Some bench_chip else None) 2.

Definition power_on : world :=
  mk_world
    (mk_prog 0 0 false (np_page_t.mk (repeat x00 2048) 0 0) 0 0 false 0 None)
    [] [].

Definition with_chip (c : chip_info_t) (w : world) : world :=
  mk_world (set_chip_info (Some c) (prog w)) (bad_blocks w) (trace w).

Definition no_handler : nat -> np_rx_t -> M Z := fun _ _ => ret 0.

(** What a poll may change of [np_prog_t]: the flag and the counter of the
    pending write, nothing else. *)
Definition same_session (p p' : np_prog_t) : Prop :=
  addr p' = addr p /\ len p' = len p /\ addr_is_set p' = addr_is_set p /\
  page p' = page p /\ bytes_written p' = bytes_written p /\
  bytes_ack p' = bytes_ack p /\ chip_info p' = chip_info p.

(** The events of a poll: status reads, bad-block reports and the error
    status of a failed write. *)
Definition poll_event (e : event) : Prop :=
  match e with
  | EvReadStatus _ => True
  | EvSend (NP_STATUS_BAD_BLOCK _) _ => True
  | EvSend (NP_STATUS_ERROR _) _ => True
  | _ => False
  end.

(** The code a command is answered with while no chip is selected and no
    select can succeed. *)
Definition reject_code (cmd : np_rx_t) : Z :=
  if code cmd =? NP_CMD_NAND_SELECT then NP_ERR_CHIP_NOT_FOUND
  else NP_ERR_CHIP_NOT_SEL.

(** The pages handed to [nand_erase_block], in call order. *)
Definition erased_pages (tr : list event) : list Z :=
  flat_map (fun e => match e with EvEraseBlock pg _ => [pg] | _ => [] end) tr.

(** The fields of a command that are [uint32_t] on the wire. *)
Definition rx_wf (cmd : np_rx_t) : Prop :=
  0 <= cmd_addr cmd < 2 ^ 32 /\ 0 <= cmd_len cmd < 2 ^ 32.

(** Fuel that lets the erase loop of a chip run to its end. *)
Definition erase_fuel (c : chip_info_t) : nat :=
  S (Z.to_nat (size c / block_size c)).

(** What one erase command may leave in the trace, for a loop that starts
    at address [a] with [l] bytes left and the table [bb]: every page
    erased starts a block inside [a, size); every block looked up is erased
    or reported; at most [l / block_size] blocks are erased; and when the
    table has no block in [a, a + l), every page erased lies below
    [a + l]. *)
Definition erase_log (c : chip_info_t) (bb : list Z) (a l : Z)
    (new : list event) : Prop :=
  Forall (fun pg => a <= pg * page_size c < size c /\
                    (pg * page_size c) mod block_size c = 0)
         (erased_pages new) /\
  (forall b is_bad,
      In (EvBadBlockLookup b is_bad) new ->
      (exists pg st, pg * page_size c = b /\ In (EvEraseBlock pg st) new) \/
      (exists rc, In (EvSend (NP_STATUS_BAD_BLOCK b) rc) new)) /\
  Z.of_nat (length (erased_pages new)) * block_size c <= l /\
  ((forall b, In b bb -> ~ (a <= b < a + l)) ->
   Forall (fun pg => pg * page_size c < a + l) (erased_pages new)).

(** The locals of the erase loop at the head of an iteration. *)
Definition erase_inv (c : chip_info_t) (a pg l : Z) : Prop :=
  0 <= a < 2 ^ 32 /\ a mod block_size c = 0 /\ pg * page_size c = a /\
  0 <= l < 2 ^ 32 /\ l mod block_size c = 0.

Definition with_bad_blocks (bb : list Z) (w : world) : world :=
  mk_world (prog w) bb (trace w).

(** The erase property as first written down: an erase command that
    passes validation erases no block that starts outside
    [addr, addr + len). *)
Definition erase_window_claim : Prop :=
  forall (E : env) (c : chip_info_t) (fuel : nat) (cmd : np_rx_t)
         (w w' : world) (r : Z) (new : list event),
    chip_wf c -> chip_info (prog w) = Some c -> rx_wf cmd ->
    cmd_addr cmd mod block_size c = 0 ->
    cmd_len cmd <> 0 -> cmd_len cmd mod block_size c = 0 ->
    cmd_addr cmd + cmd_len cmd <= size c ->
    np_cmd_nand_erase E fuel cmd w = Some (r, w') ->
    trace w' = trace w ++ new ->
    Forall (fun pg => cmd_addr cmd <= pg * page_size c
                      < cmd_addr cmd + cmd_len cmd)
           (erased_pages new).

(** ** Vocabulary of the write path *)

(** The bytes handed to [nand_write_page_async], in call order. *)
Definition written_bytes (tr : list event) : list byte :=
  flat_map (fun e => match e with EvWritePageAsync d _ _ => d | _ => [] end) tr.

(** The values of the write-ack responses handed to the transport. *)
Definition acks (tr : list event) : list Z :=
  flat_map (fun e => match e with
                     | EvSend (NP_STATUS_WRITE_ACK n) _ => [n]
                     | _ => []
                     end) tr.

(** The last status the driver was asked for, if any. *)
Definition last_status (tr : list event) : option nand_status :=
  fold_left (fun s e => match e with EvReadStatus st => Some st | _ => s end)
            tr None.

(** A monitor of the page writes, on the trace alone.  A page write is
    pending from its [nand_write_page_async] call until a status read
    returns something other than busy, or until [NP_NAND_TIMEOUT] busy
    reads have been counted.  [Some None] is idle, [Some (Some n)] is
    pending after [n] busy reads, and [None] records that a page write was
    issued while another was pending. *)
Definition flight_step (s : option (option Z)) (e : event)
  : option (option Z) :=
  match s with
  | None => None
  | Some f =>
      match e with
      | EvWritePageAsync _ _ _ =>
          match f with None => Some (Some 0) | Some _ => None end
      | EvReadStatus NAND_BUSY =>
          match f with
          | Some n => if n + 1 =? NP_NAND_TIMEOUT then Some None
                      else Some (Some (n + 1))
          | None => Some None
          end
      | EvReadStatus _ => Some None
      | _ => Some f
      end
  end.

Definition flight (tr : list event) : option (option Z) :=
  fold_left flight_step tr (Some None).

(** The monitor agrees with the flag and the counter of [np_prog_t]. *)
Definition flight_inv (w : world) : Prop :=
  match flight (trace w) with
  | None => False
  | Some None =>
      nand_wr_in_progress (prog w) = false -> nand_timeout (prog w) = 0
  | Some (Some n) =>
      nand_wr_in_progress (prog w) = true /\ nand_timeout (prog w) = n /\
      0 <= n < NP_NAND_TIMEOUT
  end.

(** Fuel that lets the wait of [np_nand_write] run to its end from any
    value of the counter. *)
Definition write_fuel : nat := Z.to_nat (2 ^ 32).

(** The straight-line pieces of [np_cmd_nand_write_data] between its
    calls, as functions on [np_prog_t]; [np_cmd_nand_write_data_eq] shows
    that the handler is their composition. *)

(** [write_len]. *)
Definition wd_write_len (c : chip_info_t) (p : np_prog_t) (l : Z) : Z :=
  if u32 (np_page_t.offset (page p) + l) >? page_size c
  then u32 (page_size c - np_page_t.offset (page p))
  else l.

(** The first [memcpy] and the offset after it. *)
Definition wd_fill (c : chip_info_t) (cmd : np_rx_t) (p : np_prog_t)
  : np_prog_t :=
  let wl := wd_write_len c p (wd_len cmd) in
  set_page (np_page_t.mk
              (memcpy (np_page_t.buf (page p)) (np_page_t.offset (page p))
                      (wd_data cmd) wl)
              (np_page_t.page (page p))
              (u32 (np_page_t.offset (page p) + wl))) p.

(** The cursor after a page was handed over. *)
Definition wd_advance (c : chip_info_t) (p : np_prog_t) : np_prog_t :=
  set_page (np_page_t.mk (np_page_t.buf (page p))
                         (u32 (np_page_t.page (page p) + 1)) 0)
           (set_addr (u32 (addr p + page_size c)) p).

(** The second [memcpy] and the byte count. *)
Definition wd_rest (cmd : np_rx_t) (wl : Z) (p : np_prog_t) : np_prog_t :=
  let bytes_left := u32 (wd_len cmd - wl) in
  let p' :=
    if nonzero bytes_left then
      set_page (np_page_t.mk
                  (memcpy (np_page_t.buf (page p)) 0
                          (skipn (Z.to_nat wl) (wd_data cmd)) bytes_left)
                  (np_page_t.page (page p))
                  (u32 (np_page_t.offset (page p) + bytes_left))) p
    else p in
  set_bytes_written (u32 (bytes_written p' + wd_len cmd)) p'.

Definition wd_ack_due (c : chip_info_t) (p : np_prog_t) : bool :=
  (u32 (bytes_written p - bytes_ack p) >=? page_size c)
  || (bytes_written p =? len p).

Definition wd_result (p : np_prog_t) : Z :=
  if bytes_written p >? len p then NP_ERR_LEN_EXCEEDED else 0.

(** From the second [memcpy] to the return. *)
Definition wd_finish (E : env) (c : chip_info_t) (cmd : np_rx_t) (wl : Z)
    (w : world) : Z * world :=
  let p := wd_rest cmd wl (prog w) in
  if wd_ack_due c p then
    let r := NP_STATUS_WRITE_ACK (bytes_written p) in
    let rc := comm_send E (trace w) r in
    if nonzero rc
    then (-1, mk_world p (bad_blocks w) (trace w ++ [EvSend r rc]))
    else (wd_result p,
          mk_world (set_bytes_ack (bytes_written p) p) (bad_blocks w)
                   (trace w ++ [EvSend r rc]))
  else (wd_result p, mk_world p (bad_blocks w) (trace w)).

(** The code a write-data command is answered with while the write
    address is not set. *)
Definition wd_reject_code (E : env) (cmd : np_rx_t) : Z :=
  if u32 (wd_len cmd + sizeof_np_write_data_cmd_t E) >? NP_PACKET_BUF_SIZE
  then NP_ERR_CMD_DATA_SIZE else NP_ERR_ADDR_INVALID.

(** The write-end property as first written down: after a write-end, a
    write-data command is answered with NP_ERR_ADDR_INVALID. *)
Definition write_end_claim : Prop :=
  forall (E : env) (fuel : nat) (cmd_e cmd_d : np_rx_t) (w w1 w2 : world)
         (r r' : Z),
    chip_info (prog w) <> None ->
    np_cmd_nand_write_end E cmd_e w = Some (r, w1) ->
    code cmd_d = NP_CMD_NAND_WRITE_D ->
    0 <= wd_len cmd_d < 2 ^ 8 ->
    np_cmd_nand_write_data E fuel cmd_d w1 = Some (r', w2) ->
    r' = NP_ERR_ADDR_INVALID.

(** A write-data command with [n] bytes [b]. *)
Definition cmd_fill (b : byte) (n : nat) : np_rx_t :=
  cmd_write_data (repeat b n).

(** Thirty-four write-data commands that fill one 2 KiB page. *)
Definition page_fill_cmds : list np_rx_t :=
  repeat (cmd_fill x2a 62) 33 ++ [cmd_fill x2a 2].

(** ** Vocabulary of sessions *)

(** A ghost value carried along a run: [step] takes it across each
    command with the code the command returned. *)
Definition ghost_run {G : Type} (step : G -> np_rx_t -> Z -> G) (g : G)
    (cmds : list np_rx_t) (rs : list Z) : G :=
  fold_left (fun g cr => step g (fst cr) (snd cr)) (combine cmds rs) g.

(** The error status that [np_packet_handler] and [np_nand_handler] send
    for a failed command or write. *)
Definition error_send (e : event) : Prop :=
  match e with
  | EvSend (NP_STATUS_ERROR _) _ => True
  | _ => False
  end.

(** The commands of the write path. *)
Definition write_cmd (cmd : np_rx_t) : Prop :=
  code cmd = NP_CMD_NAND_WRITE_S \/ code cmd = NP_CMD_NAND_WRITE_D \/
  code cmd = NP_CMD_NAND_WRITE_E.

(** A write-data command as it arrives: the opcode, a length that fits
    its [uint8_t], and at least that many bytes behind the header. *)
Definition wd_cmd (cmd : np_rx_t) : Prop :=
  code cmd = NP_CMD_NAND_WRITE_D /\ 0 <= wd_len cmd < 2 ^ 8 /\
  wd_len cmd <= Z.of_nat (length (wd_data cmd)).

(** The bytes a write-data command submits. *)
Definition payload (cmd : np_rx_t) : list byte :=
  firstn (Z.to_nat (wd_len cmd)) (wd_data cmd).

Definition sum_wd_len (cmds : list np_rx_t) : Z :=
  fold_right Z.add 0 (map wd_len cmds).

(** The events the monitor ignores. *)
Definition flight_neutral (e : event) : Prop :=
  match e with
  | EvWritePageAsync _ _ _ => False
  | EvReadStatus _ => False
  | _ => True
  end.

(** [np_prog_t] after an accepted write-start. *)
Definition ws_begin (c : chip_info_t) (cmd : np_rx_t) (p : np_prog_t)
  : np_prog_t :=
  mk_prog (cmd_addr cmd) (cmd_len cmd) true
          (np_page_t.mk (np_page_t.buf (page p))
                        (cmd_addr cmd / page_size c) 0)
          0 0 (nand_wr_in_progress p) (nand_timeout p) (chip_info p).

(** The ghost of the acknowledgement invariant: the lengths submitted so
    far and whether every command so far returned 0. *)
Definition acks_step (g : Z * bool) (cmd : np_rx_t) (r : Z) : Z * bool :=
  (fst g + wd_len cmd, snd g && (r =? 0)).

(** The acknowledgement invariant of a session that declared [L] bytes
    and started from the trace [tr0]: as long as the bytes submitted stay
    below [2 ^ 32], the counters are ordered and the acknowledgements sent
    since the start never decrease and never pass [bytes_written]; and
    when every command returned 0, all bytes submitted are counted, and
    once they are [L] the last acknowledgement is [L]. *)
Definition acks_inv (c : chip_info_t) (L : Z) (tr0 : list event)
    (g : Z * bool) (w : world) : Prop :=
  fst g < 2 ^ 32 ->
  len (prog w) = L /\ chip_info (prog w) = Some c /\
  0 <= bytes_ack (prog w) <= bytes_written (prog w) /\
  bytes_written (prog w) <= fst g /\
  exists new,
    trace w = tr0 ++ new /\
    StronglySorted Z.le (acks new) /\
    Forall (fun n => n <= bytes_written (prog w)) (acks new) /\
    (snd g = true ->
     bytes_written (prog w) = fst g /\
     (fst g = L -> exists pre, acks new = pre ++ [L])).

(** The ghost of the byte invariant: the payloads submitted so far, as
    long as every command returned 0. *)
Definition bytes_step (g : option (list byte)) (cmd : np_rx_t) (r : Z)
  : option (list byte) :=
  match g with
  | Some s => if r =? 0 then Some (s ++ payload cmd) else None
  | None => None
  end.

(** The byte invariant of a session that declared [L] bytes and started
    from the trace [tr0]: the bytes handed to the page writes since the
    start, followed by the bytes waiting in the page buffer, are the
    payloads submitted; pages were handed over whole. *)
Definition bytes_inv (c : chip_info_t) (L : Z) (tr0 : list event)
    (g : option (list byte)) (w : world) : Prop :=
  match g with
  | None => True
  | Some s =>
      chip_info (prog w) = Some c /\ L mod page_size c = 0 /\
      0 <= np_page_t.offset (page (prog w)) < page_size c /\
      Z.of_nat (length (np_page_t.buf (page (prog w)))) = NP_MAX_PAGE_SIZE /\
      exists new,
        trace w = tr0 ++ new /\
        written_bytes new
        ++ firstn (Z.to_nat (np_page_t.offset (page (prog w))))
                  (np_page_t.buf (page (prog w))) = s /\
        Z.of_nat (length (written_bytes new)) mod page_size c = 0
  end.

(** The byte property as first written down: after a write-start that
    succeeds, declaring [L] bytes, and write-data commands whose lengths
    sum to [L], the bytes handed to [nand_write_page_async] are the
    payloads, whatever the commands returned. *)
Definition write_bytes_claim : Prop :=
  forall (E : env) (h_read_id h_read h_read_bb : nat -> np_rx_t -> M Z)
         (c : chip_info_t) (a L : Z) (pending : list np_rx_t)
         (later : list (list np_rx_t)) (w0 : world) (fuel : nat)
         (rs : list Z) (w' : world) (new : list event),
    chip_info (prog w0) = Some c ->
    pow2 (page_size c) ->
    2 ^ 8 <= page_size c <= NP_MAX_PAGE_SIZE ->
    Z.of_nat (length (np_page_t.buf (page (prog w0)))) = NP_MAX_PAGE_SIZE ->
    0 <= np_page_t.offset (page (prog w0)) <= page_size c ->
    Forall wd_cmd (pending ++ concat later) ->
    sum_wd_len (pending ++ concat later) = L ->
    np_run E h_read_id h_read h_read_bb fuel
      ((cmd_write_start a L :: pending) :: later) w0 = Some (rs, w') ->
    hd_error rs = Some 0 ->
    trace w' = trace w0 ++ new ->
    written_bytes new = concat (map payload (pending ++ concat later)).

(** The acknowledgement property as first written down: in such a
    session, the last write-ack carries [L], whatever the commands
    returned. *)
Definition write_acks_claim : Prop :=
  forall (E : env) (h_read_id h_read h_read_bb : nat -> np_rx_t -> M Z)
         (c : chip_info_t) (a L : Z) (pending : list np_rx_t)
         (later : list (list np_rx_t)) (w0 : world) (fuel : nat)
         (rs : list Z) (w' : world) (new : list event),
    chip_info (prog w0) = Some c ->
    2 ^ 8 <= page_size c <= NP_MAX_PAGE_SIZE ->
    Z.of_nat (length (np_page_t.buf (page (prog w0)))) = NP_MAX_PAGE_SIZE ->
    0 <= np_page_t.offset (page (prog w0)) <= page_size c ->
    Forall wd_cmd (pending ++ concat later) ->
    sum_wd_len (pending ++ concat later) = L ->
    np_run E h_read_id h_read h_read_bb fuel
      ((cmd_write_start a L :: pending) :: later) w0 = Some (rs, w') ->
    hd_error rs = Some 0 ->
    trace w' = trace w0 ++ new ->
    exists pre, acks new = pre ++ [L].

(** A world whose page buffer holds [n] bytes of a page not yet handed
    over. *)
Definition with_fill (n : Z) (w : world) : world :=
  mk_world (set_page (set_offset n (page (prog w))) (prog w))
           (bad_blocks w) (trace w).

(** A world in which a page write is pending and [t] busy polls have been
    counted. *)
Definition with_pending_write (t : Z) (w : world) : world :=
  mk_world (set_nand_timeout t (set_nand_wr_in_progress true (prog w)))
           (bad_blocks w) (trace w).

(** ** Vocabulary of the responses *)

(** The status responses handed to the transport, in call order. *)
Definition responses (tr : list event) : list np_resp :=
  flat_map (fun e => match e with EvSend r _ => [r] | _ => [] end) tr.

Definition bad_block_resp (r : np_resp) : Prop :=
  match r with
  | NP_STATUS_BAD_BLOCK _ => True
  | _ => False
  end.

(** The status that closes the answer to a command that returned [r]. *)
Definition final_status (r : Z) : np_resp :=
  if r =? 0 then NP_STATUS_OK else NP_STATUS_ERROR (- r).

(** ** Vocabulary of the erase loop *)

(** The addresses the bad block table was asked about, in call order. *)
Definition lookups (tr : list event) : list Z :=
  flat_map (fun e => match e with EvBadBlockLookup b _ => [b] | _ => [] end) tr.

(** The start addresses of [n] blocks from [a] on. *)
Definition block_addrs (c : chip_info_t) (a : Z) (n : nat) : list Z :=
  map (fun i => a + Z.of_nat i * block_size c) (seq 0 n).

(** A driver whose erase ends in one of the three statuses the loop goes
    on from, and a transport that takes every bad-block response. *)
Definition erase_goes_on (E : env) : Prop :=
  (forall tr pg,
      nand_erase_block E tr pg = NAND_READY \/
      nand_erase_block E tr pg = NAND_ERROR \/
      nand_erase_block E tr pg = NAND_TIMEOUT_ERROR) /\
  (forall tr b, comm_send E tr (NP_STATUS_BAD_BLOCK b) = 0).

(** ** Vocabulary of the page cursor *)

(** The page numbers handed to [nand_write_page_async], in call order. *)
Definition written_pages (tr : list event) : list Z :=
  flat_map (fun e => match e with EvWritePageAsync _ pg _ => [pg] | _ => [] end)
           tr.

(** [n] page numbers from [p] on. *)
Definition page_run (p : Z) (n : nat) : list Z :=
  map (fun i => p + Z.of_nat i) (seq 0 n).

(** The cursor invariant of a session that started at address [a] from
    the trace [tr0]: [k] pages were handed over since, they are the [k]
    pages from [a / page_size] on, and the address and the page number of
    [np_prog_t] have moved on by as many pages; a page was only handed
    over while the address was inside the chip. *)
Definition cursor_inv (c : chip_info_t) (a : Z) (tr0 : list event)
    (w : world) : Prop :=
  chip_info (prog w) = Some c /\
  exists (k : nat) new,
    trace w = tr0 ++ new /\
    written_pages new = page_run (a / page_size c) k /\
    addr (prog w) = a + Z.of_nat k * page_size c /\
    np_page_t.page (page (prog w)) = a / page_size c + Z.of_nat k /\
    (k <> 0%nat -> a + Z.of_nat k * page_size c <= size c).

(** ** Vocabulary of a session's end *)

(** The bytes the write-data commands submit, in order. *)
Definition submitted (cmds : list np_rx_t) : list byte :=
  concat (map payload cmds).

(** How many of them make whole pages. *)
Definition whole_pages_len (c : chip_info_t) (cmds : list np_rx_t) : Z :=
  sum_wd_len cmds - sum_wd_len cmds mod page_size c.

(** What write-end returns after these commands, and what it sends. *)
Definition write_end_code (c : chip_info_t) (cmds : list np_rx_t) : Z :=
  if sum_wd_len cmds mod page_size c =? 0 then 0 else NP_ERR_NAND_WR.

Definition write_end_events (E : env) (c : chip_info_t) (cmds : list np_rx_t)
    (tr : list event) : list event :=
  (if sum_wd_len cmds mod page_size c =? 0
   then [EvSend NP_STATUS_OK (comm_send E tr NP_STATUS_OK)] else [])
  ++ [EvLedWr false].

(** ** Vocabulary of runs of any commands *)

(** What a command that is not of the write path leaves alone: np_prog_t,
    and the two calls the monitor of the page writes looks at. *)
Definition write_path_untouched (w w' : world) : Prop :=
  prog w' = prog w /\
  exists new, trace w' = trace w ++ new /\ Forall flight_neutral new.

(** What is assumed of the three read-side handlers, which are parameters
    of [cmd_handler]: they leave np_prog_t as it is and call neither
    nand_write_page_async nor nand_read_status.  The firmware's read
    np_prog_t only for [rx_buf] and [chip_info] (lines 216-242, 603-704 and
    766-805). *)
Definition read_side (h : nat -> np_rx_t -> M Z) : Prop :=
  forall fuel cmd w r w',
    h fuel cmd w = Some (r, w') -> write_path_untouched w w'.

(** A handler that returns, given [write_fuel]. *)
Definition returns (h : nat -> np_rx_t -> M Z) : Prop :=
  forall cmd w, exists r w', h write_fuel cmd w = Some (r, w').

(** A command of a run on the selected chip: any command but a chip
    select, with fields that fit their 32 bits, and with the bytes it
    announces if it is a write-data command. *)
Definition cmd_ok (cmd : np_rx_t) : Prop :=
  code cmd <> NP_CMD_NAND_SELECT /\ rx_wf cmd /\
  (code cmd = NP_CMD_NAND_WRITE_D -> wd_cmd cmd).

(** The page buffer of [w] holds the pages of the selected chip [c]: the
    page is not longer than the buffer nor shorter than a write-data
    payload can be, and the fill offset is inside the page. *)
Definition page_fits (c : chip_info_t) (w : world) : Prop :=
  chip_info (prog w) = Some c /\
  2 ^ 8 <= page_size c <= NP_MAX_PAGE_SIZE /\
  Z.of_nat (length (np_page_t.buf (page (prog w)))) = NP_MAX_PAGE_SIZE /\
  0 <= np_page_t.offset (page (prog w)) <= page_size c.

(** ** Vocabulary of what follows a write-end *)

(** The code a write-data command is turned away with while the write
    address is not set: the handler's while a chip is selected, the
    dispatcher's while none is. *)
Definition wd_turned_away (E : env) (sel : bool) (cmd : np_rx_t) : Z :=
  if sel then wd_reject_code E cmd else NP_ERR_CHIP_NOT_SEL.

(** A check of the codes a run returns, carried along the run: [Some sel]
    until a write-start returns 0, where [sel] tells whether a chip is
    selected (a chip select that returns 0 has selected one, a chip select
    that returns anything else has left none selected); the flag stays
    true as long as every write-data command was turned away with the code
    above. *)
Definition away_step (E : env) (g : option bool * bool) (cmd : np_rx_t)
    (r : Z) : option bool * bool :=
  match fst g with
  | None => g
  | Some sel =>
      if (code cmd =? NP_CMD_NAND_WRITE_S) && (r =? 0) then (None, snd g)
      else if code cmd =? NP_CMD_NAND_WRITE_D then
        (Some sel, snd g && (r =? wd_turned_away E sel cmd))
      else if code cmd =? NP_CMD_NAND_SELECT then (Some (r =? 0), snd g)
      else g
  end.

(** Every write-data command of [cmds] that comes before the first
    write-start that returned 0 was turned away; the run starts with a
    chip selected. *)
Definition turned_away_until_start (E : env) (cmds : list np_rx_t)
    (rs : list Z) : bool :=
  snd (ghost_run (away_step E) (Some true, true) cmds rs).

(** What the check stands on: until a write-start returns 0 the
    address-valid flag is clear, and [sel] follows [chip_info]. *)
Definition away_inv (g : option bool * bool) (w : world) : Prop :=
  snd g = true /\
  match fst g with
  | None => True
  | Some sel =>
      addr_is_set (prog w) = false /\
      (sel = true <-> chip_info (prog w) <> None)
  end.

(** The commands that need no fuel while the write address is not set. *)
Definition away_cmd (cmd : np_rx_t) : Prop :=
  code cmd = NP_CMD_NAND_WRITE_D \/ code cmd = NP_CMD_NAND_WRITE_E \/
  code cmd = NP_CMD_NAND_SELECT.

(** The bench after a write-start at 0 for two pages and one write-data
    command of 62 bytes: the address is set and the page buffer holds 62
    bytes. *)
Definition bench_open_session : world :=
  match np_run (bench_env NAND_READY NAND_READY)
          no_handler no_handler no_handler 1
          [[cmd_write_start 0 0x1000; cmd_fill x2a 62]]
          (with_chip bench_chip power_on) with
  | Some (_, w) => w
  | None => power_on
  end.

(** The bench with a slow flash: the status register reads busy until two
    busy reads in a row have been made, and ready at the read after them. *)
Definition bench_slow_env : env :=
  mk_env (fun _ _ => 0)
         (fun tr =>
            match rev tr with
            | EvReadStatus NAND_BUSY :: EvReadStatus NAND_BUSY :: _ =>
                NAND_READY
            | _ => NAND_BUSY
            end)
         (fun _ _ => NAND_READY)
         (fun n => if n =? 0 then Some bench_chip else None) 2.

(** Two np_handler calls on the bench: a write-start for two pages and the
    thirty-four write-data commands of the first page; then those of the
    second page, an erase of block 1 and a command with no handler. *)
Definition bench_two_pages : list (list np_rx_t) :=
  [cmd_write_start 0 0x1000 :: page_fill_cmds;
   page_fill_cmds ++ [cmd_erase 0x20000 0x20000; mk_rx 0x7f 0 0 0 0 []]].

(** * The read side: read-id, read and the bad block scan

    The three handlers of the read side leave the write session alone.  Of
    [np_prog_t] they read the command and [chip_info]; [_np_cmd_nand_read]
    keeps its page in a function-static [np_page_t] of its own, not in
    [prog->page]; the scan adds to the bad block table.  They are embedded
    over that part of the state, with the calls they make (page and
    spare-area reads, data packets, the transport's flow control) as the
    events of a trace of their own. *)

Module Rd.

(** What [np_comm_cb->send] is handed: a status response, or a data
    response, which is the header [{NP_RESP_DATA, info}] followed by
    [data]. *)
Inductive packet : Type :=
| PktStatus (r : np_resp)
| PktData (info : Z) (data : list byte).

Inductive event : Type :=
| EvLed (on : bool)
| EvReadId (id : list byte)
| EvReadPage (pg sz : Z) (st : nand_status) (buf : list byte)
| EvReadData (pg off n : Z) (st : nand_status) (b : byte)
| EvSendReady (ready : bool)
| EvSend (p : packet) (rc : Z)
| EvTableAdd (a : Z) (rc : Z).

(** The collaborators.  [nand_read_page] answers with its status and with
    the buffer as it leaves it; [nand_read_data] is only ever asked for
    one byte, and answers with its status and the byte it stores;
    [nand_read_id] answers with the bytes of the [nand_id_t] it fills. *)
Record env : Type := mk_env {
  comm_send : list event -> packet -> Z;
  comm_send_ready : list event -> bool;
  nand_read_id : list event -> list byte;
  nand_read_page : list event -> list byte -> Z -> Z -> nand_status * list byte;
  nand_read_data : list event -> Z -> Z -> Z -> nand_status * byte;
  bad_block_table_add : list event -> Z -> Z
}.

Record world : Type := mk_world {
  chip_info : option chip_info_t;
  page : np_page_t.t;
  bad_blocks : list Z;
  trace : list event
}.

Definition R (A : Type) : Type := world -> option (A * world).

Definition ret {A : Type} (a : A) : R A := fun w => Some (a, w).

Definition bind {A B : Type} (m : R A) (k : A -> R B) : R B :=
  fun w => match m w with
           | Some (a, w') => k a w'
           | None => None
           end.

Declare Scope rd_scope.
Delimit Scope rd_scope with rd.
Notation "x <- m ;; k" := (bind m (fun x => k))
  (at level 61, m at next level, right associativity) : rd_scope.
Notation "m ;;; k" := (bind m (fun _ => k))
  (at level 61, right associativity) : rd_scope.
Local Open Scope rd_scope.

Definition stop {A : Type} : R A := fun _ => None.

Definition history : R (list event) := fun w => Some (trace w, w).

Definition emit (e : event) : R unit :=
  fun w => Some (tt, mk_world (chip_info w) (page w) (bad_blocks w)
                       (trace w ++ [e])).

Definition get_chip : R chip_info_t :=
  fun w => match chip_info w with
           | Some c => Some (c, w)
           | None => None
           end.

Definition get_page : R np_page_t.t := fun w => Some (page w, w).

Definition put_page (g : np_page_t.t) : R unit :=
  fun w => Some (tt, mk_world (chip_info w) g (bad_blocks w) (trace w)).

(** [sizeof(np_packet_send_buf) - offsetof(np_resp_t, data)]. *)
Definition tx_data_len : Z := NP_PACKET_BUF_SIZE - 2.

Definition NP_NAND_GOOD_BLOCK_MARK : byte := xff.

Section Handlers.

Variable E : env.

(** ** Collaborators *)

Definition np_comm_cb_send (p : packet) : R Z :=
  tr <- history ;;
  let rc := comm_send E tr p in
  emit (EvSend p rc) ;;;
  ret rc.

Definition np_comm_cb_send_ready : R bool :=
  tr <- history ;;
  let ok := comm_send_ready E tr in
  emit (EvSendReady ok) ;;;
  ret ok.

Definition led_rd_set (on : bool) : R unit := emit (EvLed on).

Definition drv_nand_read_id : R (list byte) :=
  tr <- history ;;
  let id := nand_read_id E tr in
  emit (EvReadId id) ;;;
  ret id.

(** [nand_read_page (page->buf, page->page, page_size)] on the static
    page. *)
Definition drv_nand_read_page (sz : Z) : R nand_status :=
  tr <- history ;;
  g <- get_page ;;
  let r := nand_read_page E tr (np_page_t.buf g) (np_page_t.page g) sz in
  put_page (set_buf (snd r) g) ;;;
  emit (EvReadPage (np_page_t.page g) sz (fst r) (snd r)) ;;;
  ret (fst r).

Definition drv_nand_read_data (pg off n : Z) : R (nand_status * byte) :=
  tr <- history ;;
  let r := nand_read_data E tr pg off n in
  emit (EvReadData pg off n (fst r) (snd r)) ;;;
  ret r.

(** Modelled from the spec: nand_bad_block.c is not among the sources.  The
    table is appended to; an add that reports failure leaves it as it
    was. *)
Definition nand_bad_block_table_add (a : Z) : R Z :=
  tr <- history ;;
  let rc := bad_block_table_add E tr a in
  emit (EvTableAdd a rc) ;;;
  (fun w => Some (rc, mk_world (chip_info w) (page w)
                        (if nonzero rc then bad_blocks w
                         else bad_blocks w ++ [a])
                        (trace w))).

(** ** Responses *)

Definition np_send_ok_status : R Z :=
  np_comm_cb_send (PktStatus NP_STATUS_OK) ;;;
  ret 0.

Definition np_send_bad_block_info (a : Z) : R Z :=
  rc <- np_comm_cb_send (PktStatus (NP_STATUS_BAD_BLOCK a)) ;;
  if nonzero rc then ret (-1) else ret 0.

(** ** Read id *)

(** [resp.header.info] is [sizeof(nand_id_t)], stored in a [uint8_t]. *)
Definition _np_cmd_nand_read_id : R Z :=
  id <- drv_nand_read_id ;;
  np_comm_cb_send (PktData (u8 (Z.of_nat (length id))) id) ;;;
  ret 0.

Definition np_cmd_nand_read_id : R Z :=
  led_rd_set true ;;;
  r <- _np_cmd_nand_read_id ;;
  led_rd_set false ;;;
  ret r.

(** ** Read *)

Definition np_nand_read (a : Z) (c : chip_info_t) : R Z :=
  st <- drv_nand_read_page (page_size c) ;;
  match st with
  | NAND_READY => ret 0
  | NAND_ERROR =>
      rc <- np_send_bad_block_info a ;;
      if nonzero rc then ret (-1) else ret 0
  | NAND_TIMEOUT_ERROR => ret 0
  | _ => ret (-1)
  end.

(** [while (!np_comm_cb->send_ready());] *)
Fixpoint wait_send_ready (fuel : nat) : R unit :=
  match fuel with
  | O => stop
  | S fuel' =>
      ok <- np_comm_cb_send_ready ;;
      if ok then ret tt else wait_send_ready fuel'
  end.

(** The inner [while (page.offset < page_size && len)] of
    [_np_cmd_nand_read], with [len] as argument: [inl r] when the function
    returns [r] from inside the loop, [inr len] when the loop is left.
    [fuel0] is the fuel of the wait inside. *)
Fixpoint np_read_page_loop (fuel0 fuel : nat) (c : chip_info_t) (l : Z)
    {struct fuel} : R (Z + Z) :=
  g <- get_page ;;
  let off := np_page_t.offset g in
  if (off <? page_size c) && nonzero l then
    match fuel with
    | O => stop
    | S fuel' =>
        let wl0 := if u32 (page_size c - off) >=? tx_data_len
                   then tx_data_len else u32 (page_size c - off) in
        let wl := if wl0 >? l then l else wl0 in
        let data := firstn (Z.to_nat wl)
                           (skipn (Z.to_nat off) (np_page_t.buf g)) in
        wait_send_ready fuel0 ;;;
        rc <- np_comm_cb_send (PktData (u8 wl) data) ;;
        if nonzero rc then ret (inl (-1))
        else
          put_page (set_offset (u32 (off + wl)) g) ;;;
          np_read_page_loop fuel0 fuel' c (u32 (l - wl))
    end
  else ret (inr l).

(** The outer [while (len)], with [addr] and [len] as arguments. *)
Fixpoint np_read_loop (fuel0 fuel : nat) (c : chip_info_t) (a l : Z)
    {struct fuel} : R Z :=
  if nonzero l then
    match fuel with
    | O => stop
    | S fuel' =>
        rc <- np_nand_read a c ;;
        if nonzero rc then ret NP_ERR_NAND_RD
        else
          res <- np_read_page_loop fuel0 fuel0 c l ;;
          match res with
          | inl r => ret r
          | inr l' =>
              if nonzero l' then
                let a' := u32 (a + page_size c) in
                if a' >=? size c then ret NP_ERR_ADDR_EXCEEDED
                else
                  g <- get_page ;;
                  put_page (np_page_t.mk (np_page_t.buf g)
                              (u32 (np_page_t.page g + 1)) 0) ;;;
                  np_read_loop fuel0 fuel' c a' l'
              else ret 0
          end
    end
  else ret 0.

Definition _np_cmd_nand_read (fuel : nat) (cmd : np_rx_t) : R Z :=
  c <- get_chip ;;
  let a := cmd_addr cmd in
  let l := cmd_len cmd in
  if u32 (a + l) >? size c then ret NP_ERR_ADDR_EXCEEDED
  else if nonzero (Z.land a (u32 (page_size c - 1))) then
    ret NP_ERR_ADDR_NOT_ALIGN
  else if l =? 0 then ret NP_ERR_LEN_INVALID
  else if nonzero (Z.land l (u32 (page_size c - 1))) then
    ret NP_ERR_LEN_NOT_ALIGN
  else
    g <- get_page ;;
    put_page (np_page_t.mk (np_page_t.buf g) (a / page_size c) 0) ;;;
    np_read_loop fuel fuel c a l.

Definition np_cmd_nand_read (fuel : nat) (cmd : np_rx_t) : R Z :=
  led_rd_set true ;;;
  r <- _np_cmd_nand_read fuel cmd ;;
  led_rd_set false ;;;
  ret r.

(** ** The bad block scan *)

(** The result pairs the return value with [*is_bad], which keeps the
    value it had when the function returns before writing it. *)
Definition np_read_bad_block_info_from_page (is_bad : bool) (block pg : Z)
    (c : chip_info_t) : R (Z * bool) :=
  let a := u32 (block * block_size c) in
  r <- drv_nand_read_data pg (page_size c) 1 ;;
  match fst r with
  | NAND_READY =>
      if negb (Byte.eqb (snd r) NP_NAND_GOOD_BLOCK_MARK) then
        rc <- np_send_bad_block_info a ;;
        if nonzero rc then ret (-1, true)
        else
          rc' <- nand_bad_block_table_add a ;;
          if nonzero rc' then ret (-1, true) else ret (0, true)
      else ret (0, false)
  | _ => ret (NP_ERR_NAND_RD, is_bad)
  end.

(** The [for (block = 0; block < block_num; block++)] of
    [_np_cmd_read_bad_blocks], with [block] and [is_bad] as arguments. *)
Fixpoint np_scan_loop (fuel : nat) (c : chip_info_t)
    (block block_num page_num : Z) (is_bad : bool) {struct fuel} : R Z :=
  if block <? block_num then
    match fuel with
    | O => stop
    | S fuel' =>
        let pg := u32 (block * page_num) in
        r1 <- np_read_bad_block_info_from_page is_bad block pg c ;;
        if nonzero (fst r1) then ret (-1)
        else
          r2 <- (if negb (snd r1)
                 then np_read_bad_block_info_from_page (snd r1) block
                        (u32 (pg + 1)) c
                 else ret (0, snd r1)) ;;
          if nonzero (fst r2) then ret (-1)
          else np_scan_loop fuel' c (u32 (block + 1)) block_num page_num
                 (snd r2)
    end
  else np_send_ok_status.

(** [is_bad] is an uninitialised local; it is written before it is read,
    so its first value does not matter. *)
Definition _np_cmd_read_bad_blocks (fuel : nat) : R Z :=
  c <- get_chip ;;
  let block_num := size c / block_size c in
  let page_num := block_size c / page_size c in
  np_scan_loop fuel c 0 block_num page_num false.

Definition np_cmd_read_bad_blocks (fuel : nat) : R Z :=
  led_rd_set true ;;;
  r <- _np_cmd_read_bad_blocks fuel ;;
  led_rd_set false ;;;
  ret r.

End Handlers.

(** ** Vocabulary of the read side *)

(** The data bytes of the packets the transport took, in order. *)
Definition sent_data (tr : list event) : list byte :=
  flat_map (fun e => match e with
                     | EvSend (PktData _ d) rc => if rc =? 0 then d else []
                     | _ => []
                     end) tr.

(** The pages read, in order, each with the [sz] bytes the driver left at
    the head of the buffer. *)
Definition pages_read (tr : list event) : list (Z * list byte) :=
  flat_map (fun e => match e with
                     | EvReadPage pg sz _ b => [(pg, firstn (Z.to_nat sz) b)]
                     | _ => []
                     end) tr.

(** The pages whose read ended in error. *)
Definition error_pages (tr : list event) : list Z :=
  flat_map (fun e => match e with
                     | EvReadPage pg _ NAND_ERROR _ => [pg]
                     | _ => []
                     end) tr.

(** The addresses of the bad-block responses. *)
Definition reported (tr : list event) : list Z :=
  flat_map (fun e => match e with
                     | EvSend (PktStatus (NP_STATUS_BAD_BLOCK a)) _ => [a]
                     | _ => []
                     end) tr.

(** The status responses other than bad-block responses. *)
Definition closing (tr : list event) : list np_resp :=
  flat_map (fun e => match e with
                     | EvSend (PktStatus (NP_STATUS_BAD_BLOCK _)) _ => []
                     | EvSend (PktStatus r) _ => [r]
                     | _ => []
                     end) tr.

(** A data packet says how many bytes it carries, and carries between one
    byte and [tx_data_len]. *)
Definition data_packet_ok (e : event) : Prop :=
  match e with
  | EvSend (PktData info d) _ =>
      info = Z.of_nat (length d) /\ 1 <= info <= tx_data_len
  | _ => True
  end.

(** The spare-area reads of a scan, in order: page and marker byte. *)
Definition markers (tr : list event) : list (Z * byte) :=
  flat_map (fun e => match e with
                     | EvReadData pg _ _ _ b => [(pg, b)]
                     | _ => []
                     end) tr.

(** The addresses the scan added to the table. *)
Definition added (tr : list event) : list Z :=
  flat_map (fun e => match e with EvTableAdd a _ => [a] | _ => [] end) tr.

(** The events of the flow-control wait. *)
Definition wait_event (e : event) : Prop :=
  match e with
  | EvSendReady _ => True
  | _ => False
  end.

(** A driver that leaves the page buffer as long as it was. *)
Definition keeps_length (E : env) : Prop :=
  forall tr b pg sz, length (snd (nand_read_page E tr b pg sz)) = length b.

(** A transport that is ready whenever it is asked. *)
Definition always_ready (E : env) : Prop :=
  forall tr, comm_send_ready E tr = true.

(** What a read that started at page [p] with [l] bytes to send and
    returned [r] has left in the trace: it read [k] pages from [p] on, one
    after the other; the data the transport took is the head of what the
    driver left of those pages, in order; where a page read ended in error
    the page's address was reported; no other status was sent; and when
    [r] is 0 the data is all of it, [l] bytes from [l / page_size]
    pages. *)
Definition read_log (c : chip_info_t) (p l r : Z) (new : list event) : Prop :=
  exists k : nat,
    map fst (pages_read new) = page_run p k /\
    (exists rest,
        concat (map snd (pages_read new)) = sent_data new ++ rest) /\
    reported new = map (fun pg => pg * page_size c) (error_pages new) /\
    closing new = [] /\ Forall data_packet_ok new /\
    (r = 0 ->
     sent_data new = concat (map snd (pages_read new)) /\
     Z.of_nat k * page_size c = l /\
     Z.of_nat (length (sent_data new)) = l).

(** The first check of [_np_cmd_nand_read] that a command fails, as the
    code it is answered with; alignment is written with [mod]. *)
Definition read_check (c : chip_info_t) (cmd : np_rx_t) : option Z :=
  if (cmd_addr cmd + cmd_len cmd) mod 2 ^ 32 >? size c
  then Some NP_ERR_ADDR_EXCEEDED
  else if negb (cmd_addr cmd mod page_size c =? 0)
  then Some NP_ERR_ADDR_NOT_ALIGN
  else if cmd_len cmd =? 0 then Some NP_ERR_LEN_INVALID
  else if negb (cmd_len cmd mod page_size c =? 0)
  then Some NP_ERR_LEN_NOT_ALIGN
  else None.

(** The addresses the table took. *)
Definition accepted (tr : list event) : list Z :=
  flat_map (fun e => match e with
                     | EvTableAdd a rc => if rc =? 0 then [a] else []
                     | _ => []
                     end) tr.

(** Every spare-area read asks for the one byte at offset [page_size]. *)
Definition marker_read (c : chip_info_t) (e : event) : Prop :=
  match e with
  | EvReadData _ off n _ _ => off = page_size c /\ n = 1
  | _ => True
  end.

(** The scan order, on the marker reads of [n] blocks from [block] on:
    for each block its first page, and its second page when the first
    page's marker is the good mark; a block is bad when one of the markers
    read for it is not the good mark.  The result is the addresses of the
    bad blocks, in order; there is none when the reads are not the reads
    of such a scan. *)
Fixpoint scan_expect (c : chip_info_t) (block : Z) (n : nat)
    (ms : list (Z * byte)) : option (list Z) :=
  let page_num := block_size c / page_size c in
  let a := block * block_size c in
  match n, ms with
  | O, [] => Some []
  | S n', (pg1, b1) :: rest =>
      if pg1 =? block * page_num then
        if Byte.eqb b1 NP_NAND_GOOD_BLOCK_MARK then
          match rest with
          | (pg2, b2) :: rest' =>
              if pg2 =? block * page_num + 1 then
                if Byte.eqb b2 NP_NAND_GOOD_BLOCK_MARK
                then scan_expect c (block + 1) n' rest'
                else option_map (cons a) (scan_expect c (block + 1) n' rest')
              else None
          | [] => None
          end
        else option_map (cons a) (scan_expect c (block + 1) n' rest)
      else None
  | _, _ => None
  end.

(** A step of the scan that went well: a spare-area read that ended
    ready, a bad-block response the transport took, an addition the table
    took; any other event. *)
Definition step_ok (e : event) : Prop :=
  match e with
  | EvReadData _ _ _ st _ => st = NAND_READY
  | EvSend (PktStatus (NP_STATUS_BAD_BLOCK _)) rc => rc = 0
  | EvTableAdd _ rc => rc = 0
  | _ => True
  end.

(** The events end with a step that did not go well, the first one. *)
Definition stopped_at_failure (new : list event) : Prop :=
  exists pre e, new = pre ++ [e] /\ Forall step_ok pre /\ ~ step_ok e.

(** What a scan of the blocks from [block] up to [block_num] that returned
    [r] has left in the trace: the ok status is sent exactly when [r] is
    0; when [r] is -1 the last event is the first step that did not go
    well; and when [r] is 0 every step went well, the marker reads are
    those of the scan order, and the blocks reported, the blocks added to
    the table and the blocks the table took are the bad blocks of that
    order. *)
Definition scan_log (c : chip_info_t) (block block_num r : Z)
    (new : list event) : Prop :=
  (r = 0 \/ r = -1) /\
  closing new = (if r =? 0 then [NP_STATUS_OK] else []) /\
  Forall (marker_read c) new /\
  (r = -1 -> stopped_at_failure new) /\
  (r = 0 ->
   Forall step_ok new /\
   scan_expect c block (Z.to_nat (block_num - block)) (markers new)
   = Some (added new) /\
   reported new = added new /\ accepted new = added new).

(** A driver whose spare-area reads end ready, a transport that takes the
    bad-block responses and a table that takes what is added. *)
Definition scan_goes_on (E : env) : Prop :=
  (forall tr pg off n, fst (nand_read_data E tr pg off n) = NAND_READY) /\
  (forall tr a, comm_send E tr (PktStatus (NP_STATUS_BAD_BLOCK a)) = 0) /\
  (forall tr a, bad_block_table_add E tr a = 0).

(** Fuel that lets the scan of a chip run to its end. *)
Definition scan_fuel (c : chip_info_t) : nat :=
  S (Z.to_nat (size c / block_size c)).

(** Fuel that lets a read of [l] bytes run to its end on such a
    transport. *)
Definition read_fuel (c : chip_info_t) (l : Z) : nat :=
  S (Z.to_nat (page_size c + l)).

Definition cmd_read (a l : Z) : np_rx_t :=
  mk_rx NP_CMD_NAND_READ a l 0 0 [].

(** The static page with the offset and the page number at zero. *)
Definition power_on : world :=
  mk_world None (np_page_t.mk (repeat x00 2048) 0 0) [] [].

Definition with_chip (c : chip_info_t) (w : world) : world :=
  mk_world (Some c) (page w) (bad_blocks w) (trace w).

(** A bench set-up: a transport that takes everything and is always
    ready, a flash whose even pages read as 0x55 and odd pages as 0xaa
    with status [st], and whose pages listed in [bad] carry a zero
    marker in their spare area. *)
Definition bench_env (st : nand_status) (bad : list Z) : env :=
  mk_env (fun _ _ => 0) (fun _ => true)
         (fun _ => [xec; xf1; x00; x95; x40])
         (fun _ b pg _ =>
            (st, repeat (if Z.even pg then x55 else xaa) (length b)))
         (fun _ pg _ _ =>
            (NAND_READY, if existsb (Z.eqb pg) bad then x00 else xff))
         (fun _ _ => 0).

End Rd.

(** * Proofs *)

(** ** The monad *)

Lemma bind_inv {A B : Type} (m : M A) (k : A -> M B) w b w' :
  bind m k w = Some (b, w') ->
  exists a w1, m w = Some (a, w1) /\ k a w1 = Some (b, w').
Proof.
  unfold bind. destruct (m w) as [[a w1]|]; [|discriminate].
  intros H. exists a, w1. split; [reflexivity|exact H].
Qed.

Lemma bind_assoc {A B C : Type} (m : M A) (f : A -> M B) (g : B -> M C) w :
  bind (bind m f) g w = bind m (fun a => bind (f a) g) w.
Proof. unfold bind. destruct (m w) as [[a w1]|]; reflexivity. Qed.

Lemma bind_ret {A B : Type} (a : A) (k : A -> M B) w :
  bind (ret a) k w = k a w.
Proof. reflexivity. Qed.

Lemma bind_modify {B : Type} (f : np_prog_t -> np_prog_t) (k : unit -> M B) w :
  bind (modify_prog f) k w
  = k tt (mk_world (f (prog w)) (bad_blocks w) (trace w)).
Proof. reflexivity. Qed.

Lemma bind_get {B : Type} (k : np_prog_t -> M B) w :
  bind get_prog k w = k (prog w) w.
Proof. reflexivity. Qed.

Lemma bind_eq {A B : Type} (m : M A) (k : A -> M B) w a w1 :
  m w = Some (a, w1) -> bind m k w = k a w1.
Proof. unfold bind. intros ->. reflexivity. Qed.

(** ** Machine arithmetic *)

Lemma u32_small z : 0 <= z < 2 ^ 32 -> u32 z = z.
Proof. intros H. unfold u32. apply Z.mod_small. exact H. Qed.

Lemma u32_range z : 0 <= u32 z < 2 ^ 32.
Proof. unfold u32. apply Z.mod_pos_bound. lia. Qed.

Lemma pow2_mask m x :
  pow2 m -> m < 2 ^ 32 -> Z.land x (u32 (m - 1)) = x mod m.
Proof.
  intros [Hpos Hm] Hlt.
  rewrite u32_small by lia.
  assert (Hk : m - 1 = Z.ones (Z.log2 m)) by (rewrite Z.ones_equiv; lia).
  rewrite Hk, Z.land_ones by apply Z.log2_nonneg.
  rewrite <- Hm. reflexivity.
Qed.

Lemma nonzero_false z : nonzero z = false <-> z = 0.
Proof.
  unfold nonzero. rewrite negb_false_iff. apply Z.eqb_eq.
Qed.

Lemma nonzero_true z : nonzero z = true <-> z <> 0.
Proof.
  unfold nonzero. rewrite negb_true_iff. apply Z.eqb_neq.
Qed.

Section Write_start.

Variable E : env.

(** C6: a write-start whose length is non-zero and in bounds but not a
    multiple of the page size, at a page-aligned address, leaves the world
    as it was (no event, no field changed) -- but the code it returns is
    NP_ERR_ADDR_NOT_ALIGN, the code of a misaligned address, and not
    NP_ERR_LEN_NOT_ALIGN, which the erase and read handlers return for the
    same test. *)
Theorem np_cmd_nand_write_start_len_misaligned (c : chip_info_t)
    (cmd : np_rx_t) (w : world) :
  chip_info (prog w) = Some c ->
  u32 (cmd_addr cmd + cmd_len cmd) <= size c ->
  Z.land (cmd_addr cmd) (u32 (page_size c - 1)) = 0 ->
  cmd_len cmd <> 0 ->
  Z.land (cmd_len cmd) (u32 (page_size c - 1)) <> 0 ->
  np_cmd_nand_write_start E cmd w = Some (NP_ERR_ADDR_NOT_ALIGN, w) /\
  NP_ERR_ADDR_NOT_ALIGN <> NP_ERR_LEN_NOT_ALIGN.
Proof.
  intros Hc Hb Ha Hl Hm. split; [|discriminate].
  unfold np_cmd_nand_write_start.
  rewrite (bind_eq get_chip _ w c w) by (unfold get_chip; rewrite Hc; reflexivity).
  destruct (Z.gtb_spec (u32 (cmd_addr cmd + cmd_len cmd)) (size c)); [lia|].
  rewrite Ha. cbn [nonzero Z.eqb negb].
  destruct (Z.eqb_spec (cmd_len cmd) 0); [contradiction|].
  apply nonzero_true in Hm. rewrite Hm. reflexivity.
Qed.

End Write_start.

Lemma np_cmd_nand_write_start_len_misaligned_witness :
  np_cmd_nand_write_start (bench_env NAND_READY NAND_READY) (cmd_write_start 0 100)
    (with_chip bench_chip power_on)
  = Some (NP_ERR_ADDR_NOT_ALIGN, with_chip bench_chip power_on) /\
  NP_ERR_ADDR_NOT_ALIGN <> NP_ERR_LEN_NOT_ALIGN.
Proof.
  apply (np_cmd_nand_write_start_len_misaligned (bench_env NAND_READY NAND_READY)
           bench_chip (cmd_write_start 0 100) (with_chip bench_chip power_on)).
  - reflexivity.
  - vm_compute. discriminate.
  - reflexivity.
  - discriminate.
  - vm_compute. discriminate.
Defined.

(** Unfolds the primitive steps of the monad. *)
Ltac run_prims :=
  cbv [bind ret stop get_prog modify_prog history emit get_chip
       get_bad_blocks np_comm_cb_send led_wr_set led_rd_set
       nand_bad_block_table_lookup nand_bad_block_table_init nand_init
       drv_nand_erase_block drv_nand_read_status nand_write_page_async
       chip_select np_send_ok_status np_send_error np_send_bad_block_info
       np_send_write_ack clear_nand_wr].

(** Normalises field reads of updated records. *)
Ltac rec_simpl :=
  cbn [prog bad_blocks trace addr len addr_is_set page bytes_written
       bytes_ack nand_wr_in_progress nand_timeout chip_info
       np_page_t.buf np_page_t.page np_page_t.offset
       set_addr set_len set_addr_is_set set_page set_bytes_written
       set_bytes_ack set_nand_wr_in_progress set_nand_timeout set_chip_info
       set_buf set_page_page set_offset].

(** The same by full unfolding, for records given by their fields. *)
Ltac rec_norm :=
  cbv [prog bad_blocks trace addr len addr_is_set page bytes_written
       bytes_ack nand_wr_in_progress nand_timeout chip_info
       np_page_t.buf np_page_t.page np_page_t.offset
       set_addr set_len set_addr_is_set set_page set_bytes_written
       set_bytes_ack set_nand_wr_in_progress set_nand_timeout set_chip_info
       set_buf set_page_page set_offset].

(** ** The completion poller *)

Lemma same_session_refl p : same_session p p.
Proof. repeat split. Qed.

Lemma same_session_trans p q r :
  same_session p q -> same_session q r -> same_session p r.
Proof.
  unfold same_session. intros H1 H2.
  repeat match goal with H : _ /\ _ |- _ => destruct H end.
  repeat split; congruence.
Qed.

Section Poller.

Variable E : env.

Lemma np_nand_handle_status_frame (w : world) :
  exists r w' new,
    np_nand_handle_status E w = Some (r, w') /\
    same_session (prog w) (prog w') /\
    bad_blocks w' = bad_blocks w /\
    trace w' = trace w ++ new /\ Forall poll_event new.
Proof.
  unfold np_nand_handle_status. run_prims.
  destruct (nand_read_status E (trace w)); cbn [prog bad_blocks trace].
  - do 3 eexists. split; [reflexivity|].
    cbn. repeat split; repeat constructor.
  - destruct (nonzero _); do 3 eexists; (split; [reflexivity|]);
      cbn; rewrite <- app_assoc; repeat split; repeat constructor.
  - destruct (_ =? _); do 3 eexists; (split; [reflexivity|]);
      cbn; repeat split; repeat constructor.
  - do 3 eexists. split; [reflexivity|].
    cbn. repeat split; repeat constructor.
  - do 3 eexists. split; [reflexivity|].
    cbn. repeat split; repeat constructor.
Qed.

Lemma np_nand_handler_frame (w : world) :
  exists w' new,
    np_nand_handler E w = Some (tt, w') /\
    same_session (prog w) (prog w') /\
    bad_blocks w' = bad_blocks w /\
    trace w' = trace w ++ new /\ Forall poll_event new.
Proof.
  unfold np_nand_handler.
  rewrite (bind_eq get_prog _ w (prog w) w) by reflexivity.
  destruct (nand_wr_in_progress (prog w)).
  - destruct (np_nand_handle_status_frame w)
      as (r & w1 & new & Hrun & Hs & Hb & Ht & Hn).
    rewrite (bind_eq _ _ _ _ _ Hrun).
    destruct (nonzero r).
    + run_prims. do 2 eexists. split; [reflexivity|].
      cbn [prog bad_blocks trace]. rewrite Ht, <- app_assoc.
      repeat split; try apply Hs; try assumption.
      apply Forall_app. split; [assumption|]. repeat constructor.
    + exists w1, new. repeat split; try apply Hs; assumption.
  - exists w, []. rewrite app_nil_r.
    repeat split. constructor.
Qed.

End Poller.

(** ** Dispatch without a selected chip *)

Section Dispatch.

Variable E : env.
Variables h_read_id h_read h_read_bb : nat -> np_rx_t -> M Z.

Let handle := np_cmd_handler E h_read_id h_read h_read_bb.
Let run := np_run E h_read_id h_read h_read_bb.

Lemma np_cmd_dispatch_no_chip (table : list np_cmd_handler_t) (fuel : nat)
    (cmd : np_rx_t) (w : world) :
  chip_info (prog w) = None ->
  code cmd <> NP_CMD_NAND_SELECT ->
  np_cmd_dispatch table fuel cmd w = Some (NP_ERR_CHIP_NOT_SEL, w).
Proof.
  intros Hc Hs. unfold np_cmd_dispatch.
  rewrite (bind_eq get_prog _ w (prog w) w) by reflexivity.
  rewrite Hc. apply Z.eqb_neq in Hs. rewrite Hs. reflexivity.
Qed.

Lemma np_cmd_nand_select_fail (fuel : nat) (cmd : np_rx_t) (w : world) :
  chip_db E (chip_num cmd) = None ->
  np_cmd_nand_select E fuel cmd w
  = Some (NP_ERR_CHIP_NOT_FOUND,
          mk_world (set_chip_info None (prog w)) (bad_blocks w)
                   (trace w ++ [EvChipSelect (chip_num cmd) false])).
Proof.
  intros Hdb. unfold np_cmd_nand_select. run_prims.
  rewrite Hdb. reflexivity.
Qed.

Lemma np_cmd_handler_select (fuel : nat) (cmd : np_rx_t) (w : world) :
  code cmd = NP_CMD_NAND_SELECT ->
  handle fuel cmd w = np_cmd_nand_select E fuel cmd w.
Proof.
  intros Hs. unfold handle, np_cmd_handler, np_cmd_dispatch.
  rewrite (bind_eq get_prog _ w (prog w) w) by reflexivity.
  rewrite Hs. cbn. rewrite andb_false_r. reflexivity.
Qed.

(** With no chip selected and no select that can succeed among them, the
    commands of one [np_handler] call are all turned away. *)
Lemma np_packet_handler_no_chip (fuel : nat) (pending : list np_rx_t) :
  forall w,
    chip_info (prog w) = None ->
    Forall (fun cmd => code cmd = NP_CMD_NAND_SELECT ->
                       chip_db E (chip_num cmd) = None) pending ->
    exists w',
      np_packet_handler E h_read_id h_read h_read_bb fuel pending w
      = Some (map reject_code pending, w') /\
      chip_info (prog w') = None.
Proof.
  induction pending as [|cmd rest IH]; intros w Hc Hok.
  - exists w. split; [reflexivity|exact Hc].
  - inversion Hok as [|? ? Hcmd Hrest]; subst.
    cbn [np_packet_handler map].
    assert (Hstep : exists w1,
               np_cmd_handler E h_read_id h_read h_read_bb fuel cmd w
               = Some (reject_code cmd, w1) /\ chip_info (prog w1) = None).
    { unfold reject_code. destruct (Z.eqb_spec (code cmd) NP_CMD_NAND_SELECT) as [Hs|Hs].
      - fold handle. rewrite (np_cmd_handler_select fuel cmd w Hs).
        rewrite (np_cmd_nand_select_fail fuel cmd w (Hcmd Hs)).
        eexists. split; reflexivity.
      - exists w. split; [|exact Hc].
        apply np_cmd_dispatch_no_chip; assumption. }
    destruct Hstep as (w1 & Hrun & Hc1).
    rewrite (bind_eq _ _ _ _ _ Hrun).
    assert (Hneg : (reject_code cmd <? 0) = true).
    { unfold reject_code. destruct (_ =? _); reflexivity. }
    rewrite Hneg.
    set (w2 := mk_world (prog w1) (bad_blocks w1)
                 (trace w1 ++ [EvSend (NP_STATUS_ERROR (u8 (- reject_code cmd)))
                                 (comm_send E (trace w1)
                                    (NP_STATUS_ERROR (u8 (- reject_code cmd))))])).
    rewrite (bind_eq (np_send_error E (- reject_code cmd)) _ w1 0 w2)
      by reflexivity.
    destruct (IH w2 Hc1 Hrest) as (w' & Hrest_run & Hc').
    rewrite (bind_eq _ _ _ _ _ Hrest_run).
    exists w'. split; [reflexivity|exact Hc'].
Qed.

(** C5: with no chip selected the dispatcher answers every command other
    than chip-select with NP_ERR_CHIP_NOT_SEL and leaves the world as it
    was, whatever the handler table holds (no handler runs); a chip-select
    for an index the database does not know returns NP_ERR_CHIP_NOT_FOUND
    and leaves the geometry null; and from a world with null geometry every
    run of np_handler calls whose select commands all fail answers each
    select with NP_ERR_CHIP_NOT_FOUND, every other command with
    NP_ERR_CHIP_NOT_SEL, and ends with the geometry still null. *)
Theorem np_cmd_handler_chip_not_selected (fuel : nat) (w : world) :
  (forall table cmd,
      chip_info (prog w) = None ->
      code cmd <> NP_CMD_NAND_SELECT ->
      np_cmd_dispatch table fuel cmd w = Some (NP_ERR_CHIP_NOT_SEL, w)) /\
  (forall cmd,
      code cmd = NP_CMD_NAND_SELECT ->
      chip_db E (chip_num cmd) = None ->
      exists w',
        handle fuel cmd w = Some (NP_ERR_CHIP_NOT_FOUND, w') /\
        chip_info (prog w') = None) /\
  (forall ticks,
      chip_info (prog w) = None ->
      Forall (fun cmd => code cmd = NP_CMD_NAND_SELECT ->
                         chip_db E (chip_num cmd) = None) (concat ticks) ->
      exists w',
        run fuel ticks w = Some (map reject_code (concat ticks), w') /\
        chip_info (prog w') = None).
Proof.
  split; [|split].
  - intros table cmd. apply np_cmd_dispatch_no_chip.
  - intros cmd Hs Hdb. rewrite (np_cmd_handler_select fuel cmd w Hs).
    rewrite (np_cmd_nand_select_fail fuel cmd w Hdb).
    eexists. split; reflexivity.
  - intros ticks. revert w.
    induction ticks as [|pending later IH]; intros w Hc Hok.
    + exists w. split; [reflexivity|exact Hc].
    + cbn [concat] in Hok. apply Forall_app in Hok. destruct Hok as [Hp Hl].
      destruct (np_packet_handler_no_chip fuel pending w Hc Hp)
        as (w1 & Hrun1 & Hc1).
      destruct (np_nand_handler_frame E w1)
        as (w2 & new & Hrun2 & Hs & _).
      assert (Hc2 : chip_info (prog w2) = None).
      { destruct Hs as (_ & _ & _ & _ & _ & _ & Hci). congruence. }
      destruct (IH w2 Hc2 Hl) as (w' & Hrun3 & Hc').
      exists w'. split; [|exact Hc'].
      unfold run. cbn [np_run concat]. unfold np_handler.
      rewrite !bind_assoc.
      rewrite (bind_eq _ _ _ _ _ Hrun1), bind_assoc.
      rewrite (bind_eq _ _ _ _ _ Hrun2), bind_ret.
      fold run. unfold run in Hrun3. rewrite (bind_eq _ _ _ _ _ Hrun3).
      rewrite map_app. reflexivity.
Qed.

End Dispatch.

Lemma np_cmd_handler_chip_not_selected_witness :
  np_cmd_dispatch [] 0 (cmd_erase 0 0x20000) power_on
  = Some (NP_ERR_CHIP_NOT_SEL, power_on) /\
  (exists w',
      np_cmd_handler (bench_env NAND_READY NAND_READY) no_handler no_handler no_handler
        0 (cmd_select 7) power_on = Some (NP_ERR_CHIP_NOT_FOUND, w') /\
      chip_info (prog w') = None) /\
  (exists w',
      np_run (bench_env NAND_READY NAND_READY) no_handler no_handler no_handler 0
        [[cmd_select 7; cmd_erase 0 0x20000]; [cmd_write_end]] power_on
      = Some ([NP_ERR_CHIP_NOT_FOUND; NP_ERR_CHIP_NOT_SEL; NP_ERR_CHIP_NOT_SEL],
              w') /\
      chip_info (prog w') = None).
Proof.
  pose proof (np_cmd_handler_chip_not_selected (bench_env NAND_READY NAND_READY)
                no_handler no_handler no_handler 0 power_on) as (H1 & H2 & H3).
  split; [|split].
  - apply H1; [reflexivity|discriminate].
  - apply H2; reflexivity.
  - apply (H3 [[cmd_select 7; cmd_erase 0 0x20000]; [cmd_write_end]]).
    + reflexivity.
    + cbn [concat app].
      repeat (constructor; [intros H; first [reflexivity|discriminate H]|]).
      constructor.
Defined.

(** ** Erase *)

Lemma erased_pages_app tr1 tr2 :
  erased_pages (tr1 ++ tr2) = erased_pages tr1 ++ erased_pages tr2.
Proof. apply flat_map_app. Qed.

Lemma pow2_divides m n : pow2 m -> pow2 n -> m <= n -> n mod m = 0.
Proof.
  intros [Hm Em] [Hn En] Hle.
  assert (Hl : Z.log2 m <= Z.log2 n) by (apply Z.log2_le_mono; exact Hle).
  assert (Hl0 : 0 <= Z.log2 m) by apply Z.log2_nonneg.
  remember (Z.log2 m) as i eqn:Hi in *. remember (Z.log2 n) as j eqn:Hj in *.
  rewrite En, Em.
  replace j with ((j - i) + i) by lia.
  rewrite Z.pow_add_r by lia.
  apply Z_mod_mult.
Qed.

Lemma aligned_step m a s :
  0 < m -> a mod m = 0 -> s mod m = 0 -> a < s -> a + m <= s.
Proof.
  intros Hm Ha Hs Hlt.
  apply Z.mod_divide in Ha; try lia. apply Z.mod_divide in Hs; try lia.
  destruct Ha as [x ->]. destruct Hs as [y ->].
  assert (x < y) by nia. nia.
Qed.

Lemma aligned_add m a : 0 < m -> a mod m = 0 -> (a + m) mod m = 0.
Proof.
  intros Hm Ha. rewrite <- (Z.mul_1_l m) at 1.
  rewrite Z.mod_add by lia. exact Ha.
Qed.

Lemma aligned_sub m a : 0 < m -> a mod m = 0 -> (a - m) mod m = 0.
Proof.
  intros Hm Ha. replace (a - m) with (a + (-1) * m) by lia.
  rewrite Z.mod_add by lia. exact Ha.
Qed.

Lemma aligned_trans m n a : 0 < m -> 0 < n -> n mod m = 0 -> a mod n = 0 -> a mod m = 0.
Proof.
  intros Hm Hn Hnm Ha.
  apply Z.mod_divide in Hnm; try lia. apply Z.mod_divide in Ha; try lia.
  apply Z.mod_divide; [lia|]. eapply Z.divide_trans; eassumption.
Qed.

Lemma aligned_div_mul m a : 0 < m -> a mod m = 0 -> a / m * m = a.
Proof.
  intros Hm Ha. pose proof (Z.div_mod a m ltac:(lia)). lia.
Qed.

Section Erase.

Variable E : env.
Variable c : chip_info_t.
Hypothesis Hwf : chip_wf c.

Lemma chip_wf_facts :
  0 < page_size c /\ 0 < block_size c /\
  block_size c mod page_size c = 0 /\
  block_size c / page_size c * page_size c = block_size c /\
  0 < size c < 2 ^ 32 /\ size c mod block_size c = 0 /\
  block_size c <= size c.
Proof.
  destruct Hwf as (Hp & Hb & Hle & Hs & Hm).
  assert (H1 : 0 < page_size c) by apply Hp.
  assert (H2 : 0 < block_size c) by apply Hb.
  assert (H3 : block_size c mod page_size c = 0)
    by (apply pow2_divides; assumption).
  repeat split; try lia; try assumption.
  - apply aligned_div_mul; assumption.
  - pose proof (aligned_step (block_size c) 0 (size c) H2
                  (Z.mod_0_l (block_size c) ltac:(lia)) Hm).
    lia.
Qed.

Lemma np_nand_erase_spec (pg : Z) (w : world) :
  chip_info (prog w) = Some c ->
  exists r tail,
    np_nand_erase E pg w
    = Some (r, mk_world (prog w) (bad_blocks w)
                 (trace w ++ EvEraseBlock pg (nand_erase_block E (trace w) pg)
                          :: tail)) /\
    (tail = [] \/
     exists rc,
       tail = [EvSend (NP_STATUS_BAD_BLOCK (u32 (pg * page_size c))) rc]) /\
    (nand_erase_block E (trace w) pg = NAND_READY \/
     nand_erase_block E (trace w) pg = NAND_TIMEOUT_ERROR ->
     r = 0 /\ tail = []).
Proof.
  intros Hc. unfold np_nand_erase. run_prims. rewrite Hc.
  cbn [prog bad_blocks trace].
  destruct (nand_erase_block E (trace w) pg) eqn:Hst.
  - exists 0, []. repeat split; auto.
  - destruct (nonzero _); cbv [nonzero Z.eqb negb];
      cbn [prog bad_blocks trace]; rewrite <- app_assoc; cbn [app];
      eexists _, [_]; (split; [reflexivity|]);
      (split; [right; eexists; reflexivity|]);
      intros [H|H]; discriminate H.
  - exists (-1), []. split; [reflexivity|]. split; [left; reflexivity|].
    intros [H0|H0]; discriminate H0.
  - exists 0, []. repeat split; auto.
  - exists (-1), []. split; [reflexivity|]. split; [left; reflexivity|].
    intros [H0|H0]; discriminate H0.
Qed.

(** The log of a loop that has stopped without erasing. *)
Lemma erase_log_no_erase bb a l new :
  0 <= l ->
  erased_pages new = [] ->
  (forall b is_bad,
      In (EvBadBlockLookup b is_bad) new ->
      exists rc, In (EvSend (NP_STATUS_BAD_BLOCK b) rc) new) ->
  erase_log c bb a l new.
Proof.
  intros Hl He Hlook. unfold erase_log. rewrite He.
  split; [constructor|]. split; [|split].
  - intros b is_bad Hin. right. eapply Hlook. exact Hin.
  - cbn. lia.
  - intros _. constructor.
Qed.

(** One more iteration in front of a log. *)
Lemma erase_log_skip bb a l l' rc new :
  0 < block_size c -> l' <= l -> In a bb ->
  0 < l ->
  erase_log c bb (a + block_size c) l' new ->
  erase_log c bb a l
    (EvBadBlockLookup a true :: EvSend (NP_STATUS_BAD_BLOCK a) rc :: new).
Proof.
  intros Hbs Hl Hbad Hpos (P1 & P2 & P3 & P4).
  unfold erase_log. cbn [erased_pages flat_map app].
  fold (erased_pages new).
  split; [|split; [|split]].
  - eapply Forall_impl; [|exact P1]. cbn. intros pg [H H']. split; [lia|exact H'].
  - intros b is_bad [Hin|[Hin|Hin]].
    + inversion Hin; subst. right. exists rc. right. left. reflexivity.
    + discriminate Hin.
    + destruct (P2 b is_bad Hin) as [(pg & st & Hpg & Hin')|(rc' & Hin')].
      * left. exists pg, st. split; [exact Hpg|]. right. right. exact Hin'.
      * right. exists rc'. right. right. exact Hin'.
  - lia.
  - intros Hnone. exfalso. apply (Hnone a Hbad). lia.
Qed.

Lemma erase_log_erase bb a l pg st tail new :
  0 < block_size c -> block_size c <= l ->
  pg * page_size c = a -> a < size c -> a mod block_size c = 0 ->
  (tail = [] \/ exists rc r, tail = [EvSend r rc]) ->
  erase_log c bb (a + block_size c) (l - block_size c) new ->
  erase_log c bb a l
    (EvBadBlockLookup a false :: EvEraseBlock pg st :: tail ++ new).
Proof.
  intros Hbs Hl Hpg Hlt Hal Htail (P1 & P2 & P3 & P4).
  assert (Het : erased_pages tail = [])
    by (destruct Htail as [->|(rc & r & ->)]; reflexivity).
  unfold erase_log. cbn [erased_pages flat_map app].
  fold (erased_pages (tail ++ new)).
  rewrite erased_pages_app, Het. cbn [app].
  split; [|split; [|split]].
  - constructor; [rewrite Hpg; split; [lia|exact Hal]|].
    eapply Forall_impl; [|exact P1]. cbn. intros pg' [H H']. split; [lia|exact H'].
  - intros b is_bad [Hin|[Hin|Hin]].
    + inversion Hin; subst. left. exists pg, st.
      split; [reflexivity|]. right. left. reflexivity.
    + discriminate Hin.
    + apply in_app_or in Hin. destruct Hin as [Hin|Hin].
      * destruct Htail as [->|(rc & r & ->)]; [destruct Hin|].
        destruct Hin as [Hin|[]]. discriminate Hin.
      * destruct (P2 b is_bad Hin) as [(pg' & st' & Hpg' & Hin')|(rc' & Hin')].
        -- left. exists pg', st'. split; [exact Hpg'|].
           right. right. apply in_or_app. right. exact Hin'.
        -- right. exists rc'. right. right. apply in_or_app. right. exact Hin'.
  - cbn [length]. lia.
  - intros Hnone. constructor; [lia|].
    assert (Hrest : Forall (fun pg' => pg' * page_size c
                                       < a + block_size c + (l - block_size c))
                           (erased_pages new)).
    { apply P4. intros b Hb Hr. apply (Hnone b Hb). lia. }
    eapply Forall_impl; [|exact Hrest]. cbn. intros pg' H. lia.
Qed.

Lemma np_send_ok_status_eq (w : world) :
  np_send_ok_status E w
  = Some (0, mk_world (prog w) (bad_blocks w)
               (trace w ++ [EvSend NP_STATUS_OK
                              (comm_send E (trace w) NP_STATUS_OK)])).
Proof. reflexivity. Qed.

Lemma np_send_bad_block_info_eq (a : Z) (w : world) :
  np_send_bad_block_info E a w
  = Some (if nonzero (comm_send E (trace w) (NP_STATUS_BAD_BLOCK a))
          then -1 else 0,
          mk_world (prog w) (bad_blocks w)
            (trace w ++ [EvSend (NP_STATUS_BAD_BLOCK a)
                           (comm_send E (trace w) (NP_STATUS_BAD_BLOCK a))])).
Proof.
  unfold np_send_bad_block_info. run_prims.
  destruct (nonzero _); reflexivity.
Qed.

Lemma nand_bad_block_table_lookup_eq (a : Z) (w : world) :
  nand_bad_block_table_lookup a w
  = Some (existsb (Z.eqb a) (bad_blocks w),
          mk_world (prog w) (bad_blocks w)
            (trace w ++ [EvBadBlockLookup a
                           (existsb (Z.eqb a) (bad_blocks w))])).
Proof. reflexivity. Qed.

Lemma existsb_eqb_In (a : Z) (bb : list Z) :
  existsb (Z.eqb a) bb = true -> In a bb.
Proof.
  intros H. apply existsb_exists in H. destruct H as (x & Hin & Heq).
  apply Z.eqb_eq in Heq. subst x. exact Hin.
Qed.

Lemma np_erase_loop_spec (cmd : np_rx_t) (fuel : nat) :
  forall a pg l w r w',
    chip_info (prog w) = Some c ->
    erase_inv c a pg l ->
    np_erase_loop E fuel cmd a pg (block_size c / page_size c) l w
    = Some (r, w') ->
    exists new,
      trace w' = trace w ++ new /\ prog w' = prog w /\
      bad_blocks w' = bad_blocks w /\
      erase_log c (bad_blocks w) a l new.
Proof.
  destruct chip_wf_facts as (Hps & Hbs & Hdiv & Hpib & Hsz & Hszm & Hbsz).
  assert (Hdone : forall a l w r w',
             0 <= l ->
             np_send_ok_status E w = Some (r, w') ->
             exists new,
               trace w' = trace w ++ new /\ prog w' = prog w /\
               bad_blocks w' = bad_blocks w /\
               erase_log c (bad_blocks w) a l new).
  { intros a l w r w' Hl Hrun. rewrite np_send_ok_status_eq in Hrun.
    inversion Hrun; subst. eexists. cbn [prog bad_blocks trace].
    do 3 (split; [reflexivity|]).
    apply erase_log_no_erase; [exact Hl|reflexivity|].
    intros b is_bad [Hin|[]]. discriminate Hin. }
  induction fuel as [|f IH]; intros a pg l w r w' Hc Hinv Hrun;
    pose proof Hinv as (Ha & Ham & Hpg & Hl & Hlm);
    cbn [np_erase_loop] in Hrun;
    destruct (Z.eqb_spec l 0) as [Hl0|Hl0];
    try (eapply Hdone; [|exact Hrun]; lia).
  - discriminate Hrun.
  - assert (Hlbs : block_size c <= l).
    { pose proof (aligned_step (block_size c) 0 l Hbs
                    (Z.mod_0_l (block_size c) ltac:(lia)) Hlm). lia. }
    rewrite (bind_eq get_chip _ w c w) in Hrun
      by (unfold get_chip; rewrite Hc; reflexivity).
    destruct (Z.geb_spec a (size c)) as [Hge|Hlt].
    { inversion Hrun; subst. exists []. rewrite app_nil_r.
      do 3 (split; [reflexivity|]).
      apply erase_log_no_erase; [lia|reflexivity|]. intros b is_bad []. }
    rewrite (bind_eq _ _ _ _ _ (nand_bad_block_table_lookup_eq a w)) in Hrun.
    assert (Hstep : a + block_size c <= size c)
      by (apply aligned_step; assumption).
    assert (Hinv' : forall l', 0 <= l' < 2 ^ 32 -> l' mod block_size c = 0 ->
               erase_inv c (u32 (a + block_size c))
                 (u32 (pg + block_size c / page_size c)) l').
    { intros l' Hl' Hlm'. unfold erase_inv.
      assert (Hpg' : (pg + block_size c / page_size c) * page_size c
                     = a + block_size c) by lia.
      assert (0 <= pg + block_size c / page_size c < 2 ^ 32) by nia.
      rewrite !u32_small by lia.
      repeat split; try lia; try assumption.
      apply aligned_add; assumption. }
    destruct (existsb (Z.eqb a) (bad_blocks w)) eqn:Hbad.
    + rewrite (bind_eq _ _ _ _ _ (np_send_bad_block_info_eq a _)) in Hrun.
      cbn [prog bad_blocks trace] in Hrun.
      set (rc := comm_send E (trace w ++ [EvBadBlockLookup a true])
                   (NP_STATUS_BAD_BLOCK a)) in *.
      destruct (nonzero rc) eqn:Hrc.
      * inversion Hrun; subst. eexists. cbn [prog bad_blocks trace].
        rewrite <- app_assoc. do 3 (split; [reflexivity|]).
        apply erase_log_no_erase; [lia|reflexivity|].
        intros b is_bad [Hin|[Hin|[]]]; [|discriminate Hin].
        inversion Hin; subst. exists rc. right. left. reflexivity.
      * change (nonzero 0) with false in Hrun. cbn [negb orb andb] in Hrun.
        rewrite bind_ret in Hrun.
        change (nonzero 0) with false in Hrun. cbn [negb orb andb] in Hrun.
        match type of Hrun with
        | np_erase_loop _ _ _ _ _ _ ?l' ?w1 = _ =>
            assert (Hl' : (0 <= l' < 2 ^ 32 /\ l' mod block_size c = 0)
                          /\ l' <= l);
            [|destruct Hl' as [[Hl1 Hl2] Hl3];
              destruct (IH _ _ _ w1 r w' Hc (Hinv' _ Hl1 Hl2) Hrun)
                as (new & Ht & Hp & Hb & Hlog)]
        end.
        { destruct (cmd_len cmd =? size c).
          - rewrite u32_small by lia. repeat split; try lia.
            apply aligned_sub; assumption.
          - repeat split; try lia; try assumption. }
        cbn [prog bad_blocks trace] in Ht, Hp, Hb, Hlog.
        eexists. split; [rewrite Ht, <- !app_assoc; reflexivity|].
        split; [exact Hp|]. split; [exact Hb|].
        cbn [app]. rewrite u32_small in Hlog by lia.
        eapply erase_log_skip; try eassumption; try lia.
        apply existsb_eqb_In. exact Hbad.
    + rewrite bind_ret in Hrun.
      change (nonzero 0) with false in Hrun. cbn [negb] in Hrun.
      match type of Hrun with
      | bind _ _ ?w1 = _ =>
          destruct (np_nand_erase_spec pg w1 Hc)
            as (r1 & tail & Herase & Htail & _)
      end.
      rewrite (bind_eq _ _ _ _ _ Herase) in Hrun.
      cbn [prog bad_blocks trace] in Hrun.
      assert (Htail' : tail = [] \/ exists rc r0, tail = [EvSend r0 rc]).
      { destruct Htail as [->|(rc & ->)]; [left; reflexivity|].
        right. do 2 eexists. reflexivity. }
      destruct (nonzero r1) eqn:Hr1.
      * inversion Hrun; subst. eexists. cbn [prog bad_blocks trace].
        rewrite <- app_assoc. do 3 (split; [reflexivity|]). cbn [app].
        rewrite <- (app_nil_r tail).
        eapply erase_log_erase; try eassumption; try lia.
        apply erase_log_no_erase; [lia|reflexivity|]. intros b is_bad [].
      * cbn [negb orb] in Hrun.
        assert (Hl1 : 0 <= u32 (l - block_size c) < 2 ^ 32)
          by apply u32_range.
        assert (Hl2 : u32 (l - block_size c) mod block_size c = 0).
        { rewrite u32_small by lia. apply aligned_sub; assumption. }
        match type of Hrun with
        | np_erase_loop _ _ _ _ _ _ _ ?w1 = _ =>
            destruct (IH _ _ _ w1 r w' Hc (Hinv' _ Hl1 Hl2) Hrun)
              as (new & Ht & Hp & Hb & Hlog)
        end.
        cbn [prog bad_blocks trace] in Ht, Hp, Hb, Hlog.
        eexists. split; [rewrite Ht, <- !app_assoc; reflexivity|].
        split; [exact Hp|]. split; [exact Hb|].
        cbn [app]. rewrite !u32_small in Hlog by lia.
        eapply erase_log_erase; try eassumption; try lia.
Qed.

(** Enough fuel lets the loop return. *)
Lemma np_erase_loop_total (cmd : np_rx_t) (fuel : nat) :
  forall a pg l w,
    chip_info (prog w) = Some c ->
    erase_inv c a pg l ->
    Z.max 0 (size c - a) < Z.of_nat fuel * block_size c ->
    exists r w',
      np_erase_loop E fuel cmd a pg (block_size c / page_size c) l w
      = Some (r, w').
Proof.
  destruct chip_wf_facts as (Hps & Hbs & Hdiv & Hpib & Hsz & Hszm & Hbsz).
  induction fuel as [|f IH]; intros a pg l w Hc Hinv Hfuel;
    pose proof Hinv as (Ha & Ham & Hpg & Hl & Hlm);
    cbn [np_erase_loop];
    destruct (Z.eqb_spec l 0) as [Hl0|Hl0];
    try (rewrite np_send_ok_status_eq; do 2 eexists; reflexivity).
  - lia.
  - assert (Hlbs : block_size c <= l).
    { pose proof (aligned_step (block_size c) 0 l Hbs
                    (Z.mod_0_l (block_size c) ltac:(lia)) Hlm). lia. }
    rewrite (bind_eq get_chip _ w c w)
      by (unfold get_chip; rewrite Hc; reflexivity).
    destruct (Z.geb_spec a (size c)) as [Hge|Hlt];
      [do 2 eexists; reflexivity|].
    rewrite (bind_eq _ _ _ _ _ (nand_bad_block_table_lookup_eq a w)).
    assert (Hstep : a + block_size c <= size c)
      by (apply aligned_step; assumption).
    assert (Hnext : forall l' w1,
               chip_info (prog w1) = Some c ->
               0 <= l' < 2 ^ 32 -> l' mod block_size c = 0 ->
               exists r w',
                 np_erase_loop E f cmd (u32 (a + block_size c))
                   (u32 (pg + block_size c / page_size c))
                   (block_size c / page_size c) l' w1 = Some (r, w')).
    { intros l' w1 Hc1 Hl' Hlm'. apply IH; [exact Hc1| |].
      - unfold erase_inv.
        assert (Hpg' : (pg + block_size c / page_size c) * page_size c
                       = a + block_size c) by lia.
        assert (0 <= pg + block_size c / page_size c < 2 ^ 32) by nia.
        rewrite !u32_small by lia.
        repeat split; try lia; try assumption.
        apply aligned_add; assumption.
      - rewrite u32_small by lia. lia. }
    destruct (existsb (Z.eqb a) (bad_blocks w)) eqn:Hbad.
    + rewrite (bind_eq _ _ _ _ _ (np_send_bad_block_info_eq a _)).
      destruct (nonzero (comm_send _ _ _)); [do 2 eexists; reflexivity|].
      change (nonzero 0) with false. cbn [negb orb andb].
      rewrite bind_ret.
      change (nonzero 0) with false. cbn [negb orb andb].
      apply Hnext; [exact Hc| |].
      * destruct (cmd_len cmd =? size c); [apply u32_range|exact Hl].
      * destruct (cmd_len cmd =? size c); [|exact Hlm].
        rewrite u32_small by lia. apply aligned_sub; assumption.
    + rewrite bind_ret.
      change (nonzero 0) with false. cbn [negb].
      match goal with
      | |- exists _ _, bind _ _ ?w1 = _ =>
          destruct (np_nand_erase_spec pg w1 Hc)
            as (r1 & tail & Herase & _ & _)
      end.
      rewrite (bind_eq _ _ _ _ _ Herase).
      destruct (nonzero r1); [do 2 eexists; reflexivity|].
      cbn [negb orb]. apply Hnext; [exact Hc|apply u32_range|].
      rewrite u32_small by lia. apply aligned_sub; assumption.
Qed.

(** What validation leaves the loop to start from. *)
Lemma np_cmd_nand_erase_cases (fuel : nat) (cmd : np_rx_t) (w : world) :
  chip_info (prog w) = Some c ->
  rx_wf cmd ->
  (exists r, _np_cmd_nand_erase E fuel cmd w = Some (r, w)) \/
  (erase_inv c (cmd_addr cmd) (cmd_addr cmd / page_size c) (cmd_len cmd) /\
   _np_cmd_nand_erase E fuel cmd w
   = np_erase_loop E fuel cmd (cmd_addr cmd) (cmd_addr cmd / page_size c)
       (block_size c / page_size c) (cmd_len cmd) w).
Proof.
  destruct chip_wf_facts as (Hps & Hbs & Hdiv & Hpib & Hsz & Hszm & Hbsz).
  intros Hc [Ha Hl]. unfold _np_cmd_nand_erase.
  rewrite (bind_eq get_chip _ w c w)
    by (unfold get_chip; rewrite Hc; reflexivity).
  assert (Hb : pow2 (block_size c)) by apply Hwf.
  rewrite !(pow2_mask (block_size c)) by (assumption || lia).
  destruct (nonzero (cmd_addr cmd mod block_size c)) eqn:Ham;
    [left; eexists; reflexivity|].
  destruct (Z.eqb_spec (cmd_len cmd) 0); [left; eexists; reflexivity|].
  destruct (nonzero (cmd_len cmd mod block_size c)) eqn:Hlm;
    [left; eexists; reflexivity|].
  destruct (_ >? _); [left; eexists; reflexivity|].
  right. split; [|reflexivity].
  apply nonzero_false in Ham. apply nonzero_false in Hlm.
  unfold erase_inv. repeat split; try lia; try assumption.
  apply aligned_div_mul; [assumption|].
  apply (aligned_trans (page_size c) (block_size c)); assumption.
Qed.

Lemma erase_fuel_enough (a : Z) :
  0 <= a -> Z.max 0 (size c - a) < Z.of_nat (erase_fuel c) * block_size c.
Proof.
  destruct chip_wf_facts as (Hps & Hbs & Hdiv & Hpib & Hsz & Hszm & Hbsz).
  intros Ha. unfold erase_fuel.
  rewrite Nat2Z.inj_succ, Z2Nat.id by (apply Z.div_pos; lia).
  pose proof (aligned_div_mul (block_size c) (size c) Hbs Hszm). lia.
Qed.

(** The whole command: it returns when given [erase_fuel], and whatever it
    returns, it keeps [np_prog_t] and the table, and logs between the two
    LED calls what [erase_log] allows. *)
Lemma np_cmd_nand_erase_spec (fuel : nat) (cmd : np_rx_t) (w : world) :
  chip_info (prog w) = Some c ->
  rx_wf cmd ->
  (exists r w', np_cmd_nand_erase E (erase_fuel c) cmd w = Some (r, w')) /\
  (forall r w',
      np_cmd_nand_erase E fuel cmd w = Some (r, w') ->
      exists new,
        trace w' = trace w ++ EvLedWr true :: new ++ [EvLedWr false] /\
        prog w' = prog w /\ bad_blocks w' = bad_blocks w /\
        erase_log c (bad_blocks w) (cmd_addr cmd) (cmd_len cmd) new).
Proof.
  intros Hc Hrx.
  set (w0 := mk_world (prog w) (bad_blocks w) (trace w ++ [EvLedWr true])).
  assert (Hled : forall fuel',
             np_cmd_nand_erase E fuel' cmd w
             = bind (_np_cmd_nand_erase E fuel' cmd)
                 (fun r => bind (led_wr_set false) (fun _ => ret r)) w0)
    by reflexivity.
  split.
  - rewrite Hled.
    destruct (np_cmd_nand_erase_cases (erase_fuel c) cmd w0 Hc Hrx)
      as [(r & Hrun)|(Hinv & Hrun)].
    + rewrite (bind_eq _ _ _ _ _ Hrun). do 2 eexists. reflexivity.
    + destruct (np_erase_loop_total cmd (erase_fuel c) _ _ _ w0 Hc Hinv)
        as (r & w1 & Hloop).
      { apply erase_fuel_enough. apply Hinv. }
      rewrite Hloop in Hrun.
      rewrite (bind_eq _ _ _ _ _ Hrun). do 2 eexists. reflexivity.
  - intros r w' Hrun. rewrite Hled in Hrun.
    apply bind_inv in Hrun. destruct Hrun as (r1 & w1 & Hrun & Hrest).
    inversion Hrest; subst r1 w'; clear Hrest. cbn [prog bad_blocks trace].
    destruct (np_cmd_nand_erase_cases fuel cmd w0 Hc Hrx)
      as [(r' & Hrej)|(Hinv & Hloop)].
    + rewrite Hrej in Hrun. inversion Hrun; subst r' w1.
      exists []. unfold w0. cbn [prog bad_blocks trace].
      rewrite <- app_assoc. do 3 (split; [reflexivity|]).
      apply erase_log_no_erase; [apply Hrx|reflexivity|]. intros b is_bad [].
    + rewrite Hloop in Hrun.
      destruct (np_erase_loop_spec cmd fuel _ _ _ w0 r w1 Hc Hinv Hrun)
        as (new & Ht & Hp & Hb & Hlog).
      exists new. rewrite Ht, Hp, Hb. unfold w0. cbn [prog bad_blocks trace].
      rewrite <- !app_assoc. do 3 (split; [reflexivity|]). exact Hlog.
Qed.

End Erase.

Lemma bench_chip_wf : chip_wf bench_chip.
Proof.
  unfold chip_wf, pow2. cbn [bench_chip page_size block_size size].
  repeat split; try reflexivity; try lia; discriminate.
Qed.

(** C9: an erase command hands nand_erase_block only pages whose address
    (page number times page size) is below the chip size, and the command
    always returns when the loop is given erase_fuel; a loop iteration
    that finds its address at or past the chip size with length left
    returns NP_ERR_ADDR_EXCEEDED without touching the chip. *)
Theorem np_cmd_nand_erase_below_chip_end (E : env) (c : chip_info_t)
    (fuel : nat) (cmd : np_rx_t) (w : world) :
  chip_wf c -> chip_info (prog w) = Some c -> rx_wf cmd ->
  (exists r w', np_cmd_nand_erase E (erase_fuel c) cmd w = Some (r, w')) /\
  (forall r w',
      np_cmd_nand_erase E fuel cmd w = Some (r, w') ->
      exists new,
        trace w' = trace w ++ new /\
        Forall (fun pg => 0 <= pg * page_size c < size c)
               (erased_pages new)) /\
  (forall a pg pib l,
      l <> 0 -> size c <= a ->
      np_erase_loop E (S fuel) cmd a pg pib l w
      = Some (NP_ERR_ADDR_EXCEEDED, w)).
Proof.
  intros Hwf Hc Hrx.
  destruct (np_cmd_nand_erase_spec E c Hwf fuel cmd w Hc Hrx) as [Htot Hlog].
  split; [exact Htot|]. split.
  - intros r w' Hrun.
    destruct (Hlog r w' Hrun) as (new & Ht & _ & _ & P1 & _).
    eexists. split; [exact Ht|].
    change (EvLedWr true :: new ++ [EvLedWr false])
      with ([EvLedWr true] ++ new ++ [EvLedWr false]).
    rewrite !erased_pages_app. cbn [erased_pages flat_map app].
    rewrite app_nil_r.
    eapply Forall_impl; [|exact P1]. cbn. intros pg [H _].
    destruct Hrx as [Ha _]. lia.
  - intros a pg pib l Hl Hge. cbn [np_erase_loop].
    destruct (Z.eqb_spec l 0) as [|_]; [contradiction|].
    rewrite (bind_eq get_chip _ w c w)
      by (unfold get_chip; rewrite Hc; reflexivity).
    destruct (Z.geb_spec a (size c)); [reflexivity|lia].
Qed.

Lemma np_cmd_nand_erase_below_chip_end_witness :
  (exists r w',
      np_cmd_nand_erase (bench_env NAND_READY NAND_READY)
        (erase_fuel bench_chip) (cmd_erase 0 0x40000)
        (with_chip bench_chip power_on) = Some (r, w')) /\
  (forall r w',
      np_cmd_nand_erase (bench_env NAND_READY NAND_READY) 2
        (cmd_erase 0 0x40000) (with_chip bench_chip power_on)
      = Some (r, w') ->
      exists new,
        trace w' = trace (with_chip bench_chip power_on) ++ new /\
        Forall (fun pg => 0 <= pg * page_size bench_chip < size bench_chip)
               (erased_pages new)) /\
  (forall a pg pib l,
      l <> 0 -> size bench_chip <= a ->
      np_erase_loop (bench_env NAND_READY NAND_READY) 3
        (cmd_erase 0 0x40000) a pg pib l (with_chip bench_chip power_on)
      = Some (NP_ERR_ADDR_EXCEEDED, with_chip bench_chip power_on)).
Proof.
  apply (np_cmd_nand_erase_below_chip_end (bench_env NAND_READY NAND_READY)
           bench_chip 2 (cmd_erase 0 0x40000) (with_chip bench_chip power_on)).
  - exact bench_chip_wf.
  - reflexivity.
  - unfold rx_wf. cbn. lia.
Defined.

(** C2, as first written down, fails: with block 0 in the bad block table,
    an erase of the first block (address 0, one block long) skips block 0
    without counting it and erases page 64, the block at 0x20000. *)
Lemma erase_window_claim_fails : ~ erase_window_claim.
Proof.
  intros H.
  assert (Hrun : exists w',
             np_cmd_nand_erase (bench_env NAND_READY NAND_READY) 3
               (cmd_erase 0 0x20000)
               (with_bad_blocks [0] (with_chip bench_chip power_on))
             = Some (0, w') /\
             trace w'
             = [] ++ [EvLedWr true; EvBadBlockLookup 0 true;
                      EvSend (NP_STATUS_BAD_BLOCK 0) 0;
                      EvBadBlockLookup 0x20000 false;
                      EvEraseBlock 64 NAND_READY;
                      EvSend NP_STATUS_OK 0; EvLedWr false]).
  { eexists. split; vm_compute; reflexivity. }
  destruct Hrun as (w' & Hrun & Htrace).
  assert (Hrx : rx_wf (cmd_erase 0 0x20000)) by (unfold rx_wf; cbn; lia).
  specialize (H (bench_env NAND_READY NAND_READY) bench_chip 3%nat
                (cmd_erase 0 0x20000)
                (with_bad_blocks [0] (with_chip bench_chip power_on))
                w' 0 _ bench_chip_wf eq_refl Hrx eq_refl
                ltac:(discriminate) eq_refl ltac:(cbn; lia) Hrun Htrace).
  cbn in H.
  inversion H as [|pg l [_ Hlt] _]. vm_compute in Hlt. discriminate Hlt.
Qed.

(** C2, amended: whatever an erase command returns, every block it looks
    up in the bad block table is then either handed to nand_erase_block
    or reported in a bad-block response; every page erased starts a block
    at or after the command's address and below the chip size; at most
    len / block_size blocks are erased; and when the table holds no block
    of [addr, addr + len), every page erased lies below addr + len.  The
    command returns when the loop is given erase_fuel, and leaves
    np_prog_t and the table as they were. *)
Theorem np_cmd_nand_erase_blocks (E : env) (c : chip_info_t)
    (fuel : nat) (cmd : np_rx_t) (w : world) :
  chip_wf c -> chip_info (prog w) = Some c -> rx_wf cmd ->
  (exists r w', np_cmd_nand_erase E (erase_fuel c) cmd w = Some (r, w')) /\
  (forall r w',
      np_cmd_nand_erase E fuel cmd w = Some (r, w') ->
      exists new,
        trace w' = trace w ++ EvLedWr true :: new ++ [EvLedWr false] /\
        prog w' = prog w /\ bad_blocks w' = bad_blocks w /\
        erase_log c (bad_blocks w) (cmd_addr cmd) (cmd_len cmd) new).
Proof.
  intros Hwf Hc Hrx. apply np_cmd_nand_erase_spec; assumption.
Qed.

Lemma np_cmd_nand_erase_blocks_witness :
  (exists r w',
      np_cmd_nand_erase (bench_env NAND_READY NAND_READY)
        (erase_fuel bench_chip) (cmd_erase 0 0x20000)
        (with_bad_blocks [0] (with_chip bench_chip power_on))
      = Some (r, w')) /\
  (forall r w',
      np_cmd_nand_erase (bench_env NAND_READY NAND_READY) 3
        (cmd_erase 0 0x20000)
        (with_bad_blocks [0] (with_chip bench_chip power_on))
      = Some (r, w') ->
      exists new,
        trace w' = [] ++ EvLedWr true :: new ++ [EvLedWr false] /\
        prog w' = prog (with_chip bench_chip power_on) /\
        bad_blocks w' = [0] /\
        erase_log bench_chip [0] 0 0x20000 new).
Proof.
  apply (np_cmd_nand_erase_blocks (bench_env NAND_READY NAND_READY)
           bench_chip 3 (cmd_erase 0 0x20000)
           (with_bad_blocks [0] (with_chip bench_chip power_on))).
  - exact bench_chip_wf.
  - reflexivity.
  - unfold rx_wf. cbn. lia.
Defined.

(** C8: a block erase for which the driver returns NAND_TIMEOUT_ERROR is
    treated like one that returns NAND_READY.  np_nand_erase returns 0 and
    sends nothing; the iteration leaves in the trace only the table lookup
    and the erase call, and the loop goes on with the next block, the next
    page and the length reduced by one block; when that was the last block
    the command sends the ok status and returns 0. *)
Theorem np_erase_loop_timeout_continues (E : env) (c : chip_info_t)
    (fuel : nat) (cmd : np_rx_t) (a pg pib l : Z) (w : world)
    (st : nand_status) :
  chip_info (prog w) = Some c ->
  l <> 0 -> a < size c ->
  existsb (Z.eqb a) (bad_blocks w) = false ->
  nand_erase_block E (trace w ++ [EvBadBlockLookup a false]) pg = st ->
  st = NAND_TIMEOUT_ERROR \/ st = NAND_READY ->
  let w1 := mk_world (prog w) (bad_blocks w)
              (trace w ++ [EvBadBlockLookup a false; EvEraseBlock pg st]) in
  np_nand_erase E pg
    (mk_world (prog w) (bad_blocks w) (trace w ++ [EvBadBlockLookup a false]))
  = Some (0, w1) /\
  np_erase_loop E (S fuel) cmd a pg pib l w
  = np_erase_loop E fuel cmd (u32 (a + block_size c)) (u32 (pg + pib)) pib
      (u32 (l - block_size c)) w1 /\
  (u32 (l - block_size c) = 0 ->
   np_erase_loop E (S fuel) cmd a pg pib l w
   = Some (0, mk_world (prog w) (bad_blocks w)
                (trace w1 ++ [EvSend NP_STATUS_OK
                                (comm_send E (trace w1) NP_STATUS_OK)]))).
Proof.
  intros Hc Hl Hlt Hbad Hst Hcase w1.
  assert (Herase :
            np_nand_erase E pg
              (mk_world (prog w) (bad_blocks w)
                 (trace w ++ [EvBadBlockLookup a false]))
            = Some (0, w1)).
  { unfold np_nand_erase. run_prims. cbn [prog bad_blocks trace].
    rewrite Hc. cbn [prog bad_blocks trace]. rewrite Hst.
    unfold w1. rewrite <- app_assoc.
    destruct Hcase as [-> | ->]; reflexivity. }
  assert (Hstep :
            np_erase_loop E (S fuel) cmd a pg pib l w
            = np_erase_loop E fuel cmd (u32 (a + block_size c))
                (u32 (pg + pib)) pib (u32 (l - block_size c)) w1).
  { cbn [np_erase_loop].
    destruct (Z.eqb_spec l 0) as [|_]; [contradiction|].
    rewrite (bind_eq get_chip _ w c w)
      by (unfold get_chip; rewrite Hc; reflexivity).
    destruct (Z.geb_spec a (size c)); [lia|].
    rewrite (bind_eq _ _ _ _ _ (nand_bad_block_table_lookup_eq a w)).
    rewrite Hbad, bind_ret.
    change (nonzero 0) with false. cbn [negb].
    rewrite (bind_eq _ _ _ _ _ Herase).
    change (nonzero 0) with false. cbn [negb orb]. reflexivity. }
  split; [exact Herase|]. split; [exact Hstep|].
  intros Hlast. rewrite Hstep, Hlast.
  destruct fuel; reflexivity.
Qed.

Lemma np_erase_loop_timeout_continues_witness :
  np_nand_erase (bench_env NAND_READY NAND_TIMEOUT_ERROR) 0
    (mk_world (prog (with_chip bench_chip power_on)) []
       [EvBadBlockLookup 0 false])
  = Some (0, mk_world (prog (with_chip bench_chip power_on)) []
               [EvBadBlockLookup 0 false;
                EvEraseBlock 0 NAND_TIMEOUT_ERROR]) /\
  np_erase_loop (bench_env NAND_READY NAND_TIMEOUT_ERROR) 1
    (cmd_erase 0 0x20000) 0 0 64 0x20000 (with_chip bench_chip power_on)
  = np_erase_loop (bench_env NAND_READY NAND_TIMEOUT_ERROR) 0
      (cmd_erase 0 0x20000) (u32 0x20000) (u32 64) 64 (u32 0)
      (mk_world (prog (with_chip bench_chip power_on)) []
         [EvBadBlockLookup 0 false; EvEraseBlock 0 NAND_TIMEOUT_ERROR]) /\
  (u32 0 = 0 ->
   np_erase_loop (bench_env NAND_READY NAND_TIMEOUT_ERROR) 1
     (cmd_erase 0 0x20000) 0 0 64 0x20000 (with_chip bench_chip power_on)
   = Some (0, mk_world (prog (with_chip bench_chip power_on)) []
                [EvBadBlockLookup 0 false;
                 EvEraseBlock 0 NAND_TIMEOUT_ERROR;
                 EvSend NP_STATUS_OK 0])).
Proof.
  apply (np_erase_loop_timeout_continues
           (bench_env NAND_READY NAND_TIMEOUT_ERROR) bench_chip 0
           (cmd_erase 0 0x20000) 0 0 64 0x20000
           (with_chip bench_chip power_on) NAND_TIMEOUT_ERROR).
  - reflexivity.
  - discriminate.
  - reflexivity.
  - reflexivity.
  - reflexivity.
  - left. reflexivity.
Defined.

(** ** The write pipeline *)

Lemma flight_app tr new :
  flight (tr ++ new) = fold_left flight_step new (flight tr).
Proof. unfold flight. apply fold_left_app. Qed.

Lemma last_status_app tr new :
  last_status (tr ++ new)
  = fold_left (fun s e => match e with EvReadStatus st => Some st | _ => s end)
      new (last_status tr).
Proof. unfold last_status. apply fold_left_app. Qed.

Lemma written_bytes_app tr1 tr2 :
  written_bytes (tr1 ++ tr2) = written_bytes tr1 ++ written_bytes tr2.
Proof. apply flat_map_app. Qed.

Lemma acks_app tr1 tr2 : acks (tr1 ++ tr2) = acks tr1 ++ acks tr2.
Proof. apply flat_map_app. Qed.

Lemma written_bytes_polls polls :
  Forall poll_event polls -> written_bytes polls = [].
Proof.
  induction 1 as [|e l He _ IH]; [reflexivity|].
  destruct e as [[]| | | | | | | | |]; try contradiction; exact IH.
Qed.

Lemma acks_polls polls : Forall poll_event polls -> acks polls = [].
Proof.
  induction 1 as [|e l He _ IH]; [reflexivity|].
  destruct e as [[]| | | | | | | | |]; try contradiction; exact IH.
Qed.

Section Pipeline.

Variable E : env.

Lemma np_nand_handle_status_eq (w : world) :
  np_nand_handle_status E w =
  let st := nand_read_status E (trace w) in
  let tr1 := trace w ++ [EvReadStatus st] in
  let idle := set_nand_timeout 0 (set_nand_wr_in_progress false (prog w)) in
  match st with
  | NAND_READY => Some (0, mk_world idle (bad_blocks w) tr1)
  | NAND_ERROR =>
      let r := NP_STATUS_BAD_BLOCK (addr (prog w)) in
      let rc := comm_send E tr1 r in
      if nonzero rc
      then Some (-1, mk_world (prog w) (bad_blocks w) (tr1 ++ [EvSend r rc]))
      else Some (0, mk_world idle (bad_blocks w) (tr1 ++ [EvSend r rc]))
  | NAND_BUSY =>
      let t := u32 (nand_timeout (prog w) + 1) in
      if t =? NP_NAND_TIMEOUT
      then Some (-1, mk_world idle (bad_blocks w) tr1)
      else Some (0, mk_world (set_nand_timeout t (prog w)) (bad_blocks w) tr1)
  | _ => Some (-1, mk_world idle (bad_blocks w) tr1)
  end.
Proof.
  unfold np_nand_handle_status. run_prims.
  destruct (nand_read_status E (trace w)); cbn [prog bad_blocks trace];
    try reflexivity.
  - destruct (nonzero _); reflexivity.
  - destruct (_ =? _); reflexivity.
Qed.

Lemma NP_NAND_TIMEOUT_range : 0 < NP_NAND_TIMEOUT < 2 ^ 32.
Proof. unfold NP_NAND_TIMEOUT. lia. Qed.

(** One poll of a pending write keeps the monitor and [np_prog_t] in
    agreement. *)
Lemma np_nand_handle_status_flight (w : world) (r : Z) (w' : world) :
  nand_wr_in_progress (prog w) = true ->
  np_nand_handle_status E w = Some (r, w') ->
  flight_inv w -> flight_inv w'.
Proof.
  pose proof NP_NAND_TIMEOUT_range as HT.
  intros Hflag Hrun. rewrite np_nand_handle_status_eq in Hrun.
  unfold flight_inv. cbv zeta in Hrun.
  destruct (nand_read_status E (trace w)) eqn:Hst.
  - inversion Hrun; subst. cbn [trace prog]. rewrite flight_app.
    destruct (flight (trace w)) as [[n|]|]; cbn; auto.
  - destruct (nonzero _); inversion Hrun; subst; cbn [trace prog];
      rewrite !flight_app;
      destruct (flight (trace w)) as [[n|]|]; cbn; auto; congruence.
  - destruct (Z.eqb_spec (u32 (nand_timeout (prog w) + 1)) NP_NAND_TIMEOUT)
      as [Ht|Ht]; inversion Hrun; subst; cbn [trace prog];
      rewrite flight_app; destruct (flight (trace w)) as [[n|]|]; cbn; auto.
    + intros (_ & Hn & Hr). subst n. rewrite u32_small in Ht by lia.
      apply Z.eqb_eq in Ht. rewrite Ht. cbn. reflexivity.
    + intros (_ & Hn & Hr). subst n. rewrite u32_small in Ht by lia.
      apply Z.eqb_neq in Ht. rewrite Ht. cbn.
      rewrite u32_small by lia. apply Z.eqb_neq in Ht.
      repeat split; try assumption; lia.
    + intros _ Hf. congruence.
  - inversion Hrun; subst. cbn [trace prog]. rewrite flight_app.
    destruct (flight (trace w)) as [[n|]|]; cbn; auto.
  - inversion Hrun; subst. cbn [trace prog]. rewrite flight_app.
    destruct (flight (trace w)) as [[n|]|]; cbn; auto.
Qed.

(** What one poll of a pending write tells about its outcome. *)
Lemma np_nand_handle_status_last (w : world) (r : Z) (w' : world) :
  np_nand_handle_status E w = Some (r, w') ->
  exists polls,
    trace w' = trace w ++ polls /\ Forall poll_event polls /\
    same_session (prog w) (prog w') /\ bad_blocks w' = bad_blocks w /\
    (r = 0 \/ r = -1) /\
    (last_status polls = Some NAND_BUSY ->
     nand_wr_in_progress (prog w) = true ->
     r = 0 -> nand_wr_in_progress (prog w') = true) /\
    (r = 0 -> nand_wr_in_progress (prog w') = false ->
     nand_wr_in_progress (prog w) = true ->
     nand_timeout (prog w') = 0 /\
     (last_status polls = Some NAND_READY \/
      last_status polls = Some NAND_ERROR)).
Proof.
  intros Hrun. rewrite np_nand_handle_status_eq in Hrun. cbv zeta in Hrun.
  destruct (nand_read_status E (trace w)) eqn:Hst.
  - inversion Hrun; subst. eexists. cbn [trace prog bad_blocks].
    split; [reflexivity|]. split; [repeat constructor|].
    split; [repeat split|]. split; [reflexivity|]. split; [auto|].
    split; [discriminate|]. intros _ _ _. split; [reflexivity|left; reflexivity].
  - destruct (nonzero _); inversion Hrun; subst; eexists;
      cbn [trace prog bad_blocks]; rewrite <- app_assoc;
      (split; [reflexivity|]); (split; [repeat constructor|]);
      (split; [repeat split|]); (split; [reflexivity|]); (split; [auto|]);
      (split; [discriminate|]).
    + intros H. discriminate H.
    + intros _ _ _. split; [reflexivity|right; reflexivity].
  - destruct (_ =? _); inversion Hrun; subst; eexists;
      cbn [trace prog bad_blocks];
      (split; [reflexivity|]); (split; [repeat constructor|]);
      (split; [repeat split|]); (split; [reflexivity|]); (split; [auto|]).
    + split; [intros _ _ H; discriminate H|]. intros H; discriminate H.
    + split; [intros _ Hf _; exact Hf|]. intros _ Hf Hf'. cbn in Hf. congruence.
  - inversion Hrun; subst. eexists. cbn [trace prog bad_blocks].
    split; [reflexivity|]. split; [repeat constructor|].
    split; [repeat split|]. split; [reflexivity|]. split; [auto|].
    split; [discriminate|]. intros H; discriminate H.
  - inversion Hrun; subst. eexists. cbn [trace prog bad_blocks].
    split; [reflexivity|]. split; [repeat constructor|].
    split; [repeat split|]. split; [reflexivity|]. split; [auto|].
    split; [discriminate|]. intros H; discriminate H.
Qed.

Lemma last_status_app_some polls1 polls2 st :
  last_status polls2 = Some st -> last_status (polls1 ++ polls2) = Some st.
Proof.
  rewrite last_status_app. unfold last_status.
  generalize (fold_left
                (fun s e => match e with EvReadStatus st0 => Some st0 | _ => s end)
                polls1 None).
  assert (Hgen : forall l (s0 s1 : option nand_status),
             s0 = None ->
             fold_left (fun s e => match e with
                                   | EvReadStatus st0 => Some st0
                                   | _ => s
                                   end) l s0 = Some st ->
             fold_left (fun s e => match e with
                                   | EvReadStatus st0 => Some st0
                                   | _ => s
                                   end) l s1 = Some st).
  { induction l as [|e l IH]; intros s0 s1 Hs0 H; cbn [fold_left] in *.
    - congruence.
    - destruct e; try (eapply IH; eassumption). exact H. }
  intros s1 H. eapply Hgen; [reflexivity|exact H].
Qed.

Lemma np_nand_wait_spec (fuel : nat) :
  forall w r w',
    nand_wr_in_progress (prog w) = true ->
    np_nand_wait E fuel w = Some (r, w') ->
    exists polls,
      trace w' = trace w ++ polls /\ Forall poll_event polls /\
      same_session (prog w) (prog w') /\ bad_blocks w' = bad_blocks w /\
      (flight_inv w -> flight_inv w') /\
      (r = 0 /\ nand_wr_in_progress (prog w') = false /\
       nand_timeout (prog w') = 0 /\
       (last_status polls = Some NAND_READY \/
        last_status polls = Some NAND_ERROR)
       \/ r = -1).
Proof.
  induction fuel as [|f IH]; intros w r w' Hflag Hrun;
    cbn [np_nand_wait] in Hrun; [discriminate Hrun|].
  apply bind_inv in Hrun. destruct Hrun as (r1 & w1 & Hpoll & Hrun).
  pose proof (np_nand_handle_status_flight w r1 w1 Hflag Hpoll) as Hfl.
  destruct (np_nand_handle_status_last w r1 w1 Hpoll)
    as (polls1 & Ht1 & Hp1 & Hs1 & Hb1 & Hr1 & Hbusy & Hdone).
  destruct (nonzero r1) eqn:Hnz.
  - inversion Hrun; subst r w'. exists polls1.
    repeat (split; [assumption|]). right. reflexivity.
  - apply nonzero_false in Hnz. subst r1.
    rewrite (bind_eq get_prog _ w1 (prog w1) w1) in Hrun by reflexivity.
    destruct (nand_wr_in_progress (prog w1)) eqn:Hflag1.
    + destruct (IH w1 r w' Hflag1 Hrun)
        as (polls2 & Ht2 & Hp2 & Hs2 & Hb2 & Hfl2 & Hres).
      exists (polls1 ++ polls2).
      split; [rewrite Ht2, Ht1, app_assoc; reflexivity|].
      split; [apply Forall_app; split; assumption|].
      split; [eapply same_session_trans; eassumption|].
      split; [congruence|]. split; [auto|].
      destruct Hres as [(Hr & Hf & Hto & Hlast)|Hr]; [left|right; exact Hr].
      repeat (split; [assumption|]).
      destruct Hlast as [Hl|Hl]; [left|right];
        apply last_status_app_some; exact Hl.
    + inversion Hrun; subst r w'. exists polls1.
      repeat (split; [assumption|]). left.
      destruct (Hdone eq_refl eq_refl Hflag) as [Hto Hlast].
      repeat split; assumption.
Qed.

(** The wait returns when the fuel exceeds what is left of the counter,
    modulo 2^32. *)
Lemma np_nand_wait_total (fuel : nat) :
  forall w,
    (NP_NAND_TIMEOUT - 1 - nand_timeout (prog w)) mod 2 ^ 32 < Z.of_nat fuel ->
    exists r w', np_nand_wait E fuel w = Some (r, w').
Proof.
  pose proof NP_NAND_TIMEOUT_range as HT.
  induction fuel as [|f IH]; intros w Hfuel.
  - pose proof (Z.mod_pos_bound (NP_NAND_TIMEOUT - 1 - nand_timeout (prog w))
                  (2 ^ 32) ltac:(lia)). lia.
  - cbn [np_nand_wait]. unfold bind at 1.
    rewrite np_nand_handle_status_eq. cbv zeta.
    destruct (nand_read_status E (trace w));
      try (cbn; do 2 eexists; reflexivity).
    + destruct (nonzero _); cbn; do 2 eexists; reflexivity.
    + destruct (Z.eqb_spec (u32 (nand_timeout (prog w) + 1)) NP_NAND_TIMEOUT)
        as [Ht|Ht]; [cbn; do 2 eexists; reflexivity|].
      change (nonzero 0) with false. cbv iota.
      rewrite (bind_eq get_prog _ _ _ _ eq_refl). cbn [prog].
      destruct (nand_wr_in_progress _); [|do 2 eexists; reflexivity].
      apply IH. cbn [prog nand_timeout set_nand_timeout].
      set (t := nand_timeout (prog w)) in *.
      set (m := (NP_NAND_TIMEOUT - 1 - t) mod 2 ^ 32) in *.
      assert (Hm : 0 <= m < 2 ^ 32) by (apply Z.mod_pos_bound; lia).
      assert (Hm0 : m <> 0).
      { intros Hm0. apply Ht. unfold u32.
        assert (Heq : (t + 1) mod 2 ^ 32
                      = (NP_NAND_TIMEOUT - m) mod 2 ^ 32).
        { unfold m. rewrite Zminus_mod_idemp_r. f_equal. lia. }
        rewrite Heq, Hm0, Z.sub_0_r. apply Z.mod_small. lia. }
      assert (Hnext : (NP_NAND_TIMEOUT - 1 - u32 (t + 1)) mod 2 ^ 32 = m - 1).
      { unfold u32. rewrite Zminus_mod_idemp_r.
        replace (NP_NAND_TIMEOUT - 1 - (t + 1))
          with ((NP_NAND_TIMEOUT - 1 - t) - 1) by lia.
        rewrite <- Zminus_mod_idemp_l. fold m. apply Z.mod_small. lia. }
      rewrite Hnext. lia.
Qed.

Lemma write_fuel_enough (z : Z) : z mod 2 ^ 32 < Z.of_nat write_fuel.
Proof.
  unfold write_fuel. rewrite Z2Nat.id by lia.
  apply Z.mod_pos_bound. lia.
Qed.

Lemma flight_inv_idle (w : world) :
  flight_inv w -> nand_wr_in_progress (prog w) = false ->
  flight (trace w) = Some None /\ nand_timeout (prog w) = 0.
Proof.
  unfold flight_inv. intros Hinv Hflag.
  destruct (flight (trace w)) as [[n|]|]; [|auto|contradiction].
  destruct Hinv as (Ht & _). congruence.
Qed.

(** [np_nand_write]: either it waits out the pending write and then issues
    the page in the buffer, or the wait fails and nothing is issued. *)
Lemma np_nand_write_spec (fuel : nat) (c : chip_info_t) (w : world)
    (rc : Z) (w' : world) :
  np_nand_write E fuel c w = Some (rc, w') ->
  exists polls,
    Forall poll_event polls /\ bad_blocks w' = bad_blocks w /\
    same_session (prog w) (prog w') /\
    (nand_wr_in_progress (prog w) = false -> polls = []) /\
    (flight_inv w -> flight_inv w') /\
    (rc = 0 /\
     trace w' = trace w ++ polls
                ++ [EvWritePageAsync
                      (firstn (Z.to_nat (page_size c))
                              (np_page_t.buf (page (prog w))))
                      (np_page_t.page (page (prog w))) (page_size c)] /\
     nand_wr_in_progress (prog w') = true /\
     (nand_wr_in_progress (prog w) = false /\ polls = [] \/
      last_status polls = Some NAND_READY \/
      last_status polls = Some NAND_ERROR)
     \/
     rc = -1 /\ trace w' = trace w ++ polls /\
     nand_wr_in_progress (prog w) = true).
Proof.
  intros Hrun. unfold np_nand_write in Hrun.
  rewrite (bind_eq get_prog _ w (prog w) w) in Hrun by reflexivity.
  assert (Hwait : exists rc1 w1 polls,
             (if nand_wr_in_progress (prog w) then np_nand_wait E fuel
              else ret 0) w = Some (rc1, w1) /\
             trace w1 = trace w ++ polls /\ Forall poll_event polls /\
             same_session (prog w) (prog w1) /\
             bad_blocks w1 = bad_blocks w /\
             (nand_wr_in_progress (prog w) = false -> polls = []) /\
             (flight_inv w -> flight_inv w1) /\
             (rc1 = 0 /\ nand_wr_in_progress (prog w1) = false /\
              (nand_wr_in_progress (prog w) = false /\ polls = [] \/
               last_status polls = Some NAND_READY \/
               last_status polls = Some NAND_ERROR)
              \/ rc1 = -1 /\ nand_wr_in_progress (prog w) = true)).
  { apply bind_inv in Hrun. destruct Hrun as (rc1 & w1 & Hw & _).
    exists rc1, w1. destruct (nand_wr_in_progress (prog w)) eqn:Hflag.
    - destruct (np_nand_wait_spec fuel w rc1 w1 Hflag Hw)
        as (polls & Ht & Hp & Hs & Hb & Hfl & Hres).
      exists polls. split; [exact Hw|].
      repeat (split; [assumption|]). split; [discriminate|].
      split; [exact Hfl|].
      destruct Hres as [(Hr & Hf & _ & Hlast)|Hr]; [left|right; auto].
      repeat split; auto.
    - inversion Hw; subst rc1 w1. exists []. rewrite app_nil_r.
      split; [reflexivity|]. split; [reflexivity|]. split; [constructor|].
      split; [apply same_session_refl|]. split; [reflexivity|].
      split; [reflexivity|]. split; [auto|]. left. auto. }
  destruct Hwait as (rc1 & w1 & polls & Hw & Ht & Hp & Hs & Hb & Hnil & Hfl
                     & Hres).
  rewrite (bind_eq _ _ _ _ _ Hw) in Hrun.
  exists polls. split; [exact Hp|].
  destruct Hres as [(Hr & Hf & Hlast)|(Hr & Hf)]; subst rc1.
  - change (nonzero 0) with false in Hrun. cbv iota in Hrun.
    revert Hrun. run_prims. intros Hrun. inversion Hrun; subst rc w'.
    cbn [prog bad_blocks trace].
    split; [exact Hb|].
    split; [destruct Hs as (H1 & H2 & H3 & H4 & H5 & H6 & H7);
            repeat split; assumption|].
    split; [exact Hnil|].
    split.
    + intros Hinv. destruct (flight_inv_idle w1 (Hfl Hinv) Hf) as [Hidle Hto].
      unfold flight_inv. cbn [prog trace]. rewrite flight_app, Hidle.
      cbn. pose proof NP_NAND_TIMEOUT_range. repeat split; lia.
    + left. split; [reflexivity|].
      destruct Hs as (_ & _ & _ & Hpage & _).
      rewrite Hpage, Ht, <- app_assoc. repeat split. exact Hlast.
  - change (nonzero (-1)) with true in Hrun. cbv iota in Hrun.
    inversion Hrun; subst rc w'.
    repeat (split; [assumption|]). right. auto.
Qed.

Lemma np_nand_write_total (c : chip_info_t) (w : world) :
  exists rc w', np_nand_write E write_fuel c w = Some (rc, w').
Proof.
  unfold np_nand_write.
  rewrite (bind_eq get_prog _ w (prog w) w) by reflexivity.
  assert (Hwait : exists rc1 w1,
             (if nand_wr_in_progress (prog w) then np_nand_wait E write_fuel
              else ret 0) w = Some (rc1, w1)).
  { destruct (nand_wr_in_progress (prog w)); [|do 2 eexists; reflexivity].
    apply np_nand_wait_total. apply write_fuel_enough. }
  destruct Hwait as (rc1 & w1 & Hw).
  rewrite (bind_eq _ _ _ _ _ Hw).
  destruct (nonzero rc1); do 2 eexists; reflexivity.
Qed.

(** [np_cmd_nand_write_data], call by call. *)
Lemma np_cmd_nand_write_data_eq (fuel : nat) (cmd : np_rx_t) (w : world)
    (c : chip_info_t) :
  chip_info (prog w) = Some c ->
  np_cmd_nand_write_data E fuel cmd w =
  if u32 (wd_len cmd + sizeof_np_write_data_cmd_t E) >? NP_PACKET_BUF_SIZE
  then Some (NP_ERR_CMD_DATA_SIZE, w)
  else if negb (addr_is_set (prog w)) then Some (NP_ERR_ADDR_INVALID, w)
  else if addr (prog w) >=? size c then Some (NP_ERR_ADDR_EXCEEDED, w)
  else
    let wl := wd_write_len c (prog w) (wd_len cmd) in
    let w1 := mk_world (wd_fill c cmd (prog w)) (bad_blocks w) (trace w) in
    if np_page_t.offset (page (prog w1)) =? page_size c then
      match np_nand_write E fuel c w1 with
      | Some (rc, wf) =>
          if nonzero rc then Some (NP_ERR_NAND_WR, wf)
          else Some (wd_finish E c cmd wl
                       (mk_world (wd_advance c (prog wf)) (bad_blocks wf)
                                 (trace wf)))
      | None => None
      end
    else Some (wd_finish E c cmd wl w1).
Proof.
  intros Hc. unfold np_cmd_nand_write_data.
  destruct (_ >? NP_PACKET_BUF_SIZE); [reflexivity|].
  rewrite (bind_eq get_prog _ w (prog w) w) by reflexivity.
  destruct (addr_is_set (prog w)); [|reflexivity]. cbn [negb].
  rewrite (bind_eq get_chip _ w c w)
    by (unfold get_chip; rewrite Hc; reflexivity).
  destruct (_ >=? size c); [reflexivity|].
  cbv zeta. fold (wd_write_len c (prog w) (wd_len cmd)).
  set (wl := wd_write_len c (prog w) (wd_len cmd)).
  set (w1 := mk_world (wd_fill c cmd (prog w)) (bad_blocks w) (trace w)).
  assert (Hfin : forall w2,
    ((if nonzero (u32 (wd_len cmd - wl))
      then
       modify_prog
         (fun p0 : np_prog_t =>
          set_page
            (set_buf
               (memcpy (np_page_t.buf (page p0)) 0
                  (skipn (Z.to_nat wl) (wd_data cmd))
                  (u32 (wd_len cmd - wl)))
               (page p0))
            p0);;;
       modify_prog
         (fun p0 : np_prog_t =>
          set_page
            (set_offset
               (u32 (np_page_t.offset (page p0) + u32 (wd_len cmd - wl)))
               (page p0))
            p0)
      else ret tt);;;
     modify_prog
       (fun p0 : np_prog_t =>
        set_bytes_written (u32 (bytes_written p0 + wd_len cmd)) p0);;;
     p0 <- get_prog;;
     rc0 <-
     (if
       (u32 (bytes_written p0 - bytes_ack p0) >=? page_size c)
       || (bytes_written p0 =? len p0)
      then
       rc0 <- np_send_write_ack E (bytes_written p0);;
       (if nonzero rc0
        then ret (-1)
        else modify_prog (set_bytes_ack (bytes_written p0));;; ret 0)
      else ret 0);;
     (if nonzero rc0
      then ret rc0
      else
       if bytes_written p0 >? len p0 then ret NP_ERR_LEN_EXCEEDED else ret 0))
      w2 = Some (wd_finish E c cmd wl w2)).
  { intros w2. unfold wd_finish, wd_rest, wd_ack_due, wd_result.
    destruct w2 as [[a l ais [b pg off] bw ba fl to ci] bb tr].
    destruct (nonzero (u32 (wd_len cmd - wl))); run_prims; rec_norm;
      repeat (cbv beta iota;
              match goal with
              | |- context [nonzero (-1)] => change (nonzero (-1)) with true
              | |- context [nonzero 0] => change (nonzero 0) with false
              | |- context [if ?b then _ else _] => destruct b
              end); reflexivity. }
  rewrite !bind_modify.
  match goal with |- bind _ _ ?x = _ => change x with w1 end.
  rewrite bind_get.
  destruct (np_page_t.offset (page (prog w1)) =? page_size c).
  - rewrite bind_assoc. unfold bind at 1.
    destruct (np_nand_write E fuel c w1) as [[rc wf]|]; [|reflexivity].
    destruct (nonzero rc); [reflexivity|].
    rewrite !bind_assoc, bind_modify.
    rewrite !bind_assoc, bind_modify.
    rewrite !bind_assoc, bind_modify.
    rewrite bind_ret. change (nonzero 0) with false. cbv iota.
    rewrite Hfin. reflexivity.
  - rewrite bind_ret. change (nonzero 0) with false. cbv iota.
    apply Hfin.
Qed.

End Pipeline.

(** ** Write commands through the dispatcher *)

Section Write_dispatch.

Variable E : env.
Variables h_read_id h_read h_read_bb : nat -> np_rx_t -> M Z.

Lemma np_cmd_handler_write_data (fuel : nat) (cmd : np_rx_t) (w : world) :
  chip_info (prog w) <> None ->
  code cmd = NP_CMD_NAND_WRITE_D ->
  np_cmd_handler E h_read_id h_read h_read_bb fuel cmd w
  = np_cmd_nand_write_data E fuel cmd w.
Proof.
  intros Hc Hcode. unfold np_cmd_handler, np_cmd_dispatch.
  rewrite bind_get, Hcode.
  destruct (chip_info (prog w)); [|contradiction].
  change (np_cmd_nand_write E fuel cmd w = np_cmd_nand_write_data E fuel cmd w).
  unfold np_cmd_nand_write. rewrite Hcode. reflexivity.
Qed.

Lemma np_cmd_handler_write_start (fuel : nat) (cmd : np_rx_t) (w : world) :
  chip_info (prog w) <> None ->
  code cmd = NP_CMD_NAND_WRITE_S ->
  np_cmd_handler E h_read_id h_read h_read_bb fuel cmd w
  = np_cmd_nand_write_start E cmd
      (mk_world (prog w) (bad_blocks w) (trace w ++ [EvLedWr true])).
Proof.
  intros Hc Hcode. unfold np_cmd_handler, np_cmd_dispatch.
  rewrite bind_get, Hcode.
  destruct (chip_info (prog w)); [|contradiction].
  change (np_cmd_nand_write E fuel cmd w = np_cmd_nand_write_start E cmd
      (mk_world (prog w) (bad_blocks w) (trace w ++ [EvLedWr true]))).
  unfold np_cmd_nand_write. rewrite Hcode. reflexivity.
Qed.

Lemma np_cmd_handler_write_end (fuel : nat) (cmd : np_rx_t) (w : world) :
  chip_info (prog w) <> None ->
  code cmd = NP_CMD_NAND_WRITE_E ->
  np_cmd_handler E h_read_id h_read h_read_bb fuel cmd w
  = bind (np_cmd_nand_write_end E cmd)
      (fun r => bind (led_wr_set false) (fun _ => ret r)) w.
Proof.
  intros Hc Hcode. unfold np_cmd_handler, np_cmd_dispatch.
  rewrite bind_get, Hcode.
  destruct (chip_info (prog w)); [|contradiction].
  change (np_cmd_nand_write E fuel cmd w = bind (np_cmd_nand_write_end E cmd)
      (fun r => bind (led_wr_set false) (fun _ => ret r)) w).
  unfold np_cmd_nand_write. rewrite Hcode. reflexivity.
Qed.

End Write_dispatch.

(** ** Write-end *)

Section Write_end.

Variable E : env.
Variables h_read_id h_read h_read_bb : nat -> np_rx_t -> M Z.

Lemma np_cmd_nand_write_data_no_addr (fuel : nat) (cmd : np_rx_t) (w : world) :
  chip_info (prog w) <> None ->
  addr_is_set (prog w) = false ->
  np_cmd_nand_write_data E fuel cmd w = Some (wd_reject_code E cmd, w).
Proof.
  intros Hc Hset. destruct (chip_info (prog w)) as [c|] eqn:Hci;
    [|contradiction].
  rewrite (np_cmd_nand_write_data_eq E fuel cmd w c Hci).
  unfold wd_reject_code. rewrite Hset.
  destruct (_ >? _); reflexivity.
Qed.

Lemma np_packet_handler_no_addr (fuel : nat) (pending : list np_rx_t) :
  forall w,
    chip_info (prog w) <> None ->
    addr_is_set (prog w) = false ->
    Forall (fun cmd => code cmd = NP_CMD_NAND_WRITE_D) pending ->
    exists w',
      np_packet_handler E h_read_id h_read h_read_bb fuel pending w
      = Some (map (wd_reject_code E) pending, w') /\
      chip_info (prog w') <> None /\ addr_is_set (prog w') = false.
Proof.
  induction pending as [|cmd rest IH]; intros w Hc Hset Hok.
  - exists w. repeat split; assumption.
  - inversion Hok as [|? ? Hcmd Hrest]; subst.
    cbn [np_packet_handler map].
    rewrite (bind_eq _ _ _ _ _
               (eq_trans (np_cmd_handler_write_data E _ _ _ fuel cmd w Hc Hcmd)
                         (np_cmd_nand_write_data_no_addr fuel cmd w Hc Hset))).
    assert (Hneg : (wd_reject_code E cmd <? 0) = true).
    { unfold wd_reject_code. destruct (_ >? _); reflexivity. }
    rewrite Hneg.
    match goal with
    | |- exists _, bind (np_send_error E ?z) _ _ = _ /\ _ =>
        rewrite (bind_eq (np_send_error E z) _ w 0
                   (mk_world (prog w) (bad_blocks w)
                      (trace w ++ [EvSend (NP_STATUS_ERROR (u8 z))
                                     (comm_send E (trace w)
                                        (NP_STATUS_ERROR (u8 z)))])))
          by reflexivity
    end.
    match goal with
    | |- exists _, bind _ _ ?w1 = _ /\ _ =>
        destruct (IH w1 Hc Hset Hrest) as (w' & Hrun & Hc' & Hset')
    end.
    rewrite (bind_eq _ _ _ _ _ Hrun).
    exists w'. repeat split; assumption.
Qed.

End Write_end.

(** C10, as first written down, fails: after a write-end, a write-data
    command whose length byte is 63 does not fit a 64-byte packet with its
    two-byte header and is answered with NP_ERR_CMD_DATA_SIZE, because the
    size check comes before the check of the flag. *)
Lemma write_end_claim_fails : ~ write_end_claim.
Proof.
  intros H.
  assert (Hend : np_cmd_nand_write_end (bench_env NAND_READY NAND_READY)
                   cmd_write_end (with_chip bench_chip power_on)
                 = Some (0, mk_world (prog (with_chip bench_chip power_on)) []
                              [EvSend NP_STATUS_OK 0]))
    by reflexivity.
  assert (Hdata : np_cmd_nand_write_data (bench_env NAND_READY NAND_READY) 0
                    (mk_rx NP_CMD_NAND_WRITE_D 0 0 0 63 (repeat x00 62))
                    (mk_world (prog (with_chip bench_chip power_on)) []
                       [EvSend NP_STATUS_OK 0])
                  = Some (NP_ERR_CMD_DATA_SIZE,
                          mk_world (prog (with_chip bench_chip power_on)) []
                            [EvSend NP_STATUS_OK 0]))
    by reflexivity.
  assert (Hsel : chip_info (prog (with_chip bench_chip power_on)) <> None)
    by discriminate.
  assert (Hlen : 0 <= wd_len (mk_rx NP_CMD_NAND_WRITE_D 0 0 0 63
                                (repeat x00 62)) < 2 ^ 8)
    by (cbn; lia).
  pose proof (H (bench_env NAND_READY NAND_READY) 0%nat cmd_write_end
                (mk_rx NP_CMD_NAND_WRITE_D 0 0 0 63 (repeat x00 62))
                _ _ _ _ _ Hsel Hend eq_refl Hlen Hdata) as Hbad.
  discriminate Hbad.
Qed.

(** ** The address in the poller's bad-block report *)

(** C7: what the poller reports for a failed page write.  After chip
    select and a write-start at 0x1F800 (page 63, the last page of block
    0), thirty-four write-data commands fill the page; it is handed to
    nand_write_page_async as page 63, and the address cursor moves on.
    The poll at the end of the same np_handler call reads NAND_ERROR and
    sends a bad-block response that carries 0x20000, the address of the
    next page in the next block, not 0x1F800; it then clears the flag and
    the counter. *)
Theorem np_nand_handler_reports_advanced_addr :
  exists w',
    np_run (bench_env NAND_ERROR NAND_READY) no_handler no_handler no_handler
      1 [cmd_select 0 :: cmd_write_start 0x1F800 0x800 :: page_fill_cmds]
      power_on
    = Some (repeat 0 36, w') /\
    trace w'
    = [EvChipSelect 0 true; EvNandInit; EvBadBlockTableInit;
       EvSend NP_STATUS_OK 0; EvLedWr true; EvSend NP_STATUS_OK 0;
       EvWritePageAsync (repeat x2a 2048) 63 0x800;
       EvSend (NP_STATUS_WRITE_ACK 0x800) 0;
       EvReadStatus NAND_ERROR;
       EvSend (NP_STATUS_BAD_BLOCK 0x20000) 0] /\
    63 * page_size bench_chip = 0x1F800 /\
    nand_wr_in_progress (prog w') = false /\
    nand_timeout (prog w') = 0.
Proof.
  eexists. split; [vm_compute; reflexivity|].
  repeat split.
Qed.

(** ** Runs of [np_handler] *)

Lemma ghost_run_app {G : Type} (step : G -> np_rx_t -> Z -> G) (g : G)
    (cmds1 cmds2 : list np_rx_t) (rs1 rs2 : list Z) :
  length rs1 = length cmds1 ->
  ghost_run step g (cmds1 ++ cmds2) (rs1 ++ rs2)
  = ghost_run step (ghost_run step g cmds1 rs1) cmds2 rs2.
Proof.
  intros Hlen. unfold ghost_run. rewrite <- fold_left_app. f_equal.
  revert rs1 Hlen. induction cmds1 as [|cmd l IH]; intros [|r rs1] Hlen;
    try discriminate Hlen; [reflexivity|].
  cbn. f_equal. apply IH. cbn in Hlen. congruence.
Qed.

Section Runs.

Variable E : env.
Variables h_read_id h_read h_read_bb : nat -> np_rx_t -> M Z.
Variable fuel : nat.

Section Invariant.

Variable G : Type.
Variable step : G -> np_rx_t -> Z -> G.
Variable I : G -> world -> Prop.
Variable Q : np_rx_t -> Prop.

Hypothesis Hcmd : forall g w cmd r w',
    I g w -> Q cmd ->
    np_cmd_handler E h_read_id h_read h_read_bb fuel cmd w = Some (r, w') ->
    I (step g cmd r) w'.
Hypothesis Herr : forall g w e,
    I g w -> error_send e ->
    I g (mk_world (prog w) (bad_blocks w) (trace w ++ [e])).
Hypothesis Hpoll : forall g w w',
    I g w -> np_nand_handler E w = Some (tt, w') -> I g w'.

Lemma np_packet_handler_inv (pending : list np_rx_t) :
  forall g w rs w',
    I g w -> Forall Q pending ->
    np_packet_handler E h_read_id h_read h_read_bb fuel pending w
    = Some (rs, w') ->
    length rs = length pending /\ I (ghost_run step g pending rs) w'.
Proof.
  induction pending as [|cmd rest IH]; intros g w rs w' Hi Hq Hrun.
  - inversion Hrun; subst. split; [reflexivity|exact Hi].
  - inversion Hq as [|? ? Hq1 Hq2]; subst.
    cbn [np_packet_handler] in Hrun.
    apply bind_inv in Hrun. destruct Hrun as (r & w1 & Hh & Hrun).
    apply bind_inv in Hrun. destruct Hrun as (z & w2 & Herrsend & Hrun).
    apply bind_inv in Hrun. destruct Hrun as (rs' & w3 & Hrest & Hrun).
    inversion Hrun; subst rs w3.
    assert (Hi2 : I (step g cmd r) w2).
    { pose proof (Hcmd g w cmd r w1 Hi Hq1 Hh) as Hi1.
      destruct (r <? 0).
      - revert Herrsend. run_prims. intros Hsend. inversion Hsend; subst.
        apply Herr; [exact Hi1|exact Logic.I].
      - inversion Herrsend; subst. exact Hi1. }
    destruct (IH _ _ _ _ Hi2 Hq2 Hrest) as [Hlen Hi3].
    split; [cbn; congruence|exact Hi3].
Qed.

Lemma np_run_inv (ticks : list (list np_rx_t)) :
  forall g w rs w',
    I g w -> Forall Q (concat ticks) ->
    np_run E h_read_id h_read h_read_bb fuel ticks w = Some (rs, w') ->
    length rs = length (concat ticks) /\
    I (ghost_run step g (concat ticks) rs) w'.
Proof.
  induction ticks as [|pending later IH]; intros g w rs w' Hi Hq Hrun.
  - inversion Hrun; subst. split; [reflexivity|exact Hi].
  - cbn [concat] in Hq. apply Forall_app in Hq. destruct Hq as [Hq1 Hq2].
    cbn [np_run] in Hrun. unfold np_handler in Hrun.
    apply bind_inv in Hrun. destruct Hrun as (rs1 & w2 & Hh & Hrun).
    apply bind_inv in Hh. destruct Hh as (rs1' & w1 & Hp & Hh).
    apply bind_inv in Hh. destruct Hh as ([] & w2' & Hpl & Hh).
    inversion Hh; subst rs1' w2'.
    apply bind_inv in Hrun. destruct Hrun as (rs2 & w3 & Hrest & Hrun).
    inversion Hrun; subst rs w3.
    destruct (np_packet_handler_inv pending _ _ _ _ Hi Hq1 Hp) as [Hlen1 Hi1].
    pose proof (Hpoll _ _ _ Hi1 Hpl) as Hi2.
    destruct (IH _ _ _ _ Hi2 Hq2 Hrest) as [Hlen2 Hi3].
    cbn [concat]. split; [rewrite !length_app; congruence|].
    rewrite ghost_run_app by exact Hlen1. exact Hi3.
Qed.

(** A session: the first call brings [cmd], which returns 0 and sets up
    the invariant, and the rest of the run keeps it. *)
Lemma np_run_session_inv (cmd : np_rx_t) (pending : list np_rx_t)
    (later : list (list np_rx_t)) :
  forall g w rs w',
    (forall w1,
        np_cmd_handler E h_read_id h_read h_read_bb fuel cmd w = Some (0, w1) ->
        I g w1) ->
    Forall Q (pending ++ concat later) ->
    np_run E h_read_id h_read h_read_bb fuel ((cmd :: pending) :: later) w
    = Some (rs, w') ->
    hd_error rs = Some 0 ->
    exists rs',
      rs = 0 :: rs' /\ length rs' = length (pending ++ concat later) /\
      I (ghost_run step g (pending ++ concat later) rs') w'.
Proof.
  intros g w rs w' Hstart Hq Hrun Hhd.
  apply Forall_app in Hq. destruct Hq as [Hq1 Hq2].
  cbn [np_run] in Hrun. unfold np_handler in Hrun.
  apply bind_inv in Hrun. destruct Hrun as (rs1 & w4 & Hh & Hrun).
  apply bind_inv in Hh. destruct Hh as (rs1' & w3 & Hp & Hh).
  apply bind_inv in Hh. destruct Hh as ([] & w4' & Hpl & Hh).
  inversion Hh; subst rs1' w4'.
  apply bind_inv in Hrun. destruct Hrun as (rs2 & w5 & Hrest & Hrun).
  inversion Hrun; subst rs w5.
  cbn [np_packet_handler] in Hp.
  apply bind_inv in Hp. destruct Hp as (r & w1 & Hc & Hp).
  apply bind_inv in Hp. destruct Hp as (z & w2 & Hsend & Hp).
  apply bind_inv in Hp. destruct Hp as (rs0 & w3' & Hp & Hret).
  inversion Hret; subst rs1 w3'.
  cbn in Hhd. inversion Hhd; subst r.
  change (0 <? 0) with false in Hsend. inversion Hsend; subst z w2.
  pose proof (Hstart w1 Hc) as Hi1.
  destruct (np_packet_handler_inv pending _ _ _ _ Hi1 Hq1 Hp) as [Hlen1 Hi3].
  pose proof (Hpoll _ _ _ Hi3 Hpl) as Hi4.
  destruct (np_run_inv later _ _ _ _ Hi4 Hq2 Hrest) as [Hlen2 Hi5].
  exists (rs0 ++ rs2). split; [reflexivity|].
  split; [rewrite !length_app; congruence|].
  rewrite ghost_run_app by exact Hlen1. exact Hi5.
Qed.

End Invariant.

End Runs.

(** ** Write commands always return *)

Section Write_total.

Variable E : env.
Variables h_read_id h_read h_read_bb : nat -> np_rx_t -> M Z.

Lemma np_cmd_nand_write_start_total (cmd : np_rx_t) (w : world) :
  chip_info (prog w) <> None ->
  exists r w', np_cmd_nand_write_start E cmd w = Some (r, w').
Proof.
  intros Hc. destruct (chip_info (prog w)) as [c|] eqn:Hci; [|contradiction].
  unfold np_cmd_nand_write_start.
  rewrite (bind_eq get_chip _ w c w)
    by (unfold get_chip; rewrite Hci; reflexivity).
  repeat match goal with
         | |- context [if ?b then _ else _] =>
             destruct b; [do 2 eexists; reflexivity|]
         end.
  do 2 eexists. reflexivity.
Qed.

Lemma np_cmd_nand_write_data_total (cmd : np_rx_t) (w : world) :
  chip_info (prog w) <> None ->
  exists r w', np_cmd_nand_write_data E write_fuel cmd w = Some (r, w').
Proof.
  intros Hc. destruct (chip_info (prog w)) as [c|] eqn:Hci; [|contradiction].
  rewrite (np_cmd_nand_write_data_eq E write_fuel cmd w c Hci).
  repeat match goal with
         | |- context [if ?b then Some _ else _] =>
             destruct b; [do 2 eexists; reflexivity|]
         end.
  cbv zeta.
  destruct (_ =? page_size c).
  - match goal with
    | |- context [np_nand_write E write_fuel c ?w1] =>
        destruct (np_nand_write_total E c w1) as (rc & wf & Hnw)
    end.
    rewrite Hnw. destruct (nonzero rc).
    + do 2 eexists. reflexivity.
    + destruct (wd_finish E c cmd _ _) as [r w'] eqn:Hfin.
      exists r, w'. reflexivity.
  - destruct (wd_finish E c cmd _ _) as [r w'] eqn:Hfin.
    exists r, w'. reflexivity.
Qed.

Lemma np_cmd_handler_write_total (cmd : np_rx_t) (w : world) :
  write_cmd cmd ->
  exists r w',
    np_cmd_handler E h_read_id h_read h_read_bb write_fuel cmd w
    = Some (r, w').
Proof.
  intros Hw. destruct (chip_info (prog w)) as [c|] eqn:Hci.
  - assert (Hc : chip_info (prog w) <> None) by congruence.
    destruct Hw as [Hcode|[Hcode|Hcode]].
    + rewrite (np_cmd_handler_write_start E _ _ _ write_fuel cmd w Hc Hcode).
      apply np_cmd_nand_write_start_total. exact Hc.
    + rewrite (np_cmd_handler_write_data E _ _ _ write_fuel cmd w Hc Hcode).
      apply np_cmd_nand_write_data_total. exact Hc.
    + rewrite (np_cmd_handler_write_end E _ _ _ write_fuel cmd w Hc Hcode).
      unfold np_cmd_nand_write_end. rewrite bind_assoc, bind_modify.
      rewrite bind_assoc, bind_get.
      destruct (nonzero _); do 2 eexists; reflexivity.
  - exists NP_ERR_CHIP_NOT_SEL, w. apply np_cmd_dispatch_no_chip; [exact Hci|].
    destruct Hw as [Hcode|[Hcode|Hcode]]; rewrite Hcode; discriminate.
Qed.

Lemma np_packet_handler_write_total (pending : list np_rx_t) :
  forall w,
    Forall write_cmd pending ->
    exists rs w',
      np_packet_handler E h_read_id h_read h_read_bb write_fuel pending w
      = Some (rs, w').
Proof.
  induction pending as [|cmd rest IH]; intros w Hq.
  - do 2 eexists. reflexivity.
  - inversion Hq as [|? ? Hq1 Hq2]; subst. cbn [np_packet_handler].
    destruct (np_cmd_handler_write_total cmd w Hq1) as (r & w1 & Hrun).
    rewrite (bind_eq _ _ _ _ _ Hrun).
    assert (Hsend : exists w2,
               (if r <? 0 then np_send_error E (- r) else ret 0) w1
               = Some (0, w2)).
    { destruct (r <? 0); eexists; reflexivity. }
    destruct Hsend as (w2 & Hsend).
    rewrite (bind_eq _ _ _ _ _ Hsend).
    destruct (IH w2 Hq2) as (rs & w' & Hrest).
    rewrite (bind_eq _ _ _ _ _ Hrest). do 2 eexists. reflexivity.
Qed.

(** Every run of [np_handler] calls that bring only write commands
    returns, given [write_fuel]. *)
Lemma np_run_write_total (ticks : list (list np_rx_t)) :
  forall w,
    Forall write_cmd (concat ticks) ->
    exists rs w',
      np_run E h_read_id h_read h_read_bb write_fuel ticks w = Some (rs, w').
Proof.
  induction ticks as [|pending later IH]; intros w Hq.
  - do 2 eexists. reflexivity.
  - cbn [concat] in Hq. apply Forall_app in Hq. destruct Hq as [Hq1 Hq2].
    cbn [np_run]. unfold np_handler.
    destruct (np_packet_handler_write_total pending w Hq1)
      as (rs1 & w1 & Hrun1).
    destruct (np_nand_handler_frame E w1) as (w2 & new & Hrun2 & _).
    destruct (IH w2 Hq2) as (rs2 & w' & Hrun3).
    rewrite !bind_assoc.
    rewrite (bind_eq _ _ _ _ _ Hrun1), bind_assoc.
    rewrite (bind_eq _ _ _ _ _ Hrun2), bind_ret.
    rewrite (bind_eq _ _ _ _ _ Hrun3). do 2 eexists. reflexivity.
Qed.

End Write_total.

(** ** One page write at a time *)

Lemma flight_neutral_fold (new : list event) (s : option (option Z)) :
  Forall flight_neutral new -> fold_left flight_step new s = s.
Proof.
  intros H. revert s. induction H as [|e l He _ IH]; intros s; [reflexivity|].
  cbn [fold_left]. rewrite IH.
  destruct s as [f|]; [|reflexivity].
  destruct e; try contradiction; reflexivity.
Qed.

Lemma flight_inv_neutral (w w' : world) (new : list event) :
  flight_inv w ->
  nand_wr_in_progress (prog w') = nand_wr_in_progress (prog w) ->
  nand_timeout (prog w') = nand_timeout (prog w) ->
  trace w' = trace w ++ new -> Forall flight_neutral new ->
  flight_inv w'.
Proof.
  unfold flight_inv. intros Hinv Hf Ht Htr Hn.
  rewrite Htr, flight_app, flight_neutral_fold by exact Hn.
  rewrite Hf, Ht. exact Hinv.
Qed.

Lemma flight_prefix (pre post : list event) :
  flight (pre ++ post) <> None -> flight pre <> None.
Proof.
  rewrite flight_app. intros H Hpre. apply H. rewrite Hpre.
  clear. induction post as [|e l IH]; [reflexivity|exact IH].
Qed.

Lemma last_status_neutral (new : list event) (s : option nand_status) :
  Forall flight_neutral new ->
  fold_left (fun s e => match e with EvReadStatus st => Some st | _ => s end)
            new s = s.
Proof.
  intros H. revert s. induction H as [|e l He _ IH]; intros s; [reflexivity|].
  cbn [fold_left]. rewrite IH. destruct e; try contradiction; reflexivity.
Qed.

Section Single_flight.

Variable E : env.
Variables h_read_id h_read h_read_bb : nat -> np_rx_t -> M Z.

(** What [wd_finish] leaves alone. *)
Lemma wd_finish_frame (c : chip_info_t) (cmd : np_rx_t) (wl : Z) (w : world) :
  exists ackev,
    trace (snd (wd_finish E c cmd wl w)) = trace w ++ ackev /\
    Forall flight_neutral ackev /\ written_bytes ackev = [] /\
    last_status ackev = None /\
    bad_blocks (snd (wd_finish E c cmd wl w)) = bad_blocks w /\
    nand_wr_in_progress (prog (snd (wd_finish E c cmd wl w)))
    = nand_wr_in_progress (prog w) /\
    nand_timeout (prog (snd (wd_finish E c cmd wl w)))
    = nand_timeout (prog w) /\
    chip_info (prog (snd (wd_finish E c cmd wl w))) = chip_info (prog w) /\
    addr_is_set (prog (snd (wd_finish E c cmd wl w))) = addr_is_set (prog w) /\
    len (prog (snd (wd_finish E c cmd wl w))) = len (prog w) /\
    addr (prog (snd (wd_finish E c cmd wl w))) = addr (prog w).
Proof.
  unfold wd_finish, wd_rest. cbv zeta.
  destruct (wd_ack_due c _); [destruct (nonzero (comm_send _ _ _))|];
    cbn [snd trace prog bad_blocks];
    (eexists; split; [try reflexivity; symmetry; apply app_nil_r|]);
    (split; [repeat constructor|]); (split; [reflexivity|]);
    (split; [reflexivity|]); (split; [reflexivity|]);
    destruct (nonzero (u32 _)); rec_simpl; repeat split.
Qed.

Lemma np_cmd_nand_write_data_flight (fuel : nat) (cmd : np_rx_t)
    (w : world) (r : Z) (w' : world) :
  chip_info (prog w) <> None ->
  np_cmd_nand_write_data E fuel cmd w = Some (r, w') ->
  flight_inv w -> flight_inv w'.
Proof.
  intros Hc Hrun Hinv.
  destruct (chip_info (prog w)) as [c|] eqn:Hci; [|contradiction].
  rewrite (np_cmd_nand_write_data_eq E fuel cmd w c Hci) in Hrun.
  repeat match type of Hrun with
         | (if ?b then Some _ else _) = _ =>
             destruct b; [inversion Hrun; subst; exact Hinv|]
         end.
  cbv zeta in Hrun.
  set (w1 := mk_world (wd_fill c cmd (prog w)) (bad_blocks w) (trace w)) in *.
  assert (Hinv1 : flight_inv w1).
  { apply (flight_inv_neutral w w1 []); try reflexivity;
      [exact Hinv|symmetry; apply app_nil_r|constructor]. }
  assert (Hfin : forall w2, flight_inv w2 ->
             flight_inv (snd (wd_finish E c cmd
                                (wd_write_len c (prog w) (wd_len cmd)) w2))).
  { intros w2 Hinv2.
    destruct (wd_finish_frame c cmd (wd_write_len c (prog w) (wd_len cmd)) w2)
      as (ackev & Ht & Hn & _ & _ & _ & Hf & Hto & _).
    eapply flight_inv_neutral; eassumption. }
  destruct (_ =? page_size c).
  - destruct (np_nand_write E fuel c w1) as [[rc wf]|] eqn:Hnw;
      [|discriminate Hrun].
    destruct (np_nand_write_spec E fuel c w1 rc wf Hnw)
      as (polls & _ & _ & _ & _ & Hfl & _).
    destruct (nonzero rc); injection Hrun as Hrun; [subst; auto|].
    apply (f_equal snd) in Hrun. cbn [snd] in Hrun. subst w'.
    apply Hfin.
    apply (flight_inv_neutral wf _ []); try reflexivity;
      [auto|symmetry; apply app_nil_r|constructor].
  - injection Hrun as Hrun.
    apply (f_equal snd) in Hrun. cbn [snd] in Hrun. subst w'.
    apply Hfin. exact Hinv1.
Qed.

Lemma np_cmd_nand_write_start_eq (cmd : np_rx_t) (w : world)
    (c : chip_info_t) :
  chip_info (prog w) = Some c ->
  np_cmd_nand_write_start E cmd w =
  if u32 (cmd_addr cmd + cmd_len cmd) >? size c
  then Some (NP_ERR_ADDR_EXCEEDED, w)
  else if nonzero (Z.land (cmd_addr cmd) (u32 (page_size c - 1)))
  then Some (NP_ERR_ADDR_NOT_ALIGN, w)
  else if cmd_len cmd =? 0 then Some (NP_ERR_LEN_INVALID, w)
  else if nonzero (Z.land (cmd_len cmd) (u32 (page_size c - 1)))
  then Some (NP_ERR_ADDR_NOT_ALIGN, w)
  else Some (0, mk_world (ws_begin c cmd (prog w)) (bad_blocks w)
                  (trace w ++ [EvSend NP_STATUS_OK
                                 (comm_send E (trace w) NP_STATUS_OK)])).
Proof.
  intros Hc. unfold np_cmd_nand_write_start.
  rewrite (bind_eq get_chip _ w c w)
    by (unfold get_chip; rewrite Hc; reflexivity).
  repeat match goal with
         | |- context [if ?b then _ else _] => destruct b; [reflexivity|]
         end.
  reflexivity.
Qed.

Lemma np_cmd_handler_write_flight (fuel : nat) (cmd : np_rx_t)
    (w : world) (r : Z) (w' : world) :
  write_cmd cmd ->
  np_cmd_handler E h_read_id h_read h_read_bb fuel cmd w = Some (r, w') ->
  flight_inv w -> flight_inv w'.
Proof.
  intros Hw Hrun Hinv.
  destruct (chip_info (prog w)) as [c|] eqn:Hci.
  - assert (Hc : chip_info (prog w) <> None) by congruence.
    destruct Hw as [Hcode|[Hcode|Hcode]].
    + rewrite (np_cmd_handler_write_start E _ _ _ fuel cmd w Hc Hcode) in Hrun.
      rewrite (np_cmd_nand_write_start_eq cmd
                 (mk_world (prog w) (bad_blocks w) (trace w ++ [EvLedWr true]))
                 c Hci) in Hrun.
      repeat match type of Hrun with
             | (if ?b then Some _ else _) = _ =>
                 destruct b;
                 [inversion Hrun; subst;
                  apply (flight_inv_neutral w _ [EvLedWr true]);
                  try reflexivity; [exact Hinv|repeat constructor]|]
             end.
      inversion Hrun; subst.
      eapply (flight_inv_neutral w _ [_; _]); try reflexivity;
        [exact Hinv|cbn [trace]; rewrite <- app_assoc; reflexivity
        |repeat constructor].
    + rewrite (np_cmd_handler_write_data E _ _ _ fuel cmd w Hc Hcode) in Hrun.
      eapply np_cmd_nand_write_data_flight; eassumption.
    + rewrite (np_cmd_handler_write_end E _ _ _ fuel cmd w Hc Hcode) in Hrun.
      unfold np_cmd_nand_write_end in Hrun.
      rewrite bind_assoc, bind_modify, bind_assoc, bind_get in Hrun.
      destruct (nonzero _); revert Hrun; run_prims; intros Hrun;
        inversion Hrun; subst.
      * apply (flight_inv_neutral w _ [EvLedWr false]); try reflexivity;
          [exact Hinv|repeat constructor].
      * eapply (flight_inv_neutral w _ [_; _]); try reflexivity;
          [exact Hinv|cbn [trace]; rewrite <- app_assoc; reflexivity
          |repeat constructor].
  - unfold np_cmd_handler in Hrun.
    rewrite np_cmd_dispatch_no_chip in Hrun.
    + inversion Hrun; subst. exact Hinv.
    + exact Hci.
    + destruct Hw as [Hcode|[Hcode|Hcode]]; rewrite Hcode; discriminate.
Qed.

Lemma np_nand_handler_flight (w w' : world) :
  np_nand_handler E w = Some (tt, w') -> flight_inv w -> flight_inv w'.
Proof.
  intros Hrun Hinv. unfold np_nand_handler in Hrun.
  rewrite bind_get in Hrun.
  destruct (nand_wr_in_progress (prog w)) eqn:Hflag.
  - apply bind_inv in Hrun. destruct Hrun as (rc & w1 & Hpoll & Hrun).
    pose proof (np_nand_handle_status_flight E w rc w1 Hflag Hpoll Hinv)
      as Hinv1.
    destruct (nonzero rc).
    + revert Hrun. run_prims. intros Hrun. inversion Hrun; subst.
      eapply (flight_inv_neutral w1 _ [_]); try reflexivity;
        [exact Hinv1|repeat constructor].
    + inversion Hrun; subst. exact Hinv1.
  - inversion Hrun; subst. exact Hinv.
Qed.

(** A wait that ends on a busy status has timed out: the command fails
    with the write error and no page is issued. *)
Lemma np_cmd_nand_write_data_timeout (fuel : nat) (cmd : np_rx_t)
    (w : world) (r : Z) (w' : world) :
  chip_info (prog w) <> None ->
  np_cmd_nand_write_data E fuel cmd w = Some (r, w') ->
  exists new,
    trace w' = trace w ++ new /\
    (last_status new = Some NAND_BUSY ->
     r = NP_ERR_NAND_WR /\ written_bytes new = []).
Proof.
  intros Hc Hrun.
  destruct (chip_info (prog w)) as [c|] eqn:Hci; [|contradiction].
  rewrite (np_cmd_nand_write_data_eq E fuel cmd w c Hci) in Hrun.
  repeat match type of Hrun with
         | (if ?b then Some _ else _) = _ =>
             destruct b;
             [inversion Hrun; subst; exists []; rewrite app_nil_r;
              split; [reflexivity|intros H; discriminate H]|]
         end.
  cbv zeta in Hrun.
  set (w1 := mk_world (wd_fill c cmd (prog w)) (bad_blocks w) (trace w)) in *.
  destruct (_ =? page_size c).
  - destruct (np_nand_write E fuel c w1) as [[rc wf]|] eqn:Hnw;
      [|discriminate Hrun].
    destruct (np_nand_write_spec E fuel c w1 rc wf Hnw)
      as (polls & Hp & _ & _ & _ & _ & Hres).
    destruct Hres as [(Hrc & Ht & _ & Hlast)|(Hrc & Ht & _)]; subst rc.
    + change (nonzero 0) with false in Hrun. cbv iota in Hrun.
      injection Hrun as Hrun.
      apply (f_equal snd) in Hrun. cbn [snd] in Hrun. subst w'.
      match goal with
      | |- context [wd_finish E c cmd ?wl ?w2] =>
          destruct (wd_finish_frame c cmd wl w2)
            as (ackev & Hta & Hna & _ & Hla & _)
      end.
      cbn [trace] in Hta. rewrite Hta, Ht. cbn [trace].
      eexists. split; [rewrite <- !app_assoc; reflexivity|].
      intros Hlast'. exfalso.
      rewrite !last_status_app in Hlast'. fold (last_status polls) in Hlast'.
      cbn [app fold_left] in Hlast'.
      rewrite (last_status_neutral ackev _ Hna) in Hlast'.
      destruct Hlast as [[_ ->]|[Hl|Hl]]; [discriminate Hlast'| |];
        rewrite Hl in Hlast'; discriminate Hlast'.
    + change (nonzero (-1)) with true in Hrun. cbv iota in Hrun.
      inversion Hrun; subst r w'. rewrite Ht. cbn [trace].
      exists polls. split; [reflexivity|]. intros _.
      split; [reflexivity|]. apply written_bytes_polls. exact Hp.
  - injection Hrun as Hrun.
    apply (f_equal snd) in Hrun. cbn [snd] in Hrun. subst w'.
    match goal with
    | |- context [wd_finish E c cmd ?wl ?w2] =>
        destruct (wd_finish_frame c cmd wl w2)
          as (ackev & Hta & _ & _ & Hla & _)
    end.
    cbn [trace] in Hta. rewrite Hta.
    exists ackev. split; [reflexivity|]. intros H. congruence.
Qed.

End Single_flight.

(** ** Acknowledgements *)

Lemma StronglySorted_snoc (l : list Z) (x : Z) :
  StronglySorted Z.le l -> Forall (fun n => n <= x) l ->
  StronglySorted Z.le (l ++ [x]).
Proof.
  induction 1 as [|a l Hs IH Ha]; intros Hle; cbn [app].
  - constructor; constructor.
  - inversion Hle; subst. constructor; [apply IH; assumption|].
    apply Forall_app. split; [exact Ha|]. constructor; [assumption|constructor].
Qed.

Section Acks.

Variable E : env.
Variables h_read_id h_read h_read_bb : nat -> np_rx_t -> M Z.

Lemma wd_finish_counters (c : chip_info_t) (cmd : np_rx_t) (wl : Z)
    (w : world) :
  bytes_written (prog (snd (wd_finish E c cmd wl w)))
  = u32 (bytes_written (prog w) + wd_len cmd) /\
  exists ackev,
    trace (snd (wd_finish E c cmd wl w)) = trace w ++ ackev /\
    (acks ackev = [] /\
     bytes_ack (prog (snd (wd_finish E c cmd wl w))) = bytes_ack (prog w) /\
     u32 (bytes_written (prog w) + wd_len cmd) <> len (prog w)
     \/
     acks ackev = [u32 (bytes_written (prog w) + wd_len cmd)] /\
     (bytes_ack (prog (snd (wd_finish E c cmd wl w)))
      = u32 (bytes_written (prog w) + wd_len cmd)
      \/
      bytes_ack (prog (snd (wd_finish E c cmd wl w))) = bytes_ack (prog w) /\
      fst (wd_finish E c cmd wl w) <> 0)).
Proof.
  unfold wd_finish, wd_rest, wd_ack_due. cbv zeta.
  destruct (nonzero (u32 (wd_len cmd - wl))); rec_simpl;
    (destruct (_ || _) eqn:Hdue;
     [destruct (nonzero (comm_send _ _ _))|]);
    cbn [fst snd trace prog]; rec_simpl;
    (split; [reflexivity|]); eexists;
    (split; [try reflexivity; symmetry; apply app_nil_r|]);
    try (right; split; [reflexivity|]; first [left; reflexivity
                                             |right; split; [reflexivity|discriminate]]);
    left; (split; [reflexivity|]); (split; [reflexivity|]);
    apply orb_false_elim in Hdue; destruct Hdue as [_ Hne];
    apply Z.eqb_neq in Hne; exact Hne.
Qed.

(** What a write-data command does to the counters. *)
Lemma np_cmd_nand_write_data_counters (fuel : nat) (cmd : np_rx_t)
    (w : world) (r : Z) (w' : world) (c : chip_info_t) :
  chip_info (prog w) = Some c ->
  np_cmd_nand_write_data E fuel cmd w = Some (r, w') ->
  len (prog w') = len (prog w) /\ chip_info (prog w') = Some c /\
  exists new,
    trace w' = trace w ++ new /\
    (r <> 0 /\ bytes_written (prog w') = bytes_written (prog w) /\
     bytes_ack (prog w') = bytes_ack (prog w) /\ acks new = []
     \/
     bytes_written (prog w') = u32 (bytes_written (prog w) + wd_len cmd) /\
     (acks new = [] /\ bytes_ack (prog w') = bytes_ack (prog w) /\
      u32 (bytes_written (prog w) + wd_len cmd) <> len (prog w)
      \/
      acks new = [u32 (bytes_written (prog w) + wd_len cmd)] /\
      (bytes_ack (prog w') = u32 (bytes_written (prog w) + wd_len cmd)
       \/
       bytes_ack (prog w') = bytes_ack (prog w) /\ r <> 0))).
Proof.
  intros Hci Hrun.
  rewrite (np_cmd_nand_write_data_eq E fuel cmd w c Hci) in Hrun.
  repeat match type of Hrun with
         | (if ?b then Some _ else _) = _ =>
             destruct b;
             [inversion Hrun; subst; split; [reflexivity|];
              split; [exact Hci|]; exists []; rewrite app_nil_r;
              split; [reflexivity|]; left;
              split; [discriminate|]; repeat split|]
         end.
  cbv zeta in Hrun.
  set (wl := wd_write_len c (prog w) (wd_len cmd)) in *.
  set (w1 := mk_world (wd_fill c cmd (prog w)) (bad_blocks w) (trace w)) in *.
  assert (Hfin : forall w2 pre,
             len (prog w2) = len (prog w) ->
             chip_info (prog w2) = Some c ->
             bytes_written (prog w2) = bytes_written (prog w) ->
             bytes_ack (prog w2) = bytes_ack (prog w) ->
             trace w2 = trace w ++ pre -> acks pre = [] ->
             wd_finish E c cmd wl w2 = (r, w') ->
             len (prog w') = len (prog w) /\ chip_info (prog w') = Some c /\
             exists new,
               trace w' = trace w ++ new /\
               (r <> 0 /\ bytes_written (prog w') = bytes_written (prog w) /\
                bytes_ack (prog w') = bytes_ack (prog w) /\ acks new = []
                \/
                bytes_written (prog w')
                = u32 (bytes_written (prog w) + wd_len cmd) /\
                (acks new = [] /\ bytes_ack (prog w') = bytes_ack (prog w) /\
                 u32 (bytes_written (prog w) + wd_len cmd) <> len (prog w)
                 \/
                 acks new = [u32 (bytes_written (prog w) + wd_len cmd)] /\
                 (bytes_ack (prog w')
                  = u32 (bytes_written (prog w) + wd_len cmd)
                  \/
                  bytes_ack (prog w') = bytes_ack (prog w) /\ r <> 0)))).
  { intros w2 pre Hl Hc Hbw Hba Ht Hpre Hf.
    destruct (wd_finish_frame E c cmd wl w2)
      as (ackev0 & _ & _ & _ & _ & _ & _ & _ & Hci' & _ & Hlen' & _).
    destruct (wd_finish_counters c cmd wl w2) as (Hbw' & ackev & Hta & Hack).
    rewrite Hf in *. cbn [fst snd] in *.
    split; [congruence|]. split; [congruence|].
    exists (pre ++ ackev). split; [rewrite Hta, Ht, app_assoc; reflexivity|].
    right. rewrite acks_app, Hpre. cbn [app].
    rewrite <- Hbw, <- Hba, <- Hl. split; [exact Hbw'|exact Hack]. }
  destruct (_ =? page_size c).
  - destruct (np_nand_write E fuel c w1) as [[rc wf]|] eqn:Hnw;
      [|discriminate Hrun].
    destruct (np_nand_write_spec E fuel c w1 rc wf Hnw)
      as (polls & Hp & _ & Hs & _ & _ & Hres).
    destruct Hs as (_ & Hl & _ & _ & Hbw & Hba & Hc).
    destruct Hres as [(Hrc & Ht & _)|(Hrc & Ht & _)]; subst rc.
    + change (nonzero 0) with false in Hrun. cbv iota in Hrun.
      injection Hrun as Hrun.
      eapply (Hfin _ (polls ++ [_]));
        [| | | | | |exact Hrun]; unfold wd_advance; rec_simpl.
      * exact Hl.
      * rewrite Hc. exact Hci.
      * exact Hbw.
      * exact Hba.
      * exact Ht.
      * rewrite acks_app, (acks_polls polls Hp). reflexivity.
    + change (nonzero (-1)) with true in Hrun. cbv iota in Hrun.
      inversion Hrun; subst r w'.
      split; [exact Hl|]. split; [rewrite Hc; exact Hci|].
      exists polls. split; [exact Ht|]. left.
      split; [discriminate|]. split; [exact Hbw|]. split; [exact Hba|].
      apply acks_polls. exact Hp.
  - injection Hrun as Hrun.
    apply (Hfin w1 []); try reflexivity; try assumption.
    symmetry. apply app_nil_r.
Qed.

End Acks.

Lemma ghost_run_acks (cmds : list np_rx_t) :
  forall g rs,
    length rs = length cmds ->
    fst (ghost_run acks_step g cmds rs) = fst g + sum_wd_len cmds /\
    (Forall (fun r => r = 0) rs ->
     snd (ghost_run acks_step g cmds rs) = snd g).
Proof.
  unfold ghost_run, sum_wd_len.
  induction cmds as [|cmd rest IH]; intros g [|r rs] Hlen;
    try discriminate Hlen; cbn [combine fold_left map fold_right fst snd].
  - split; [lia|reflexivity].
  - injection Hlen as Hlen. destruct (IH (acks_step g cmd r) rs Hlen) as [H1 H2].
    rewrite H1. cbn [acks_step fst snd]. split; [lia|].
    intros Hall. inversion Hall; subst. rewrite H2 by assumption.
    cbn [acks_step snd]. change (0 =? 0) with true. apply andb_true_r.
Qed.

Section Ack_session.

Variable E : env.
Variables h_read_id h_read h_read_bb : nat -> np_rx_t -> M Z.
Variable c : chip_info_t.
Variable L : Z.
Variable tr0 : list event.

Lemma acks_inv_cmd (fuel : nat) (g : Z * bool) (w : world) (cmd : np_rx_t)
    (r : Z) (w' : world) :
  acks_inv c L tr0 g w -> wd_cmd cmd ->
  np_cmd_handler E h_read_id h_read h_read_bb fuel cmd w = Some (r, w') ->
  acks_inv c L tr0 (acks_step g cmd r) w'.
Proof.
  intros Hi (Hcode & Hl & _) Hrun. destruct g as [s ok].
  unfold acks_inv, acks_step in *. cbn [fst snd] in *. intros Hs.
  destruct Hi as (Hlen & Hci & Hord & Hbw & new & Ht & Hsorted & Hall & Hok);
    [lia|].
  rewrite np_cmd_handler_write_data in Hrun by (congruence || assumption).
  destruct (np_cmd_nand_write_data_counters E fuel cmd w r w' c Hci Hrun)
    as (Hlen' & Hci' & nw & Ht' & Hcase).
  split; [congruence|]. split; [exact Hci'|].
  assert (Hu : u32 (bytes_written (prog w) + wd_len cmd)
               = bytes_written (prog w) + wd_len cmd).
  { unfold u32. apply Z.mod_small. lia. }
  rewrite Hu in Hcase.
  assert (Htr : trace w' = tr0 ++ new ++ nw)
    by (rewrite Ht', Ht, app_assoc; reflexivity).
  assert (Hmono : Forall (fun n => n <= bytes_written (prog w) + wd_len cmd)
                    (acks new)).
  { eapply Forall_impl; [|exact Hall]. cbv beta. intros n Hn. lia. }
  destruct Hcase
    as [(Hr & Hbw' & Hba' & Hacks)
       |(Hbw' & [(Hacks & Hba' & Hne)|(Hacks & Hba')])];
    rewrite Hbw'.
  - split; [lia|]. split; [lia|]. exists (new ++ nw).
    split; [exact Htr|]. rewrite acks_app, Hacks, app_nil_r.
    split; [exact Hsorted|]. split; [exact Hall|].
    intros Hokr. apply andb_true_iff in Hokr. destruct Hokr as [_ Hr0].
    apply Z.eqb_eq in Hr0. contradiction.
  - split; [lia|]. split; [lia|]. exists (new ++ nw).
    split; [exact Htr|]. rewrite acks_app, Hacks, app_nil_r.
    split; [exact Hsorted|]. split; [exact Hmono|].
    intros Hokr. apply andb_true_iff in Hokr. destruct Hokr as [Hok1 _].
    destruct (Hok Hok1) as [Hbws _]. split; [lia|].
    intros HsL. exfalso. apply Hne. lia.
  - split; [destruct Hba' as [Hba'|[Hba' _]]; lia|]. split; [lia|].
    exists (new ++ nw). split; [exact Htr|]. rewrite acks_app, Hacks.
    split; [apply StronglySorted_snoc; assumption|].
    split.
    { apply Forall_app. split; [exact Hmono|].
      constructor; [lia|constructor]. }
    intros Hokr. apply andb_true_iff in Hokr. destruct Hokr as [Hok1 _].
    destruct (Hok Hok1) as [Hbws _]. split; [lia|].
    intros HsL. exists (acks new).
    replace (bytes_written (prog w) + wd_len cmd) with L by lia. reflexivity.
Qed.

Lemma acks_inv_err (g : Z * bool) (w : world) (e : event) :
  acks_inv c L tr0 g w -> error_send e ->
  acks_inv c L tr0 g (mk_world (prog w) (bad_blocks w) (trace w ++ [e])).
Proof.
  intros Hi He Hs.
  destruct (Hi Hs) as (Hlen & Hci & Hord & Hbw & new & Ht & Hsorted & Hall & Hok).
  cbn [prog trace]. do 4 (split; [assumption|]).
  exists (new ++ [e]). split; [rewrite Ht, app_assoc; reflexivity|].
  assert (He0 : acks [e] = [])
    by (destruct e as [[] ?| | | | | | | | |]; try contradiction; reflexivity).
  rewrite acks_app, He0, app_nil_r.
  split; [assumption|]. split; assumption.
Qed.

Lemma acks_inv_poll (g : Z * bool) (w w' : world) :
  acks_inv c L tr0 g w -> np_nand_handler E w = Some (tt, w') ->
  acks_inv c L tr0 g w'.
Proof.
  intros Hi Hpl Hs.
  destruct (Hi Hs) as (Hlen & Hci & Hord & Hbw & new & Ht & Hsorted & Hall & Hok).
  destruct (np_nand_handler_frame E w) as (w2 & nw & Hrun & Hsame & _ & Ht' & Hp).
  rewrite Hpl in Hrun. injection Hrun as <-.
  destruct Hsame as (_ & Hl & _ & _ & Hw & Ha & Hc).
  rewrite Hl, Hw, Ha, Hc. do 4 (split; [assumption|]).
  exists (new ++ nw). split; [rewrite Ht', Ht, app_assoc; reflexivity|].
  rewrite acks_app, (acks_polls nw Hp), app_nil_r.
  split; [assumption|]. split; assumption.
Qed.

End Ack_session.

Lemma acks_inv_start (E : env)
    (h_read_id h_read h_read_bb : nat -> np_rx_t -> M Z) (fuel : nat)
    (c : chip_info_t) (a L : Z) (w0 w1 : world) :
  chip_info (prog w0) = Some c ->
  np_cmd_handler E h_read_id h_read h_read_bb fuel (cmd_write_start a L) w0
  = Some (0, w1) ->
  acks_inv c L (trace w0) (0, true) w1.
Proof.
  intros Hci Hrun.
  rewrite np_cmd_handler_write_start in Hrun by (congruence || reflexivity).
  rewrite (np_cmd_nand_write_start_eq E (cmd_write_start a L)
             (mk_world (prog w0) (bad_blocks w0) (trace w0 ++ [EvLedWr true]))
             c Hci) in Hrun.
  cbn [cmd_write_start cmd_addr cmd_len] in Hrun.
  destruct (_ >? size c); [discriminate Hrun|].
  destruct (nonzero (Z.land a _)); [discriminate Hrun|].
  destruct (L =? 0) eqn:HL0; [discriminate Hrun|].
  destruct (nonzero (Z.land L _)); [discriminate Hrun|].
  injection Hrun as <-. apply Z.eqb_neq in HL0.
  unfold acks_inv, ws_begin. cbn. intros _.
  split; [reflexivity|]. split; [exact Hci|]. split; [lia|]. split; [lia|].
  eexists. split; [rewrite <- app_assoc; reflexivity|].
  split; [constructor|]. split; [constructor|].
  intros _. split; [reflexivity|]. intros H0. congruence.
Qed.

(** C3, amended: in a write session (a write-start that succeeds,
    declaring [L] bytes, and then write-data commands, spread over any
    number of calls of the main loop) on a chip whose page fits the page
    buffer, the run comes to an end, and at its end, whichever state that
    is, [bytes_ack <= bytes_written], the values of the write-ack responses
    sent since the start never decrease and none is above [bytes_written];
    and when the lengths sum to [L] and every command returned 0, the last
    write-ack carries [L]. *)
Theorem write_session_acks (E : env)
    (h_read_id h_read h_read_bb : nat -> np_rx_t -> M Z)
    (c : chip_info_t) (a L : Z) (pending : list np_rx_t)
    (later : list (list np_rx_t)) (w0 : world) :
  chip_info (prog w0) = Some c ->
  2 ^ 8 <= page_size c <= NP_MAX_PAGE_SIZE ->
  Z.of_nat (length (np_page_t.buf (page (prog w0)))) = NP_MAX_PAGE_SIZE ->
  0 <= np_page_t.offset (page (prog w0)) <= page_size c ->
  Forall wd_cmd (pending ++ concat later) ->
  sum_wd_len (pending ++ concat later) < 2 ^ 32 ->
  (exists rs w',
      np_run E h_read_id h_read h_read_bb write_fuel
        ((cmd_write_start a L :: pending) :: later) w0 = Some (rs, w')) /\
  forall fuel rs w',
    np_run E h_read_id h_read h_read_bb fuel
      ((cmd_write_start a L :: pending) :: later) w0 = Some (rs, w') ->
    hd_error rs = Some 0 ->
    bytes_ack (prog w') <= bytes_written (prog w') /\
    exists new,
      trace w' = trace w0 ++ new /\
      StronglySorted Z.le (acks new) /\
      Forall (fun n => n <= bytes_written (prog w')) (acks new) /\
      (sum_wd_len (pending ++ concat later) = L ->
       Forall (fun r => r = 0) rs ->
       exists pre, acks new = pre ++ [L]).
Proof.
  intros Hci _ _ _ Hq Hsum. split.
  - apply np_run_write_total. cbn [concat app].
    constructor; [left; reflexivity|].
    eapply Forall_impl; [|exact Hq].
    intros x (Hx & _). right. left. exact Hx.
  - intros fuel rs w' Hrun Hhd.
    destruct (np_run_session_inv E h_read_id h_read h_read_bb fuel
                (Z * bool) acks_step (acks_inv c L (trace w0)) wd_cmd
                (acks_inv_cmd E h_read_id h_read h_read_bb c L (trace w0) fuel)
                (acks_inv_err c L (trace w0))
                (acks_inv_poll E c L (trace w0))
                (cmd_write_start a L) pending later (0, true) w0 rs w'
                (fun w1 => acks_inv_start E h_read_id h_read h_read_bb fuel
                             c a L w0 w1 Hci)
                Hq Hrun Hhd)
      as (rs' & Hrs & Hlen & Hinv).
    destruct (ghost_run_acks (pending ++ concat later) (0, true) rs' Hlen)
      as [Hfst Hsnd].
    cbn [fst snd] in Hfst, Hsnd.
    unfold acks_inv in Hinv. rewrite Hfst in Hinv.
    destruct Hinv as (_ & _ & Hord & _ & new & Ht & Hsorted & Hall & Hok);
      [lia|].
    split; [lia|]. exists new. do 3 (split; [assumption|]).
    intros HL Hzero. subst rs. inversion Hzero; subst.
    destruct Hok as [_ Hlast]; [apply Hsnd; assumption|].
    apply Hlast. lia.
Qed.

Lemma write_session_acks_witness :
  (exists rs w',
      np_run (bench_env NAND_READY NAND_READY) no_handler no_handler no_handler
        write_fuel [cmd_write_start 0 0x800 :: page_fill_cmds]
        (with_chip bench_chip power_on) = Some (rs, w')) /\
  forall fuel rs w',
    np_run (bench_env NAND_READY NAND_READY) no_handler no_handler no_handler
      fuel [cmd_write_start 0 0x800 :: page_fill_cmds]
      (with_chip bench_chip power_on) = Some (rs, w') ->
    hd_error rs = Some 0 ->
    bytes_ack (prog w') <= bytes_written (prog w') /\
    exists new,
      trace w' = trace (with_chip bench_chip power_on) ++ new /\
      StronglySorted Z.le (acks new) /\
      Forall (fun n => n <= bytes_written (prog w')) (acks new) /\
      (sum_wd_len (page_fill_cmds ++ concat []) = 0x800 ->
       Forall (fun r => r = 0) rs ->
       exists pre, acks new = pre ++ [0x800]).
Proof.
  apply (write_session_acks (bench_env NAND_READY NAND_READY)
           no_handler no_handler no_handler bench_chip 0 0x800
           page_fill_cmds [] (with_chip bench_chip power_on)).
  - reflexivity.
  - vm_compute. split; intros H; discriminate H.
  - vm_compute. reflexivity.
  - vm_compute. split; intros H; discriminate H.
  - unfold wd_cmd. vm_compute.
    repeat (constructor; [repeat split; intros H; discriminate H|]).
    constructor.
  - vm_compute. reflexivity.
Defined.

(** The bench session runs as the theorems say: one page of 2048 bytes in
    thirty-four write-data commands, every command returns 0, the page is
    handed over once and the one acknowledgement carries 2048. *)
Example write_session_bench :
  exists w',
    np_run (bench_env NAND_READY NAND_READY) no_handler no_handler no_handler
      1 [cmd_write_start 0 0x800 :: page_fill_cmds]
      (with_chip bench_chip power_on) = Some (repeat 0 35, w') /\
    acks (trace w') = [0x800] /\
    written_bytes (trace w') = repeat x2a 2048 /\
    bytes_written (prog w') = 0x800 /\ bytes_ack (prog w') = 0x800.
Proof.
  eexists. split; [vm_compute; reflexivity|]. vm_compute. repeat split.
Qed.

(** ** The bytes of a session *)

Lemma memcpy_length (dst : list byte) (off : Z) (src : list byte) (n : Z) :
  0 <= off -> 0 <= n -> off + n <= Z.of_nat (length dst) ->
  n <= Z.of_nat (length src) ->
  length (memcpy dst off src n) = length dst.
Proof.
  intros Ho Hn Hd Hs. unfold memcpy.
  rewrite !length_app, !length_firstn, length_skipn. lia.
Qed.

Lemma firstn_memcpy (dst : list byte) (off : Z) (src : list byte) (n : Z) :
  0 <= off -> 0 <= n -> off + n <= Z.of_nat (length dst) ->
  n <= Z.of_nat (length src) ->
  firstn (Z.to_nat (off + n)) (memcpy dst off src n)
  = firstn (Z.to_nat off) dst ++ firstn (Z.to_nat n) src.
Proof.
  intros Ho Hn Hd Hs. unfold memcpy. rewrite app_assoc.
  rewrite firstn_app.
  replace (Z.to_nat (off + n)
           - length (firstn (Z.to_nat off) dst ++ firstn (Z.to_nat n) src))%nat
    with 0%nat by (rewrite length_app, !length_firstn; lia).
  cbn [firstn]. rewrite app_nil_r. apply firstn_all2.
  rewrite length_app, !length_firstn. lia.
Qed.

Lemma firstn_add_skipn (A : Type) (a b : nat) (l : list A) :
  firstn (a + b) l = firstn a l ++ firstn b (skipn a l).
Proof.
  revert l. induction a as [|a IH]; intros l; [reflexivity|].
  destruct l as [|x l]; cbn [Nat.add firstn skipn app].
  - rewrite firstn_nil. reflexivity.
  - rewrite IH. reflexivity.
Qed.

Lemma payload_length (cmd : np_rx_t) :
  wd_cmd cmd -> Z.of_nat (length (payload cmd)) = wd_len cmd.
Proof.
  intros (_ & Hl & Hd). unfold payload. rewrite length_firstn. lia.
Qed.

Lemma payloads_length (cmds : list np_rx_t) :
  Forall wd_cmd cmds ->
  Z.of_nat (length (concat (map payload cmds))) = sum_wd_len cmds.
Proof.
  unfold sum_wd_len.
  induction 1 as [|cmd rest Hc _ IH]; [reflexivity|].
  cbn [map concat fold_right]. rewrite length_app, Nat2Z.inj_add, IH.
  rewrite (payload_length cmd Hc). reflexivity.
Qed.

Lemma ghost_run_bytes (cmds : list np_rx_t) :
  forall s rs,
    length rs = length cmds -> Forall (fun r => r = 0) rs ->
    ghost_run bytes_step (Some s) cmds rs
    = Some (s ++ concat (map payload cmds)).
Proof.
  unfold ghost_run.
  induction cmds as [|cmd rest IH]; intros s [|r rs] Hlen Hall;
    try discriminate Hlen; cbn [combine fold_left map concat fst snd].
  - rewrite app_nil_r. reflexivity.
  - injection Hlen as Hlen. inversion Hall; subst.
    cbn [bytes_step]. change (0 =? 0) with true. cbv iota.
    rewrite IH by assumption. rewrite app_assoc. reflexivity.
Qed.

Section Bytes.

Variable E : env.
Variables h_read_id h_read h_read_bb : nat -> np_rx_t -> M Z.

Lemma wd_finish_page (c : chip_info_t) (cmd : np_rx_t) (wl : Z) (w : world) :
  0 <= wd_len cmd - wl < 2 ^ 32 ->
  page (prog (snd (wd_finish E c cmd wl w))) =
  if wd_len cmd - wl =? 0 then page (prog w)
  else np_page_t.mk
         (memcpy (np_page_t.buf (page (prog w))) 0
                 (skipn (Z.to_nat wl) (wd_data cmd)) (wd_len cmd - wl))
         (np_page_t.page (page (prog w)))
         (u32 (np_page_t.offset (page (prog w)) + (wd_len cmd - wl))).
Proof.
  intros Hr. unfold wd_finish, wd_rest, nonzero. cbv zeta.
  rewrite (u32_small (wd_len cmd - wl)) by lia.
  destruct (wd_ack_due c _); [destruct (negb (comm_send _ _ _ =? 0))|];
    cbn [snd prog]; destruct (wd_len cmd - wl =? 0); reflexivity.
Qed.

(** What a write-data command that returns 0 does to the page buffer and
    to the bytes handed over. *)
Lemma np_cmd_nand_write_data_bytes (fuel : nat) (cmd : np_rx_t)
    (w w' : world) (c : chip_info_t) :
  chip_info (prog w) = Some c ->
  2 ^ 8 <= page_size c <= NP_MAX_PAGE_SIZE ->
  wd_cmd cmd ->
  0 <= np_page_t.offset (page (prog w)) < page_size c ->
  Z.of_nat (length (np_page_t.buf (page (prog w)))) = NP_MAX_PAGE_SIZE ->
  np_cmd_nand_write_data E fuel cmd w = Some (0, w') ->
  chip_info (prog w') = Some c /\
  0 <= np_page_t.offset (page (prog w')) < page_size c /\
  Z.of_nat (length (np_page_t.buf (page (prog w')))) = NP_MAX_PAGE_SIZE /\
  exists new,
    trace w' = trace w ++ new /\
    written_bytes new
    ++ firstn (Z.to_nat (np_page_t.offset (page (prog w'))))
              (np_page_t.buf (page (prog w')))
    = firstn (Z.to_nat (np_page_t.offset (page (prog w))))
             (np_page_t.buf (page (prog w))) ++ payload cmd /\
    Z.of_nat (length (written_bytes new)) mod page_size c = 0.
Proof.
  intros Hci Hps (Hcode & Hl & Hd) Hoff Hbuf Hrun.
  unfold NP_MAX_PAGE_SIZE in *.
  rewrite (np_cmd_nand_write_data_eq E fuel cmd w c Hci) in Hrun.
  repeat match type of Hrun with
         | (if ?b then Some _ else _) = _ => destruct b; [discriminate Hrun|]
         end.
  cbv zeta in Hrun.
  set (off := np_page_t.offset (page (prog w))) in *.
  set (buf := np_page_t.buf (page (prog w))) in *.
  set (l := wd_len cmd) in *.
  set (ps := page_size c) in *.
  set (wl := wd_write_len c (prog w) l) in *.
  assert (Hwl : 0 <= wl <= l /\
                (off + wl = ps \/ off + wl < ps /\ wl = l)).
  { subst wl. unfold wd_write_len. fold off ps.
    rewrite (u32_small (off + l)) by lia.
    destruct (Z.gtb_spec (off + l) ps).
    - rewrite u32_small by lia. lia.
    - lia. }
  destruct Hwl as [Hwl0 Hwl].
  set (buf1 := memcpy buf off (wd_data cmd) wl).
  assert (Hlen1 : Z.of_nat (length buf1) = 2048).
  { unfold buf1. rewrite memcpy_length; lia. }
  assert (Hf1 : firstn (Z.to_nat (off + wl)) buf1
                = firstn (Z.to_nat off) buf ++ firstn (Z.to_nat wl) (wd_data cmd)).
  { apply firstn_memcpy; lia. }
  assert (Hbl : 0 <= l - wl < 2 ^ 32) by lia.
  assert (Hp1 : page (wd_fill c cmd (prog w))
                = np_page_t.mk buf1 (np_page_t.page (page (prog w)))
                               (off + wl)).
  { unfold wd_fill. cbv zeta. rec_simpl. fold off buf l wl buf1.
    rewrite u32_small by lia. reflexivity. }
  assert (Hfin : forall w2 pre pg2 off2,
             page (prog w2) = np_page_t.mk buf1 pg2 off2 ->
             chip_info (prog w2) = Some c ->
             trace w2 = trace w ++ pre ->
             (off2 = off + l /\ wl = l /\ off + l < ps /\
              written_bytes pre = []
              \/
              off2 = 0 /\ off + wl = ps /\
              written_bytes pre = firstn (Z.to_nat ps) buf1) ->
             wd_finish E c cmd wl w2 = (0, w') ->
             chip_info (prog w') = Some c /\
             0 <= np_page_t.offset (page (prog w')) < ps /\
             Z.of_nat (length (np_page_t.buf (page (prog w')))) = 2048 /\
             exists new,
               trace w' = trace w ++ new /\
               written_bytes new
               ++ firstn (Z.to_nat (np_page_t.offset (page (prog w'))))
                         (np_page_t.buf (page (prog w')))
               = firstn (Z.to_nat off) buf ++ payload cmd /\
               Z.of_nat (length (written_bytes new)) mod ps = 0).
  { intros w2 pre pg2 off2 Hp2 Hc2 Ht2 Hcase Hf.
    destruct (wd_finish_frame E c cmd wl w2)
      as (ackev & Hta & _ & Hwa & _ & _ & _ & _ & Hci' & _).
    pose proof (wd_finish_page c cmd wl w2 Hbl) as Hpg.
    rewrite Hf in *. cbn [snd] in *. rewrite Hp2 in Hpg.
    cbn [np_page_t.buf np_page_t.page np_page_t.offset] in Hpg.
    fold l in Hpg. split; [congruence|].
    assert (Htr : trace w' = trace w ++ pre ++ ackev)
      by (rewrite Hta, Ht2, app_assoc; reflexivity).
    unfold payload. fold l.
    destruct Hcase as [(-> & Hwll & Hlt & Hwp)|(-> & Heq & Hwp)].
    - rewrite Hwll, Z.sub_diag in Hpg. change (0 =? 0) with true in Hpg.
      cbv iota in Hpg. rewrite Hpg.
      cbn [np_page_t.buf np_page_t.page np_page_t.offset].
      split; [lia|]. split; [exact Hlen1|]. exists (pre ++ ackev).
      split; [exact Htr|].
      rewrite written_bytes_app, Hwp, Hwa. cbn [app length].
      split; [|apply Zmod_0_l].
      rewrite <- Hwll at 1. rewrite Hf1, Hwll. reflexivity.
    - assert (Hpage : Z.of_nat (length (firstn (Z.to_nat ps) buf1)) mod ps = 0).
      { rewrite length_firstn, Nat2Z.inj_min, Z2Nat.id by lia.
        rewrite Z.min_l by lia. apply Z_mod_same_full. }
      destruct (l - wl =? 0) eqn:Hz.
      + apply Z.eqb_eq in Hz. rewrite Hpg.
        cbn [np_page_t.buf np_page_t.page np_page_t.offset].
        split; [lia|]. split; [exact Hlen1|]. exists (pre ++ ackev).
        split; [exact Htr|].
        rewrite written_bytes_app, Hwp, Hwa, app_nil_r.
        cbn [Z.to_nat firstn]. rewrite app_nil_r.
        split; [|exact Hpage].
        rewrite <- Heq, Hf1. replace wl with l by lia. reflexivity.
      + apply Z.eqb_neq in Hz. rewrite Hpg.
        cbn [np_page_t.buf np_page_t.page np_page_t.offset].
        rewrite Z.add_0_l, u32_small by lia.
        assert (Hsk : l - wl <= Z.of_nat (length (skipn (Z.to_nat wl)
                                                     (wd_data cmd))))
          by (rewrite length_skipn; lia).
        split; [lia|]. split; [rewrite memcpy_length; lia|].
        exists (pre ++ ackev). split; [exact Htr|].
        rewrite written_bytes_app, Hwp, Hwa, app_nil_r.
        split; [|exact Hpage].
        rewrite <- Heq, Hf1.
        pose proof (firstn_memcpy buf1 0 (skipn (Z.to_nat wl) (wd_data cmd))
                      (l - wl)) as Hf2.
        rewrite Z.add_0_l in Hf2. rewrite Hf2 by lia.
        cbn [Z.to_nat firstn app]. rewrite <- app_assoc. f_equal.
        rewrite <- firstn_add_skipn. f_equal. lia. }
  cbn [prog] in Hrun. rewrite Hp1 in Hrun. cbn [np_page_t.offset] in Hrun.
  destruct (off + wl =? ps) eqn:Hflush.
  - apply Z.eqb_eq in Hflush.
    destruct (np_nand_write E fuel c _) as [[rc wf]|] eqn:Hnw;
      [|discriminate Hrun].
    destruct (np_nand_write_spec E fuel c _ rc wf Hnw)
      as (polls & Hp & _ & Hs & _ & _ & Hres).
    destruct Hs as (_ & _ & _ & Hpg & _ & _ & Hc).
    cbn [prog trace] in Hpg, Hc, Hres.
    destruct Hres as [(Hrc & Ht & _)|(Hrc & Ht & _)]; subst rc.
    + change (nonzero 0) with false in Hrun. cbv iota in Hrun.
      injection Hrun as Hrun.
      eapply (Hfin _ (polls ++ [_]) _ 0); [| | | |exact Hrun].
      * unfold wd_advance. rec_simpl. rewrite Hpg, Hp1. reflexivity.
      * unfold wd_advance. rec_simpl. rewrite Hc. exact Hci.
      * cbn [trace]. exact Ht.
      * right. split; [reflexivity|]. split; [exact Hflush|].
        rewrite written_bytes_app, (written_bytes_polls polls Hp).
        rewrite Hp1. cbn. apply app_nil_r.
    + change (nonzero (-1)) with true in Hrun. cbv iota in Hrun.
      discriminate Hrun.
  - apply Z.eqb_neq in Hflush. injection Hrun as Hrun.
    eapply (Hfin _ [] _ (off + wl)); [| | | |exact Hrun].
    + cbn [prog]. exact Hp1.
    + exact Hci.
    + cbn [trace]. symmetry. apply app_nil_r.
    + left. destruct Hwl as [Hwl|[Hwl1 Hwl2]]; [contradiction|].
      rewrite Hwl2 in *. repeat split; [lia].
Qed.

End Bytes.

Section Byte_session.

Variable E : env.
Variables h_read_id h_read h_read_bb : nat -> np_rx_t -> M Z.
Variable c : chip_info_t.
Variable L : Z.
Variable tr0 : list event.
Hypothesis Hps : 2 ^ 8 <= page_size c <= NP_MAX_PAGE_SIZE.

Lemma bytes_inv_cmd (fuel : nat) (g : option (list byte)) (w : world)
    (cmd : np_rx_t) (r : Z) (w' : world) :
  bytes_inv c L tr0 g w -> wd_cmd cmd ->
  np_cmd_handler E h_read_id h_read h_read_bb fuel cmd w = Some (r, w') ->
  bytes_inv c L tr0 (bytes_step g cmd r) w'.
Proof.
  intros Hi Hq Hrun. destruct g as [s|]; [|exact Logic.I].
  cbn [bytes_step]. destruct (r =? 0) eqn:Hr; [|exact Logic.I].
  apply Z.eqb_eq in Hr. subst r.
  destruct Hi as (Hci & HL & Hoff & Hbuf & new & Ht & Hs & Hmod).
  rewrite np_cmd_handler_write_data in Hrun
    by (congruence || (destruct Hq as [Hcode _]; exact Hcode)).
  destruct (np_cmd_nand_write_data_bytes E fuel cmd w w' c
              Hci Hps Hq Hoff Hbuf Hrun)
    as (Hci' & Hoff' & Hbuf' & nw & Ht' & Hs' & Hmod').
  cbn [bytes_inv]. do 4 (split; [assumption|]).
  exists (new ++ nw). split; [rewrite Ht', Ht, app_assoc; reflexivity|].
  rewrite written_bytes_app, <- app_assoc, Hs', app_assoc, Hs.
  split; [reflexivity|].
  rewrite length_app, Nat2Z.inj_add, Z.add_mod, Hmod, Hmod' by lia.
  reflexivity.
Qed.

Lemma bytes_inv_err (g : option (list byte)) (w : world) (e : event) :
  bytes_inv c L tr0 g w -> error_send e ->
  bytes_inv c L tr0 g (mk_world (prog w) (bad_blocks w) (trace w ++ [e])).
Proof.
  intros Hi He. destruct g as [s|]; [|exact Logic.I].
  destruct Hi as (Hci & HL & Hoff & Hbuf & new & Ht & Hs & Hmod).
  cbn [bytes_inv prog trace]. do 4 (split; [assumption|]).
  exists (new ++ [e]). split; [rewrite Ht, app_assoc; reflexivity|].
  assert (He0 : written_bytes [e] = [])
    by (destruct e as [[] ?| | | | | | | | |]; try contradiction; reflexivity).
  rewrite written_bytes_app, He0, app_nil_r. split; assumption.
Qed.

Lemma bytes_inv_poll (g : option (list byte)) (w w' : world) :
  bytes_inv c L tr0 g w -> np_nand_handler E w = Some (tt, w') ->
  bytes_inv c L tr0 g w'.
Proof.
  intros Hi Hpl. destruct g as [s|]; [|exact Logic.I].
  destruct Hi as (Hci & HL & Hoff & Hbuf & new & Ht & Hs & Hmod).
  destruct (np_nand_handler_frame E w) as (w2 & nw & Hrun & Hsame & _ & Ht' & Hp).
  rewrite Hpl in Hrun. injection Hrun as <-.
  destruct Hsame as (_ & _ & _ & Hpg & _ & _ & Hc).
  cbn [bytes_inv]. rewrite Hpg, Hc. do 4 (split; [assumption|]).
  exists (new ++ nw). split; [rewrite Ht', Ht, app_assoc; reflexivity|].
  rewrite written_bytes_app, (written_bytes_polls nw Hp), app_nil_r.
  split; assumption.
Qed.

End Byte_session.

Lemma bytes_inv_start (E : env)
    (h_read_id h_read h_read_bb : nat -> np_rx_t -> M Z) (fuel : nat)
    (c : chip_info_t) (a L : Z) (w0 w1 : world) :
  chip_info (prog w0) = Some c ->
  pow2 (page_size c) ->
  2 ^ 8 <= page_size c <= NP_MAX_PAGE_SIZE ->
  Z.of_nat (length (np_page_t.buf (page (prog w0)))) = NP_MAX_PAGE_SIZE ->
  np_cmd_handler E h_read_id h_read h_read_bb fuel (cmd_write_start a L) w0
  = Some (0, w1) ->
  bytes_inv c L (trace w0) (Some []) w1.
Proof.
  intros Hci Hpow Hps Hbuf Hrun. unfold NP_MAX_PAGE_SIZE in *.
  rewrite np_cmd_handler_write_start in Hrun by (congruence || reflexivity).
  rewrite (np_cmd_nand_write_start_eq E (cmd_write_start a L)
             (mk_world (prog w0) (bad_blocks w0) (trace w0 ++ [EvLedWr true]))
             c Hci) in Hrun.
  cbn [cmd_write_start cmd_addr cmd_len] in Hrun.
  destruct (_ >? size c); [discriminate Hrun|].
  destruct (nonzero (Z.land a _)); [discriminate Hrun|].
  destruct (L =? 0); [discriminate Hrun|].
  destruct (nonzero (Z.land L _)) eqn:Hal; [discriminate Hrun|].
  injection Hrun as <-.
  unfold nonzero in Hal. apply negb_false_iff in Hal. apply Z.eqb_eq in Hal.
  rewrite pow2_mask in Hal by (assumption || lia).
  unfold bytes_inv, ws_begin. cbn.
  split; [exact Hci|]. split; [exact Hal|]. split; [lia|].
  split; [exact Hbuf|].
  eexists. split; [rewrite <- app_assoc; reflexivity|].
  split; [reflexivity|]. apply Zmod_0_l.
Qed.

(** C1, amended: a write-start that succeeds, declaring [L] bytes,
    followed by write-data commands whose lengths sum to [L], spread in any
    way over the commands and over the calls of the main loop, on a chip
    whose page fits the page buffer: the run comes to an end, and when
    every command returned 0 the bytes handed to [nand_write_page_async]
    since the start are the payloads of the write-data commands, one after
    the other. *)
Theorem write_session_bytes (E : env)
    (h_read_id h_read h_read_bb : nat -> np_rx_t -> M Z)
    (c : chip_info_t) (a L : Z) (pending : list np_rx_t)
    (later : list (list np_rx_t)) (w0 : world) :
  chip_info (prog w0) = Some c ->
  pow2 (page_size c) ->
  2 ^ 8 <= page_size c <= NP_MAX_PAGE_SIZE ->
  Z.of_nat (length (np_page_t.buf (page (prog w0)))) = NP_MAX_PAGE_SIZE ->
  0 <= np_page_t.offset (page (prog w0)) <= page_size c ->
  Forall wd_cmd (pending ++ concat later) ->
  sum_wd_len (pending ++ concat later) = L ->
  (exists rs w',
      np_run E h_read_id h_read h_read_bb write_fuel
        ((cmd_write_start a L :: pending) :: later) w0 = Some (rs, w')) /\
  forall fuel rs w',
    np_run E h_read_id h_read h_read_bb fuel
      ((cmd_write_start a L :: pending) :: later) w0 = Some (rs, w') ->
    Forall (fun r => r = 0) rs ->
    exists new,
      trace w' = trace w0 ++ new /\
      written_bytes new = concat (map payload (pending ++ concat later)).
Proof.
  intros Hci Hpow Hps Hbuf _ Hq Hsum. split.
  - apply np_run_write_total. cbn [concat app].
    constructor; [left; reflexivity|].
    eapply Forall_impl; [|exact Hq].
    intros x (Hx & _). right. left. exact Hx.
  - intros fuel rs w' Hrun Hzero.
    assert (Hhd : hd_error rs = Some 0).
    { destruct rs as [|r rs].
      - cbn [np_run] in Hrun. unfold np_handler in Hrun.
        apply bind_inv in Hrun. destruct Hrun as (rs1 & w4 & Hh & Hrun).
        apply bind_inv in Hh. destruct Hh as (rs1' & w3 & Hp & Hh).
        cbn [np_packet_handler] in Hp.
        apply bind_inv in Hp. destruct Hp as (r1 & w1 & _ & Hp).
        apply bind_inv in Hp. destruct Hp as (z & w2 & _ & Hp).
        apply bind_inv in Hp. destruct Hp as (rs2 & w5 & _ & Hp).
        apply bind_inv in Hh. destruct Hh as ([] & w6 & _ & Hh).
        apply bind_inv in Hrun. destruct Hrun as (rs3 & w7 & _ & Hrun).
        inversion Hp; subst. inversion Hh; subst. inversion Hrun.
      - inversion Hzero; subst. reflexivity. }
    destruct (np_run_session_inv E h_read_id h_read h_read_bb fuel
                (option (list byte)) bytes_step
                (bytes_inv c L (trace w0)) wd_cmd
                (bytes_inv_cmd E h_read_id h_read h_read_bb c L (trace w0)
                   Hps fuel)
                (bytes_inv_err c L (trace w0))
                (bytes_inv_poll E c L (trace w0))
                (cmd_write_start a L) pending later (Some []) w0 rs w'
                (fun w1 => bytes_inv_start E h_read_id h_read h_read_bb fuel
                             c a L w0 w1 Hci Hpow Hps Hbuf)
                Hq Hrun Hhd)
      as (rs' & Hrs & Hlen & Hinv).
    subst rs. pose proof (Forall_inv_tail Hzero) as Hzero'.
    rewrite (ghost_run_bytes _ [] rs' Hlen Hzero') in Hinv.
    cbn [app bytes_inv] in Hinv.
    destruct Hinv as (_ & HL & Hoff & Hbuf' & new & Ht & Hs & Hmod).
    exists new. split; [exact Ht|].
    pose proof (payloads_length _ Hq) as Hplen.
    rewrite <- Hs, length_app, Nat2Z.inj_add, length_firstn in Hplen.
    unfold NP_MAX_PAGE_SIZE in *.
    rewrite Nat2Z.inj_min, Z2Nat.id, Z.min_l in Hplen by lia.
    assert (Hoff0 : np_page_t.offset (page (prog w')) = 0).
    { rewrite <- (Z.mod_small _ (page_size c) Hoff).
      replace (np_page_t.offset (page (prog w')))
        with (L - Z.of_nat (length (written_bytes new))) by lia.
      rewrite Zminus_mod, HL, Hmod. reflexivity. }
    rewrite Hoff0 in Hs. cbn [Z.to_nat firstn] in Hs.
    rewrite app_nil_r in Hs. exact Hs.
Qed.

Lemma write_session_bytes_witness :
  (exists rs w',
      np_run (bench_env NAND_READY NAND_READY) no_handler no_handler no_handler
        write_fuel
        [cmd_write_start 0 0x800 :: repeat (cmd_fill x2a 62) 33;
         [cmd_fill x2a 2]]
        (with_chip bench_chip power_on) = Some (rs, w')) /\
  forall fuel rs w',
    np_run (bench_env NAND_READY NAND_READY) no_handler no_handler no_handler
      fuel
      [cmd_write_start 0 0x800 :: repeat (cmd_fill x2a 62) 33;
       [cmd_fill x2a 2]]
      (with_chip bench_chip power_on) = Some (rs, w') ->
    Forall (fun r => r = 0) rs ->
    exists new,
      trace w' = trace (with_chip bench_chip power_on) ++ new /\
      written_bytes new
      = concat (map payload (repeat (cmd_fill x2a 62) 33
                             ++ concat [[cmd_fill x2a 2]])).
Proof.
  apply (write_session_bytes (bench_env NAND_READY NAND_READY)
           no_handler no_handler no_handler bench_chip 0 0x800
           (repeat (cmd_fill x2a 62) 33) [[cmd_fill x2a 2]]
           (with_chip bench_chip power_on)).
  - reflexivity.
  - split; [reflexivity|]. vm_compute. reflexivity.
  - vm_compute. split; intros H; discriminate H.
  - vm_compute. reflexivity.
  - vm_compute. split; intros H; discriminate H.
  - unfold wd_cmd. vm_compute.
    repeat (constructor; [repeat split; intros H; discriminate H|]).
    constructor.
  - vm_compute. reflexivity.
Defined.

(** The session that refutes C1 and C3 as first written down: two pages
    sent in one call of the main loop to a flash whose status register
    reads an unknown value.  The first page is handed over; when the second
    is full, the wait for the first reads the unknown status and the
    write-data command fails with NP_ERR_NAND_WR before the page is handed
    over. *)
Lemma write_session_failed_wait :
  exists rs w',
    np_run (bench_env (NAND_UNKNOWN 7) NAND_READY)
      no_handler no_handler no_handler 1
      [cmd_write_start 0 0x1000 :: page_fill_cmds ++ page_fill_cmds]
      (with_chip bench_chip power_on) = Some (rs, w') /\
    rs = repeat 0 68 ++ [NP_ERR_NAND_WR] /\
    written_bytes (trace w') = repeat x2a 2048 /\
    acks (trace w') = [0x800].
Proof.
  eexists _, _. split; [vm_compute; reflexivity|].
  split; [reflexivity|]. split; vm_compute; reflexivity.
Qed.

Lemma page_fill_cmds_wd : Forall wd_cmd (page_fill_cmds ++ page_fill_cmds).
Proof.
  unfold wd_cmd. vm_compute.
  repeat (constructor; [repeat split; intros H; discriminate H|]).
  constructor.
Qed.

(** C1, as first written down, fails: in that session the lengths sum to
    the 4096 bytes declared, and 2048 bytes are handed over. *)
Lemma write_bytes_claim_fails : ~ write_bytes_claim.
Proof.
  intros H.
  destruct write_session_failed_wait as (rs & w' & Hrun & Hrs & Hwb & _).
  assert (Hhd : hd_error rs = Some 0) by (rewrite Hrs; reflexivity).
  assert (Hq : Forall wd_cmd ((page_fill_cmds ++ page_fill_cmds) ++ concat []))
    by (cbn [concat]; rewrite app_nil_r; exact page_fill_cmds_wd).
  pose proof (H (bench_env (NAND_UNKNOWN 7) NAND_READY)
                no_handler no_handler no_handler bench_chip 0 0x1000
                (page_fill_cmds ++ page_fill_cmds) []
                (with_chip bench_chip power_on) 1%nat rs w' (trace w')
                eq_refl (conj eq_refl eq_refl)
                ltac:(vm_compute; split; intros H0; discriminate H0)
                eq_refl
                ltac:(vm_compute; split; intros H0; discriminate H0)
                Hq eq_refl Hrun Hhd eq_refl) as Hbad.
  rewrite Hwb in Hbad. apply (f_equal (@length byte)) in Hbad.
  vm_compute in Hbad. discriminate Hbad.
Qed.

(** C3, as first written down, fails: in the same session the lengths
    sum to the 4096 bytes declared, and the one write-ack sent carries
    2048. *)
Lemma write_acks_claim_fails : ~ write_acks_claim.
Proof.
  intros H.
  destruct write_session_failed_wait as (rs & w' & Hrun & Hrs & _ & Hacks).
  assert (Hhd : hd_error rs = Some 0) by (rewrite Hrs; reflexivity).
  assert (Hq : Forall wd_cmd ((page_fill_cmds ++ page_fill_cmds) ++ concat []))
    by (cbn [concat]; rewrite app_nil_r; exact page_fill_cmds_wd).
  destruct (H (bench_env (NAND_UNKNOWN 7) NAND_READY)
              no_handler no_handler no_handler bench_chip 0 0x1000
              (page_fill_cmds ++ page_fill_cmds) []
              (with_chip bench_chip power_on) 1%nat rs w' (trace w')
              eq_refl
              ltac:(vm_compute; split; intros H0; discriminate H0)
              eq_refl
              ltac:(vm_compute; split; intros H0; discriminate H0)
              Hq eq_refl Hrun Hhd eq_refl) as (pre & Hbad).
  rewrite Hacks in Hbad.
  destruct pre as [|x pre]; cbn [app] in Hbad; [discriminate Hbad|].
  injection Hbad as _ Hbad. destruct pre; discriminate Hbad.
Qed.

(** The same page sent in two calls of the main loop: the bytes handed
    over are the same. *)
Example write_session_two_calls :
  exists w',
    np_run (bench_env NAND_READY NAND_READY) no_handler no_handler no_handler
      1 [cmd_write_start 0 0x800 :: repeat (cmd_fill x2a 62) 33;
         [cmd_fill x2a 2]]
      (with_chip bench_chip power_on) = Some (repeat 0 35, w') /\
    written_bytes (trace w') = repeat x2a 2048 /\
    acks (trace w') = [0x800].
Proof.
  eexists. split; [vm_compute; reflexivity|]. vm_compute. split; reflexivity.
Qed.

(** * Further properties of the command layer *)

(** ** The handler table *)

Section Table.

Variable E : env.
Variables h_read_id h_read h_read_bb : nat -> np_rx_t -> M Z.

Let table := cmd_handler E h_read_id h_read h_read_bb.

Lemma np_cmd_is_valid_range (z : Z) :
  np_cmd_is_valid z = true <-> 0 <= z < 8.
Proof.
  unfold np_cmd_is_valid, NP_CMD_NAND_LAST.
  rewrite andb_true_iff, Z.geb_le, Z.ltb_lt. lia.
Qed.

Lemma cmd_handler_lookup (z : Z) :
  0 <= z < 8 ->
  exists h, nth_error table (Z.to_nat z) = Some h /\ id h = z.
Proof.
  intros Hz.
  assert (Hc : z = 0 \/ z = 1 \/ z = 2 \/ z = 3 \/ z = 4 \/ z = 5 \/ z = 6
               \/ z = 7) by lia.
  repeat (destruct Hc as [->|Hc]; [eexists; split; reflexivity|]).
  subst z. eexists. split; reflexivity.
Qed.

(** X1: with a chip selected, an opcode outside 0..7 is answered with
    NP_ERR_CMD_INVALID and nothing else happens; an opcode inside the range
    always finds its entry in [cmd_handler] (the table is never indexed
    past its end), the entry is the only one registered under that opcode,
    and the dispatcher does what that entry's handler does. *)
Theorem np_cmd_handler_table_dispatch (fuel : nat) (cmd : np_rx_t)
    (w : world) :
  chip_info (prog w) <> None ->
  NoDup (map id table) /\
  (~ 0 <= code cmd < 8 ->
   np_cmd_handler E h_read_id h_read h_read_bb fuel cmd w
   = Some (NP_ERR_CMD_INVALID, w)) /\
  (0 <= code cmd < 8 ->
   exists h,
     nth_error table (Z.to_nat (code cmd)) = Some h /\ id h = code cmd /\
     np_cmd_handler E h_read_id h_read h_read_bb fuel cmd w
     = exec h fuel cmd w).
Proof.
  intros Hc. split; [|split].
  - cbn. repeat (constructor; [cbn; intuition discriminate|]). constructor.
  - intros Hz. unfold np_cmd_handler, np_cmd_dispatch.
    rewrite bind_get.
    destruct (chip_info (prog w)); [|contradiction]. cbn [andb].
    destruct (np_cmd_is_valid (code cmd)) eqn:Hv; [|reflexivity].
    apply np_cmd_is_valid_range in Hv. contradiction.
  - intros Hz. destruct (cmd_handler_lookup (code cmd) Hz) as (h & Hn & Hid).
    exists h. split; [exact Hn|]. split; [exact Hid|].
    unfold np_cmd_handler, np_cmd_dispatch.
    rewrite bind_get.
    destruct (chip_info (prog w)); [|contradiction]. cbn [andb].
    apply np_cmd_is_valid_range in Hz. rewrite Hz. cbn [negb].
    fold table. rewrite Hn. reflexivity.
Qed.

End Table.

Lemma np_cmd_handler_table_dispatch_witness :
  NoDup (map id (cmd_handler (bench_env NAND_READY NAND_READY)
                   no_handler no_handler no_handler)) /\
  (~ 0 <= code (mk_rx 9 0 0 0 0 []) < 8 ->
   np_cmd_handler (bench_env NAND_READY NAND_READY)
     no_handler no_handler no_handler 0 (mk_rx 9 0 0 0 0 [])
     (with_chip bench_chip power_on)
   = Some (NP_ERR_CMD_INVALID, with_chip bench_chip power_on)) /\
  (0 <= code (mk_rx 9 0 0 0 0 []) < 8 ->
   exists h,
     nth_error (cmd_handler (bench_env NAND_READY NAND_READY)
                  no_handler no_handler no_handler)
       (Z.to_nat (code (mk_rx 9 0 0 0 0 []))) = Some h /\
     id h = code (mk_rx 9 0 0 0 0 []) /\
     np_cmd_handler (bench_env NAND_READY NAND_READY)
       no_handler no_handler no_handler 0 (mk_rx 9 0 0 0 0 [])
       (with_chip bench_chip power_on)
     = exec h 0%nat (mk_rx 9 0 0 0 0 []) (with_chip bench_chip power_on)).
Proof.
  apply (np_cmd_handler_table_dispatch (bench_env NAND_READY NAND_READY)
           no_handler no_handler no_handler 0 (mk_rx 9 0 0 0 0 [])
           (with_chip bench_chip power_on)).
  discriminate.
Defined.

(** ** The poller's error response and its busy count *)

Section Poll_errors.

Variable E : env.
Variables h_read_id h_read h_read_bb : nat -> np_rx_t -> M Z.

Lemma np_nand_handler_eq (w : world) :
  nand_wr_in_progress (prog w) = true ->
  np_nand_handler E w =
  match np_nand_handle_status E w with
  | Some (rc, w1) =>
      if nonzero rc
      then Some (tt, mk_world (prog w1) (bad_blocks w1)
                       (trace w1
                        ++ [EvSend (NP_STATUS_ERROR (u8 NP_ERR_NAND_WR))
                              (comm_send E (trace w1)
                                 (NP_STATUS_ERROR (u8 NP_ERR_NAND_WR)))]))
      else Some (tt, w1)
  | None => None
  end.
Proof.
  intros Hf. unfold np_nand_handler. rewrite bind_get, Hf.
  unfold bind at 1. destruct (np_nand_handle_status E w) as [[rc w1]|];
    [|reflexivity].
  destruct (nonzero rc); reflexivity.
Qed.

(** X2: the two places that report a failed write do not agree on the
    code byte.  A poll of a pending write that reads a status other than
    ready, error and busy clears the flag and the counter and sends an
    error status whose code byte is 153 (NP_ERR_NAND_WR, -103, passed as a
    [uint8_t] without negation); a write-end on a page buffer that is not
    empty returns the same NP_ERR_NAND_WR and np_packet_handler answers it
    with an error status whose code byte is 103. *)
Theorem np_nand_handler_error_byte (fuel : nat) (w : world) :
  chip_info (prog w) <> None ->
  (nand_wr_in_progress (prog w) = true ->
   nand_read_status E (trace w) <> NAND_READY ->
   nand_read_status E (trace w) <> NAND_ERROR ->
   nand_read_status E (trace w) <> NAND_BUSY ->
   exists rc,
     np_nand_handler E w
     = Some (tt,
             mk_world (set_nand_timeout 0
                         (set_nand_wr_in_progress false (prog w)))
               (bad_blocks w)
               (trace w ++ [EvReadStatus (nand_read_status E (trace w));
                            EvSend (NP_STATUS_ERROR 153) rc]))) /\
  (np_page_t.offset (page (prog w)) <> 0 ->
   exists rc,
     np_packet_handler E h_read_id h_read h_read_bb fuel [cmd_write_end] w
     = Some ([NP_ERR_NAND_WR],
             mk_world (set_addr_is_set false (prog w)) (bad_blocks w)
               (trace w ++ [EvLedWr false;
                            EvSend (NP_STATUS_ERROR 103) rc]))).
Proof.
  intros Hc. split.
  - intros Hf H1 H2 H3. rewrite (np_nand_handler_eq w Hf).
    rewrite np_nand_handle_status_eq. cbv zeta.
    destruct (nand_read_status E (trace w)); try contradiction;
      change (nonzero (-1)) with true; cbv iota; cbn [prog bad_blocks trace];
      rewrite <- app_assoc; eexists; reflexivity.
  - intros Hoff. cbn [np_packet_handler].
    rewrite (bind_eq _ _ w NP_ERR_NAND_WR
               (mk_world (set_addr_is_set false (prog w)) (bad_blocks w)
                  (trace w ++ [EvLedWr false]))).
    + change (NP_ERR_NAND_WR <? 0) with true. cbv iota.
      run_prims. cbn [prog bad_blocks trace]. rewrite <- app_assoc.
      eexists. reflexivity.
    + rewrite np_cmd_handler_write_end by (assumption || reflexivity).
      unfold np_cmd_nand_write_end. rewrite bind_assoc, bind_modify.
      rewrite bind_assoc, bind_get. cbn [prog]. rec_simpl.
      apply nonzero_true in Hoff. rewrite Hoff. reflexivity.
Qed.

(** X3: a pending write that stays busy is given up after exactly
    NP_NAND_TIMEOUT polls, counted over the calls of np_handler.  With a
    status register that always reads busy and no command arriving, [n]
    calls that leave the counter below NP_NAND_TIMEOUT only count: the
    write stays pending and nothing is sent; the call that brings the
    counter to NP_NAND_TIMEOUT clears the flag and the counter and sends
    the error status. *)
Theorem np_nand_handler_busy_count (fuel : nat) (n : nat) :
  (forall tr, nand_read_status E tr = NAND_BUSY) ->
  forall w,
    nand_wr_in_progress (prog w) = true ->
    0 <= nand_timeout (prog w) ->
    nand_timeout (prog w) + Z.of_nat n < NP_NAND_TIMEOUT ->
    np_run E h_read_id h_read h_read_bb fuel (repeat [] n) w
    = Some ([], mk_world
                  (set_nand_timeout (nand_timeout (prog w) + Z.of_nat n)
                     (prog w))
                  (bad_blocks w)
                  (trace w ++ repeat (EvReadStatus NAND_BUSY) n)) /\
    (nand_timeout (prog w) + Z.of_nat n + 1 = NP_NAND_TIMEOUT ->
     exists rc,
       np_run E h_read_id h_read h_read_bb fuel (repeat [] (S n)) w
       = Some ([], mk_world
                     (set_nand_timeout 0
                        (set_nand_wr_in_progress false (prog w)))
                     (bad_blocks w)
                     (trace w ++ repeat (EvReadStatus NAND_BUSY) (S n)
                      ++ [EvSend (NP_STATUS_ERROR 153) rc]))).
Proof.
  intros Hbusy. pose proof NP_NAND_TIMEOUT_range as Hrange.
  assert (Hstep : forall ticks w,
             nand_wr_in_progress (prog w) = true ->
             0 <= nand_timeout (prog w) ->
             nand_timeout (prog w) + 1 < NP_NAND_TIMEOUT ->
             np_run E h_read_id h_read h_read_bb fuel ([] :: ticks) w
             = np_run E h_read_id h_read h_read_bb fuel ticks
                 (mk_world (set_nand_timeout (nand_timeout (prog w) + 1)
                              (prog w))
                    (bad_blocks w)
                    (trace w ++ [EvReadStatus NAND_BUSY]))).
  { intros ticks w Hf Ht Hlt. cbn [np_run]. unfold np_handler.
    cbn [np_packet_handler]. rewrite bind_assoc, bind_ret, bind_assoc.
    unfold bind at 1. rewrite (np_nand_handler_eq w Hf).
    rewrite np_nand_handle_status_eq, Hbusy. cbv zeta.
    rewrite u32_small by lia.
    replace (nand_timeout (prog w) + 1 =? NP_NAND_TIMEOUT) with false
      by (symmetry; apply Z.eqb_neq; lia).
    change (nonzero 0) with false. cbv iota. rewrite bind_ret.
    unfold bind.
    destruct (np_run E h_read_id h_read h_read_bb fuel ticks _)
      as [[rs w1]|]; reflexivity. }
  assert (Hlast : forall w,
             nand_wr_in_progress (prog w) = true ->
             0 <= nand_timeout (prog w) ->
             nand_timeout (prog w) + 1 = NP_NAND_TIMEOUT ->
             exists rc,
               np_run E h_read_id h_read h_read_bb fuel [[]] w
               = Some ([], mk_world
                             (set_nand_timeout 0
                                (set_nand_wr_in_progress false (prog w)))
                             (bad_blocks w)
                             (trace w ++ [EvReadStatus NAND_BUSY;
                                          EvSend (NP_STATUS_ERROR 153) rc]))).
  { intros w Hf Ht Heq. cbn [np_run]. unfold np_handler.
    cbn [np_packet_handler]. rewrite bind_assoc, bind_ret, bind_assoc.
    unfold bind at 1. rewrite (np_nand_handler_eq w Hf).
    rewrite np_nand_handle_status_eq, Hbusy. cbv zeta.
    rewrite u32_small by lia.
    replace (nand_timeout (prog w) + 1 =? NP_NAND_TIMEOUT) with true
      by (symmetry; apply Z.eqb_eq; lia).
    change (nonzero (-1)) with true. cbv iota. cbn [prog bad_blocks trace].
    rewrite <- app_assoc. eexists. reflexivity. }
  induction n as [|n IH]; intros w Hf Ht Hlt.
  - split.
    + cbn [repeat np_run]. rewrite Z.add_0_r, app_nil_r.
      destruct w as [[] ? ?]. reflexivity.
    + intros Heq. cbn [repeat app]. apply Hlast; [assumption|assumption|lia].
  - set (w1 := mk_world (set_nand_timeout (nand_timeout (prog w) + 1) (prog w))
                 (bad_blocks w) (trace w ++ [EvReadStatus NAND_BUSY])).
    assert (Hf1 : nand_wr_in_progress (prog w1) = true) by exact Hf.
    assert (Ht1 : nand_timeout (prog w1) = nand_timeout (prog w) + 1)
      by reflexivity.
    destruct (IH w1 Hf1 ltac:(lia) ltac:(lia)) as [IH1 IH2].
    split.
    + change (repeat [] (S n)) with (@nil np_rx_t :: repeat [] n).
      rewrite Hstep by (assumption || lia). fold w1. rewrite IH1.
      rewrite Ht1. unfold w1. cbn [prog bad_blocks trace]. rec_simpl.
      rewrite <- app_assoc. cbn [app repeat].
      replace (nand_timeout (prog w) + Z.of_nat (S n))
        with (nand_timeout (prog w) + 1 + Z.of_nat n) by lia.
      reflexivity.
    + intros Heq.
      change (repeat [] (S (S n))) with (@nil np_rx_t :: repeat [] (S n)).
      rewrite Hstep by (assumption || lia). fold w1.
      destruct IH2 as (rc & IH2); [lia|]. exists rc. rewrite IH2.
      unfold w1. cbn [prog bad_blocks trace]. rec_simpl.
      rewrite <- app_assoc. reflexivity.
Qed.

End Poll_errors.


(** A page write is pending and 62 bytes of the next page are in the
    buffer; the status register reads an unknown value. *)
Lemma np_nand_handler_error_byte_witness :
  (exists rc,
     np_nand_handler (bench_env (NAND_UNKNOWN 7) NAND_READY)
       (with_fill 62 (with_pending_write 0 (with_chip bench_chip power_on)))
     = Some (tt,
             mk_world (set_nand_timeout 0
                         (set_nand_wr_in_progress false
                            (prog (with_fill 62
                                     (with_pending_write 0
                                        (with_chip bench_chip power_on))))))
               []
               [EvReadStatus (NAND_UNKNOWN 7);
                EvSend (NP_STATUS_ERROR 153) rc])) /\
  (exists rc,
     np_packet_handler (bench_env (NAND_UNKNOWN 7) NAND_READY)
       no_handler no_handler no_handler 0 [cmd_write_end]
       (with_fill 62 (with_pending_write 0 (with_chip bench_chip power_on)))
     = Some ([NP_ERR_NAND_WR],
             mk_world (set_addr_is_set false
                         (prog (with_fill 62
                                  (with_pending_write 0
                                     (with_chip bench_chip power_on)))))
               []
               [EvLedWr false; EvSend (NP_STATUS_ERROR 103) rc])).
Proof.
  destruct (np_nand_handler_error_byte (bench_env (NAND_UNKNOWN 7) NAND_READY)
              no_handler no_handler no_handler 0
              (with_fill 62 (with_pending_write 0
                               (with_chip bench_chip power_on))))
    as [Hpoll Hend]; [discriminate|].
  split.
  - apply Hpoll; [reflexivity|discriminate|discriminate|discriminate].
  - apply Hend. cbn. discriminate.
Defined.

(** Both on the bench: the session of one page and 62 bytes, polled while
    the status reads an unknown value, and then ended. *)
Example np_nand_handler_error_byte_bench :
  exists w',
    np_run (bench_env (NAND_UNKNOWN 7) NAND_READY)
      no_handler no_handler no_handler 1
      [cmd_write_start 0 0x1000 :: page_fill_cmds ++ [cmd_fill x2a 62];
       [cmd_write_end]]
      (with_chip bench_chip power_on)
    = Some (repeat 0 36 ++ [NP_ERR_NAND_WR], w') /\
    responses (trace w')
    = [NP_STATUS_OK; NP_STATUS_WRITE_ACK 0x800; NP_STATUS_ERROR 153;
       NP_STATUS_ERROR 103].
Proof.
  eexists. split; vm_compute; reflexivity.
Qed.

Lemma np_nand_handler_busy_count_witness :
  np_run (bench_env NAND_BUSY NAND_READY) no_handler no_handler no_handler
    0 (repeat [] 2)
    (with_pending_write (NP_NAND_TIMEOUT - 3) (with_chip bench_chip power_on))
  = Some ([], mk_world
                (set_nand_timeout
                   (nand_timeout
                      (prog (with_pending_write (NP_NAND_TIMEOUT - 3)
                               (with_chip bench_chip power_on)))
                    + Z.of_nat 2)
                   (prog (with_pending_write (NP_NAND_TIMEOUT - 3)
                            (with_chip bench_chip power_on))))
                (bad_blocks (with_pending_write (NP_NAND_TIMEOUT - 3)
                               (with_chip bench_chip power_on)))
                (trace (with_pending_write (NP_NAND_TIMEOUT - 3)
                          (with_chip bench_chip power_on))
                 ++ repeat (EvReadStatus NAND_BUSY) 2)) /\
  (nand_timeout (prog (with_pending_write (NP_NAND_TIMEOUT - 3)
                         (with_chip bench_chip power_on)))
   + Z.of_nat 2 + 1 = NP_NAND_TIMEOUT ->
   exists rc,
     np_run (bench_env NAND_BUSY NAND_READY) no_handler no_handler no_handler
       0 (repeat [] 3)
       (with_pending_write (NP_NAND_TIMEOUT - 3)
          (with_chip bench_chip power_on))
     = Some ([], mk_world
                   (set_nand_timeout 0
                      (set_nand_wr_in_progress false
                         (prog (with_pending_write (NP_NAND_TIMEOUT - 3)
                                  (with_chip bench_chip power_on)))))
                   (bad_blocks (with_pending_write (NP_NAND_TIMEOUT - 3)
                                  (with_chip bench_chip power_on)))
                   (trace (with_pending_write (NP_NAND_TIMEOUT - 3)
                             (with_chip bench_chip power_on))
                    ++ repeat (EvReadStatus NAND_BUSY) 3
                    ++ [EvSend (NP_STATUS_ERROR 153) rc]))).
Proof.
  apply (np_nand_handler_busy_count (bench_env NAND_BUSY NAND_READY)
           no_handler no_handler no_handler 0 2).
  - intros tr. reflexivity.
  - reflexivity.
  - vm_compute. discriminate.
  - vm_compute. reflexivity.
Defined.

(** ** The answer to an erase command *)

Lemma responses_app tr1 tr2 :
  responses (tr1 ++ tr2) = responses tr1 ++ responses tr2.
Proof. apply flat_map_app. Qed.

Section Erase_answer.

Variable E : env.
Variables h_read_id h_read h_read_bb : nat -> np_rx_t -> M Z.

Lemma np_cmd_handler_erase (fuel : nat) (cmd : np_rx_t) (w : world) :
  chip_info (prog w) <> None ->
  code cmd = NP_CMD_NAND_ERASE ->
  np_cmd_handler E h_read_id h_read h_read_bb fuel cmd w
  = np_cmd_nand_erase E fuel cmd w.
Proof.
  intros Hc Hcode. unfold np_cmd_handler, np_cmd_dispatch.
  rewrite bind_get, Hcode.
  destruct (chip_info (prog w)); [|contradiction]. reflexivity.
Qed.

(** The loop sends bad-block responses only, and the ok status at its
    end exactly when it returns 0. *)
Lemma np_erase_loop_responses (cmd : np_rx_t) (fuel : nat) :
  forall a pg pib l w r w',
    np_erase_loop E fuel cmd a pg pib l w = Some (r, w') ->
    exists new pre,
      trace w' = trace w ++ new /\ prog w' = prog w /\
      Forall bad_block_resp pre /\
      responses new = pre ++ (if r =? 0 then [NP_STATUS_OK] else []) /\
      (r = 0 \/ r = NP_ERR_ADDR_EXCEEDED \/ r = -1 \/ r = NP_ERR_NAND_ERASE).
Proof.
  induction fuel as [|f IH]; intros a pg pib l w r w' Hrun;
    cbn [np_erase_loop] in Hrun;
    destruct (l =? 0);
    try (rewrite np_send_ok_status_eq in Hrun; inversion Hrun; subst;
         exists [EvSend NP_STATUS_OK (comm_send E (trace w) NP_STATUS_OK)], [];
         cbn; repeat split; auto).
  - discriminate Hrun.
  - destruct (chip_info (prog w)) as [c|] eqn:Hc;
      [|unfold bind, get_chip in Hrun; rewrite Hc in Hrun; discriminate Hrun].
    rewrite (bind_eq get_chip _ w c w) in Hrun
      by (unfold get_chip; rewrite Hc; reflexivity).
    destruct (a >=? size c).
    { inversion Hrun; subst. exists [], []. rewrite app_nil_r.
      cbn. repeat split; auto. }
    rewrite (bind_eq _ _ _ _ _ (nand_bad_block_table_lookup_eq a w)) in Hrun.
    set (w1 := mk_world (prog w) (bad_blocks w)
                 (trace w ++ [EvBadBlockLookup a
                                (existsb (Z.eqb a) (bad_blocks w))])) in *.
    destruct (existsb (Z.eqb a) (bad_blocks w)) eqn:Hbad.
    + rewrite (bind_eq _ _ _ _ _ (np_send_bad_block_info_eq E a w1)) in Hrun.
      set (rc := comm_send E (trace w1) (NP_STATUS_BAD_BLOCK a)) in *.
      set (w2 := mk_world (prog w1) (bad_blocks w1)
                   (trace w1 ++ [EvSend (NP_STATUS_BAD_BLOCK a) rc])) in *.
      destruct (nonzero rc).
      * change (nonzero (-1)) with true in Hrun. cbv iota in Hrun.
        inversion Hrun; subst r w'.
        exists [EvBadBlockLookup a true; EvSend (NP_STATUS_BAD_BLOCK a) rc],
               [NP_STATUS_BAD_BLOCK a].
        unfold w2, w1. cbn [prog bad_blocks trace]. rewrite <- app_assoc.
        cbn. repeat split; auto. constructor; [exact Logic.I|constructor].
      * change (nonzero 0) with false in Hrun. cbv iota in Hrun.
        cbn [negb] in Hrun. rewrite bind_ret in Hrun.
        change (nonzero 0) with false in Hrun. cbv iota in Hrun.
        destruct (IH _ _ _ _ _ _ _ Hrun)
          as (new & pre & Ht & Hp & Hpre & Hresp & Hr).
        exists ([EvBadBlockLookup a true; EvSend (NP_STATUS_BAD_BLOCK a) rc]
                ++ new), (NP_STATUS_BAD_BLOCK a :: pre).
        rewrite Ht, Hp. unfold w2, w1. cbn [prog bad_blocks trace].
        rewrite <- !app_assoc. split; [reflexivity|]. split; [reflexivity|].
        split; [constructor; [exact Logic.I|exact Hpre]|].
        rewrite responses_app, Hresp. split; [reflexivity|exact Hr].
    + rewrite bind_ret in Hrun.
      change (nonzero 0) with false in Hrun. cbv iota in Hrun.
      cbn [negb] in Hrun.
      apply bind_inv in Hrun. destruct Hrun as (rc' & w2 & Her & Hrun).
      destruct (np_nand_erase_spec E c pg w1 Hc)
        as (r0 & tail & Her' & Htail & _).
      rewrite Her' in Her. inversion Her; subst rc' w2. clear Her.
      assert (Htl : exists pre0, Forall bad_block_resp pre0 /\
                                 responses tail = pre0).
      { destruct Htail as [->|(rc & ->)].
        - exists []. split; [constructor|reflexivity].
        - eexists. split; [|reflexivity]. constructor; [exact Logic.I|constructor]. }
      destruct Htl as (pre0 & Hpre0 & Hresp0).
      destruct (nonzero r0).
      * inversion Hrun; subst r w'.
        eexists (EvBadBlockLookup a false :: EvEraseBlock pg _ :: tail), pre0.
        unfold w1. cbn [prog bad_blocks trace]. rewrite <- app_assoc.
        split; [reflexivity|]. split; [reflexivity|].
        split; [exact Hpre0|]. cbn. rewrite app_nil_r.
        split; [exact Hresp0|auto].
      * destruct (IH _ _ _ _ _ _ _ Hrun)
          as (new & pre & Ht & Hp & Hpre & Hresp & Hr).
        eexists (EvBadBlockLookup a false :: EvEraseBlock pg _ :: tail ++ new),
                (pre0 ++ pre).
        rewrite Ht, Hp. unfold w1. cbn [prog bad_blocks trace].
        rewrite <- !app_assoc. split; [reflexivity|]. split; [reflexivity|].
        split; [apply Forall_app; split; assumption|].
        split; [|exact Hr].
        change (responses (_ :: _ :: tail ++ new))
          with (responses (tail ++ new)).
        rewrite responses_app, Hresp, Hresp0. reflexivity.
Qed.


Lemma np_cmd_nand_erase_responses (fuel : nat) (cmd : np_rx_t) (w : world)
    (r : Z) (w' : world) :
  np_cmd_nand_erase E fuel cmd w = Some (r, w') ->
  exists new pre,
    trace w' = trace w ++ new /\ prog w' = prog w /\
    Forall bad_block_resp pre /\
    responses new = pre ++ (if r =? 0 then [NP_STATUS_OK] else []) /\
    -113 <= r <= 0.
Proof.
  intros Hrun. unfold np_cmd_nand_erase in Hrun.
  apply bind_inv in Hrun. destruct Hrun as ([] & w0 & Hled & Hrun).
  inversion Hled; subst w0; clear Hled.
  apply bind_inv in Hrun. destruct Hrun as (r1 & w1 & Hrun & Hrest).
  inversion Hrest; subst r1 w'; clear Hrest.
  set (w0 := mk_world (prog w) (bad_blocks w) (trace w ++ [EvLedWr true])) in *.
  assert (Hmid : exists new pre,
             trace w1 = trace w0 ++ new /\ prog w1 = prog w0 /\
             Forall bad_block_resp pre /\
             responses new = pre ++ (if r =? 0 then [NP_STATUS_OK] else []) /\
             -113 <= r <= 0).
  { unfold _np_cmd_nand_erase in Hrun.
    apply bind_inv in Hrun. destruct Hrun as (c & w0' & Hc & Hrun).
    unfold get_chip in Hc. destruct (chip_info (prog w0)); [|discriminate Hc].
    inversion Hc; subst w0'; clear Hc. cbv zeta in Hrun.
    repeat match type of Hrun with
           | (if ?b then ret _ else _) _ = _ =>
               destruct b;
               [inversion Hrun; subst; exists [], []; rewrite app_nil_r;
                repeat split; (constructor || discriminate)|]
           end.
    destruct (np_erase_loop_responses cmd fuel _ _ _ _ _ _ _ Hrun)
      as (new & pre & Ht & Hp & Hpre & Hresp & Hr).
    exists new, pre. do 4 (split; [assumption|]).
    destruct Hr as [->|[->|[->| ->]]]; split; discriminate. }
  destruct Hmid as (new & pre & Ht & Hp & Hpre & Hresp & Hr).
  exists (EvLedWr true :: new ++ [EvLedWr false]), pre.
  cbn [prog bad_blocks trace]. rewrite Ht, Hp. unfold w0.
  cbn [prog bad_blocks trace]. rewrite <- !app_assoc.
  split; [reflexivity|]. split; [reflexivity|]. split; [exact Hpre|].
  split; [|exact Hr].
  change (responses (EvLedWr true :: new ++ [EvLedWr false]))
    with (responses (new ++ [EvLedWr false])).
  rewrite responses_app, Hresp. cbn. apply app_nil_r.
Qed.

(** X4: the answer to an erase command.  With a chip selected,
    np_packet_handler answers an erase command with bad-block responses, if
    any, and then exactly one closing status, which is the last response
    it sends: the ok status when the handler returned 0, and otherwise the
    error status that carries the handler's code, negated.  The handler
    leaves np_prog_t as it was. *)
Theorem np_cmd_nand_erase_answer (fuel : nat) (cmd : np_rx_t) (w : world)
    (c : chip_info_t) :
  chip_wf c -> chip_info (prog w) = Some c -> rx_wf cmd ->
  code cmd = NP_CMD_NAND_ERASE ->
  (exists rs w',
      np_packet_handler E h_read_id h_read h_read_bb (erase_fuel c) [cmd] w
      = Some (rs, w')) /\
  forall rs w',
    np_packet_handler E h_read_id h_read h_read_bb fuel [cmd] w
    = Some (rs, w') ->
    exists r new pre,
      rs = [r] /\ -113 <= r <= 0 /\
      trace w' = trace w ++ new /\ prog w' = prog w /\
      Forall bad_block_resp pre /\
      responses new = pre ++ [final_status r].
Proof.
  intros Hwf Hci Hrx Hcode.
  assert (Hsel : chip_info (prog w) <> None) by congruence.
  assert (Hpk : forall f,
             np_packet_handler E h_read_id h_read h_read_bb f [cmd] w
             = bind (np_cmd_nand_erase E f cmd)
                 (fun r => bind (if r <? 0 then np_send_error E (- r)
                                 else ret 0)
                             (fun _ => ret [r])) w).
  { intros f. cbn [np_packet_handler]. unfold bind.
    rewrite (np_cmd_handler_erase f cmd w Hsel Hcode).
    destruct (np_cmd_nand_erase E f cmd w) as [[r w1]|];
      [|reflexivity].
    destruct (if r <? 0 then _ else _) as [[z w2]|]; reflexivity. }
  split.
  - rewrite Hpk.
    destruct (np_cmd_nand_erase_spec E c Hwf (erase_fuel c) cmd w Hci Hrx)
      as [(r & w1 & Hrun) _].
    rewrite (bind_eq _ _ _ _ _ Hrun).
    destruct (r <? 0); do 2 eexists; reflexivity.
  - intros rs w' Hrun. rewrite Hpk in Hrun.
    apply bind_inv in Hrun. destruct Hrun as (r & w1 & Hrun & Hrest).
    destruct (np_cmd_nand_erase_responses fuel cmd w r w1 Hrun)
      as (new & pre & Ht & Hp & Hpre & Hresp & Hr).
    unfold final_status.
    destruct (Z.ltb_spec r 0) as [Hneg|Hpos].
    + revert Hrest. run_prims. intros Hrest. inversion Hrest; subst rs w'.
      exists r, (new ++ [EvSend (NP_STATUS_ERROR (u8 (- r)))
                           (comm_send E (trace w1)
                              (NP_STATUS_ERROR (u8 (- r))))]), pre.
      cbn [prog bad_blocks trace]. rewrite Ht, <- app_assoc.
      split; [reflexivity|]. split; [exact Hr|]. split; [reflexivity|].
      split; [exact Hp|]. split; [exact Hpre|].
      rewrite responses_app, Hresp.
      replace (r =? 0) with false by (symmetry; apply Z.eqb_neq; lia).
      rewrite app_nil_r. cbn. do 3 f_equal.
      unfold u8. apply Z.mod_small. lia.
    + inversion Hrest; subst rs w'.
      exists r, new, pre. split; [reflexivity|]. split; [exact Hr|].
      do 3 (split; [assumption|]). rewrite Hresp.
      replace (r =? 0) with true by (symmetry; apply Z.eqb_eq; lia).
      reflexivity.
Qed.

End Erase_answer.

Lemma np_cmd_nand_erase_answer_witness :
  (exists rs w',
      np_packet_handler (bench_env NAND_READY NAND_ERROR)
        no_handler no_handler no_handler (erase_fuel bench_chip)
        [cmd_erase 0 0x40000] (with_chip bench_chip power_on)
      = Some (rs, w')) /\
  forall rs w',
    np_packet_handler (bench_env NAND_READY NAND_ERROR)
      no_handler no_handler no_handler 3
      [cmd_erase 0 0x40000] (with_chip bench_chip power_on)
    = Some (rs, w') ->
    exists r new pre,
      rs = [r] /\ -113 <= r <= 0 /\
      trace w' = trace (with_chip bench_chip power_on) ++ new /\
      prog w' = prog (with_chip bench_chip power_on) /\
      Forall bad_block_resp pre /\
      responses new = pre ++ [final_status r].
Proof.
  apply (np_cmd_nand_erase_answer (bench_env NAND_READY NAND_ERROR)
           no_handler no_handler no_handler 3 (cmd_erase 0 0x40000)
           (with_chip bench_chip power_on) bench_chip).
  - exact bench_chip_wf.
  - reflexivity.
  - vm_compute. repeat split; intros H; discriminate H.
  - reflexivity.
Defined.

(** ** The blocks of an erase *)

Lemma lookups_app tr1 tr2 : lookups (tr1 ++ tr2) = lookups tr1 ++ lookups tr2.
Proof. apply flat_map_app. Qed.

Lemma block_addrs_S (c : chip_info_t) (a : Z) (n : nat) :
  block_addrs c a (S n) = a :: block_addrs c (a + block_size c) n.
Proof.
  unfold block_addrs. cbn [seq map]. f_equal; [lia|].
  rewrite <- seq_shift, map_map. apply map_ext. intros i. lia.
Qed.

Section Erase_exact.

Variable E : env.
Variable c : chip_info_t.
Hypothesis Hwf : chip_wf c.
Hypothesis Hgo : erase_goes_on E.

Lemma np_nand_erase_goes_on (pg : Z) (w : world) :
  chip_info (prog w) = Some c ->
  exists tail,
    np_nand_erase E pg w
    = Some (0, mk_world (prog w) (bad_blocks w)
                 (trace w ++ EvEraseBlock pg (nand_erase_block E (trace w) pg)
                          :: tail)) /\
    lookups tail = [] /\ erased_pages tail = [].
Proof.
  destruct Hgo as [Hst Hsend].
  intros Hc. unfold np_nand_erase. run_prims. rewrite Hc.
  cbn [prog bad_blocks trace].
  destruct (Hst (trace w) pg) as [H|[H|H]]; rewrite H.
  - exists []. repeat split.
  - rewrite Hsend. change (nonzero 0) with false. cbv iota.
    cbn [prog bad_blocks trace]. rewrite <- app_assoc.
    eexists [_]. repeat split.
  - exists []. repeat split.
Qed.

Lemma np_erase_loop_exact (cmd : np_rx_t) (n : nat) :
  forall fuel a pg l w,
    (n < fuel)%nat ->
    chip_info (prog w) = Some c ->
    erase_inv c a pg l ->
    l = Z.of_nat n * block_size c ->
    a + l <= size c ->
    (cmd_len cmd = size c \/
     forall b, In b (bad_blocks w) -> ~ a <= b < a + l) ->
    exists w' new,
      np_erase_loop E fuel cmd a pg (block_size c / page_size c) l w
      = Some (0, w') /\
      trace w' = trace w ++ new /\ prog w' = prog w /\
      bad_blocks w' = bad_blocks w /\
      lookups new = block_addrs c a n /\
      erased_pages new
      = map (fun b => b / page_size c)
          (filter (fun b => negb (existsb (Z.eqb b) (bad_blocks w)))
                  (block_addrs c a n)).
Proof.
  destruct (chip_wf_facts c Hwf) as (Hps & Hbs & Hdiv & Hpib & Hsz & Hszm & Hbsz).
  destruct Hgo as [Hst Hsend].
  induction n as [|m IH]; intros fuel a pg l w Hfuel Hc Hinv Hl Hend Hcount;
    pose proof Hinv as (Ha & Ham & Hpg & Hl32 & Hlm).
  - cbn in Hl. subst l. destruct fuel; [lia|].
    cbn [np_erase_loop]. change (0 =? 0) with true. cbv iota.
    rewrite np_send_ok_status_eq. do 2 eexists.
    split; [reflexivity|]. cbn [prog bad_blocks trace].
    repeat split.
  - destruct fuel as [|f]; [lia|].
    assert (Hlpos : block_size c <= l) by nia.
    cbn [np_erase_loop].
    destruct (Z.eqb_spec l 0) as [Hl0|_]; [lia|].
    rewrite (bind_eq get_chip _ w c w)
      by (unfold get_chip; rewrite Hc; reflexivity).
    destruct (Z.geb_spec a (size c)) as [Hge|_]; [lia|].
    rewrite (bind_eq _ _ _ _ _ (nand_bad_block_table_lookup_eq a w)).
    set (w1 := mk_world (prog w) (bad_blocks w)
                 (trace w ++ [EvBadBlockLookup a
                                (existsb (Z.eqb a) (bad_blocks w))])).
    assert (Hinv' : erase_inv c (a + block_size c)
                      (pg + block_size c / page_size c) (l - block_size c)).
    { unfold erase_inv. repeat split; try lia.
      - apply aligned_add; assumption.
      - apply aligned_sub; assumption. }
    assert (Hl' : l - block_size c = Z.of_nat m * block_size c) by lia.
    assert (Hnext : forall w2,
               chip_info (prog w2) = Some c ->
               bad_blocks w2 = bad_blocks w ->
               exists w' new,
                 np_erase_loop E f cmd (u32 (a + block_size c))
                   (u32 (pg + block_size c / page_size c))
                   (block_size c / page_size c) (u32 (l - block_size c)) w2
                 = Some (0, w') /\
                 trace w' = trace w2 ++ new /\ prog w' = prog w2 /\
                 bad_blocks w' = bad_blocks w /\
                 lookups new = block_addrs c (a + block_size c) m /\
                 erased_pages new
                 = map (fun b => b / page_size c)
                     (filter (fun b => negb (existsb (Z.eqb b) (bad_blocks w)))
                             (block_addrs c (a + block_size c) m))).
    { intros w2 Hc2 Hb2.
      assert (Hpg32 : 0 <= pg + block_size c / page_size c < 2 ^ 32).
      { assert (0 <= pg) by nia.
        assert (0 <= block_size c / page_size c) by (apply Z.div_pos; lia).
        assert ((pg + block_size c / page_size c) * page_size c < 2 ^ 32)
          by lia.
        nia. }
      rewrite !u32_small by lia.
      destruct (IH f _ _ _ w2 ltac:(lia) Hc2 Hinv' Hl' ltac:(lia))
        as (w' & new & Hrun & Ht & Hp & Hb & Hlk & Her).
      { destruct Hcount as [Hfull|Hclean]; [left; exact Hfull|right].
        intros b Hin. rewrite Hb2 in Hin. specialize (Hclean b Hin). lia. }
      exists w', new. rewrite Hb, Hb2 in *. repeat split; assumption. }
    rewrite block_addrs_S. cbn [filter map].
    destruct (existsb (Z.eqb a) (bad_blocks w)) eqn:Hbad.
    + assert (Hfull : cmd_len cmd = size c).
      { destruct Hcount as [Hfull|Hclean]; [exact Hfull|exfalso].
        apply (Hclean a); [apply existsb_eqb_In; exact Hbad|lia]. }
      rewrite (bind_eq _ _ _ _ _ (np_send_bad_block_info_eq E a w1)).
      rewrite Hsend. repeat (change (nonzero 0) with false; cbv iota).
      cbn [negb]. rewrite bind_ret.
      change (nonzero 0) with false. cbv iota.
      cbn [orb andb]. rewrite Hfull, Z.eqb_refl.
      match goal with
      | |- exists _ _, np_erase_loop _ _ _ _ _ _ _ ?w2 = _ /\ _ =>
          destruct (Hnext w2 Hc eq_refl)
            as (w' & new & Hrun & Ht & Hp & Hb & Hlk & Her)
      end.
      exists w'. eexists (_ :: _ :: new).
      split; [exact Hrun|]. rewrite Ht, Hp. cbn [prog bad_blocks trace].
      unfold w1. cbn [prog bad_blocks trace]. rewrite <- !app_assoc.
      split; [reflexivity|]. split; [reflexivity|]. split; [exact Hb|].
      cbn [negb]. cbn [lookups erased_pages flat_map app].
      fold (lookups new). fold (erased_pages new).
      rewrite Hlk, Her. split; reflexivity.
    + rewrite bind_ret. change (nonzero 0) with false. cbv iota.
      cbn [negb].
      destruct (np_nand_erase_goes_on pg w1 Hc) as (tail & Her0 & Htl & Hte).
      rewrite (bind_eq _ _ _ _ _ Her0).
      change (nonzero 0) with false. cbv iota. cbn [orb].
      match goal with
      | |- exists _ _, np_erase_loop _ _ _ _ _ _ _ ?w2 = _ /\ _ =>
          destruct (Hnext w2 Hc eq_refl)
            as (w' & new & Hrun & Ht & Hp & Hb & Hlk & Her)
      end.
      exists w'. eexists (_ :: _ :: tail ++ new).
      split; [exact Hrun|]. rewrite Ht, Hp. cbn [prog bad_blocks trace].
      unfold w1. cbn [prog bad_blocks trace]. rewrite <- !app_assoc.
      split; [reflexivity|]. split; [reflexivity|]. split; [exact Hb|].
      cbn [negb map]. cbn [lookups erased_pages flat_map app].
      fold (lookups (tail ++ new)). fold (erased_pages (tail ++ new)).
      rewrite lookups_app, erased_pages_app, Htl, Hte, Hlk, Her.
      cbn [app]. split; [reflexivity|]. f_equal.
      rewrite <- Hpg. symmetry. apply Z.div_mul. lia.
Qed.


Lemma block_addrs_range (a : Z) (n : nat) (b : Z) :
  In b (block_addrs c a n) ->
  a <= b < a + Z.of_nat n * block_size c.
Proof.
  destruct (chip_wf_facts c Hwf) as (_ & Hbs & _).
  unfold block_addrs. intros Hin. apply in_map_iff in Hin.
  destruct Hin as (i & <- & Hi). apply in_seq in Hi. nia.
Qed.

(** X5: an erase that counts every block.  For a request that passes
    validation and either spans the whole chip or has no block of the bad
    block table in its range, on a driver whose erase ends ready, in error
    or in a timeout and a transport that takes the bad-block responses:
    the command returns 0; it asks the table about each block of the range
    once, from the first to the last; it hands to nand_erase_block, in
    that order, the first page of every block the table does not hold; and
    it erases nothing else. *)
Theorem np_cmd_nand_erase_exact (fuel : nat) (cmd : np_rx_t) (w : world) :
  chip_info (prog w) = Some c -> rx_wf cmd ->
  cmd_addr cmd mod block_size c = 0 ->
  cmd_len cmd <> 0 -> cmd_len cmd mod block_size c = 0 ->
  cmd_addr cmd + cmd_len cmd <= size c ->
  (cmd_len cmd = size c \/
   forall b, In b (bad_blocks w) ->
             ~ cmd_addr cmd <= b < cmd_addr cmd + cmd_len cmd) ->
  (Z.to_nat (cmd_len cmd / block_size c) < fuel)%nat ->
  exists w' new,
    np_cmd_nand_erase E fuel cmd w = Some (0, w') /\
    trace w' = trace w ++ EvLedWr true :: new ++ [EvLedWr false] /\
    lookups new
    = block_addrs c (cmd_addr cmd) (Z.to_nat (cmd_len cmd / block_size c)) /\
    erased_pages new
    = map (fun b => b / page_size c)
        (filter (fun b => negb (existsb (Z.eqb b) (bad_blocks w)))
           (block_addrs c (cmd_addr cmd)
              (Z.to_nat (cmd_len cmd / block_size c)))) /\
    ((forall b, In b (bad_blocks w) ->
                ~ cmd_addr cmd <= b < cmd_addr cmd + cmd_len cmd) ->
     erased_pages new
     = map (fun b => b / page_size c)
         (block_addrs c (cmd_addr cmd)
            (Z.to_nat (cmd_len cmd / block_size c)))).
Proof.
  destruct (chip_wf_facts c Hwf) as (Hps & Hbs & Hdiv & Hpib & Hsz & Hszm & Hbsz).
  intros Hc [Ha Hl] Ham Hl0 Hlm Hend Hcount Hfuel.
  set (n := Z.to_nat (cmd_len cmd / block_size c)) in *.
  assert (Hn : cmd_len cmd = Z.of_nat n * block_size c).
  { unfold n. rewrite Z2Nat.id by (apply Z.div_pos; lia).
    symmetry. apply aligned_div_mul; assumption. }
  set (w0 := mk_world (prog w) (bad_blocks w) (trace w ++ [EvLedWr true])).
  assert (Hinv : erase_inv c (cmd_addr cmd) (cmd_addr cmd / page_size c)
                   (cmd_len cmd)).
  { unfold erase_inv. repeat split; try lia; try assumption.
    apply aligned_div_mul; [assumption|].
    apply (aligned_trans (page_size c) (block_size c)); assumption. }
  destruct (np_erase_loop_exact cmd n fuel _ _ _ w0 Hfuel Hc Hinv Hn Hend Hcount)
    as (w1 & new & Hloop & Ht & Hp & Hb & Hlk & Her).
  exists (mk_world (prog w1) (bad_blocks w1) (trace w1 ++ [EvLedWr false])), new.
  split.
  - assert (Hled : np_cmd_nand_erase E fuel cmd w
                   = bind (_np_cmd_nand_erase E fuel cmd)
                       (fun r => bind (led_wr_set false) (fun _ => ret r)) w0)
      by reflexivity.
    assert (Hval : _np_cmd_nand_erase E fuel cmd w0 = Some (0, w1)).
    { unfold _np_cmd_nand_erase.
      rewrite (bind_eq get_chip _ w0 c w0)
        by (unfold get_chip; change (prog w0) with (prog w); rewrite Hc;
            reflexivity).
      assert (Hb2 : pow2 (block_size c)) by apply Hwf.
      rewrite !(pow2_mask (block_size c)) by (assumption || lia).
      rewrite Ham, Hlm. change (nonzero 0) with false. cbv iota.
      destruct (Z.eqb_spec (cmd_len cmd) 0) as [|_]; [contradiction|].
      rewrite u32_small by lia.
      destruct (Z.gtb_spec (cmd_addr cmd + cmd_len cmd) (size c)) as [|_];
        [lia|].
      exact Hloop. }
    rewrite Hled, (bind_eq _ _ _ _ _ Hval). reflexivity.
  - change (bad_blocks w0) with (bad_blocks w) in Her.
    cbn [prog bad_blocks trace]. rewrite Ht. unfold w0.
    cbn [prog bad_blocks trace]. rewrite <- !app_assoc.
    split; [reflexivity|]. split; [exact Hlk|]. split; [exact Her|].
    intros Hclean. rewrite Her. f_equal.
    apply forallb_filter_id. apply forallb_forall. intros b Hin.
    apply block_addrs_range in Hin. rewrite <- Hn in Hin.
    destruct (existsb (Z.eqb b) (bad_blocks w)) eqn:Hbad; [|reflexivity].
    exfalso. apply (Hclean b); [apply existsb_eqb_In; exact Hbad|exact Hin].
Qed.

End Erase_exact.

Lemma np_cmd_nand_erase_exact_witness :
  exists w' new,
    np_cmd_nand_erase (bench_env NAND_READY NAND_ERROR) 3
      (cmd_erase 0x20000 0x40000)
      (with_bad_blocks [0] (with_chip bench_chip power_on)) = Some (0, w') /\
    trace w'
    = trace (with_bad_blocks [0] (with_chip bench_chip power_on))
      ++ EvLedWr true :: new ++ [EvLedWr false] /\
    lookups new
    = block_addrs bench_chip (cmd_addr (cmd_erase 0x20000 0x40000))
        (Z.to_nat (cmd_len (cmd_erase 0x20000 0x40000)
                   / block_size bench_chip)) /\
    erased_pages new
    = map (fun b => b / page_size bench_chip)
        (filter (fun b => negb (existsb (Z.eqb b)
                   (bad_blocks (with_bad_blocks [0]
                                  (with_chip bench_chip power_on)))))
           (block_addrs bench_chip (cmd_addr (cmd_erase 0x20000 0x40000))
              (Z.to_nat (cmd_len (cmd_erase 0x20000 0x40000)
                         / block_size bench_chip)))) /\
    ((forall b,
         In b (bad_blocks (with_bad_blocks [0]
                             (with_chip bench_chip power_on))) ->
         ~ cmd_addr (cmd_erase 0x20000 0x40000) <= b
           < cmd_addr (cmd_erase 0x20000 0x40000)
             + cmd_len (cmd_erase 0x20000 0x40000)) ->
     erased_pages new
     = map (fun b => b / page_size bench_chip)
         (block_addrs bench_chip (cmd_addr (cmd_erase 0x20000 0x40000))
            (Z.to_nat (cmd_len (cmd_erase 0x20000 0x40000)
                       / block_size bench_chip)))).
Proof.
  apply (np_cmd_nand_erase_exact (bench_env NAND_READY NAND_ERROR) bench_chip
           bench_chip_wf).
  - split; [intros tr pg; right; left; reflexivity|intros tr b; reflexivity].
  - reflexivity.
  - vm_compute. repeat split; intros H; discriminate H.
  - reflexivity.
  - discriminate.
  - reflexivity.
  - vm_compute. discriminate.
  - right. intros b [<-|[]]. vm_compute. intros [H _]. apply H. reflexivity.
  - vm_compute. lia.
Defined.

(** ** The pages of a write session *)

Lemma written_pages_app tr1 tr2 :
  written_pages (tr1 ++ tr2) = written_pages tr1 ++ written_pages tr2.
Proof. apply flat_map_app. Qed.

Lemma written_pages_polls polls :
  Forall poll_event polls -> written_pages polls = [].
Proof.
  induction 1 as [|e l He _ IH]; [reflexivity|].
  destruct e as [[]| | | | | | | | |]; try contradiction; exact IH.
Qed.

Lemma written_pages_neutral evs :
  Forall flight_neutral evs -> written_pages evs = [].
Proof.
  induction 1 as [|e l He _ IH]; [reflexivity|].
  destruct e; try contradiction; exact IH.
Qed.

Lemma page_run_snoc (p : Z) (n : nat) :
  page_run p (S n) = page_run p n ++ [p + Z.of_nat n].
Proof.
  unfold page_run. rewrite seq_S, map_app. reflexivity.
Qed.

Section Cursor.

Variable E : env.
Variables h_read_id h_read h_read_bb : nat -> np_rx_t -> M Z.

Lemma wd_finish_page_number (c : chip_info_t) (cmd : np_rx_t) (wl : Z)
    (w : world) :
  np_page_t.page (page (prog (snd (wd_finish E c cmd wl w))))
  = np_page_t.page (page (prog w)).
Proof.
  unfold wd_finish, wd_rest. cbv zeta.
  destruct (wd_ack_due c _); [destruct (nonzero (comm_send _ _ _))|];
    cbn [snd prog]; destruct (nonzero (u32 _)); reflexivity.
Qed.

(** What a write-data command does to the cursor: nothing, or one page
    handed over at the page number of [np_prog_t], from an address inside
    the chip, and then both moved on by one page. *)
Lemma np_cmd_nand_write_data_cursor (fuel : nat) (cmd : np_rx_t)
    (w : world) (r : Z) (w' : world) (c : chip_info_t) :
  chip_info (prog w) = Some c ->
  np_cmd_nand_write_data E fuel cmd w = Some (r, w') ->
  chip_info (prog w') = Some c /\
  exists new,
    trace w' = trace w ++ new /\
    (written_pages new = [] /\ addr (prog w') = addr (prog w) /\
     np_page_t.page (page (prog w')) = np_page_t.page (page (prog w))
     \/
     written_pages new = [np_page_t.page (page (prog w))] /\
     addr (prog w) < size c /\
     addr (prog w') = u32 (addr (prog w) + page_size c) /\
     np_page_t.page (page (prog w'))
     = u32 (np_page_t.page (page (prog w)) + 1)).
Proof.
  intros Hci Hrun.
  rewrite (np_cmd_nand_write_data_eq E fuel cmd w c Hci) in Hrun.
  destruct (_ >? NP_PACKET_BUF_SIZE);
    [inversion Hrun; subst; split; [exact Hci|]; exists [];
     rewrite app_nil_r; split; [reflexivity|]; left; repeat split|].
  destruct (negb _);
    [inversion Hrun; subst; split; [exact Hci|]; exists [];
     rewrite app_nil_r; split; [reflexivity|]; left; repeat split|].
  destruct (Z.geb_spec (addr (prog w)) (size c)) as [|Hlt];
    [inversion Hrun; subst; split; [exact Hci|]; exists [];
     rewrite app_nil_r; split; [reflexivity|]; left; repeat split|].
  cbv zeta in Hrun.
  set (wl := wd_write_len c (prog w) (wd_len cmd)) in *.
  set (w1 := mk_world (wd_fill c cmd (prog w)) (bad_blocks w) (trace w)) in *.
  assert (Hfin : forall w2,
             wd_finish E c cmd wl w2 = (r, w') ->
             chip_info (prog w2) = Some c ->
             chip_info (prog w') = Some c /\
             addr (prog w') = addr (prog w2) /\
             np_page_t.page (page (prog w'))
             = np_page_t.page (page (prog w2)) /\
             exists ackev, trace w' = trace w2 ++ ackev /\
                           written_pages ackev = []).
  { intros w2 Hf Hc2.
    destruct (wd_finish_frame E c cmd wl w2)
      as (ackev & Hta & Hna & _ & _ & _ & _ & _ & Hci' & _ & _ & Haddr).
    pose proof (wd_finish_page_number c cmd wl w2) as Hpn.
    rewrite Hf in *. cbn [snd] in *.
    split; [congruence|]. split; [exact Haddr|]. split; [exact Hpn|].
    exists ackev. split; [exact Hta|].
    apply written_pages_neutral. exact Hna. }
  destruct (_ =? page_size c).
  - destruct (np_nand_write E fuel c w1) as [[rc wf]|] eqn:Hnw;
      [|discriminate Hrun].
    destruct (np_nand_write_spec E fuel c w1 rc wf Hnw)
      as (polls & Hp & _ & Hs & _ & _ & Hres).
    destruct Hs as (Haddr & _ & _ & Hpg & _ & _ & Hc).
    destruct Hres as [(Hrc & Ht & _)|(Hrc & Ht & _)]; subst rc.
    + change (nonzero 0) with false in Hrun. cbv iota in Hrun.
      injection Hrun as Hrun.
      destruct (Hfin _ Hrun) as (Hci' & Ha' & Hpn' & ackev & Hta & Hwa).
      { unfold wd_advance. rec_simpl. rewrite Hc. exact Hci. }
      split; [exact Hci'|].
      eexists (polls ++ [_] ++ ackev).
      split.
      { rewrite Hta. cbn [trace]. rewrite Ht. cbn [trace w1].
        rewrite <- !app_assoc. reflexivity. }
      right. rewrite !written_pages_app, (written_pages_polls polls Hp), Hwa.
      cbn [app written_pages flat_map]. rewrite Ha', Hpn'.
      unfold wd_advance. rec_simpl. rewrite Haddr, Hpg.
      unfold w1, wd_fill. rec_simpl. repeat split. exact Hlt.
    + change (nonzero (-1)) with true in Hrun. cbv iota in Hrun.
      inversion Hrun; subst r w'.
      split; [rewrite Hc; exact Hci|].
      exists polls. split; [exact Ht|]. left.
      split; [apply written_pages_polls; exact Hp|].
      rewrite Haddr, Hpg. unfold w1, wd_fill. rec_simpl. split; reflexivity.
  - injection Hrun as Hrun.
    destruct (Hfin _ Hrun Hci) as (Hci' & Ha' & Hpn' & ackev & Hta & Hwa).
    split; [exact Hci'|]. exists ackev. split; [exact Hta|]. left.
    split; [exact Hwa|]. rewrite Ha', Hpn'. unfold w1, wd_fill. rec_simpl.
    split; reflexivity.
Qed.

End Cursor.


Section Cursor_session.

Variable E : env.
Variables h_read_id h_read h_read_bb : nat -> np_rx_t -> M Z.
Variable c : chip_info_t.
Variable a : Z.
Variable tr0 : list event.
Hypothesis Hwf : chip_wf c.
Hypothesis Ha : 0 <= a /\ a mod page_size c = 0.

Lemma cursor_inv_cmd (fuel : nat) (g : unit) (w : world) (cmd : np_rx_t)
    (r : Z) (w' : world) :
  cursor_inv c a tr0 w -> wd_cmd cmd ->
  np_cmd_handler E h_read_id h_read h_read_bb fuel cmd w = Some (r, w') ->
  cursor_inv c a tr0 w'.
Proof.
  destruct (chip_wf_facts c Hwf) as (Hps & Hbs & Hdiv & Hpib & Hsz & Hszm & Hbsz).
  assert (Hsp : size c mod page_size c = 0)
    by (apply (aligned_trans (page_size c) (block_size c)); assumption).
  intros (Hci & k & new & Ht & Hwp & Haddr & Hpage & Hin) (Hcode & _) Hrun.
  rewrite np_cmd_handler_write_data in Hrun by (congruence || assumption).
  destruct (np_cmd_nand_write_data_cursor E fuel cmd w r w' c Hci Hrun)
    as (Hci' & nw & Ht' & Hcase).
  split; [exact Hci'|].
  destruct Hcase as [(Hw & Ha' & Hp')|(Hw & Hlt & Ha' & Hp')].
  - exists k, (new ++ nw). split; [rewrite Ht', Ht, app_assoc; reflexivity|].
    rewrite written_pages_app, Hw, app_nil_r.
    split; [exact Hwp|]. split; [congruence|]. split; [congruence|exact Hin].
  - assert (Hal : (a + Z.of_nat k * page_size c) mod page_size c = 0).
    { rewrite Z.mod_add by lia. apply Ha. }
    assert (Hnext : a + Z.of_nat k * page_size c + page_size c <= size c).
    { apply aligned_step; try assumption. lia. }
    assert (Hdiv0 : 0 <= a / page_size c) by (apply Z.div_pos; lia).
    assert (Hdivle : a / page_size c * page_size c = a)
      by (apply aligned_div_mul; [lia|apply Ha]).
    exists (S k), (new ++ nw).
    split; [rewrite Ht', Ht, app_assoc; reflexivity|].
    rewrite written_pages_app, Hw, Hwp, page_run_snoc, Hpage.
    split; [reflexivity|].
    rewrite Ha', Hp', Haddr, Hpage, Nat2Z.inj_succ.
    rewrite !u32_small by nia.
    split; [lia|]. split; [lia|]. intros _. lia.
Qed.

Lemma cursor_inv_err (g : unit) (w : world) (e : event) :
  cursor_inv c a tr0 w -> error_send e ->
  cursor_inv c a tr0 (mk_world (prog w) (bad_blocks w) (trace w ++ [e])).
Proof.
  intros (Hci & k & new & Ht & Hwp & Hrest) He.
  split; [exact Hci|]. exists k, (new ++ [e]). cbn [prog trace].
  split; [rewrite Ht, app_assoc; reflexivity|].
  assert (He0 : written_pages [e] = [])
    by (destruct e as [[] ?| | | | | | | | |]; try contradiction; reflexivity).
  rewrite written_pages_app, He0, app_nil_r. split; assumption.
Qed.

Lemma cursor_inv_poll (g : unit) (w w' : world) :
  cursor_inv c a tr0 w -> np_nand_handler E w = Some (tt, w') ->
  cursor_inv c a tr0 w'.
Proof.
  intros (Hci & k & new & Ht & Hwp & Haddr & Hpage & Hin) Hpl.
  destruct (np_nand_handler_frame E w) as (w2 & nw & Hrun & Hsame & _ & Ht' & Hp).
  rewrite Hpl in Hrun. injection Hrun as <-.
  destruct Hsame as (Hsa & _ & _ & Hpg & _ & _ & Hc).
  split; [congruence|]. exists k, (new ++ nw).
  split; [rewrite Ht', Ht, app_assoc; reflexivity|].
  rewrite written_pages_app, (written_pages_polls nw Hp), app_nil_r.
  rewrite Hsa, Hpg. repeat split; assumption.
Qed.

End Cursor_session.

Lemma cursor_inv_start (E : env)
    (h_read_id h_read h_read_bb : nat -> np_rx_t -> M Z) (fuel : nat)
    (c : chip_info_t) (a L : Z) (w0 w1 : world) :
  chip_info (prog w0) = Some c ->
  np_cmd_handler E h_read_id h_read h_read_bb fuel (cmd_write_start a L) w0
  = Some (0, w1) ->
  cursor_inv c a (trace w0) w1 /\
  Z.land a (u32 (page_size c - 1)) = 0.
Proof.
  intros Hci Hrun.
  rewrite np_cmd_handler_write_start in Hrun by (congruence || reflexivity).
  rewrite (np_cmd_nand_write_start_eq E (cmd_write_start a L)
             (mk_world (prog w0) (bad_blocks w0) (trace w0 ++ [EvLedWr true]))
             c Hci) in Hrun.
  cbn [cmd_write_start cmd_addr cmd_len] in Hrun.
  destruct (_ >? size c); [discriminate Hrun|].
  destruct (nonzero (Z.land a _)) eqn:Hal; [discriminate Hrun|].
  destruct (L =? 0); [discriminate Hrun|].
  destruct (nonzero (Z.land L _)); [discriminate Hrun|].
  injection Hrun as <-. apply nonzero_false in Hal.
  split; [|exact Hal].
  unfold cursor_inv, ws_begin. cbn.
  split; [exact Hci|]. exists 0%nat. eexists.
  split; [rewrite <- app_assoc; reflexivity|].
  split; [reflexivity|]. split; [lia|]. split; [lia|]. intros H. contradiction.
Qed.

(** X6: where the pages of a write session go, on a chip whose page fits
    the page buffer.  After a write-start at address [a] that succeeds,
    through any write-data commands (whatever they return) and polls, the
    pages handed to nand_write_page_async are page [a / page_size] and the
    pages that follow it, one after the other with none left out or
    repeated; each of them starts inside the chip; and the address of
    np_prog_t is [a] plus the pages handed over. *)
Theorem write_session_pages (E : env)
    (h_read_id h_read h_read_bb : nat -> np_rx_t -> M Z)
    (c : chip_info_t) (a L : Z) (pending : list np_rx_t)
    (later : list (list np_rx_t)) (w0 : world) :
  chip_wf c -> chip_info (prog w0) = Some c -> 0 <= a ->
  2 ^ 8 <= page_size c <= NP_MAX_PAGE_SIZE ->
  Z.of_nat (length (np_page_t.buf (page (prog w0)))) = NP_MAX_PAGE_SIZE ->
  0 <= np_page_t.offset (page (prog w0)) <= page_size c ->
  Forall wd_cmd (pending ++ concat later) ->
  (exists rs w',
      np_run E h_read_id h_read h_read_bb write_fuel
        ((cmd_write_start a L :: pending) :: later) w0 = Some (rs, w')) /\
  forall fuel rs w',
    np_run E h_read_id h_read h_read_bb fuel
      ((cmd_write_start a L :: pending) :: later) w0 = Some (rs, w') ->
    hd_error rs = Some 0 ->
    exists (k : nat) new,
      trace w' = trace w0 ++ new /\
      written_pages new = page_run (a / page_size c) k /\
      Forall (fun pg => a <= pg * page_size c /\
                        pg * page_size c + page_size c <= size c)
             (written_pages new) /\
      addr (prog w') = a + Z.of_nat k * page_size c.
Proof.
  intros Hwf Hci Ha0 _ _ _ Hq.
  destruct (chip_wf_facts c Hwf) as (Hps & Hbs & Hdiv & Hpib & Hsz & Hszm & Hbsz).
  split.
  - apply np_run_write_total. cbn [concat app].
    constructor; [left; reflexivity|].
    eapply Forall_impl; [|exact Hq].
    intros x (Hx & _). right. left. exact Hx.
  - intros fuel rs w' Hrun Hhd.
    assert (Hal : a mod page_size c = 0).
    { cbn [np_run] in Hrun. unfold np_handler in Hrun.
      apply bind_inv in Hrun. destruct Hrun as (rs1 & w4 & Hh & Hrun).
      apply bind_inv in Hh. destruct Hh as (rs1' & w3 & Hp & Hh).
      cbn [np_packet_handler] in Hp.
      apply bind_inv in Hp. destruct Hp as (r1 & w1 & Hs & Hp).
      apply bind_inv in Hp. destruct Hp as (z & w2 & _ & Hp).
      apply bind_inv in Hp. destruct Hp as (rs2 & w5 & _ & Hp).
      apply bind_inv in Hh. destruct Hh as ([] & w6 & _ & Hh).
      apply bind_inv in Hrun. destruct Hrun as (rs3 & w7 & _ & Hrun).
      inversion Hp; subst. inversion Hh; subst. inversion Hrun; subst.
      cbn in Hhd. injection Hhd as Hhd. subst r1.
      destruct (cursor_inv_start E _ _ _ fuel c a L w0 w1 Hci Hs) as [_ Hm].
      assert (Hpb : page_size c <= block_size c) by apply Hwf.
      rewrite pow2_mask in Hm by (apply Hwf || lia). exact Hm. }
    destruct (np_run_session_inv E h_read_id h_read h_read_bb fuel
                unit (fun _ _ _ => tt)
                (fun _ => cursor_inv c a (trace w0)) wd_cmd
                (cursor_inv_cmd E h_read_id h_read h_read_bb c a (trace w0)
                   Hwf (conj Ha0 Hal) fuel)
                (cursor_inv_err c a (trace w0))
                (cursor_inv_poll E c a (trace w0))
                (cmd_write_start a L) pending later tt w0 rs w'
                (fun w1 H => proj1 (cursor_inv_start E h_read_id h_read
                                      h_read_bb fuel c a L w0 w1 Hci H))
                Hq Hrun Hhd)
      as (rs' & Hrs & Hlen & Hinv).
    destruct Hinv as (_ & k & new & Ht & Hwp & Haddr & _ & Hin).
    exists k, new. split; [exact Ht|]. split; [exact Hwp|].
    split; [|exact Haddr].
    rewrite Hwp. unfold page_run. apply Forall_forall. intros pg Hpg.
    apply in_map_iff in Hpg. destruct Hpg as (i & <- & Hi).
    apply in_seq in Hi.
    assert (Hk : k <> 0%nat) by lia. specialize (Hin Hk).
    assert (Hdivle : a / page_size c * page_size c = a)
      by (apply aligned_div_mul; [lia|exact Hal]).
    nia.
Qed.

Lemma write_session_pages_witness :
  (exists rs w',
      np_run (bench_env NAND_READY NAND_READY) no_handler no_handler no_handler
        write_fuel
        [cmd_write_start 0x1F800 0x1000 :: page_fill_cmds; page_fill_cmds]
        (with_chip bench_chip power_on) = Some (rs, w')) /\
  forall fuel rs w',
    np_run (bench_env NAND_READY NAND_READY) no_handler no_handler no_handler
      fuel [cmd_write_start 0x1F800 0x1000 :: page_fill_cmds; page_fill_cmds]
      (with_chip bench_chip power_on) = Some (rs, w') ->
    hd_error rs = Some 0 ->
    exists (k : nat) new,
      trace w' = trace (with_chip bench_chip power_on) ++ new /\
      written_pages new = page_run (0x1F800 / page_size bench_chip) k /\
      Forall (fun pg => 0x1F800 <= pg * page_size bench_chip /\
                        pg * page_size bench_chip + page_size bench_chip
                        <= size bench_chip)
             (written_pages new) /\
      addr (prog w') = 0x1F800 + Z.of_nat k * page_size bench_chip.
Proof.
  apply (write_session_pages (bench_env NAND_READY NAND_READY)
           no_handler no_handler no_handler bench_chip 0x1F800 0x1000
           page_fill_cmds [page_fill_cmds] (with_chip bench_chip power_on)).
  - exact bench_chip_wf.
  - reflexivity.
  - lia.
  - vm_compute. split; intros H; discriminate H.
  - vm_compute. reflexivity.
  - vm_compute. split; intros H; discriminate H.
  - unfold wd_cmd. vm_compute.
    repeat (constructor; [repeat split; intros H; discriminate H|]).
    constructor.
Defined.

(** The two pages of the bench session go to pages 63 and 64. *)
Example write_session_pages_bench :
  exists w',
    np_run (bench_env NAND_READY NAND_READY) no_handler no_handler no_handler
      1 [cmd_write_start 0x1F800 0x1000 :: page_fill_cmds; page_fill_cmds]
      (with_chip bench_chip power_on) = Some (repeat 0 69, w') /\
    written_pages (trace w') = [63; 64] /\ addr (prog w') = 0x20800.
Proof.
  eexists. split; [vm_compute; reflexivity|]. vm_compute. split; reflexivity.
Qed.

(** ** The end of a write session *)

Lemma firstn_length_app (A : Type) (l1 l2 : list A) :
  firstn (length l1) (l1 ++ l2) = l1.
Proof.
  rewrite firstn_app, Nat.sub_diag, firstn_all. cbn. apply app_nil_r.
Qed.

Lemma skipn_length_app (A : Type) (l1 l2 : list A) :
  skipn (length l1) (l1 ++ l2) = l2.
Proof.
  rewrite skipn_app, Nat.sub_diag, skipn_all. reflexivity.
Qed.

(** X7: what reaches the flash of the bytes submitted, and what write-end
    makes of the rest.  After a write-start that succeeds and write-data
    commands that all return 0, the bytes handed to nand_write_page_async
    are the bytes submitted up to the last whole page; the bytes past it
    sit at the start of the page buffer, and the fill offset is their
    number.  A write-end at that point clears the address-valid flag and
    hands no page over: it sends the ok status and returns 0 when the
    offset is zero, and otherwise returns NP_ERR_NAND_WR with the bytes of
    the last, partial page still in the buffer. *)
Theorem write_end_partial_page (E : env)
    (h_read_id h_read h_read_bb : nat -> np_rx_t -> M Z)
    (c : chip_info_t) (a L : Z) (pending : list np_rx_t)
    (later : list (list np_rx_t)) (w0 : world) :
  chip_info (prog w0) = Some c ->
  pow2 (page_size c) ->
  2 ^ 8 <= page_size c <= NP_MAX_PAGE_SIZE ->
  Z.of_nat (length (np_page_t.buf (page (prog w0)))) = NP_MAX_PAGE_SIZE ->
  Forall wd_cmd (pending ++ concat later) ->
  (exists rs w',
      np_run E h_read_id h_read h_read_bb write_fuel
        ((cmd_write_start a L :: pending) :: later) w0 = Some (rs, w')) /\
  forall fuel rs w',
    np_run E h_read_id h_read h_read_bb fuel
      ((cmd_write_start a L :: pending) :: later) w0 = Some (rs, w') ->
    Forall (fun r => r = 0) rs ->
    (exists new,
        trace w' = trace w0 ++ new /\
        written_bytes new
        = firstn (Z.to_nat (whole_pages_len c (pending ++ concat later)))
                 (submitted (pending ++ concat later))) /\
    np_page_t.offset (page (prog w'))
    = sum_wd_len (pending ++ concat later) mod page_size c /\
    firstn (Z.to_nat (np_page_t.offset (page (prog w'))))
           (np_page_t.buf (page (prog w')))
    = skipn (Z.to_nat (whole_pages_len c (pending ++ concat later)))
            (submitted (pending ++ concat later)) /\
    np_cmd_handler E h_read_id h_read h_read_bb fuel cmd_write_end w'
    = Some (write_end_code c (pending ++ concat later),
            mk_world (set_addr_is_set false (prog w')) (bad_blocks w')
              (trace w'
               ++ write_end_events E c (pending ++ concat later) (trace w'))).
Proof.
  intros Hci Hpow Hps Hbuf Hq. split.
  - apply np_run_write_total. cbn [concat app].
    constructor; [left; reflexivity|].
    eapply Forall_impl; [|exact Hq].
    intros x (Hx & _). right. left. exact Hx.
  - intros fuel rs w' Hrun Hzero.
    assert (Hhd : hd_error rs = Some 0).
    { destruct rs as [|r rs].
      - cbn [np_run] in Hrun. unfold np_handler in Hrun.
        apply bind_inv in Hrun. destruct Hrun as (rs1 & w4 & Hh & Hrun).
        apply bind_inv in Hh. destruct Hh as (rs1' & w3 & Hp & Hh).
        cbn [np_packet_handler] in Hp.
        apply bind_inv in Hp. destruct Hp as (r1 & w1 & _ & Hp).
        apply bind_inv in Hp. destruct Hp as (z & w2 & _ & Hp).
        apply bind_inv in Hp. destruct Hp as (rs2 & w5 & _ & Hp).
        apply bind_inv in Hh. destruct Hh as ([] & w6 & _ & Hh).
        apply bind_inv in Hrun. destruct Hrun as (rs3 & w7 & _ & Hrun).
        inversion Hp; subst. inversion Hh; subst. inversion Hrun.
      - inversion Hzero; subst. reflexivity. }
    destruct (np_run_session_inv E h_read_id h_read h_read_bb fuel
                (option (list byte)) bytes_step
                (bytes_inv c L (trace w0)) wd_cmd
                (bytes_inv_cmd E h_read_id h_read h_read_bb c L (trace w0)
                   Hps fuel)
                (bytes_inv_err c L (trace w0))
                (bytes_inv_poll E c L (trace w0))
                (cmd_write_start a L) pending later (Some []) w0 rs w'
                (fun w1 => bytes_inv_start E h_read_id h_read h_read_bb fuel
                             c a L w0 w1 Hci Hpow Hps Hbuf)
                Hq Hrun Hhd)
      as (rs' & Hrs & Hlen & Hinv).
    subst rs. pose proof (Forall_inv_tail Hzero) as Hzero'.
    rewrite (ghost_run_bytes _ [] rs' Hlen Hzero') in Hinv.
    cbn [app bytes_inv] in Hinv.
    destruct Hinv as (Hci' & _ & Hoff & Hbuf' & new & Ht & Hs & Hmod).
    fold (submitted (pending ++ concat later)) in Hs.
    pose proof (payloads_length _ Hq) as Hplen.
    fold (submitted (pending ++ concat later)) in Hplen.
    unfold NP_MAX_PAGE_SIZE in *.
    set (n := sum_wd_len (pending ++ concat later)) in *.
    set (off := np_page_t.offset (page (prog w'))) in *.
    assert (Hsum : Z.of_nat (length (written_bytes new)) + off = n).
    { rewrite <- Hplen, <- Hs, length_app, Nat2Z.inj_add, length_firstn.
      rewrite Nat2Z.inj_min, Z2Nat.id, Z.min_l by lia. reflexivity. }
    assert (Hoffn : off = n mod page_size c).
    { rewrite <- Hsum, Z.add_mod, Hmod, Z.add_0_l, Z.mod_mod by lia.
      symmetry. apply Z.mod_small. exact Hoff. }
    assert (Hwl : Z.to_nat (whole_pages_len c (pending ++ concat later))
                  = length (written_bytes new)).
    { unfold whole_pages_len. fold n. rewrite <- Hoffn.
      replace (n - off) with (Z.of_nat (length (written_bytes new))) by lia.
      apply Nat2Z.id. }
    rewrite Hwl, <- Hs.
    split; [exists new; split; [exact Ht|]; symmetry; apply firstn_length_app|].
    split; [exact Hoffn|].
    split; [symmetry; apply skipn_length_app|].
    rewrite np_cmd_handler_write_end by (congruence || reflexivity).
    unfold np_cmd_nand_write_end. rewrite bind_assoc, bind_modify.
    rewrite bind_assoc, bind_get. cbn [prog]. rec_simpl. fold off.
    unfold write_end_code, write_end_events, nonzero. fold n.
    rewrite <- Hoffn.
    destruct (off =? 0); cbn [negb]; run_prims; cbn [prog bad_blocks trace];
      rewrite <- ?app_assoc; reflexivity.
Qed.

Lemma write_end_partial_page_witness :
  (exists rs w',
      np_run (bench_env NAND_READY NAND_READY) no_handler no_handler no_handler
        write_fuel
        [cmd_write_start 0 0x1000 :: page_fill_cmds; [cmd_fill x2a 62]]
        (with_chip bench_chip power_on) = Some (rs, w')) /\
  forall fuel rs w',
    np_run (bench_env NAND_READY NAND_READY) no_handler no_handler no_handler
      fuel [cmd_write_start 0 0x1000 :: page_fill_cmds; [cmd_fill x2a 62]]
      (with_chip bench_chip power_on) = Some (rs, w') ->
    Forall (fun r => r = 0) rs ->
    (exists new,
        trace w' = trace (with_chip bench_chip power_on) ++ new /\
        written_bytes new
        = firstn (Z.to_nat (whole_pages_len bench_chip
                              (page_fill_cmds ++ concat [[cmd_fill x2a 62]])))
                 (submitted (page_fill_cmds ++ concat [[cmd_fill x2a 62]]))) /\
    np_page_t.offset (page (prog w'))
    = sum_wd_len (page_fill_cmds ++ concat [[cmd_fill x2a 62]])
      mod page_size bench_chip /\
    firstn (Z.to_nat (np_page_t.offset (page (prog w'))))
           (np_page_t.buf (page (prog w')))
    = skipn (Z.to_nat (whole_pages_len bench_chip
                         (page_fill_cmds ++ concat [[cmd_fill x2a 62]])))
            (submitted (page_fill_cmds ++ concat [[cmd_fill x2a 62]])) /\
    np_cmd_handler (bench_env NAND_READY NAND_READY)
      no_handler no_handler no_handler fuel cmd_write_end w'
    = Some (write_end_code bench_chip
              (page_fill_cmds ++ concat [[cmd_fill x2a 62]]),
            mk_world (set_addr_is_set false (prog w')) (bad_blocks w')
              (trace w'
               ++ write_end_events (bench_env NAND_READY NAND_READY)
                    bench_chip
                    (page_fill_cmds ++ concat [[cmd_fill x2a 62]])
                    (trace w'))).
Proof.
  apply (write_end_partial_page (bench_env NAND_READY NAND_READY)
           no_handler no_handler no_handler bench_chip 0 0x1000
           page_fill_cmds [[cmd_fill x2a 62]] (with_chip bench_chip power_on)).
  - reflexivity.
  - split; [reflexivity|]. vm_compute. reflexivity.
  - vm_compute. split; intros H; discriminate H.
  - vm_compute. reflexivity.
  - unfold wd_cmd. vm_compute.
    repeat (constructor; [repeat split; intros H; discriminate H|]).
    constructor.
Defined.

(** The bench session with one page and 62 bytes more: the page is handed
    over, the 62 bytes are not, and write-end returns NP_ERR_NAND_WR. *)
Example write_end_partial_page_bench :
  exists w' w'',
    np_run (bench_env NAND_READY NAND_READY) no_handler no_handler no_handler
      1 [cmd_write_start 0 0x1000 :: page_fill_cmds; [cmd_fill x2a 62];
         [cmd_write_end]]
      (with_chip bench_chip power_on)
    = Some (repeat 0 36 ++ [NP_ERR_NAND_WR], w') /\
    written_bytes (trace w') = repeat x2a 2048 /\
    np_run (bench_env NAND_READY NAND_READY) no_handler no_handler no_handler
      1 [cmd_write_start 0 0x1000 :: page_fill_cmds; [cmd_fill x2a 62]]
      (with_chip bench_chip power_on)
    = Some (repeat 0 36, w'') /\
    write_end_code bench_chip (page_fill_cmds ++ [cmd_fill x2a 62])
    = NP_ERR_NAND_WR.
Proof.
  do 2 eexists. split; [vm_compute; reflexivity|].
  split; [vm_compute; reflexivity|].
  split; vm_compute; reflexivity.
Qed.

(** ** The page buffer is not overrun *)

Section Page_fits.

Variable E : env.
Variables h_read_id h_read h_read_bb : nat -> np_rx_t -> M Z.
Variable c : chip_info_t.

Lemma np_cmd_nand_write_data_page_fits (fuel : nat) (cmd : np_rx_t)
    (w : world) (r : Z) (w' : world) :
  page_fits c w -> wd_cmd cmd ->
  np_cmd_nand_write_data E fuel cmd w = Some (r, w') ->
  page_fits c w'.
Proof.
  intros (Hci & Hps & Hbuf & Hoff) (Hcode & Hl & Hd) Hrun.
  unfold page_fits. unfold NP_MAX_PAGE_SIZE in *.
  rewrite (np_cmd_nand_write_data_eq E fuel cmd w c Hci) in Hrun.
  repeat match type of Hrun with
         | (if ?b then Some _ else _) = _ =>
             destruct b;
             [inversion Hrun; subst; split; [assumption|];
              split; [assumption|]; split; assumption|]
         end.
  cbv zeta in Hrun.
  set (off := np_page_t.offset (page (prog w))) in *.
  set (buf := np_page_t.buf (page (prog w))) in *.
  set (l := wd_len cmd) in *.
  set (ps := page_size c) in *.
  set (wl := wd_write_len c (prog w) l) in *.
  assert (Hwl : 0 <= wl <= l /\
                (off + wl = ps \/ off + wl < ps /\ wl = l)).
  { subst wl. unfold wd_write_len. fold off ps.
    rewrite (u32_small (off + l)) by lia.
    destruct (Z.gtb_spec (off + l) ps).
    - rewrite u32_small by lia. lia.
    - lia. }
  destruct Hwl as [Hwl0 Hwl].
  set (buf1 := memcpy buf off (wd_data cmd) wl).
  assert (Hlen1 : Z.of_nat (length buf1) = 2048).
  { unfold buf1. rewrite memcpy_length; lia. }
  assert (Hbl : 0 <= l - wl < 2 ^ 32) by lia.
  assert (Hp1 : page (wd_fill c cmd (prog w))
                = np_page_t.mk buf1 (np_page_t.page (page (prog w)))
                               (off + wl)).
  { unfold wd_fill. cbv zeta. rec_simpl. fold off buf l wl buf1.
    rewrite u32_small by lia. reflexivity. }
  assert (Hfin : forall w2 pg2 off2,
             page (prog w2) = np_page_t.mk buf1 pg2 off2 ->
             chip_info (prog w2) = Some c ->
             (off2 = off + l /\ wl = l /\ off + l < ps
              \/ off2 = 0 /\ off + wl = ps) ->
             wd_finish E c cmd wl w2 = (r, w') ->
             chip_info (prog w') = Some c /\ 2 ^ 8 <= ps <= 2048 /\
             Z.of_nat (length (np_page_t.buf (page (prog w')))) = 2048 /\
             0 <= np_page_t.offset (page (prog w')) <= ps).
  { intros w2 pg2 off2 Hp2 Hc2 Hcase Hf.
    destruct (wd_finish_frame E c cmd wl w2)
      as (ackev & _ & _ & _ & _ & _ & _ & _ & Hci' & _).
    pose proof (wd_finish_page E c cmd wl w2 Hbl) as Hpg.
    rewrite Hf in *. cbn [snd] in *. rewrite Hp2 in Hpg.
    cbn [np_page_t.buf np_page_t.page np_page_t.offset] in Hpg.
    fold l in Hpg. split; [congruence|]. split; [lia|].
    destruct (l - wl =? 0) eqn:Hz; rewrite Hpg;
      cbn [np_page_t.buf np_page_t.page np_page_t.offset].
    - apply Z.eqb_eq in Hz. split; [exact Hlen1|].
      destruct Hcase as [(-> & _ & Hlt)|(-> & _)]; lia.
    - apply Z.eqb_neq in Hz.
      destruct Hcase as [(_ & Hwll & _)|(-> & _)]; [lia|].
      rewrite Z.add_0_l, u32_small by lia.
      assert (Hsk : l - wl <= Z.of_nat (length (skipn (Z.to_nat wl)
                                                   (wd_data cmd))))
        by (rewrite length_skipn; lia).
      split; [rewrite memcpy_length; lia|lia]. }
  cbn [prog] in Hrun. rewrite Hp1 in Hrun. cbn [np_page_t.offset] in Hrun.
  destruct (off + wl =? ps) eqn:Hflush.
  - apply Z.eqb_eq in Hflush.
    destruct (np_nand_write E fuel c _) as [[rc wf]|] eqn:Hnw;
      [|discriminate Hrun].
    destruct (np_nand_write_spec E fuel c _ rc wf Hnw)
      as (polls & Hp & _ & Hs & _).
    destruct Hs as (_ & _ & _ & Hpg & _ & _ & Hc).
    cbn [prog trace] in Hpg, Hc.
    destruct (nonzero rc).
    + inversion Hrun; subst r w'. rewrite Hc, Hpg, Hp1.
      cbn [np_page_t.buf np_page_t.offset]. fold ps.
      split; [exact Hci|]. split; [lia|]. split; [exact Hlen1|lia].
    + injection Hrun as Hrun.
      eapply (Hfin _ _ 0); [| | |exact Hrun].
      * unfold wd_advance. rec_simpl. rewrite Hpg, Hp1. reflexivity.
      * unfold wd_advance. rec_simpl. rewrite Hc. exact Hci.
      * right. split; [reflexivity|exact Hflush].
  - apply Z.eqb_neq in Hflush. injection Hrun as Hrun.
    eapply (Hfin _ _ (off + l)); [| | |exact Hrun].
    + cbn [prog]. rewrite Hp1. f_equal. lia.
    + exact Hci.
    + left. lia.
Qed.

End Page_fits.

(** ** Commands outside the write path *)

Lemma write_path_untouched_refl (w : world) : write_path_untouched w w.
Proof.
  split; [reflexivity|]. exists []. split; [symmetry; apply app_nil_r|].
  constructor.
Qed.

Lemma write_path_untouched_trans (w1 w2 w3 : world) :
  write_path_untouched w1 w2 -> write_path_untouched w2 w3 ->
  write_path_untouched w1 w3.
Proof.
  intros (Hp1 & n1 & Ht1 & Hn1) (Hp2 & n2 & Ht2 & Hn2).
  split; [congruence|]. exists (n1 ++ n2).
  split; [rewrite Ht2, Ht1, app_assoc; reflexivity|].
  apply Forall_app. split; assumption.
Qed.

Lemma write_path_untouched_emit (w : world) (bb : list Z) (new : list event) :
  Forall flight_neutral new ->
  write_path_untouched w (mk_world (prog w) bb (trace w ++ new)).
Proof.
  intros Hn. split; [reflexivity|]. exists new. split; [reflexivity|exact Hn].
Qed.

Section Other_commands.

Variable E : env.
Variables h_read_id h_read h_read_bb : nat -> np_rx_t -> M Z.

Lemma np_nand_erase_untouched (pg : Z) (w : world) (r : Z) (w' : world) :
  np_nand_erase E pg w = Some (r, w') -> write_path_untouched w w'.
Proof.
  intros Hrun. destruct (chip_info (prog w)) as [c|] eqn:Hci.
  - destruct (np_nand_erase_spec E c pg w Hci) as (r0 & tail & Heq & Htail & _).
    rewrite Heq in Hrun. inversion Hrun; subst.
    apply write_path_untouched_emit. constructor; [exact Logic.I|].
    destruct Htail as [->|(rc & ->)]; repeat constructor.
  - unfold np_nand_erase, bind, get_chip in Hrun. rewrite Hci in Hrun.
    discriminate Hrun.
Qed.

Lemma np_erase_loop_untouched (fuel : nat) (cmd : np_rx_t) :
  forall a pg pib l w r w',
    np_erase_loop E fuel cmd a pg pib l w = Some (r, w') ->
    write_path_untouched w w'.
Proof.
  induction fuel as [|f IH]; intros a pg pib l w r w' Hrun;
    cbn [np_erase_loop] in Hrun;
    (destruct (l =? 0);
     [rewrite np_send_ok_status_eq in Hrun; inversion Hrun; subst;
      apply write_path_untouched_emit; repeat constructor|]).
  - discriminate Hrun.
  - apply bind_inv in Hrun. destruct Hrun as (c & w0 & Hget & Hrun).
    assert (w0 = w).
    { unfold get_chip in Hget. destruct (chip_info (prog w));
        inversion Hget; reflexivity. }
    subst w0. clear Hget.
    destruct (a >=? size c);
      [inversion Hrun; subst; apply write_path_untouched_refl|].
    rewrite (bind_eq _ _ _ _ _ (nand_bad_block_table_lookup_eq a w)) in Hrun.
    set (w1 := mk_world (prog w) (bad_blocks w)
                 (trace w ++ [EvBadBlockLookup a
                                (existsb (Z.eqb a) (bad_blocks w))])) in *.
    assert (H1 : write_path_untouched w w1)
      by (apply write_path_untouched_emit; repeat constructor).
    apply bind_inv in Hrun. destruct Hrun as (rc & w2 & Hsend & Hrun).
    assert (H2 : write_path_untouched w1 w2).
    { destruct (existsb (Z.eqb a) (bad_blocks w)).
      - rewrite np_send_bad_block_info_eq in Hsend.
        injection Hsend as _ <-.
        apply (write_path_untouched_emit w1 _ [_]). repeat constructor.
      - inversion Hsend; subst. apply write_path_untouched_refl. }
    destruct (nonzero rc).
    { inversion Hrun; subst.
      eapply write_path_untouched_trans; eassumption. }
    apply bind_inv in Hrun. destruct Hrun as (rc' & w3 & Herase & Hrun).
    assert (H3 : write_path_untouched w2 w3).
    { destruct (negb _).
      - eapply np_nand_erase_untouched. exact Herase.
      - inversion Herase; subst. apply write_path_untouched_refl. }
    assert (H13 : write_path_untouched w w3).
    { eapply write_path_untouched_trans; [exact H1|].
      eapply write_path_untouched_trans; eassumption. }
    destruct (nonzero rc').
    { inversion Hrun; subst. exact H13. }
    cbv zeta in Hrun. apply IH in Hrun.
    eapply write_path_untouched_trans; eassumption.
Qed.

Lemma np_cmd_nand_erase_untouched (fuel : nat) (cmd : np_rx_t) (w : world)
    (r : Z) (w' : world) :
  np_cmd_nand_erase E fuel cmd w = Some (r, w') ->
  write_path_untouched w w'.
Proof.
  unfold np_cmd_nand_erase. intros Hrun.
  apply bind_inv in Hrun. destruct Hrun as ([] & w1 & Hled & Hrun).
  revert Hled. run_prims. intros Hled. inversion Hled; subst w1; clear Hled.
  apply bind_inv in Hrun. destruct Hrun as (r1 & w2 & Hcmd & Hrun).
  revert Hrun. run_prims. intros Hrun. inversion Hrun; subst r1 w'; clear Hrun.
  assert (H12 : write_path_untouched
                  (mk_world (prog w) (bad_blocks w) (trace w ++ [EvLedWr true]))
                  w2).
  { unfold _np_cmd_nand_erase in Hcmd.
    apply bind_inv in Hcmd. destruct Hcmd as (c & w0 & Hget & Hcmd).
    assert (w0 = mk_world (prog w) (bad_blocks w) (trace w ++ [EvLedWr true])).
    { unfold get_chip in Hget. cbn [prog] in Hget.
      destruct (chip_info (prog w)); inversion Hget; reflexivity. }
    subst w0. clear Hget. cbv zeta in Hcmd.
    repeat match type of Hcmd with
           | (if ?b then ret _ else _) _ = _ =>
               destruct b;
               [inversion Hcmd; subst; apply write_path_untouched_refl|]
           end.
    eapply np_erase_loop_untouched. exact Hcmd. }
  eapply write_path_untouched_trans;
    [apply (write_path_untouched_emit w (bad_blocks w) [EvLedWr true]);
     repeat constructor|].
  eapply write_path_untouched_trans; [exact H12|].
  apply write_path_untouched_emit. repeat constructor.
Qed.

Hypothesis Hid : read_side h_read_id.
Hypothesis Hrd : read_side h_read.
Hypothesis Hbb : read_side h_read_bb.

(** A command that is neither of the write path nor a chip select. *)
Lemma np_cmd_handler_other (fuel : nat) (cmd : np_rx_t) (w : world)
    (r : Z) (w' : world) :
  ~ write_cmd cmd -> code cmd <> NP_CMD_NAND_SELECT ->
  np_cmd_handler E h_read_id h_read h_read_bb fuel cmd w = Some (r, w') ->
  write_path_untouched w w'.
Proof.
  intros Hnw Hns Hrun. unfold np_cmd_handler, np_cmd_dispatch in Hrun.
  rewrite bind_get in Hrun.
  destruct (chip_info (prog w)).
  - cbn [andb] in Hrun.
    destruct (np_cmd_is_valid (code cmd)) eqn:Hv; cbn [negb] in Hrun;
      [|inversion Hrun; subst; apply write_path_untouched_refl].
    apply np_cmd_is_valid_range in Hv.
    unfold write_cmd, NP_CMD_NAND_WRITE_S, NP_CMD_NAND_WRITE_D,
      NP_CMD_NAND_WRITE_E, NP_CMD_NAND_SELECT in *.
    assert (Hk : code cmd = 0 \/ code cmd = 1 \/ code cmd = 2 \/ code cmd = 7)
      by lia.
    destruct Hk as [Hk|[Hk|[Hk|Hk]]]; rewrite Hk in Hrun;
      cbn [Z.to_nat Pos.to_nat Pos.iter_op Nat.add nth_error cmd_handler exec]
        in Hrun.
    + eapply Hid. exact Hrun.
    + eapply np_cmd_nand_erase_untouched. exact Hrun.
    + eapply Hrd. exact Hrun.
    + eapply Hbb. exact Hrun.
  - replace (negb (code cmd =? NP_CMD_NAND_SELECT)) with true in Hrun
      by (symmetry; apply negb_true_iff, Z.eqb_neq; exact Hns).
    inversion Hrun; subst. apply write_path_untouched_refl.
Qed.

End Other_commands.

(** ** Runs on the selected chip *)

Lemma page_fits_prog (c : chip_info_t) (w w' : world) :
  page (prog w') = page (prog w) -> chip_info (prog w') = chip_info (prog w) ->
  page_fits c w -> page_fits c w'.
Proof.
  unfold page_fits. intros -> ->. exact (fun H => H).
Qed.

Section Chip_runs.

Variable E : env.
Variables h_read_id h_read h_read_bb : nat -> np_rx_t -> M Z.
Variable c : chip_info_t.

Hypothesis Hid : read_side h_read_id.
Hypothesis Hrd : read_side h_read.
Hypothesis Hbb : read_side h_read_bb.

Lemma write_cmd_dec (cmd : np_rx_t) : {write_cmd cmd} + {~ write_cmd cmd}.
Proof.
  unfold write_cmd.
  destruct (Z.eq_dec (code cmd) NP_CMD_NAND_WRITE_S); [left; tauto|].
  destruct (Z.eq_dec (code cmd) NP_CMD_NAND_WRITE_D); [left; tauto|].
  destruct (Z.eq_dec (code cmd) NP_CMD_NAND_WRITE_E); [left; tauto|].
  right. tauto.
Qed.

Lemma np_cmd_handler_page_fits (fuel : nat) (cmd : np_rx_t) (w : world)
    (r : Z) (w' : world) :
  cmd_ok cmd -> page_fits c w ->
  np_cmd_handler E h_read_id h_read h_read_bb fuel cmd w = Some (r, w') ->
  page_fits c w'.
Proof.
  intros (Hns & _ & Hwd) Hfit Hrun.
  pose proof Hfit as (Hci & _).
  assert (Hc : chip_info (prog w) <> None) by congruence.
  destruct (write_cmd_dec cmd) as [[Hcode|[Hcode|Hcode]]|Hnw].
  - rewrite (np_cmd_handler_write_start E _ _ _ fuel cmd w Hc Hcode) in Hrun.
    rewrite (np_cmd_nand_write_start_eq E cmd
               (mk_world (prog w) (bad_blocks w) (trace w ++ [EvLedWr true]))
               c Hci) in Hrun.
    repeat match type of Hrun with
           | (if ?b then Some _ else _) = _ =>
               destruct b; [inversion Hrun; subst; exact Hfit|]
           end.
    inversion Hrun; subst.
    destruct Hfit as (_ & Hps & Hbuf & _).
    unfold page_fits, ws_begin. cbn.
    split; [exact Hci|]. split; [exact Hps|]. split; [exact Hbuf|]. lia.
  - rewrite (np_cmd_handler_write_data E _ _ _ fuel cmd w Hc Hcode) in Hrun.
    eapply np_cmd_nand_write_data_page_fits; eauto.
  - rewrite (np_cmd_handler_write_end E _ _ _ fuel cmd w Hc Hcode) in Hrun.
    unfold np_cmd_nand_write_end in Hrun.
    rewrite bind_assoc, bind_modify, bind_assoc, bind_get in Hrun.
    destruct (nonzero _); revert Hrun; run_prims; intros Hrun;
      inversion Hrun; subst; exact Hfit.
  - destruct (np_cmd_handler_other E _ _ _ Hid Hrd Hbb fuel cmd w r w'
                Hnw Hns Hrun) as [Hp _].
    apply (page_fits_prog c w w'); [rewrite Hp; reflexivity
                                   |rewrite Hp; reflexivity|exact Hfit].
Qed.

Lemma np_cmd_handler_flight (fuel : nat) (cmd : np_rx_t) (w : world)
    (r : Z) (w' : world) :
  code cmd <> NP_CMD_NAND_SELECT ->
  np_cmd_handler E h_read_id h_read h_read_bb fuel cmd w = Some (r, w') ->
  flight_inv w -> flight_inv w'.
Proof.
  intros Hns Hrun Hinv.
  destruct (write_cmd_dec cmd) as [Hw|Hnw].
  - eapply np_cmd_handler_write_flight; eassumption.
  - destruct (np_cmd_handler_other E _ _ _ Hid Hrd Hbb fuel cmd w r w'
                Hnw Hns Hrun) as (Hp & new & Ht & Hn).
    eapply flight_inv_neutral; [exact Hinv| | |exact Ht|exact Hn];
      rewrite Hp; reflexivity.
Qed.

(** What a run keeps: the monitor agrees with np_prog_t, and the page
    buffer holds the pages of the chip. *)
Lemma np_run_chip_inv (fuel : nat) (ticks : list (list np_rx_t))
    (w : world) (rs : list Z) (w' : world) :
  flight_inv w -> page_fits c w ->
  Forall cmd_ok (concat ticks) ->
  np_run E h_read_id h_read h_read_bb fuel ticks w = Some (rs, w') ->
  flight_inv w' /\ page_fits c w'.
Proof.
  intros Hinv Hfit Hq Hrun.
  destruct (np_run_inv E h_read_id h_read h_read_bb fuel unit
              (fun _ _ _ => tt)
              (fun _ w0 => flight_inv w0 /\ page_fits c w0) cmd_ok)
    with (ticks := ticks) (g := tt) (w := w) (rs := rs) (w' := w')
    as [_ Hinv']; try assumption.
  - intros g w0 cmd r w1 [Hi Hf] Hok Hh. split.
    + eapply np_cmd_handler_flight; [apply Hok|exact Hh|exact Hi].
    + eapply np_cmd_handler_page_fits; eassumption.
  - intros g w0 e [Hi Hf] He. split.
    + eapply (flight_inv_neutral w0 _ [e]); try reflexivity; [exact Hi|].
      constructor; [|constructor].
      destruct e as [[]| | | | | | | | |]; try contradiction; exact Logic.I.
    + exact Hf.
  - intros g w0 w1 [Hi Hf] Hp. split.
    + eapply np_nand_handler_flight; eassumption.
    + destruct (np_nand_handler_frame E w0) as (w2 & nw & Hr & Hs & _).
      rewrite Hp in Hr. injection Hr as <-.
      destruct Hs as (_ & _ & _ & Hpg & _ & _ & Hc).
      apply (page_fits_prog c w0 w1); assumption.
  - split; assumption.
Qed.

Hypothesis Hwf : chip_wf c.
Hypothesis Hid_ret : returns h_read_id.
Hypothesis Hrd_ret : returns h_read.
Hypothesis Hbb_ret : returns h_read_bb.

Lemma np_cmd_nand_erase_returns (cmd : np_rx_t) (w : world) :
  chip_info (prog w) = Some c -> rx_wf cmd ->
  exists r w', np_cmd_nand_erase E write_fuel cmd w = Some (r, w').
Proof.
  intros Hc Hrx.
  destruct (chip_wf_facts c Hwf) as (Hps & Hbs & Hdiv & Hpib & Hsz & Hszm & Hbsz).
  set (w0 := mk_world (prog w) (bad_blocks w) (trace w ++ [EvLedWr true])).
  change (exists r w',
             bind (_np_cmd_nand_erase E write_fuel cmd)
               (fun r => bind (led_wr_set false) (fun _ => ret r)) w0
             = Some (r, w')).
  destruct (np_cmd_nand_erase_cases E c Hwf write_fuel cmd w0 Hc Hrx)
    as [(r & Hrun)|(Hinv & Hrun)].
  - rewrite (bind_eq _ _ _ _ _ Hrun). do 2 eexists. reflexivity.
  - destruct (np_erase_loop_total E c Hwf cmd write_fuel _ _ _ w0 Hc Hinv)
      as (r & w1 & Hloop).
    { destruct Hinv as (Ha & _). unfold write_fuel.
      rewrite Z2Nat.id by lia.
      assert (2 ^ 32 <= 2 ^ 32 * block_size c) by nia. lia. }
    rewrite Hloop in Hrun.
    rewrite (bind_eq _ _ _ _ _ Hrun). do 2 eexists. reflexivity.
Qed.

Lemma np_cmd_handler_returns (cmd : np_rx_t) (w : world) :
  chip_info (prog w) = Some c -> cmd_ok cmd ->
  exists r w',
    np_cmd_handler E h_read_id h_read h_read_bb write_fuel cmd w
    = Some (r, w').
Proof.
  intros Hci (Hns & Hrx & _).
  destruct (write_cmd_dec cmd) as [Hw|Hnw].
  - apply np_cmd_handler_write_total. exact Hw.
  - unfold np_cmd_handler, np_cmd_dispatch. rewrite bind_get, Hci.
    cbn [andb].
    destruct (np_cmd_is_valid (code cmd)) eqn:Hv; cbn [negb];
      [|do 2 eexists; reflexivity].
    apply np_cmd_is_valid_range in Hv.
    unfold write_cmd, NP_CMD_NAND_WRITE_S, NP_CMD_NAND_WRITE_D,
      NP_CMD_NAND_WRITE_E, NP_CMD_NAND_SELECT in *.
    assert (Hk : code cmd = 0 \/ code cmd = 1 \/ code cmd = 2 \/ code cmd = 7)
      by lia.
    destruct Hk as [Hk|[Hk|[Hk|Hk]]]; rewrite Hk;
      cbn [Z.to_nat Pos.to_nat Pos.iter_op Nat.add nth_error cmd_handler exec].
    + apply Hid_ret.
    + apply np_cmd_nand_erase_returns; assumption.
    + apply Hrd_ret.
    + apply Hbb_ret.
Qed.

Lemma np_packet_handler_returns (pending : list np_rx_t) :
  forall w,
    page_fits c w -> Forall cmd_ok pending ->
    exists rs w',
      np_packet_handler E h_read_id h_read h_read_bb write_fuel pending w
      = Some (rs, w') /\ page_fits c w'.
Proof.
  induction pending as [|cmd rest IH]; intros w Hfit Hq.
  - do 2 eexists. split; [reflexivity|exact Hfit].
  - inversion Hq as [|? ? Hq1 Hq2]; subst. cbn [np_packet_handler].
    destruct (np_cmd_handler_returns cmd w (proj1 Hfit) Hq1)
      as (r & w1 & Hrun).
    pose proof (np_cmd_handler_page_fits write_fuel cmd w r w1 Hq1 Hfit Hrun)
      as Hfit1.
    rewrite (bind_eq _ _ _ _ _ Hrun).
    assert (Hsend : exists w2,
               (if r <? 0 then np_send_error E (- r) else ret 0) w1
               = Some (0, w2) /\ page_fits c w2).
    { destruct (r <? 0); eexists; (split; [reflexivity|exact Hfit1]). }
    destruct Hsend as (w2 & Hsend & Hfit2).
    rewrite (bind_eq _ _ _ _ _ Hsend).
    destruct (IH w2 Hfit2 Hq2) as (rs & w' & Hrest & Hfit').
    rewrite (bind_eq _ _ _ _ _ Hrest). do 2 eexists.
    split; [reflexivity|exact Hfit'].
Qed.

(** Every run of [np_handler] calls on the selected chip returns, given
    [write_fuel]. *)
Lemma np_run_returns (ticks : list (list np_rx_t)) :
  forall w,
    page_fits c w -> Forall cmd_ok (concat ticks) ->
    exists rs w',
      np_run E h_read_id h_read h_read_bb write_fuel ticks w = Some (rs, w').
Proof.
  induction ticks as [|pending later IH]; intros w Hfit Hq.
  - do 2 eexists. reflexivity.
  - cbn [concat] in Hq. apply Forall_app in Hq. destruct Hq as [Hq1 Hq2].
    cbn [np_run]. unfold np_handler.
    destruct (np_packet_handler_returns pending w Hfit Hq1)
      as (rs1 & w1 & Hrun1 & Hfit1).
    destruct (np_nand_handler_frame E w1) as (w2 & new & Hrun2 & Hs & _).
    assert (Hfit2 : page_fits c w2).
    { destruct Hs as (_ & _ & _ & Hpg & _ & _ & Hc).
      apply (page_fits_prog c w1 w2); assumption. }
    destruct (IH w2 Hfit2 Hq2) as (rs2 & w' & Hrun3).
    rewrite !bind_assoc.
    rewrite (bind_eq _ _ _ _ _ Hrun1), bind_assoc.
    rewrite (bind_eq _ _ _ _ _ Hrun2), bind_ret.
    rewrite (bind_eq _ _ _ _ _ Hrun3). do 2 eexists. reflexivity.
Qed.

End Chip_runs.

(** ** After a write-end *)

Section After_write_end.

Variable E : env.
Variables h_read_id h_read h_read_bb : nat -> np_rx_t -> M Z.

Lemma np_cmd_nand_select_eq (fuel : nat) (cmd : np_rx_t) (w : world) :
  np_cmd_nand_select E fuel cmd w =
  match chip_db E (chip_num cmd) with
  | Some c =>
      Some (0, mk_world (set_chip_info (Some c) (prog w)) []
                 (trace w ++ [EvChipSelect (chip_num cmd) true; EvNandInit;
                              EvBadBlockTableInit;
                              EvSend NP_STATUS_OK
                                (comm_send E
                                   (trace w
                                    ++ [EvChipSelect (chip_num cmd) true;
                                        EvNandInit; EvBadBlockTableInit])
                                   NP_STATUS_OK)]))
  | None =>
      Some (NP_ERR_CHIP_NOT_FOUND,
            mk_world (set_chip_info None (prog w)) (bad_blocks w)
              (trace w ++ [EvChipSelect (chip_num cmd) false]))
  end.
Proof.
  unfold np_cmd_nand_select. run_prims.
  destruct (chip_db E (chip_num cmd)); cbn [prog bad_blocks trace];
    rewrite <- ?app_assoc; reflexivity.
Qed.

Lemma np_cmd_handler_write_end_eq (fuel : nat) (cmd : np_rx_t) (w : world) :
  chip_info (prog w) <> None ->
  code cmd = NP_CMD_NAND_WRITE_E ->
  exists r new,
    np_cmd_handler E h_read_id h_read h_read_bb fuel cmd w
    = Some (r, mk_world (set_addr_is_set false (prog w)) (bad_blocks w)
                 (trace w ++ new)).
Proof.
  intros Hc Hcode.
  rewrite (np_cmd_handler_write_end E _ _ _ fuel cmd w Hc Hcode).
  unfold np_cmd_nand_write_end.
  rewrite bind_assoc, bind_modify, bind_assoc, bind_get.
  destruct (nonzero _); run_prims; cbn [prog bad_blocks trace];
    rewrite <- ?app_assoc; do 2 eexists; reflexivity.
Qed.

(** The commands that need no fuel: with the flag clear they return and
    leave it clear. *)
Lemma np_cmd_handler_away (fuel : nat) (cmd : np_rx_t) (w : world) :
  away_cmd cmd -> addr_is_set (prog w) = false ->
  exists r w',
    np_cmd_handler E h_read_id h_read h_read_bb fuel cmd w = Some (r, w') /\
    addr_is_set (prog w') = false.
Proof.
  intros Hcmd Hset.
  destruct Hcmd as [Hcode|[Hcode|Hcode]].
  - destruct (chip_info (prog w)) as [c|] eqn:Hci.
    + assert (Hc : chip_info (prog w) <> None) by congruence.
      rewrite (np_cmd_handler_write_data E _ _ _ fuel cmd w Hc Hcode).
      rewrite (np_cmd_nand_write_data_no_addr E fuel cmd w Hc Hset).
      do 2 eexists. split; [reflexivity|exact Hset].
    + unfold np_cmd_handler. rewrite np_cmd_dispatch_no_chip;
        [|exact Hci|rewrite Hcode; discriminate].
      do 2 eexists. split; [reflexivity|exact Hset].
  - destruct (chip_info (prog w)) as [c|] eqn:Hci.
    + assert (Hc : chip_info (prog w) <> None) by congruence.
      destruct (np_cmd_handler_write_end_eq fuel cmd w Hc Hcode)
        as (r & new & Hrun).
      rewrite Hrun. do 2 eexists. split; reflexivity.
    + unfold np_cmd_handler. rewrite np_cmd_dispatch_no_chip;
        [|exact Hci|rewrite Hcode; discriminate].
      do 2 eexists. split; [reflexivity|exact Hset].
  - rewrite (np_cmd_handler_select E _ _ _ fuel cmd w Hcode).
    rewrite np_cmd_nand_select_eq.
    destruct (chip_db E (chip_num cmd)); do 2 eexists;
      (split; [reflexivity|exact Hset]).
Qed.

Lemma np_packet_handler_away (fuel : nat) (pending : list np_rx_t) :
  forall w,
    Forall away_cmd pending -> addr_is_set (prog w) = false ->
    exists rs w',
      np_packet_handler E h_read_id h_read h_read_bb fuel pending w
      = Some (rs, w') /\ addr_is_set (prog w') = false.
Proof.
  induction pending as [|cmd rest IH]; intros w Hq Hset.
  - do 2 eexists. split; [reflexivity|exact Hset].
  - inversion Hq as [|? ? Hq1 Hq2]; subst. cbn [np_packet_handler].
    destruct (np_cmd_handler_away fuel cmd w Hq1 Hset)
      as (r & w1 & Hrun & Hset1).
    rewrite (bind_eq _ _ _ _ _ Hrun).
    assert (Hsend : exists w2,
               (if r <? 0 then np_send_error E (- r) else ret 0) w1
               = Some (0, w2) /\ addr_is_set (prog w2) = false).
    { destruct (r <? 0); eexists; (split; [reflexivity|exact Hset1]). }
    destruct Hsend as (w2 & Hsend & Hset2).
    rewrite (bind_eq _ _ _ _ _ Hsend).
    destruct (IH w2 Hq2 Hset2) as (rs & w' & Hrest & Hset').
    rewrite (bind_eq _ _ _ _ _ Hrest). do 2 eexists.
    split; [reflexivity|exact Hset'].
Qed.

Lemma np_run_away (fuel : nat) (ticks : list (list np_rx_t)) :
  forall w,
    Forall away_cmd (concat ticks) -> addr_is_set (prog w) = false ->
    exists rs w',
      np_run E h_read_id h_read h_read_bb fuel ticks w = Some (rs, w') /\
      addr_is_set (prog w') = false.
Proof.
  induction ticks as [|pending later IH]; intros w Hq Hset.
  - do 2 eexists. split; [reflexivity|exact Hset].
  - cbn [concat] in Hq. apply Forall_app in Hq. destruct Hq as [Hq1 Hq2].
    cbn [np_run]. unfold np_handler.
    destruct (np_packet_handler_away fuel pending w Hq1 Hset)
      as (rs1 & w1 & Hrun1 & Hset1).
    destruct (np_nand_handler_frame E w1) as (w2 & new & Hrun2 & Hs & _).
    destruct Hs as (_ & _ & Hset2 & _).
    destruct (IH w2 Hq2 ltac:(congruence)) as (rs2 & w' & Hrun3 & Hset').
    rewrite !bind_assoc.
    rewrite (bind_eq _ _ _ _ _ Hrun1), bind_assoc.
    rewrite (bind_eq _ _ _ _ _ Hrun2), bind_ret.
    rewrite (bind_eq _ _ _ _ _ Hrun3). do 2 eexists.
    split; [reflexivity|exact Hset'].
Qed.

Hypothesis Hid : read_side h_read_id.
Hypothesis Hrd : read_side h_read.
Hypothesis Hbb : read_side h_read_bb.

Lemma away_inv_cmd (fuel : nat) (g : option bool * bool) (w : world)
    (cmd : np_rx_t) (r : Z) (w' : world) :
  away_inv g w ->
  np_cmd_handler E h_read_id h_read h_read_bb fuel cmd w = Some (r, w') ->
  away_inv (away_step E g cmd r) w'.
Proof.
  intros [Hok Hi] Hrun. destruct g as [[sel|] ok]; cbn [fst snd] in *;
    [|split; [exact Hok|exact Logic.I]].
  destruct Hi as [Hset Hsel]. subst ok.
  unfold away_inv, away_step. cbn [fst snd].
  destruct (Z.eqb_spec (code cmd) NP_CMD_NAND_SELECT) as [Hcs|Hcs].
  - (* chip select *)
    replace (code cmd =? NP_CMD_NAND_WRITE_S) with false
      by (rewrite Hcs; reflexivity).
    replace (code cmd =? NP_CMD_NAND_WRITE_D) with false
      by (rewrite Hcs; reflexivity).
    cbn [andb fst snd].
    rewrite (np_cmd_handler_select E _ _ _ fuel cmd w Hcs) in Hrun.
    rewrite np_cmd_nand_select_eq in Hrun.
    destruct (chip_db E (chip_num cmd)); inversion Hrun; subst;
      cbn [prog]; rec_simpl;
      (split; [reflexivity|]); (split; [exact Hset|]);
      split; intros H; try reflexivity; try discriminate H;
      try discriminate; try (exfalso; apply H; reflexivity).
  - assert (Hcase : (exists c, chip_info (prog w) = Some c)
                    \/ chip_info (prog w) = None)
      by (destruct (chip_info (prog w)); eauto).
    destruct Hcase as [[c Hci]|Hci].
    + (* a chip is selected *)
      assert (Hc : chip_info (prog w) <> None) by congruence.
      assert (Hs : sel = true) by (apply Hsel; exact Hc).
      subst sel.
      destruct (Z.eqb_spec (code cmd) NP_CMD_NAND_WRITE_S) as [Hws|Hws].
      * rewrite (np_cmd_handler_write_start E _ _ _ fuel cmd w Hc Hws) in Hrun.
        rewrite (np_cmd_nand_write_start_eq E cmd
                   (mk_world (prog w) (bad_blocks w)
                      (trace w ++ [EvLedWr true])) c Hci) in Hrun.
        replace (code cmd =? NP_CMD_NAND_WRITE_D) with false
          by (rewrite Hws; reflexivity).
        repeat match type of Hrun with
               | (if ?b then Some _ else _) = _ =>
                   destruct b;
                   [inversion Hrun; subst; cbn [andb fst snd prog];
                    split; [reflexivity|]; split; [exact Hset|exact Hsel]|]
               end.
        inversion Hrun; subst. cbn [andb fst snd].
        split; [reflexivity|exact Logic.I].
      * cbn [andb].
        destruct (Z.eqb_spec (code cmd) NP_CMD_NAND_WRITE_D) as [Hwd|Hwd].
        -- rewrite (np_cmd_handler_write_data E _ _ _ fuel cmd w Hc Hwd)
             in Hrun.
           rewrite (np_cmd_nand_write_data_no_addr E fuel cmd w Hc Hset)
             in Hrun.
           inversion Hrun; subst. cbn [fst snd wd_turned_away].
           rewrite Z.eqb_refl. split; [reflexivity|].
           split; [exact Hset|exact Hsel].
        -- cbn [fst snd]. split; [reflexivity|].
           destruct (Z.eqb_spec (code cmd) NP_CMD_NAND_WRITE_E) as [Hwe|Hwe].
           ++ destruct (np_cmd_handler_write_end_eq fuel cmd w Hc Hwe)
                as (r0 & new & Heq).
              rewrite Heq in Hrun. inversion Hrun; subst. cbn [prog].
              rec_simpl. split; [reflexivity|exact Hsel].
           ++ assert (Hnw : ~ write_cmd cmd)
                by (unfold write_cmd; tauto).
              destruct (np_cmd_handler_other E _ _ _ Hid Hrd Hbb fuel cmd
                          w r w' Hnw Hcs Hrun) as [Hp _].
              rewrite Hp. split; [exact Hset|exact Hsel].
    + (* no chip is selected *)
      assert (Hs : sel = false).
      { destruct sel; [|reflexivity]. exfalso.
        apply (proj1 Hsel eq_refl). exact Hci. }
      subst sel.
      unfold np_cmd_handler in Hrun.
      rewrite np_cmd_dispatch_no_chip in Hrun by assumption.
      inversion Hrun; subst.
      replace ((code cmd =? NP_CMD_NAND_WRITE_S) && (NP_ERR_CHIP_NOT_SEL =? 0))
        with false by (symmetry; apply andb_false_r).
      destruct (code cmd =? NP_CMD_NAND_WRITE_D); cbn [fst snd wd_turned_away];
        rewrite ?Z.eqb_refl;
        (split; [reflexivity|]); split; [exact Hset|exact Hsel|exact Hset
                                         |exact Hsel].
Qed.

Lemma away_inv_err (g : option bool * bool) (w : world) (e : event) :
  away_inv g w -> error_send e ->
  away_inv g (mk_world (prog w) (bad_blocks w) (trace w ++ [e])).
Proof. intros Hi _. exact Hi. Qed.

Lemma away_inv_poll (g : option bool * bool) (w w' : world) :
  away_inv g w -> np_nand_handler E w = Some (tt, w') -> away_inv g w'.
Proof.
  intros [Hok Hi] Hp.
  destruct (np_nand_handler_frame E w) as (w2 & nw & Hr & Hs & _).
  rewrite Hp in Hr. injection Hr as <-.
  destruct Hs as (_ & _ & Hset & _ & _ & _ & Hc).
  split; [exact Hok|]. destruct (fst g); [|exact Logic.I].
  rewrite Hset, Hc. exact Hi.
Qed.

End After_write_end.

Lemma read_side_no_handler : read_side no_handler.
Proof.
  intros fuel cmd w r w' H. inversion H; subst.
  apply write_path_untouched_refl.
Qed.

Lemma returns_no_handler : returns no_handler.
Proof. intros cmd w. do 2 eexists. reflexivity. Qed.

Lemma np_cmd_nand_write_end_eq (E : env) (cmd_e : np_rx_t) (w : world) :
  exists r w1,
    np_cmd_nand_write_end E cmd_e w = Some (r, w1) /\
    prog w1 = set_addr_is_set false (prog w) /\
    (np_page_t.offset (page (prog w)) <> 0 -> r = NP_ERR_NAND_WR).
Proof.
  unfold np_cmd_nand_write_end. rewrite bind_modify, bind_get.
  cbn [prog]. rec_simpl.
  destruct (nonzero (np_page_t.offset (page (prog w)))) eqn:Hoff.
  - do 2 eexists. split; [reflexivity|]. split; [reflexivity|]. auto.
  - do 2 eexists. split; [reflexivity|]. split; [reflexivity|].
    apply nonzero_false in Hoff. intros H. contradiction.
Qed.

Lemma np_run_no_addr (E : env)
    (h_read_id h_read h_read_bb : nat -> np_rx_t -> M Z) (fuel : nat)
    (ticks : list (list np_rx_t)) :
  forall w,
    chip_info (prog w) <> None ->
    addr_is_set (prog w) = false ->
    Forall (fun cmd => code cmd = NP_CMD_NAND_WRITE_D) (concat ticks) ->
    exists w2,
      np_run E h_read_id h_read h_read_bb fuel ticks w
      = Some (map (wd_reject_code E) (concat ticks), w2) /\
      addr_is_set (prog w2) = false.
Proof.
  induction ticks as [|pending later IH]; intros w Hc Hset Hok.
  - exists w. split; [reflexivity|exact Hset].
  - cbn [concat] in Hok. apply Forall_app in Hok. destruct Hok as [Hp Hl].
    destruct (np_packet_handler_no_addr E h_read_id h_read h_read_bb
                fuel pending w Hc Hset Hp)
      as (w1 & Hrun1 & Hc1 & Hset1).
    destruct (np_nand_handler_frame E w1) as (w2 & new & Hrun2 & Hs & _).
    destruct Hs as (_ & _ & Hset2 & _ & _ & _ & Hci).
    destruct (IH w2 ltac:(congruence) ltac:(congruence) Hl)
      as (w' & Hrun3 & Hset').
    exists w'. split; [|exact Hset'].
    cbn [np_run concat]. unfold np_handler.
    rewrite !bind_assoc.
    rewrite (bind_eq _ _ _ _ _ Hrun1), bind_assoc.
    rewrite (bind_eq _ _ _ _ _ Hrun2), bind_ret.
    rewrite (bind_eq _ _ _ _ _ Hrun3).
    rewrite map_app. reflexivity.
Qed.

(** C10, amended: write-end clears the address-valid flag whatever it
    returns, and it returns NP_ERR_NAND_WR when the fill offset is not
    zero.  From then on, until a write-start returns 0, every write-data
    command is turned away, whatever commands come in between: by
    np_cmd_nand_write_data while a chip is selected, with
    NP_ERR_CMD_DATA_SIZE when its length does not pass the packet size
    check, which comes first, and with NP_ERR_ADDR_INVALID when it does;
    and by the dispatcher, with NP_ERR_CHIP_NOT_SEL, while no chip is
    selected, as after a chip select that failed.  A run that brings only
    write-data commands returns exactly these codes; a run that brings
    write-data, write-end and chip select commands returns, whatever the
    fuel, and leaves the flag clear.  The read-side handlers are taken as
    any handlers that leave np_prog_t alone. *)
Theorem np_cmd_nand_write_end_clears_addr (E : env)
    (h_read_id h_read h_read_bb : nat -> np_rx_t -> M Z)
    (fuel : nat) (cmd_e : np_rx_t) (w : world) :
  read_side h_read_id -> read_side h_read -> read_side h_read_bb ->
  chip_info (prog w) <> None ->
  exists r w1,
    np_cmd_nand_write_end E cmd_e w = Some (r, w1) /\
    addr_is_set (prog w1) = false /\
    (np_page_t.offset (page (prog w)) <> 0 -> r = NP_ERR_NAND_WR) /\
    (forall ticks,
        Forall (fun cmd => code cmd = NP_CMD_NAND_WRITE_D) (concat ticks) ->
        exists w2,
          np_run E h_read_id h_read h_read_bb fuel ticks w1
          = Some (map (wd_reject_code E) (concat ticks), w2) /\
          addr_is_set (prog w2) = false) /\
    (forall ticks,
        Forall away_cmd (concat ticks) ->
        exists rs w2,
          np_run E h_read_id h_read h_read_bb fuel ticks w1 = Some (rs, w2) /\
          addr_is_set (prog w2) = false) /\
    (forall ticks rs w2,
        np_run E h_read_id h_read h_read_bb fuel ticks w1 = Some (rs, w2) ->
        turned_away_until_start E (concat ticks) rs = true).
Proof.
  intros Hid Hrd Hbb Hc.
  destruct (np_cmd_nand_write_end_eq E cmd_e w) as (r & w1 & Hrun & Hprog & Hr).
  exists r, w1. split; [exact Hrun|].
  assert (Hset1 : addr_is_set (prog w1) = false) by (rewrite Hprog; reflexivity).
  assert (Hc1 : chip_info (prog w1) <> None) by (rewrite Hprog; exact Hc).
  split; [exact Hset1|]. split; [exact Hr|].
  split; [|split].
  - intros ticks Hq.
    apply (np_run_no_addr E h_read_id h_read h_read_bb fuel ticks w1);
      assumption.
  - intros ticks Hq. apply np_run_away; assumption.
  - intros ticks rs w2 Hrun2.
    destruct (np_run_inv E h_read_id h_read h_read_bb fuel
                (option bool * bool) (away_step E) away_inv
                (fun _ => True))
      with (ticks := ticks) (g := (Some true, true)) (w := w1) (rs := rs)
           (w' := w2)
      as [_ [Hok _]].
    + intros g w0 cmd r0 w3 Hi _ Hh.
      exact (away_inv_cmd E h_read_id h_read h_read_bb Hid Hrd Hbb
               fuel g w0 cmd r0 w3 Hi Hh).
    + intros g w0 e Hi He. apply away_inv_err; assumption.
    + intros g w0 w3 Hi Hp. exact (away_inv_poll E g w0 w3 Hi Hp).
    + split; [reflexivity|]. cbn [fst]. split; [exact Hset1|].
      split; [intros _; exact Hc1|reflexivity].
    + apply Forall_forall. intros x _. exact Logic.I.
    + exact Hrun2.
    + exact Hok.
Qed.

Lemma np_cmd_nand_write_end_clears_addr_witness :
  exists r w1,
    np_cmd_nand_write_end (bench_env NAND_READY NAND_READY) cmd_write_end
      bench_open_session = Some (r, w1) /\
    addr_is_set (prog w1) = false /\
    (np_page_t.offset (page (prog bench_open_session)) <> 0 ->
     r = NP_ERR_NAND_WR) /\
    (forall ticks,
        Forall (fun cmd => code cmd = NP_CMD_NAND_WRITE_D) (concat ticks) ->
        exists w2,
          np_run (bench_env NAND_READY NAND_READY)
            no_handler no_handler no_handler 0 ticks w1
          = Some (map (wd_reject_code (bench_env NAND_READY NAND_READY))
                      (concat ticks), w2) /\
          addr_is_set (prog w2) = false) /\
    (forall ticks,
        Forall away_cmd (concat ticks) ->
        exists rs w2,
          np_run (bench_env NAND_READY NAND_READY)
            no_handler no_handler no_handler 0 ticks w1 = Some (rs, w2) /\
          addr_is_set (prog w2) = false) /\
    (forall ticks rs w2,
        np_run (bench_env NAND_READY NAND_READY)
          no_handler no_handler no_handler 0 ticks w1 = Some (rs, w2) ->
        turned_away_until_start (bench_env NAND_READY NAND_READY)
          (concat ticks) rs = true).
Proof.
  apply (np_cmd_nand_write_end_clears_addr (bench_env NAND_READY NAND_READY)
           no_handler no_handler no_handler 0 cmd_write_end
           bench_open_session).
  - exact read_side_no_handler.
  - exact read_side_no_handler.
  - exact read_side_no_handler.
  - vm_compute. discriminate.
Defined.

(** The open session of the bench, ended with 62 bytes in the page buffer:
    write-end returns NP_ERR_NAND_WR; the write-data commands that follow
    are answered with NP_ERR_ADDR_INVALID, or with NP_ERR_CMD_DATA_SIZE
    when the length byte is 63; after a chip select that finds no chip
    they are answered with NP_ERR_CHIP_NOT_SEL. *)
Example np_cmd_nand_write_end_bench :
  addr_is_set (prog bench_open_session) = true /\
  np_page_t.offset (page (prog bench_open_session)) = 62 /\
  exists w',
    np_run (bench_env NAND_READY NAND_READY) no_handler no_handler no_handler
      0 [[cmd_write_end; cmd_fill x2a 62;
          mk_rx NP_CMD_NAND_WRITE_D 0 0 0 63 (repeat x00 62)];
         [cmd_select 7; cmd_fill x2a 62]]
      bench_open_session
    = Some ([NP_ERR_NAND_WR; NP_ERR_ADDR_INVALID; NP_ERR_CMD_DATA_SIZE;
             NP_ERR_CHIP_NOT_FOUND; NP_ERR_CHIP_NOT_SEL], w') /\
    addr_is_set (prog w') = false.
Proof.
  split; [vm_compute; reflexivity|]. split; [vm_compute; reflexivity|].
  eexists. split; vm_compute; reflexivity.
Qed.

(** ** One page write at a time *)


Lemma cmd_fill_ok (b : byte) (n : nat) :
  (n < 256)%nat -> cmd_ok (cmd_fill b n).
Proof.
  intros Hn. unfold cmd_ok, cmd_fill, cmd_write_data, rx_wf, wd_cmd.
  cbn [code cmd_addr cmd_len wd_len wd_data]. rewrite repeat_length.
  split; [discriminate|]. split; [lia|]. intros _.
  split; [reflexivity|]. lia.
Qed.

Lemma page_fill_cmds_ok : Forall cmd_ok page_fill_cmds.
Proof.
  unfold page_fill_cmds. apply Forall_app. split.
  - apply Forall_forall. intros x Hx. apply repeat_spec in Hx. subst x.
    apply cmd_fill_ok. lia.
  - constructor; [apply cmd_fill_ok; lia|constructor].
Qed.

Lemma bench_two_pages_ok : Forall cmd_ok (concat bench_two_pages).
Proof.
  unfold bench_two_pages. cbn [concat]. rewrite app_nil_r.
  constructor.
  - split; [discriminate|]. split; [split; cbn; lia|discriminate].
  - apply Forall_app. split; [exact page_fill_cmds_ok|].
    apply Forall_app. split; [exact page_fill_cmds_ok|].
    constructor; [|constructor; [|constructor]];
      (split; [discriminate|]; split; [split; cbn; lia|discriminate]).
Qed.


(** The run of [bench_two_pages] on the slow flash: the first page is handed
    over and the poll at the end of the call reads busy; the second page
    fills in the next call while the first is still pending, and it is
    handed over only after the wait has read busy, then ready; the erase
    and the unknown command of that call issue no page write. *)
Example np_nand_write_one_in_flight_bench :
  exists rs w',
    np_run bench_slow_env no_handler no_handler no_handler 8
      bench_two_pages (with_chip bench_chip power_on) = Some (rs, w') /\
    rs = repeat 0 70 ++ [NP_ERR_CMD_INVALID] /\
    filter (fun e => match e with
                     | EvWritePageAsync _ _ _ | EvReadStatus _ => true
                     | _ => false
                     end) (trace w')
    = [EvWritePageAsync (repeat x2a 2048) 0 0x800;
       EvReadStatus NAND_BUSY;
       EvReadStatus NAND_BUSY;
       EvReadStatus NAND_READY;
       EvWritePageAsync (repeat x2a 2048) 1 0x800;
       EvReadStatus NAND_BUSY] /\
    flight (trace w') = Some (Some 1).
Proof.
  do 2 eexists. split; [vm_compute; reflexivity|].
  split; [reflexivity|]. split; vm_compute; reflexivity.
Qed.

(** * The read side *)

(** ** Its monad *)

Lemma rd_bind_inv {A B : Type} (m : Rd.R A) (k : A -> Rd.R B) w b w' :
  Rd.bind m k w = Some (b, w') ->
  exists a w1, m w = Some (a, w1) /\ k a w1 = Some (b, w').
Proof.
  unfold Rd.bind. destruct (m w) as [[a w1]|]; [|discriminate].
  intros H. exists a, w1. split; [reflexivity|exact H].
Qed.

Lemma rd_bind_eq {A B : Type} (m : Rd.R A) (k : A -> Rd.R B) w a w1 :
  m w = Some (a, w1) -> Rd.bind m k w = k a w1.
Proof. intros H. unfold Rd.bind. rewrite H. reflexivity. Qed.

Lemma rd_bind_ret {A B : Type} (a : A) (k : A -> Rd.R B) w :
  Rd.bind (Rd.ret a) k w = k a w.
Proof. reflexivity. Qed.

Lemma rd_bind_assoc {A B C : Type} (m : Rd.R A) (f : A -> Rd.R B)
    (g : B -> Rd.R C) w :
  Rd.bind (Rd.bind m f) g w = Rd.bind m (fun a => Rd.bind (f a) g) w.
Proof. unfold Rd.bind. destruct (m w) as [[a w1]|]; reflexivity. Qed.

Ltac rd_prims :=
  cbv [Rd.bind Rd.ret Rd.stop Rd.history Rd.emit Rd.get_chip Rd.get_page
       Rd.put_page Rd.np_comm_cb_send Rd.np_comm_cb_send_ready Rd.led_rd_set
       Rd.drv_nand_read_id Rd.drv_nand_read_page Rd.drv_nand_read_data
       Rd.nand_bad_block_table_add Rd.np_send_ok_status
       Rd.np_send_bad_block_info].

Ltac rd_simpl :=
  cbn [Rd.chip_info Rd.page Rd.bad_blocks Rd.trace
       np_page_t.buf np_page_t.page np_page_t.offset
       set_buf set_page_page set_offset fst snd].

Lemma rd_sent_data_app tr1 tr2 :
  Rd.sent_data (tr1 ++ tr2) = Rd.sent_data tr1 ++ Rd.sent_data tr2.
Proof. apply flat_map_app. Qed.

Lemma rd_pages_read_app tr1 tr2 :
  Rd.pages_read (tr1 ++ tr2) = Rd.pages_read tr1 ++ Rd.pages_read tr2.
Proof. apply flat_map_app. Qed.

Lemma rd_error_pages_app tr1 tr2 :
  Rd.error_pages (tr1 ++ tr2) = Rd.error_pages tr1 ++ Rd.error_pages tr2.
Proof. apply flat_map_app. Qed.

Lemma rd_reported_app tr1 tr2 :
  Rd.reported (tr1 ++ tr2) = Rd.reported tr1 ++ Rd.reported tr2.
Proof. apply flat_map_app. Qed.

Lemma rd_closing_app tr1 tr2 :
  Rd.closing (tr1 ++ tr2) = Rd.closing tr1 ++ Rd.closing tr2.
Proof. apply flat_map_app. Qed.

Lemma rd_markers_app tr1 tr2 :
  Rd.markers (tr1 ++ tr2) = Rd.markers tr1 ++ Rd.markers tr2.
Proof. apply flat_map_app. Qed.

Lemma rd_added_app tr1 tr2 :
  Rd.added (tr1 ++ tr2) = Rd.added tr1 ++ Rd.added tr2.
Proof. apply flat_map_app. Qed.

Section Rd_wait.

Variable E : Rd.env.

Lemma wait_send_ready_spec (fuel : nat) :
  forall w w',
    Rd.wait_send_ready E fuel w = Some (tt, w') ->
    exists new,
      w' = Rd.mk_world (Rd.chip_info w) (Rd.page w) (Rd.bad_blocks w)
             (Rd.trace w ++ new) /\
      Forall Rd.wait_event new.
Proof.
  induction fuel as [|f IH]; intros w w' Hrun; [discriminate Hrun|].
  cbn [Rd.wait_send_ready] in Hrun. revert Hrun. rd_prims. rd_simpl.
  destruct (Rd.comm_send_ready E (Rd.trace w)) eqn:Hok.
  - intros Hrun. inversion Hrun; subst. eexists [_].
    split; [reflexivity|]. constructor; [exact I|constructor].
  - intros Hrun. apply IH in Hrun. destruct Hrun as (new & -> & Hnew).
    rd_simpl. eexists (_ :: new). rewrite <- app_assoc.
    split; [reflexivity|]. constructor; [exact I|exact Hnew].
Qed.

Lemma wait_send_ready_total (fuel : nat) (w : Rd.world) :
  Rd.always_ready E ->
  Rd.wait_send_ready E (S fuel) w
  = Some (tt, Rd.mk_world (Rd.chip_info w) (Rd.page w) (Rd.bad_blocks w)
                (Rd.trace w ++ [Rd.EvSendReady true])).
Proof.
  intros Hr. cbn [Rd.wait_send_ready]. rd_prims. rd_simpl.
  rewrite Hr. reflexivity.
Qed.

End Rd_wait.


Lemma rd_wait_neutral (new : list Rd.event) :
  Forall Rd.wait_event new ->
  Rd.sent_data new = [] /\ Rd.pages_read new = [] /\
  Rd.error_pages new = [] /\ Rd.reported new = [] /\ Rd.closing new = [] /\
  Forall Rd.data_packet_ok new.
Proof.
  induction 1 as [|e l He _ IH].
  - repeat split. constructor.
  - destruct e; try contradiction.
    destruct IH as (H1 & H2 & H3 & H4 & H5 & H6).
    repeat split; try assumption. constructor; [exact I|exact H6].
Qed.

Lemma skipn_skipn_add (A : Type) (a b : nat) (l : list A) :
  skipn b (skipn a l) = skipn (a + b) l.
Proof.
  revert l. induction a as [|a IH]; intros l; [reflexivity|].
  destruct l as [|x l]; cbn [Nat.add skipn].
  - apply skipn_nil.
  - apply IH.
Qed.

Section Rd_page_loop.

Variable E : Rd.env.
Variable c : chip_info_t.

(** The inner loop streams the page from the offset on: it leaves with
    the offset at the page size, or with -1 after a send that failed. *)
Lemma np_read_page_loop_spec (fuel0 fuel : nat) :
  forall l w res w',
    0 < page_size c <= Z.of_nat (length (np_page_t.buf (Rd.page w))) ->
    page_size c < 2 ^ 32 ->
    0 <= np_page_t.offset (Rd.page w) <= page_size c ->
    page_size c - np_page_t.offset (Rd.page w) <= l < 2 ^ 32 ->
    Rd.np_read_page_loop E fuel0 fuel c l w = Some (res, w') ->
    exists new,
      Rd.trace w' = Rd.trace w ++ new /\
      Rd.chip_info w' = Rd.chip_info w /\
      Rd.bad_blocks w' = Rd.bad_blocks w /\
      np_page_t.buf (Rd.page w') = np_page_t.buf (Rd.page w) /\
      np_page_t.page (Rd.page w') = np_page_t.page (Rd.page w) /\
      Rd.pages_read new = [] /\ Rd.error_pages new = [] /\
      Rd.reported new = [] /\ Rd.closing new = [] /\
      Forall Rd.data_packet_ok new /\
      np_page_t.offset (Rd.page w) <= np_page_t.offset (Rd.page w')
      <= page_size c /\
      Rd.sent_data new
      = firstn (Z.to_nat (np_page_t.offset (Rd.page w')
                          - np_page_t.offset (Rd.page w)))
               (skipn (Z.to_nat (np_page_t.offset (Rd.page w)))
                      (np_page_t.buf (Rd.page w))) /\
      match res with
      | inl r => r = -1
      | inr l' =>
          np_page_t.offset (Rd.page w') = page_size c /\
          l' = l - (page_size c - np_page_t.offset (Rd.page w))
      end.
Proof.
  induction fuel as [|f IH]; intros l w res w' Hps Hps32 Hoff Hl Hrun;
    cbn [Rd.np_read_page_loop] in Hrun;
    rewrite (rd_bind_eq Rd.get_page _ w (Rd.page w) w) in Hrun
      by reflexivity;
    cbv zeta in Hrun;
    set (off := np_page_t.offset (Rd.page w)) in *;
    set (buf := np_page_t.buf (Rd.page w)) in *;
    (destruct ((off <? page_size c) && nonzero l) eqn:Hcond;
     [|inversion Hrun; subst res w'; exists []; rewrite app_nil_r;
       fold off; rewrite Z.sub_diag;
       do 9 (split; [reflexivity|]); split; [constructor|];
       split; [lia|]; split; [reflexivity|];
       apply andb_false_iff in Hcond;
       destruct Hcond as [Hc|Hc];
       [apply Z.ltb_ge in Hc; lia|apply nonzero_false in Hc; lia]]).
  - discriminate Hrun.
  - apply andb_true_iff in Hcond. destruct Hcond as [Hlt Hnz].
    apply Z.ltb_lt in Hlt. apply nonzero_true in Hnz.
    rewrite (u32_small (page_size c - off)) in Hrun by lia.
    set (wl := if page_size c - off >=? Rd.tx_data_len
               then Rd.tx_data_len else page_size c - off) in *.
    assert (Hwl : 1 <= wl <= Rd.tx_data_len /\ wl <= page_size c - off).
    { unfold wl, Rd.tx_data_len, NP_PACKET_BUF_SIZE.
      destruct (Z.geb_spec (page_size c - off) (64 - 2)); lia. }
    destruct Hwl as [Hwl1 Hwl2].
    destruct (Z.gtb_spec wl l) as [Hgt|_]; [lia|].
    set (data := firstn (Z.to_nat wl) (skipn (Z.to_nat off) buf)) in *.
    apply rd_bind_inv in Hrun. destruct Hrun as ([] & w1 & Hwait & Hrun).
    apply wait_send_ready_spec in Hwait.
    destruct Hwait as (waits & -> & Hwaits).
    destruct (rd_wait_neutral waits Hwaits)
      as (Hw1 & Hw2 & Hw3 & Hw4 & Hw5 & Hw6).
    revert Hrun. unfold Rd.np_comm_cb_send at 1. rd_prims. rd_simpl.
    set (tr1 := Rd.trace w ++ waits).
    set (rc := Rd.comm_send E tr1 (Rd.PktData (u8 wl) data)).
    assert (Hdlen : Z.of_nat (length data) = wl).
    { unfold data. rewrite length_firstn, length_skipn. lia. }
    assert (Hu8 : u8 wl = wl).
    { unfold u8. apply Z.mod_small. unfold Rd.tx_data_len,
        NP_PACKET_BUF_SIZE in Hwl1. lia. }
    assert (Hpk : Rd.data_packet_ok (Rd.EvSend (Rd.PktData (u8 wl) data) rc)).
    { cbn. rewrite Hu8, Hdlen. split; [reflexivity|exact Hwl1]. }
    destruct (nonzero rc) eqn:Hrc.
    + intros Hrun. inversion Hrun; subst res w'. rd_simpl.
      exists (waits ++ [Rd.EvSend (Rd.PktData (u8 wl) data) rc]).
      unfold tr1. rewrite <- app_assoc. fold off. rewrite Z.sub_diag.
      rewrite rd_sent_data_app, rd_pages_read_app, rd_error_pages_app,
        rd_reported_app, rd_closing_app, Hw1, Hw2, Hw3, Hw4, Hw5.
      apply nonzero_true in Hrc. apply Z.eqb_neq in Hrc.
      cbn. rewrite Hrc.
      do 9 (split; [reflexivity|]).
      split; [apply Forall_app; split; [exact Hw6|];
              constructor; [exact Hpk|constructor]|].
      split; [lia|]. split; reflexivity.
    + rewrite (u32_small (off + wl)), (u32_small (l - wl)) by lia.
      intros Hrun.
      match type of Hrun with
      | Rd.np_read_page_loop _ _ _ _ ?l1 ?w2 = _ =>
          destruct (IH l1 w2 res w') as (new & Ht & Hci & Hbb & Hbuf & Hpg
                                         & Hpr & Hep & Hrp & Hcl & Hok
                                         & Hoff' & Hsent & Hres);
            [rd_simpl; exact Hps|exact Hps32|rd_simpl; lia
            |rd_simpl; lia|exact Hrun|]
      end.
      revert Ht Hci Hbb Hbuf Hpg Hoff' Hsent Hres. rd_simpl.
      intros Ht Hci Hbb Hbuf Hpg Hoff' Hsent Hres.
      exists (waits ++ [Rd.EvSend (Rd.PktData (u8 wl) data) rc] ++ new).
      rewrite Ht. unfold tr1. rewrite <- !app_assoc.
      do 5 (split; [assumption || reflexivity|]).
      rewrite !rd_sent_data_app, !rd_pages_read_app, !rd_error_pages_app,
        !rd_reported_app, !rd_closing_app, Hw1, Hw2, Hw3, Hw4, Hw5,
        Hpr, Hep, Hrp, Hcl.
      apply nonzero_false in Hrc.
      cbn [Rd.pages_read Rd.error_pages Rd.reported Rd.closing Rd.sent_data
           flat_map app].
      rewrite Hrc. change (0 =? 0) with true. cbv iota.
      fold (Rd.sent_data new). rewrite Hsent.
      do 4 (split; [reflexivity|]).
      split; [apply Forall_app; split; [exact Hw6|];
              constructor; [exact Hpk|exact Hok]|].
      fold off. fold buf. split; [lia|].
      split.
      * rewrite app_nil_r. unfold data.
        set (off' := np_page_t.offset (Rd.page w')) in *.
        replace (Z.to_nat (off' - off))
          with (Z.to_nat wl + Z.to_nat (off' - (off + wl)))%nat by lia.
        rewrite firstn_add_skipn, skipn_skipn_add.
        replace (Z.to_nat (off + wl)) with (Z.to_nat off + Z.to_nat wl)%nat
          by lia.
        reflexivity.
      * destruct res as [r|l']; [exact Hres|].
        destruct Hres as [H1 H2]. split; [exact H1|].
        rewrite H2. rd_simpl. lia.
Qed.

End Rd_page_loop.


Lemma page_run_cons (p : Z) (n : nat) :
  page_run p (S n) = p :: page_run (p + 1) n.
Proof.
  unfold page_run. cbn [seq map]. f_equal; [lia|].
  rewrite <- seq_shift, map_map. apply map_ext. intros i. lia.
Qed.

Lemma page_run_one (p : Z) : page_run p 1 = [p].
Proof. unfold page_run. cbn. f_equal. lia. Qed.

Section Rd_read.

Variable E : Rd.env.
Variable c : chip_info_t.

Lemma np_read_page_loop_total (fuel0 fuel : nat) :
  Rd.always_ready E ->
  forall l w,
    0 <= np_page_t.offset (Rd.page w) ->
    page_size c < 2 ^ 32 ->
    page_size c - np_page_t.offset (Rd.page w) < Z.of_nat fuel ->
    0 <= l < 2 ^ 32 ->
    exists res w', Rd.np_read_page_loop E (S fuel0) fuel c l w = Some (res, w').
Proof.
  intros Hr. induction fuel as [|f IH]; intros l w Hoff Hps32 Hfuel Hl;
    cbn [Rd.np_read_page_loop];
    rewrite (rd_bind_eq Rd.get_page _ w (Rd.page w) w) by reflexivity;
    cbv zeta;
    set (off := np_page_t.offset (Rd.page w)) in *;
    (destruct ((off <? page_size c) && nonzero l) eqn:Hcond;
     [|do 2 eexists; reflexivity]);
    apply andb_true_iff in Hcond; destruct Hcond as [Hlt Hnz];
    apply Z.ltb_lt in Hlt; apply nonzero_true in Hnz.
  - lia.
  - rewrite (u32_small (page_size c - off)) by lia.
    set (wl0 := if page_size c - off >=? Rd.tx_data_len
                then Rd.tx_data_len else page_size c - off).
    set (wl := if wl0 >? l then l else wl0).
    assert (Hwl : 1 <= wl <= page_size c - off /\ wl <= l).
    { unfold wl, wl0, Rd.tx_data_len, NP_PACKET_BUF_SIZE.
      destruct (Z.geb_spec (page_size c - off) (64 - 2));
        match goal with |- context [?x >? l] => destruct (Z.gtb_spec x l) end;
        lia. }
    rewrite (rd_bind_eq _ _ _ _ _ (wait_send_ready_total E fuel0 w Hr)).
    unfold Rd.np_comm_cb_send at 1. rd_prims. rd_simpl.
    destruct (nonzero _); [do 2 eexists; reflexivity|].
    rewrite (u32_small (off + wl)), (u32_small (l - wl)) by lia.
    apply IH; rd_simpl; lia.
Qed.

Lemma np_nand_read_spec (a : Z) (w : Rd.world) :
  exists rc tail,
    Rd.np_nand_read E a c w
    = Some (rc,
            Rd.mk_world (Rd.chip_info w)
              (set_buf (snd (Rd.nand_read_page E (Rd.trace w)
                               (np_page_t.buf (Rd.page w))
                               (np_page_t.page (Rd.page w)) (page_size c)))
                       (Rd.page w))
              (Rd.bad_blocks w)
              (Rd.trace w
               ++ Rd.EvReadPage (np_page_t.page (Rd.page w)) (page_size c)
                    (fst (Rd.nand_read_page E (Rd.trace w)
                            (np_page_t.buf (Rd.page w))
                            (np_page_t.page (Rd.page w)) (page_size c)))
                    (snd (Rd.nand_read_page E (Rd.trace w)
                            (np_page_t.buf (Rd.page w))
                            (np_page_t.page (Rd.page w)) (page_size c)))
                  :: tail)) /\
    Rd.sent_data tail = [] /\ Rd.pages_read tail = [] /\
    Rd.error_pages tail = [] /\ Rd.closing tail = [] /\
    Forall Rd.data_packet_ok tail /\
    Rd.reported tail
    = match fst (Rd.nand_read_page E (Rd.trace w)
                   (np_page_t.buf (Rd.page w))
                   (np_page_t.page (Rd.page w)) (page_size c)) with
      | NAND_ERROR => [a]
      | _ => []
      end /\
    (rc = 0 \/ rc = -1).
Proof.
  unfold Rd.np_nand_read. rd_prims. rd_simpl.
  destruct (Rd.nand_read_page E (Rd.trace w) (np_page_t.buf (Rd.page w))
              (np_page_t.page (Rd.page w)) (page_size c)) as [st b].
  rd_simpl. destruct st.
  - exists 0, []. repeat split; auto.
  - destruct (nonzero _); cbv [nonzero Z.eqb negb]; rd_simpl;
      rewrite <- app_assoc; cbn [app];
      eexists _, [_]; (split; [reflexivity|]);
      repeat split; auto; repeat constructor.
  - exists (-1), []. repeat split; auto.
  - exists 0, []. repeat split; auto.
  - exists (-1), []. repeat split; auto.
Qed.

End Rd_read.


Section Rd_read_loop.

Variable E : Rd.env.
Variable c : chip_info_t.
Hypothesis Hkeep : Rd.keeps_length E.
Hypothesis Hsize : size c < 2 ^ 32.

Lemma np_read_loop_spec (fuel0 fuel : nat) :
  forall a l w r w',
    0 < page_size c <= Z.of_nat (length (np_page_t.buf (Rd.page w))) ->
    np_page_t.offset (Rd.page w) = 0 ->
    np_page_t.page (Rd.page w) * page_size c = a ->
    0 <= a -> 0 <= l -> l mod page_size c = 0 -> a + l <= size c ->
    Rd.np_read_loop E fuel0 fuel c a l w = Some (r, w') ->
    exists new,
      Rd.trace w' = Rd.trace w ++ new /\
      Rd.chip_info w' = Rd.chip_info w /\
      Rd.bad_blocks w' = Rd.bad_blocks w /\
      Rd.read_log c (np_page_t.page (Rd.page w)) l r new /\
      (r = 0 \/ r = NP_ERR_NAND_RD \/ r = -1).
Proof.
  induction fuel as [|f IH]; intros a l w r w' Hps Hoff Hpg Ha Hl Hlm Hend Hrun;
    cbn [Rd.np_read_loop] in Hrun;
    (destruct (nonzero l) eqn:Hnz;
     [|inversion Hrun; subst r w'; apply nonzero_false in Hnz; subst l;
       exists []; rewrite app_nil_r; do 3 (split; [reflexivity|]);
       split; [|left; reflexivity];
       exists 0%nat; cbn; repeat split; try constructor;
       exists []; reflexivity]).
  - discriminate Hrun.
  - apply nonzero_true in Hnz.
    assert (Hlps : page_size c <= l).
    { pose proof (aligned_step (page_size c) 0 l ltac:(lia)
                    (Z.mod_0_l (page_size c) ltac:(lia)) Hlm). lia. }
    destruct (np_nand_read_spec E c a w)
      as (rc & tail & Hrd & Ht1 & Ht2 & Ht3 & Ht4 & Ht5 & Ht6 & Hrc).
    rewrite (rd_bind_eq _ _ _ _ _ Hrd) in Hrun.
    set (rp := Rd.nand_read_page E (Rd.trace w) (np_page_t.buf (Rd.page w))
                 (np_page_t.page (Rd.page w)) (page_size c)) in *.
    set (pg := np_page_t.page (Rd.page w)) in *.
    set (ev := Rd.EvReadPage pg (page_size c) (fst rp) (snd rp)) in *.
    set (w1 := Rd.mk_world (Rd.chip_info w) (set_buf (snd rp) (Rd.page w))
                 (Rd.bad_blocks w) (Rd.trace w ++ ev :: tail)) in *.
    set (content := firstn (Z.to_nat (page_size c)) (snd rp)).
    assert (Hblen : length (snd rp) = length (np_page_t.buf (Rd.page w)))
      by apply Hkeep.
    assert (Hclen : Z.of_nat (length content) = page_size c).
    { unfold content. rewrite length_firstn. lia. }
    assert (Hrep : Rd.reported (ev :: tail)
                   = map (fun p => p * page_size c)
                         (Rd.error_pages (ev :: tail))).
    { change (Rd.reported (ev :: tail)) with (Rd.reported tail).
      unfold ev. cbn [Rd.error_pages flat_map]. fold (Rd.error_pages tail).
      rewrite Ht3, Ht6, app_nil_r.
      destruct (fst rp); cbn; try reflexivity. rewrite Hpg. reflexivity. }
    assert (Hhead : forall rest,
               Rd.pages_read ((ev :: tail) ++ rest)
               = (pg, content) :: Rd.pages_read rest /\
               Rd.sent_data ((ev :: tail) ++ rest) = Rd.sent_data rest /\
               Rd.closing ((ev :: tail) ++ rest) = Rd.closing rest /\
               Rd.reported ((ev :: tail) ++ rest)
               = map (fun p => p * page_size c)
                   (Rd.error_pages (ev :: tail)) ++ Rd.reported rest /\
               Rd.error_pages ((ev :: tail) ++ rest)
               = Rd.error_pages (ev :: tail) ++ Rd.error_pages rest).
    { intros rest.
      rewrite rd_pages_read_app, rd_sent_data_app, rd_closing_app,
        rd_reported_app, rd_error_pages_app, Hrep.
      change (Rd.pages_read (ev :: tail))
        with ((pg, content) :: Rd.pages_read tail).
      change (Rd.sent_data (ev :: tail)) with (Rd.sent_data tail).
      change (Rd.closing (ev :: tail)) with (Rd.closing tail).
      rewrite Ht1, Ht2, Ht4. repeat split. }
    assert (Hokhead : Forall Rd.data_packet_ok (ev :: tail))
      by (constructor; [exact I|exact Ht5]).
    destruct (nonzero rc) eqn:Hrcz.
    + inversion Hrun; subst r w'.
      exists (ev :: tail). unfold w1. rd_simpl.
      do 3 (split; [reflexivity|]). split; [|right; left; reflexivity].
      exists 1%nat. destruct (Hhead []) as (H1 & H2 & H3 & H4 & H5).
      rewrite app_nil_r in *. rewrite H1, H2, H3, page_run_one.
      split; [reflexivity|]. split; [eexists; reflexivity|].
      split; [exact Hrep|]. split; [reflexivity|]. split; [exact Hokhead|].
      discriminate.
    + apply rd_bind_inv in Hrun. destruct Hrun as (res & w2 & Hin & Hrun).
      destruct (np_read_page_loop_spec E c fuel0 fuel0 l w1 res w2)
        as (new & Ht & Hci & Hbb & Hbuf & Hpn & Hpr & Hep & Hrp & Hcl & Hok
            & Hoff' & Hsent & Hres);
        [unfold w1; rd_simpl; lia|lia|unfold w1; rd_simpl; lia
        |unfold w1; rd_simpl; lia|exact Hin|].
      revert Ht Hci Hbb Hbuf Hpn Hoff' Hsent Hres. unfold w1. rd_simpl.
      rewrite Hoff, Z.sub_0_r. cbn [Z.to_nat skipn].
      intros Ht Hci Hbb Hbuf Hpn Hoff' Hsent Hres.
      assert (Hsplit : content
                       = Rd.sent_data new
                         ++ firstn (Z.to_nat (page_size c
                                              - np_page_t.offset (Rd.page w2)))
                              (skipn (Z.to_nat (np_page_t.offset (Rd.page w2)))
                                     (snd rp))).
      { rewrite Hsent. unfold content.
        replace (Z.to_nat (page_size c))
          with (Z.to_nat (np_page_t.offset (Rd.page w2))
                + Z.to_nat (page_size c - np_page_t.offset (Rd.page w2)))%nat
          by lia.
        apply firstn_add_skipn. }
      assert (Hmid : forall rest,
                 Rd.pages_read ((ev :: tail) ++ new ++ rest)
                 = (pg, content) :: Rd.pages_read rest /\
                 Rd.sent_data ((ev :: tail) ++ new ++ rest)
                 = Rd.sent_data new ++ Rd.sent_data rest /\
                 Rd.closing ((ev :: tail) ++ new ++ rest) = Rd.closing rest /\
                 Rd.reported ((ev :: tail) ++ new ++ rest)
                 = map (fun p => p * page_size c)
                     (Rd.error_pages (ev :: tail)) ++ Rd.reported rest /\
                 Rd.error_pages ((ev :: tail) ++ new ++ rest)
                 = Rd.error_pages (ev :: tail) ++ Rd.error_pages rest).
      { intros rest. destruct (Hhead (new ++ rest)) as (H1 & H2 & H3 & H4 & H5).
        rewrite H1, H2, H3, H4, H5.
        rewrite rd_pages_read_app, rd_sent_data_app, rd_closing_app,
          rd_reported_app, rd_error_pages_app, Hpr, Hep, Hrp, Hcl.
        repeat split. }
      destruct res as [r1|l'].
      * inversion Hrun; subst r w'. subst r1.
        exists ((ev :: tail) ++ new). rewrite Ht, Hci, Hbb.
        rewrite <- app_assoc. do 3 (split; [reflexivity|]).
        split; [|right; right; reflexivity].
        exists 1%nat. destruct (Hmid []) as (H1 & H2 & H3 & H4 & H5).
        rewrite !app_nil_r in *. rewrite H1, H2, H3, H4, H5, page_run_one.
        split; [reflexivity|].
        split; [eexists; cbn [map concat snd]; rewrite app_nil_r;
                exact Hsplit|].
        split; [reflexivity|]. split; [reflexivity|].
        split; [apply Forall_app; split; assumption|].
        discriminate.
      * destruct Hres as [Hfull Hl'].
        rewrite Hfull, Z.sub_diag in Hsplit. cbn [Z.to_nat firstn] in Hsplit.
        rewrite app_nil_r in Hsplit.
        rewrite Z.sub_0_r in Hl'. subst l'.
        destruct (nonzero (l - page_size c)) eqn:Hmore.
        -- apply nonzero_true in Hmore.
           assert (Hl2 : page_size c <= l - page_size c).
           { pose proof (aligned_step (page_size c) 0 (l - page_size c)
                           ltac:(lia) (Z.mod_0_l (page_size c) ltac:(lia))
                           (aligned_sub (page_size c) l ltac:(lia) Hlm)).
             lia. }
           rewrite (u32_small (a + page_size c)) in Hrun by lia.
           destruct (Z.geb_spec (a + page_size c) (size c)) as [|_]; [lia|].
           rewrite (rd_bind_eq Rd.get_page _ w2 (Rd.page w2) w2) in Hrun
             by reflexivity.
           unfold Rd.put_page in Hrun at 1.
           rewrite (rd_bind_eq _ _ w2 tt
                      (Rd.mk_world (Rd.chip_info w2)
                         (np_page_t.mk (np_page_t.buf (Rd.page w2))
                            (u32 (np_page_t.page (Rd.page w2) + 1)) 0)
                         (Rd.bad_blocks w2) (Rd.trace w2))) in Hrun
             by reflexivity.
           assert (Hpg0 : 0 <= pg) by nia.
           rewrite Hpn, u32_small in Hrun by nia.
           apply IH in Hrun; rd_simpl; try lia;
             [|rewrite Hbuf; lia|apply aligned_sub; [lia|exact Hlm]].
           destruct Hrun as (rest & Ht' & Hci' & Hbb' & Hlog & Hr).
           revert Ht' Hci' Hbb' Hlog. rd_simpl. intros Ht' Hci' Hbb' Hlog.
           exists ((ev :: tail) ++ new ++ rest).
           rewrite Ht', Ht, Hci', Hci, Hbb', Hbb. rewrite <- !app_assoc.
           do 3 (split; [reflexivity|]). split; [|exact Hr].
           destruct Hlog as (k & Hk1 & (rest' & Hk2) & Hk3 & Hk4 & Hk5 & Hk6).
           exists (S k). destruct (Hmid rest) as (H1 & H2 & H3 & H4 & H5).
           rewrite H1, H2, H3, H4, H5.
           cbn [map concat fst snd]. rewrite page_run_cons, Hk1.
           split; [reflexivity|].
           split; [exists rest'; rewrite Hk2, <- Hsplit, app_assoc;
                   reflexivity|].
           split; [rewrite Hk3, map_app; reflexivity|].
           split; [exact Hk4|].
           split; [apply Forall_app; split; [exact Hokhead|];
                   apply Forall_app; split; assumption|].
           intros Hr0. destruct (Hk6 Hr0) as (Hs1 & Hs2 & Hs3).
           rewrite <- Hs1, <- Hsplit.
           split; [reflexivity|]. split; [lia|].
           rewrite length_app, Nat2Z.inj_add, Hclen. lia.
        -- apply nonzero_false in Hmore.
           inversion Hrun; subst r w'.
           exists ((ev :: tail) ++ new). rewrite Ht, Hci, Hbb.
           rewrite <- app_assoc. do 3 (split; [reflexivity|]).
           split; [|left; reflexivity].
           exists 1%nat. destruct (Hmid []) as (H1 & H2 & H3 & H4 & H5).
           rewrite !app_nil_r in *. rewrite H1, H2, H3, H4, H5, page_run_one.
           cbn [map concat fst snd]. rewrite app_nil_r.
           split; [reflexivity|].
           split; [exists []; rewrite app_nil_r; exact Hsplit|].
           split; [reflexivity|]. split; [reflexivity|].
           split; [apply Forall_app; split; assumption|].
           intros _. split; [symmetry; exact Hsplit|].
           split; [lia|]. rewrite <- Hsplit, Hclen. lia.
Qed.

End Rd_read_loop.


Section Rd_read_cmd.

Variable E : Rd.env.
Variable c : chip_info_t.
Hypothesis Hkeep : Rd.keeps_length E.

Lemma np_read_loop_total (fuel0 fuel : nat) :
  Rd.always_ready E ->
  page_size c < Z.of_nat fuel0 ->
  page_size c < 2 ^ 32 ->
  forall a l w,
    0 < page_size c <= Z.of_nat (length (np_page_t.buf (Rd.page w))) ->
    np_page_t.offset (Rd.page w) = 0 ->
    0 <= l < 2 ^ 32 -> l mod page_size c = 0 ->
    l < Z.of_nat fuel * page_size c ->
    exists r w', Rd.np_read_loop E fuel0 fuel c a l w = Some (r, w').
Proof.
  intros Hr Hf0 Hps32. destruct fuel0 as [|f0]; [lia|].
  induction fuel as [|f IH]; intros a l w Hps Hoff Hl Hlm Hfuel;
    cbn [Rd.np_read_loop];
    (destruct (nonzero l) eqn:Hnz; [|do 2 eexists; reflexivity]).
  - lia.
  - apply nonzero_true in Hnz.
    assert (Hlps : page_size c <= l).
    { pose proof (aligned_step (page_size c) 0 l ltac:(lia)
                    (Z.mod_0_l (page_size c) ltac:(lia)) Hlm). lia. }
    destruct (np_nand_read_spec E c a w) as (rc & tail & Hrd & _).
    rewrite (rd_bind_eq _ _ _ _ _ Hrd).
    destruct (nonzero rc); [do 2 eexists; reflexivity|].
    match goal with
    | |- exists _ _, Rd.bind _ _ ?w0 = _ => set (w1 := w0)
    end.
    assert (Hb1 : length (np_page_t.buf (Rd.page w1))
                  = length (np_page_t.buf (Rd.page w)))
      by (unfold w1; rd_simpl; apply Hkeep).
    assert (Ho1 : np_page_t.offset (Rd.page w1) = 0) by exact Hoff.
    destruct (np_read_page_loop_total E c f0 (S f0) Hr l w1)
      as (res & w2 & Hin); [lia|lia|lia|lia|].
    destruct (np_read_page_loop_spec E c (S f0) (S f0) l w1 res w2)
      as (new & _ & _ & _ & Hbuf & _ & _ & _ & _ & _ & _ & _ & _ & Hres);
      [lia|lia|lia|lia|exact Hin|].
    rewrite (rd_bind_eq _ _ _ _ _ Hin).
    destruct res as [r1|l']; [do 2 eexists; reflexivity|].
    destruct Hres as [_ Hl']. rewrite Ho1, Z.sub_0_r in Hl'. subst l'.
    destruct (nonzero (l - page_size c)) eqn:Hmore;
      [|do 2 eexists; reflexivity].
    destruct (_ >=? size c); [do 2 eexists; reflexivity|].
    rewrite (rd_bind_eq Rd.get_page _ w2 (Rd.page w2) w2) by reflexivity.
    unfold Rd.put_page at 1.
    rewrite (rd_bind_eq _ _ w2 tt
               (Rd.mk_world (Rd.chip_info w2)
                  (np_page_t.mk (np_page_t.buf (Rd.page w2))
                     (u32 (np_page_t.page (Rd.page w2) + 1)) 0)
                  (Rd.bad_blocks w2) (Rd.trace w2))) by reflexivity.
    apply IH; rd_simpl; try lia.
    + rewrite Hbuf, Hb1. lia.
    + apply aligned_sub; [lia|exact Hlm].
Qed.


Lemma _np_cmd_nand_read_eq (fuel : nat) (cmd : np_rx_t) (w : Rd.world) :
  Rd.chip_info w = Some c ->
  pow2 (page_size c) -> page_size c < 2 ^ 32 ->
  Rd._np_cmd_nand_read E fuel cmd w =
  match Rd.read_check c cmd with
  | Some r => Some (r, w)
  | None =>
      Rd.np_read_loop E fuel fuel c (cmd_addr cmd) (cmd_len cmd)
        (Rd.mk_world (Rd.chip_info w)
           (np_page_t.mk (np_page_t.buf (Rd.page w))
              (cmd_addr cmd / page_size c) 0)
           (Rd.bad_blocks w) (Rd.trace w))
  end.
Proof.
  intros Hc Hpow Hps32. unfold Rd._np_cmd_nand_read, Rd.read_check.
  rewrite (rd_bind_eq Rd.get_chip _ w c w)
    by (unfold Rd.get_chip; rewrite Hc; reflexivity).
  cbv zeta. rewrite !(pow2_mask (page_size c)) by assumption.
  unfold u32 at 1, nonzero.
  repeat match goal with
         | |- (if ?b then _ else _) _ = _ => destruct b; [reflexivity|]
         end.
  reflexivity.
Qed.

(** X8: a read streams the pages it was asked for.  For a request whose
    [addr + len] does not wrap, on a driver that leaves the page buffer as
    long as it is: the command returns whenever the transport is ready
    when asked; and whatever it returns, it has read the pages from
    [addr / page_size] on, one after the other; the data the transport
    took is, in order, what the driver left of those pages, to the point
    where the command stopped; every data packet says how many bytes it
    carries, between 1 and 62; a page whose read ended in error was
    reported at its address and streamed like the others; and no ok or
    error status was sent.  When it returns 0 the data is all of the
    [len / page_size] pages, [len] bytes. *)
Theorem np_cmd_nand_read_streams (cmd : np_rx_t) (w : Rd.world) :
  Rd.chip_info w = Some c ->
  pow2 (page_size c) -> page_size c <= NP_MAX_PAGE_SIZE ->
  size c < 2 ^ 32 ->
  Z.of_nat (length (np_page_t.buf (Rd.page w))) = NP_MAX_PAGE_SIZE ->
  rx_wf cmd -> cmd_addr cmd + cmd_len cmd < 2 ^ 32 ->
  (Rd.always_ready E ->
   exists r w',
     Rd.np_cmd_nand_read E (Rd.read_fuel c (cmd_len cmd)) cmd w
     = Some (r, w')) /\
  forall fuel r w',
    Rd.np_cmd_nand_read E fuel cmd w = Some (r, w') ->
    exists new,
      Rd.trace w' = Rd.trace w ++ Rd.EvLed true :: new ++ [Rd.EvLed false] /\
      Rd.bad_blocks w' = Rd.bad_blocks w /\
      Rd.read_log c (cmd_addr cmd / page_size c) (cmd_len cmd) r new.
Proof.
  intros Hc Hpow Hmax Hsize Hbuf [Ha Hl] Hnowrap.
  unfold NP_MAX_PAGE_SIZE in *.
  assert (Hps : 0 < page_size c) by apply Hpow.
  set (w0 := Rd.mk_world (Rd.chip_info w) (Rd.page w) (Rd.bad_blocks w)
               (Rd.trace w ++ [Rd.EvLed true])).
  assert (Hled : forall fuel,
             Rd.np_cmd_nand_read E fuel cmd w
             = Rd.bind (Rd._np_cmd_nand_read E fuel cmd)
                 (fun r => Rd.bind (Rd.led_rd_set false)
                             (fun _ => Rd.ret r)) w0)
    by reflexivity.
  set (w1 := Rd.mk_world (Rd.chip_info w0)
               (np_page_t.mk (np_page_t.buf (Rd.page w0))
                  (cmd_addr cmd / page_size c) 0)
               (Rd.bad_blocks w0) (Rd.trace w0)).
  assert (Heq : forall fuel,
             Rd._np_cmd_nand_read E fuel cmd w0 =
             match Rd.read_check c cmd with
             | Some r => Some (r, w0)
             | None => Rd.np_read_loop E fuel fuel c (cmd_addr cmd)
                         (cmd_len cmd) w1
             end)
    by (intros fuel; apply _np_cmd_nand_read_eq; (assumption || lia)).
  assert (Hchk : Rd.read_check c cmd = None ->
                 cmd_addr cmd mod page_size c = 0 /\
                 cmd_len cmd mod page_size c = 0 /\
                 cmd_addr cmd + cmd_len cmd <= size c).
  { unfold Rd.read_check. rewrite Z.mod_small by lia.
    destruct (Z.gtb_spec (cmd_addr cmd + cmd_len cmd) (size c));
      [discriminate|].
    destruct (Z.eqb_spec (cmd_addr cmd mod page_size c) 0); [|discriminate].
    destruct (cmd_len cmd =? 0); [discriminate|].
    destruct (Z.eqb_spec (cmd_len cmd mod page_size c) 0); [|discriminate].
    intros _. repeat split; assumption. }
  split.
  - intros Hr. rewrite Hled. unfold Rd.bind at 1. rewrite Heq.
    destruct (Rd.read_check c cmd) eqn:Hck; [do 2 eexists; reflexivity|].
    destruct (Hchk eq_refl) as (Ham & Hlm & Hend).
    destruct (np_read_loop_total (Rd.read_fuel c (cmd_len cmd))
                (Rd.read_fuel c (cmd_len cmd)) Hr) with
        (a := cmd_addr cmd) (l := cmd_len cmd) (w := w1)
      as (r & w2 & Hloop);
      try (unfold Rd.read_fuel; rewrite Nat2Z.inj_succ, Z2Nat.id; nia);
      try (unfold w1, w0; rd_simpl; lia); try assumption; try lia.
    rewrite Hloop. do 2 eexists. reflexivity.
  - intros fuel r w' Hrun. rewrite Hled in Hrun.
    apply rd_bind_inv in Hrun. destruct Hrun as (r1 & w2 & Hrun & Hrest).
    inversion Hrest; subst r1 w'; clear Hrest. rd_simpl.
    rewrite Heq in Hrun.
    destruct (Rd.read_check c cmd) as [code|] eqn:Hck.
    + inversion Hrun; subst code w2. exists []. unfold w0. rd_simpl.
      rewrite <- app_assoc. split; [reflexivity|]. split; [reflexivity|].
      exists 0%nat. cbn. split; [reflexivity|].
      split; [exists []; reflexivity|]. split; [reflexivity|].
      split; [reflexivity|]. split; [constructor|].
      intros ->. unfold Rd.read_check in Hck.
      repeat match type of Hck with
             | (if ?b then _ else _) = _ => destruct b; [discriminate Hck|]
             end.
      discriminate Hck.
    + destruct (Hchk eq_refl) as (Ham & Hlm & Hend).
      destruct (np_read_loop_spec E c Hkeep Hsize fuel fuel (cmd_addr cmd)
                  (cmd_len cmd) w1 r w2)
        as (new & Ht & Hci & Hbb & Hlog & _);
        try (unfold w1, w0; rd_simpl; lia); try assumption; try lia.
      { unfold w1. rd_simpl. apply aligned_div_mul; assumption. }
      exists new. rewrite Ht, Hbb. unfold w1, w0. rd_simpl.
      rewrite <- !app_assoc. split; [reflexivity|]. split; [reflexivity|].
      exact Hlog.
Qed.

End Rd_read_cmd.


Section Rd_read_reject.

Variable E : Rd.env.
Variable c : chip_info_t.

(** X9: a read that fails a check touches nothing.  The checks are, in
    this order: [addr + len], reduced to 32 bits, is not past the chip
    size; the address is a multiple of the page size; the length is not
    zero; the length is a multiple of the page size (answered with
    NP_ERR_LEN_NOT_ALIGN).  A command that fails one is answered with that
    check's code, which is not 0, after the read LED was switched on and
    off and nothing else: no page is read, nothing is sent, and the static
    page keeps its buffer, page number and offset. *)
Theorem np_cmd_nand_read_rejects (fuel : nat) (cmd : np_rx_t) (w : Rd.world)
    (r : Z) :
  Rd.chip_info w = Some c ->
  pow2 (page_size c) -> page_size c < 2 ^ 32 ->
  Rd.read_check c cmd = Some r ->
  Rd.np_cmd_nand_read E fuel cmd w
  = Some (r, Rd.mk_world (Rd.chip_info w) (Rd.page w) (Rd.bad_blocks w)
               (Rd.trace w ++ [Rd.EvLed true; Rd.EvLed false])) /\
  r <> 0.
Proof.
  intros Hc Hpow Hps32 Hck.
  set (w0 := Rd.mk_world (Rd.chip_info w) (Rd.page w) (Rd.bad_blocks w)
               (Rd.trace w ++ [Rd.EvLed true])).
  assert (Hled : Rd.np_cmd_nand_read E fuel cmd w
                 = Rd.bind (Rd._np_cmd_nand_read E fuel cmd)
                     (fun r => Rd.bind (Rd.led_rd_set false)
                                 (fun _ => Rd.ret r)) w0)
    by reflexivity.
  split.
  - rewrite Hled. unfold Rd.bind at 1.
    rewrite (_np_cmd_nand_read_eq E c fuel cmd w0 Hc Hpow Hps32), Hck.
    unfold w0. rd_prims. rd_simpl. rewrite <- app_assoc. reflexivity.
  - intros ->. unfold Rd.read_check in Hck.
    repeat match type of Hck with
           | (if ?b then _ else _) = _ => destruct b; [discriminate Hck|]
           end.
    discriminate Hck.
Qed.

End Rd_read_reject.

Lemma rd_bench_keeps_length (st : nand_status) (bad : list Z) :
  Rd.keeps_length (Rd.bench_env st bad).
Proof. intros tr b pg sz. cbn. apply repeat_length. Qed.

Lemma np_cmd_nand_read_rejects_witness :
  Rd.np_cmd_nand_read (Rd.bench_env NAND_READY []) 0 (Rd.cmd_read 0 100)
    (Rd.with_chip bench_chip Rd.power_on)
  = Some (NP_ERR_LEN_NOT_ALIGN,
          Rd.mk_world (Rd.chip_info (Rd.with_chip bench_chip Rd.power_on))
            (Rd.page (Rd.with_chip bench_chip Rd.power_on))
            (Rd.bad_blocks (Rd.with_chip bench_chip Rd.power_on))
            (Rd.trace (Rd.with_chip bench_chip Rd.power_on)
             ++ [Rd.EvLed true; Rd.EvLed false])) /\
  NP_ERR_LEN_NOT_ALIGN <> 0.
Proof.
  apply (np_cmd_nand_read_rejects (Rd.bench_env NAND_READY []) bench_chip 0
           (Rd.cmd_read 0 100) (Rd.with_chip bench_chip Rd.power_on)
           NP_ERR_LEN_NOT_ALIGN).
  - reflexivity.
  - split; [reflexivity|]. vm_compute. reflexivity.
  - vm_compute. reflexivity.
  - vm_compute. reflexivity.
Defined.

Lemma np_cmd_nand_read_streams_witness :
  (Rd.always_ready (Rd.bench_env NAND_ERROR []) ->
   exists r w',
     Rd.np_cmd_nand_read (Rd.bench_env NAND_ERROR [])
       (Rd.read_fuel bench_chip (cmd_len (Rd.cmd_read 0x1F800 0x1000)))
       (Rd.cmd_read 0x1F800 0x1000) (Rd.with_chip bench_chip Rd.power_on)
     = Some (r, w')) /\
  forall fuel r w',
    Rd.np_cmd_nand_read (Rd.bench_env NAND_ERROR []) fuel
      (Rd.cmd_read 0x1F800 0x1000) (Rd.with_chip bench_chip Rd.power_on)
    = Some (r, w') ->
    exists new,
      Rd.trace w'
      = Rd.trace (Rd.with_chip bench_chip Rd.power_on)
        ++ Rd.EvLed true :: new ++ [Rd.EvLed false] /\
      Rd.bad_blocks w' = Rd.bad_blocks (Rd.with_chip bench_chip Rd.power_on) /\
      Rd.read_log bench_chip
        (cmd_addr (Rd.cmd_read 0x1F800 0x1000) / page_size bench_chip)
        (cmd_len (Rd.cmd_read 0x1F800 0x1000)) r new.
Proof.
  apply (np_cmd_nand_read_streams (Rd.bench_env NAND_ERROR []) bench_chip
           (rd_bench_keeps_length NAND_ERROR [])
           (Rd.cmd_read 0x1F800 0x1000) (Rd.with_chip bench_chip Rd.power_on)).
  - reflexivity.
  - split; [reflexivity|]. vm_compute. reflexivity.
  - vm_compute. discriminate.
  - vm_compute. reflexivity.
  - vm_compute. reflexivity.
  - vm_compute. repeat split; intros H; discriminate H.
  - vm_compute. reflexivity.
Defined.

(** A read of two pages on the bench: pages 63 and 64 are read, both end
    in error and are reported at 0x1F800 and 0x20000, and the 4096 bytes
    go out in 68 packets. *)
Example np_cmd_nand_read_bench :
  exists w',
    Rd.np_cmd_nand_read (Rd.bench_env NAND_ERROR []) 40
      (Rd.cmd_read 0x1F800 0x1000) (Rd.with_chip bench_chip Rd.power_on)
    = Some (0, w') /\
    map fst (Rd.pages_read (Rd.trace w')) = [63; 64] /\
    Rd.reported (Rd.trace w') = [0x1F800; 0x20000] /\
    Rd.sent_data (Rd.trace w') = repeat xaa 2048 ++ repeat x55 2048 /\
    length (filter (fun e => match e with
                             | Rd.EvSend (Rd.PktData _ _) _ => true
                             | _ => false
                             end) (Rd.trace w')) = 68%nat.
Proof.
  eexists. split; [vm_compute; reflexivity|]. vm_compute. repeat split.
Qed.

(** ** The bad block scan *)

Lemma rd_accepted_app tr1 tr2 :
  Rd.accepted (tr1 ++ tr2) = Rd.accepted tr1 ++ Rd.accepted tr2.
Proof. apply flat_map_app. Qed.

Lemma rd_accepted_failure (e : Rd.event) :
  ~ Rd.step_ok e -> Rd.accepted [e] = [].
Proof.
  destruct e; try reflexivity. cbn. intros H.
  destruct (Z.eqb_spec rc 0); [contradiction|reflexivity].
Qed.

Section Rd_scan.

Variable E : Rd.env.
Variable c : chip_info_t.

(** One marker read and what follows it. *)
Lemma np_read_bad_block_info_from_page_spec (is_bad : bool) (block pg : Z)
    (w : Rd.world) :
  exists rc ib tail,
    Rd.np_read_bad_block_info_from_page E is_bad block pg c w
    = Some ((rc, ib),
            Rd.mk_world (Rd.chip_info w) (Rd.page w)
              (Rd.bad_blocks w ++ Rd.accepted tail)
              (Rd.trace w
               ++ Rd.EvReadData pg (page_size c) 1
                    (fst (Rd.nand_read_data E (Rd.trace w) pg (page_size c) 1))
                    (snd (Rd.nand_read_data E (Rd.trace w) pg (page_size c) 1))
                  :: tail)) /\
    Rd.markers tail = [] /\ Rd.closing tail = [] /\
    Forall (Rd.marker_read c) tail /\
    (rc <> 0 ->
     Rd.stopped_at_failure
       (Rd.EvReadData pg (page_size c) 1
          (fst (Rd.nand_read_data E (Rd.trace w) pg (page_size c) 1))
          (snd (Rd.nand_read_data E (Rd.trace w) pg (page_size c) 1))
        :: tail)) /\
    (rc = 0 ->
     fst (Rd.nand_read_data E (Rd.trace w) pg (page_size c) 1) = NAND_READY /\
     Forall Rd.step_ok tail /\
     ib = negb (Byte.eqb (snd (Rd.nand_read_data E (Rd.trace w) pg
                                 (page_size c) 1))
                         Rd.NP_NAND_GOOD_BLOCK_MARK) /\
     Rd.reported tail = Rd.added tail /\
     Rd.added tail = Rd.accepted tail /\
     Rd.added tail = (if ib then [u32 (block * block_size c)] else [])).
Proof.
  unfold Rd.np_read_bad_block_info_from_page. rd_prims. rd_simpl.
  destruct (Rd.nand_read_data E (Rd.trace w) pg (page_size c) 1) as [st b].
  rd_simpl.
  assert (Hnil : Rd.bad_blocks w = Rd.bad_blocks w ++ Rd.accepted [])
    by (symmetry; apply app_nil_r).
  destruct st;
    try (exists NP_ERR_NAND_RD, is_bad, []; rewrite <- Hnil;
         split; [reflexivity|]; do 2 (split; [reflexivity|]);
         split; [constructor|];
         split; [intros _; eexists [], _;
                 split; [reflexivity|]; split; [constructor|];
                 cbn; discriminate|];
         intros H; discriminate H).
  destruct (Byte.eqb b Rd.NP_NAND_GOOD_BLOCK_MARK) eqn:Hb; cbn [negb].
  - exists 0, false, []. rewrite <- Hnil.
    split; [reflexivity|]. do 2 (split; [reflexivity|]).
    split; [constructor|].
    split; [intros H; contradiction|].
    intros _. repeat split. constructor.
  - rd_simpl. set (a := u32 (block * block_size c)).
    set (evr := Rd.EvReadData pg (page_size c) 1 NAND_READY b).
    set (tr1 := Rd.trace w ++ [evr]).
    set (rcs := Rd.comm_send E tr1 (Rd.PktStatus (NP_STATUS_BAD_BLOCK a))).
    set (evs := Rd.EvSend (Rd.PktStatus (NP_STATUS_BAD_BLOCK a)) rcs).
    destruct (nonzero rcs) eqn:Hs.
    + change (nonzero (-1)) with true. cbv iota.
      exists (-1), true, [evs]. unfold tr1. rewrite <- app_assoc.
      cbn [app Rd.accepted flat_map evs]. rewrite app_nil_r.
      split; [reflexivity|]. do 2 (split; [reflexivity|]).
      split; [repeat constructor|].
      split; [|intros H; discriminate H].
      intros _. exists [evr], evs. split; [reflexivity|].
      split; [repeat constructor|].
      apply nonzero_true in Hs. exact Hs.
    + change (nonzero 0) with false. cbv iota. rd_simpl.
      apply nonzero_false in Hs.
      set (rca := Rd.bad_block_table_add E (tr1 ++ [evs]) a).
      exists (if nonzero rca then -1 else 0), true, [evs; Rd.EvTableAdd a rca].
      unfold tr1. rewrite <- !app_assoc.
      cbn [app Rd.accepted flat_map evs].
      split.
      { unfold nonzero. destruct (rca =? 0); cbn [negb app];
          rewrite ?app_nil_r; reflexivity. }
      do 2 (split; [reflexivity|]).
      split; [repeat constructor|].
      unfold nonzero. destruct (Z.eqb_spec rca 0) as [Ha|Ha]; cbn [negb].
      * split; [intros H; contradiction|].
        intros _. rewrite Ha. cbn. repeat split.
        repeat constructor. exact Hs.
      * split; [|intros H; discriminate H].
        intros _. exists [evr; evs], (Rd.EvTableAdd a rca).
        split; [reflexivity|]. split; [|exact Ha].
        repeat constructor. exact Hs.
Qed.

End Rd_scan.

Lemma rd_stopped_at_failure_app (l1 l2 : list Rd.event) :
  Forall Rd.step_ok l1 -> Rd.stopped_at_failure l2 ->
  Rd.stopped_at_failure (l1 ++ l2).
Proof.
  intros H1 (pre & e & -> & Hpre & He).
  exists (l1 ++ pre), e. rewrite app_assoc.
  split; [reflexivity|]. split; [|exact He].
  apply Forall_app. split; assumption.
Qed.

Section Rd_scan_loop.

Variable E : Rd.env.
Variable c : chip_info_t.

(** The body of the scan loop for one block, up to its last step [k]:
    either it returns -1, or it goes on to [k] after the marker reads of
    the block in scan order. *)
Lemma np_scan_step (k : bool -> Rd.R Z) (is_bad : bool) (block pg : Z)
    (w : Rd.world) (r : Z) (w' : Rd.world) :
  Rd.bind (Rd.np_read_bad_block_info_from_page E is_bad block pg c)
    (fun r1 =>
       if nonzero (fst r1) then Rd.ret (-1)
       else
         Rd.bind (if negb (snd r1)
                  then Rd.np_read_bad_block_info_from_page E (snd r1) block
                         (u32 (pg + 1)) c
                  else Rd.ret (0, snd r1))
           (fun r2 => if nonzero (fst r2) then Rd.ret (-1)
                      else k (snd r2))) w
  = Some (r, w') ->
  exists evs w1,
    Rd.trace w1 = Rd.trace w ++ evs /\
    Rd.chip_info w1 = Rd.chip_info w /\ Rd.page w1 = Rd.page w /\
    Rd.bad_blocks w1 = Rd.bad_blocks w ++ Rd.accepted evs /\
    Rd.closing evs = [] /\ Forall (Rd.marker_read c) evs /\
    (r = -1 /\ w' = w1 /\ Rd.stopped_at_failure evs
     \/
     exists ib,
       k ib w1 = Some (r, w') /\ Forall Rd.step_ok evs /\
       Rd.reported evs = Rd.added evs /\ Rd.accepted evs = Rd.added evs /\
       exists b1,
         (Byte.eqb b1 Rd.NP_NAND_GOOD_BLOCK_MARK = false /\
          Rd.markers evs = [(pg, b1)] /\
          Rd.added evs = [u32 (block * block_size c)]
          \/
          Byte.eqb b1 Rd.NP_NAND_GOOD_BLOCK_MARK = true /\
          exists b2,
            Rd.markers evs = [(pg, b1); (u32 (pg + 1), b2)] /\
            Rd.added evs
            = (if Byte.eqb b2 Rd.NP_NAND_GOOD_BLOCK_MARK then []
               else [u32 (block * block_size c)]))).
Proof.
  intros Hrun.
  destruct (np_read_bad_block_info_from_page_spec E c is_bad block pg w)
    as (rc1 & ib1 & tail1 & Hp1 & Hm1 & Hc1 & Hmr1 & Hf1 & Hz1).
  rewrite (rd_bind_eq _ _ _ _ _ Hp1) in Hrun. cbn [fst snd] in Hrun.
  set (st1 := fst (Rd.nand_read_data E (Rd.trace w) pg (page_size c) 1)) in *.
  set (b1 := snd (Rd.nand_read_data E (Rd.trace w) pg (page_size c) 1)) in *.
  set (ev1 := Rd.EvReadData pg (page_size c) 1 st1 b1) in *.
  set (w1 := Rd.mk_world (Rd.chip_info w) (Rd.page w)
               (Rd.bad_blocks w ++ Rd.accepted tail1)
               (Rd.trace w ++ ev1 :: tail1)) in *.
  assert (Hmr1' : Forall (Rd.marker_read c) (ev1 :: tail1))
    by (constructor; [split; reflexivity|exact Hmr1]).
  destruct (nonzero rc1) eqn:Hrc1.
  - inversion Hrun; subst r w'. exists (ev1 :: tail1), w1.
    unfold w1. rd_simpl. do 3 (split; [reflexivity|]).
    split; [reflexivity|]. split; [exact Hc1|]. split; [exact Hmr1'|].
    left. split; [reflexivity|]. split; [reflexivity|].
    apply Hf1. apply nonzero_true. exact Hrc1.
  - apply nonzero_false in Hrc1. subst rc1.
    destruct (Hz1 eq_refl) as (Hst1 & Hok1 & Hib1 & Hrep1 & Hacc1 & Hadd1).
    assert (Hall1 : Forall Rd.step_ok (ev1 :: tail1))
      by (constructor; assumption).
    destruct (Byte.eqb b1 Rd.NP_NAND_GOOD_BLOCK_MARK) eqn:Hb1;
      cbn [negb] in Hib1; subst ib1; cbn [negb] in Hrun.
    + destruct (np_read_bad_block_info_from_page_spec E c false block
                  (u32 (pg + 1)) w1)
        as (rc2 & ib2 & tail2 & Hp2 & Hm2 & Hc2 & Hmr2 & Hf2 & Hz2).
      rewrite (rd_bind_eq _ _ _ _ _ Hp2) in Hrun. cbn [fst snd] in Hrun.
      set (st2 := fst (Rd.nand_read_data E (Rd.trace w1) (u32 (pg + 1))
                         (page_size c) 1)) in *.
      set (b2 := snd (Rd.nand_read_data E (Rd.trace w1) (u32 (pg + 1))
                        (page_size c) 1)) in *.
      set (ev2 := Rd.EvReadData (u32 (pg + 1)) (page_size c) 1 st2 b2) in *.
      set (w2 := Rd.mk_world (Rd.chip_info w1) (Rd.page w1)
                   (Rd.bad_blocks w1 ++ Rd.accepted tail2)
                   (Rd.trace w1 ++ ev2 :: tail2)) in *.
      assert (Hw2 : w2 = Rd.mk_world (Rd.chip_info w) (Rd.page w)
                           (Rd.bad_blocks w
                            ++ Rd.accepted ((ev1 :: tail1) ++ ev2 :: tail2))
                           (Rd.trace w ++ (ev1 :: tail1) ++ ev2 :: tail2)).
      { unfold w2, w1. rd_simpl. rewrite rd_accepted_app, <- !app_assoc.
        reflexivity. }
      rewrite Hw2 in Hrun. clear Hw2.
      exists ((ev1 :: tail1) ++ ev2 :: tail2),
             (Rd.mk_world (Rd.chip_info w) (Rd.page w)
                (Rd.bad_blocks w
                 ++ Rd.accepted ((ev1 :: tail1) ++ ev2 :: tail2))
                (Rd.trace w ++ (ev1 :: tail1) ++ ev2 :: tail2)).
      rd_simpl. do 4 (split; [reflexivity|]).
      rewrite rd_closing_app.
      change (Rd.closing (ev1 :: tail1)) with (Rd.closing tail1).
      change (Rd.closing (ev2 :: tail2)) with (Rd.closing tail2).
      rewrite Hc1, Hc2. split; [reflexivity|].
      split; [apply Forall_app; split; [exact Hmr1'|];
              constructor; [split; reflexivity|exact Hmr2]|].
      destruct (nonzero rc2) eqn:Hrc2.
      * inversion Hrun; subst r w'. left.
        split; [reflexivity|]. split; [reflexivity|].
        apply rd_stopped_at_failure_app; [exact Hall1|].
        apply Hf2. apply nonzero_true. exact Hrc2.
      * apply nonzero_false in Hrc2. subst rc2.
        destruct (Hz2 eq_refl) as (Hst2 & Hok2 & Hib2 & Hrep2 & Hacc2 & Hadd2).
        right. exists ib2. split; [exact Hrun|].
        split; [apply Forall_app; split; [exact Hall1|];
                constructor; assumption|].
        rewrite rd_reported_app, rd_added_app, rd_markers_app,
          rd_accepted_app.
        change (Rd.accepted (ev1 :: tail1)) with (Rd.accepted tail1).
        change (Rd.accepted (ev2 :: tail2)) with (Rd.accepted tail2).
        change (Rd.reported (ev1 :: tail1)) with (Rd.reported tail1).
        change (Rd.reported (ev2 :: tail2)) with (Rd.reported tail2).
        change (Rd.added (ev1 :: tail1)) with (Rd.added tail1).
        change (Rd.added (ev2 :: tail2)) with (Rd.added tail2).
        change (Rd.markers (ev1 :: tail1)) with ((pg, b1) :: Rd.markers tail1).
        change (Rd.markers (ev2 :: tail2))
          with ((u32 (pg + 1), b2) :: Rd.markers tail2).
        rewrite Hm1, Hm2, Hrep1, Hrep2, <- Hacc1, <- Hacc2.
        split; [reflexivity|]. split; [reflexivity|].
        exists b1. right. split; [exact Hb1|]. exists b2.
        split; [reflexivity|].
        rewrite Hadd1, Hadd2, Hib2. cbn [app].
        destruct (Byte.eqb b2 Rd.NP_NAND_GOOD_BLOCK_MARK); reflexivity.
    + rewrite rd_bind_ret in Hrun. cbn [fst snd] in Hrun.
      change (nonzero 0) with false in Hrun. cbv iota in Hrun.
      exists (ev1 :: tail1), w1. unfold w1. rd_simpl.
      do 3 (split; [reflexivity|]). split; [reflexivity|].
      split; [exact Hc1|]. split; [exact Hmr1'|].
      right. exists true. split; [exact Hrun|]. split; [exact Hall1|].
      change (Rd.reported (ev1 :: tail1)) with (Rd.reported tail1).
      change (Rd.added (ev1 :: tail1)) with (Rd.added tail1).
      change (Rd.accepted (ev1 :: tail1)) with (Rd.accepted tail1).
      change (Rd.markers (ev1 :: tail1)) with ((pg, b1) :: Rd.markers tail1).
      rewrite Hm1, Hrep1, <- Hacc1.
      split; [reflexivity|]. split; [reflexivity|].
      exists b1. left. split; [exact Hb1|]. split; [reflexivity|].
      exact Hadd1.
Qed.


Hypothesis Hwf : chip_wf c.

Lemma scan_geometry (block : Z) :
  0 <= block < size c / block_size c ->
  0 <= block * (block_size c / page_size c) /\
  block * (block_size c / page_size c) + 1 < 2 ^ 32 /\
  0 <= block * block_size c < 2 ^ 32 /\
  block + 1 < 2 ^ 32.
Proof.
  destruct (chip_wf_facts c Hwf) as (Hps & Hbs & Hdiv & Hpib & Hsz & Hszm & Hbsz).
  intros Hb.
  assert (Hbn : size c / block_size c * block_size c = size c)
    by (apply aligned_div_mul; assumption).
  assert (Hpn : 1 <= block_size c / page_size c) by nia.
  assert (Hbs1 : (block + 1) * block_size c <= size c) by nia.
  nia.
Qed.

Lemma np_scan_loop_spec (fuel : nat) :
  forall block is_bad w r w',
    0 <= block <= size c / block_size c ->
    Rd.np_scan_loop E fuel c block (size c / block_size c)
      (block_size c / page_size c) is_bad w = Some (r, w') ->
    exists new,
      Rd.trace w' = Rd.trace w ++ new /\
      Rd.chip_info w' = Rd.chip_info w /\ Rd.page w' = Rd.page w /\
      Rd.bad_blocks w' = Rd.bad_blocks w ++ Rd.accepted new /\
      Rd.scan_log c block (size c / block_size c) r new.
Proof.
  induction fuel as [|f IH]; intros block is_bad w r w' Hb Hrun;
    cbn [Rd.np_scan_loop] in Hrun;
    (destruct (Z.ltb_spec block (size c / block_size c)) as [Hlt|Hge];
     [|revert Hrun; rd_prims; rd_simpl; intros Hrun;
       inversion Hrun; subst r w'; eexists [_]; rd_simpl;
       do 3 (split; [reflexivity|]);
       split; [symmetry; apply app_nil_r|];
       unfold Rd.scan_log;
       replace (Z.to_nat (size c / block_size c - block)) with 0%nat by lia;
       cbn; repeat split; auto; repeat constructor; discriminate]).
  - discriminate Hrun.
  - cbv zeta in Hrun.
    destruct (scan_geometry block ltac:(lia)) as (Hg1 & Hg2 & Hg3 & Hg4).
    apply np_scan_step in Hrun.
    destruct Hrun as (evs & w1 & Ht & Hci & Hpg & Hbb & Hcl & Hmr & Hcase).
    destruct Hcase as [(-> & -> & Hrl)|(ib & Hk & Hall & Hrep & Hacc & b1 & Hblk)].
    + exists evs. do 4 (split; [assumption|]).
      unfold Rd.scan_log. change (-1 =? 0) with false. cbv iota.
      split; [right; reflexivity|]. split; [exact Hcl|].
      split; [exact Hmr|]. split; [intros _; exact Hrl|].
      intros H; discriminate H.
    + rewrite (u32_small (block + 1)) in Hk by lia.
      apply IH in Hk; [|lia].
      destruct Hk as (rest & Ht' & Hci' & Hpg' & Hbb' & Hlog).
      exists (evs ++ rest).
      rewrite Ht', Ht, Hci', Hci, Hpg', Hpg, Hbb', Hbb, rd_accepted_app.
      rewrite <- !app_assoc. do 4 (split; [reflexivity|]).
      destruct Hlog as (Hr & Hcl' & Hmr' & Hrl' & Hz).
      unfold Rd.scan_log.
      split; [exact Hr|].
      split; [rewrite rd_closing_app, Hcl; exact Hcl'|].
      split; [apply Forall_app; split; assumption|].
      split; [intros Hr1; apply rd_stopped_at_failure_app;
              [assumption|apply Hrl'; exact Hr1]|].
      intros Hr0. destruct (Hz Hr0) as (Hall' & Hexp & Hrep' & Hacc').
      split; [apply Forall_app; split; assumption|].
      rewrite rd_markers_app, rd_added_app, rd_reported_app, rd_accepted_app,
        Hrep, Hrep', Hacc, Hacc'.
      split; [|split; reflexivity].
      replace (Z.to_nat (size c / block_size c - block))
        with (S (Z.to_nat (size c / block_size c - (block + 1)))) by lia.
      rewrite (u32_small (block * (block_size c / page_size c))) in Hblk
        by lia.
      rewrite (u32_small (block * (block_size c / page_size c) + 1)) in Hblk
        by lia.
      rewrite (u32_small (block * block_size c)) in Hblk by lia.
      destruct Hblk as [(Hb1 & Hm & Ha)|(Hb1 & b2 & Hm & Ha)];
        rewrite Hm, Ha; cbn [app Rd.scan_expect]; cbv zeta;
        rewrite Z.eqb_refl, Hb1.
      * rewrite Hexp. reflexivity.
      * rewrite Z.eqb_refl.
        destruct (Byte.eqb b2 Rd.NP_NAND_GOOD_BLOCK_MARK);
          rewrite Hexp; reflexivity.
Qed.

End Rd_scan_loop.


Section Rd_scan_cmd.

Variable E : Rd.env.
Variable c : chip_info_t.
Hypothesis Hwf : chip_wf c.

Lemma np_read_bad_block_info_from_page_goes_on (is_bad : bool)
    (block pg : Z) (w : Rd.world) :
  Rd.scan_goes_on E ->
  exists ib w1,
    Rd.np_read_bad_block_info_from_page E is_bad block pg c w
    = Some ((0, ib), w1).
Proof.
  intros (Hrd & Hsend & Hadd).
  unfold Rd.np_read_bad_block_info_from_page. rd_prims. rd_simpl.
  rewrite Hrd.
  destruct (Byte.eqb _ Rd.NP_NAND_GOOD_BLOCK_MARK); cbn [negb].
  - eexists _, _. reflexivity.
  - rd_simpl. rewrite Hsend.
    do 2 (change (nonzero 0) with false; cbv beta iota; rd_simpl).
    rewrite Hadd. change (nonzero 0) with false. cbv beta iota.
    eexists _, _. reflexivity.
Qed.

Lemma np_scan_loop_goes_on (fuel : nat) :
  Rd.scan_goes_on E ->
  forall block is_bad w,
    0 <= block ->
    (Z.to_nat (size c / block_size c - block) < fuel)%nat ->
    exists w',
      Rd.np_scan_loop E fuel c block (size c / block_size c)
        (block_size c / page_size c) is_bad w = Some (0, w').
Proof.
  intros Hgo.
  induction fuel as [|f IH]; intros block is_bad w Hb Hfuel; [lia|].
  cbn [Rd.np_scan_loop].
  destruct (Z.ltb_spec block (size c / block_size c)) as [Hlt|Hge];
    [|rd_prims; eexists; reflexivity].
  cbv zeta.
  destruct (scan_geometry c Hwf block ltac:(lia)) as (Hg1 & Hg2 & Hg3 & Hg4).
  destruct (np_read_bad_block_info_from_page_goes_on is_bad block
              (u32 (block * (block_size c / page_size c))) w Hgo)
    as (ib1 & w1 & H1).
  rewrite (rd_bind_eq _ _ _ _ _ H1). rd_simpl.
  change (nonzero 0) with false. cbv iota.
  rewrite (u32_small (block + 1)) by lia.
  destruct ib1; cbn [negb].
  - rewrite rd_bind_ret. rd_simpl. change (nonzero 0) with false. cbv iota.
    apply IH; lia.
  - destruct (np_read_bad_block_info_from_page_goes_on false block
                (u32 (u32 (block * (block_size c / page_size c)) + 1)) w1 Hgo)
      as (ib2 & w2 & H2).
    rewrite (rd_bind_eq _ _ _ _ _ H2). rd_simpl.
    change (nonzero 0) with false. cbv iota.
    apply IH; lia.
Qed.

Variable w : Rd.world.
Hypothesis Hci : Rd.chip_info w = Some c.

Lemma np_cmd_read_bad_blocks_log (fuel : nat) (r : Z) (w' : Rd.world) :
  Rd.np_cmd_read_bad_blocks E fuel w = Some (r, w') ->
  exists new,
    Rd.trace w' = Rd.trace w ++ Rd.EvLed true :: new ++ [Rd.EvLed false] /\
    Rd.chip_info w' = Rd.chip_info w /\ Rd.page w' = Rd.page w /\
    Rd.bad_blocks w' = Rd.bad_blocks w ++ Rd.accepted new /\
    Rd.scan_log c 0 (size c / block_size c) r new.
Proof.
  unfold Rd.np_cmd_read_bad_blocks, Rd._np_cmd_read_bad_blocks.
  intros Hrun.
  apply rd_bind_inv in Hrun. destruct Hrun as ([] & w1 & Hled & Hrun).
  revert Hled. rd_prims. intros Hled. inversion Hled; subst w1; clear Hled.
  apply rd_bind_inv in Hrun. destruct Hrun as (r1 & w2 & Hscan & Hrun).
  apply rd_bind_inv in Hscan. destruct Hscan as (c1 & w1 & Hget & Hscan).
  revert Hget. unfold Rd.get_chip. rd_simpl. rewrite Hci.
  intros Hget. inversion Hget; subst c1 w1; clear Hget.
  cbv zeta in Hscan.
  destruct (chip_wf_facts c Hwf) as (Hps & Hbs & Hdiv & Hpib & Hsz & Hszm & Hbsz).
  apply (np_scan_loop_spec E c Hwf) in Hscan;
    [|split; [lia|apply Z.div_pos; lia]].
  destruct Hscan as (new & Ht & Hc & Hp & Hbb & Hlog).
  revert Hrun. rd_prims. intros Hrun. inversion Hrun; subst r w'; clear Hrun.
  exists new. rd_simpl. rewrite Ht, Hc, Hp, Hbb. rd_simpl.
  rewrite <- !app_assoc.
  split; [reflexivity|]. do 3 (split; [reflexivity|]). exact Hlog.
Qed.

(** X10: on a well-formed chip, a scan that returns 0 has read the spare
    area marker of the first page of every block, from block 0 to the last
    one, and of the second page of the blocks whose first marker is the
    good mark, and nothing else, every read ending ready; the blocks it
    reported to the host are exactly the blocks with a marker that is not
    the good mark, each once and in order, by byte address; every report
    was taken by the transport; the reported blocks are what it appended
    to the bad block table; and the ok status follows them as the one
    status response.  With a driver whose marker reads end ready, a
    transport that takes the reports and a table that takes the additions,
    the scan returns 0. *)
Theorem np_cmd_read_bad_blocks_scan :
  (Rd.scan_goes_on E ->
   exists w', Rd.np_cmd_read_bad_blocks E (Rd.scan_fuel c) w = Some (0, w')) /\
  forall fuel w',
    Rd.np_cmd_read_bad_blocks E fuel w = Some (0, w') ->
    exists new,
      Rd.trace w' = Rd.trace w ++ Rd.EvLed true :: new ++ [Rd.EvLed false] /\
      Forall (Rd.marker_read c) new /\ Forall Rd.step_ok new /\
      Rd.scan_expect c 0 (Z.to_nat (size c / block_size c)) (Rd.markers new)
      = Some (Rd.reported new) /\
      Rd.added new = Rd.reported new /\
      Rd.bad_blocks w' = Rd.bad_blocks w ++ Rd.reported new /\
      Rd.closing new = [NP_STATUS_OK].
Proof.
  split.
  - intros Hgo.
    unfold Rd.np_cmd_read_bad_blocks, Rd._np_cmd_read_bad_blocks.
    rd_prims. rd_simpl. rewrite Hci. cbv zeta.
    destruct (np_scan_loop_goes_on (Rd.scan_fuel c) Hgo 0 false
                (Rd.mk_world (Some c) (Rd.page w) (Rd.bad_blocks w)
                   (Rd.trace w ++ [Rd.EvLed true])))
      as (w1 & H1); [lia|unfold Rd.scan_fuel; lia|].
    rewrite H1. eexists. reflexivity.
  - intros fuel w' Hrun.
    destruct (np_cmd_read_bad_blocks_log fuel 0 w' Hrun)
      as (new & Ht & _ & _ & Hbb & _ & Hcl & Hmr & _ & Hz).
    destruct (Hz eq_refl) as (Hall & Hexp & Hrep & Hacc).
    exists new. rewrite Z.sub_0_r in Hexp.
    rewrite Hbb, Hacc, Hrep, Hexp.
    split; [exact Ht|]. repeat split; assumption.
Qed.

(** X11: a scan that fails stops at the first step that does not go
    well, which is a marker read that does not end ready, a bad-block
    report the transport refuses or a block the table does not take: that
    step is the last thing it does before the read LED is switched off.
    It returns -1 whichever of them it was (the NP_ERR_NAND_RD of the
    marker read is not passed on) and sends no ok status; the bad block
    table keeps the blocks it took before the failure. *)
Theorem np_cmd_read_bad_blocks_failure (fuel : nat) (r : Z) (w' : Rd.world) :
  Rd.np_cmd_read_bad_blocks E fuel w = Some (r, w') ->
  r <> 0 ->
  r = -1 /\
  exists pre e,
    Rd.trace w' = Rd.trace w ++ Rd.EvLed true :: pre ++ [e; Rd.EvLed false] /\
    Forall Rd.step_ok pre /\ ~ Rd.step_ok e /\
    Rd.closing (pre ++ [e]) = [] /\
    Rd.bad_blocks w' = Rd.bad_blocks w ++ Rd.accepted pre.
Proof.
  intros Hrun Hr.
  destruct (np_cmd_read_bad_blocks_log fuel r w' Hrun)
    as (new & Ht & _ & _ & Hbb & [Hr0|Hr1] & Hcl & _ & Hrl & _);
    [contradiction|].
  split; [exact Hr1|]. subst r.
  destruct (Hrl eq_refl) as (pre & e & -> & Hpre & He).
  exists pre, e. rewrite Ht, Hbb, rd_accepted_app, rd_accepted_failure by exact He.
  rewrite app_nil_r, <- app_assoc.
  split; [reflexivity|]. repeat split; assumption.
Qed.

End Rd_scan_cmd.

Lemma rd_bench_scan_goes_on (bad : list Z) :
  Rd.scan_goes_on (Rd.bench_env NAND_READY bad).
Proof. repeat split. Qed.

Lemma np_cmd_read_bad_blocks_scan_witness :
  (Rd.scan_goes_on (Rd.bench_env NAND_READY [128; 321]) ->
   exists w',
     Rd.np_cmd_read_bad_blocks (Rd.bench_env NAND_READY [128; 321])
       (Rd.scan_fuel bench_chip) (Rd.with_chip bench_chip Rd.power_on)
     = Some (0, w')) /\
  forall fuel w',
    Rd.np_cmd_read_bad_blocks (Rd.bench_env NAND_READY [128; 321]) fuel
      (Rd.with_chip bench_chip Rd.power_on) = Some (0, w') ->
    exists new,
      Rd.trace w'
      = Rd.trace (Rd.with_chip bench_chip Rd.power_on)
        ++ Rd.EvLed true :: new ++ [Rd.EvLed false] /\
      Forall (Rd.marker_read bench_chip) new /\ Forall Rd.step_ok new /\
      Rd.scan_expect bench_chip 0
        (Z.to_nat (size bench_chip / block_size bench_chip)) (Rd.markers new)
      = Some (Rd.reported new) /\
      Rd.added new = Rd.reported new /\
      Rd.bad_blocks w'
      = Rd.bad_blocks (Rd.with_chip bench_chip Rd.power_on)
        ++ Rd.reported new /\
      Rd.closing new = [NP_STATUS_OK].
Proof.
  apply (np_cmd_read_bad_blocks_scan (Rd.bench_env NAND_READY [128; 321])
           bench_chip).
  - vm_compute. repeat split; intros H; discriminate H.
  - reflexivity.
Defined.

(** A table that is full: the scan stops at block 2. *)
Lemma np_cmd_read_bad_blocks_failure_witness :
  exists w',
    Rd.np_cmd_read_bad_blocks
      (Rd.mk_env (fun _ _ => 0) (fun _ => true) (fun _ => [])
         (fun _ b _ _ => (NAND_READY, b))
         (fun _ pg _ _ => (NAND_READY, if pg =? 128 then x00 else xff))
         (fun _ _ => -1))
      3 (Rd.with_chip bench_chip Rd.power_on) = Some (-1, w') /\
    -1 <> 0 /\
    -1 = -1 /\
    exists pre e,
      Rd.trace w'
      = Rd.trace (Rd.with_chip bench_chip Rd.power_on)
        ++ Rd.EvLed true :: pre ++ [e; Rd.EvLed false] /\
      Forall Rd.step_ok pre /\ ~ Rd.step_ok e /\
      Rd.closing (pre ++ [e]) = [] /\
      Rd.bad_blocks w'
      = Rd.bad_blocks (Rd.with_chip bench_chip Rd.power_on)
        ++ Rd.accepted pre.
Proof.
  eexists. split; [vm_compute; reflexivity|]. split; [lia|].
  apply (np_cmd_read_bad_blocks_failure
           (Rd.mk_env (fun _ _ => 0) (fun _ => true) (fun _ => [])
              (fun _ b _ _ => (NAND_READY, b))
              (fun _ pg _ _ => (NAND_READY, if pg =? 128 then x00 else xff))
              (fun _ _ => -1))
           bench_chip bench_chip_wf (Rd.with_chip bench_chip Rd.power_on)
           eq_refl 3 (-1)).
  - vm_compute. reflexivity.
  - lia.
Defined.

(** The scan of the bench chip, 512 blocks of 64 pages, with a zero marker
    in the first page of block 2 and in the second page of block 5: the
    two blocks are reported and added at their byte addresses, after 1023
    marker reads. *)
Example np_cmd_read_bad_blocks_bench :
  exists w',
    Rd.np_cmd_read_bad_blocks (Rd.bench_env NAND_READY [128; 321])
      (Rd.scan_fuel bench_chip) (Rd.with_chip bench_chip Rd.power_on)
    = Some (0, w') /\
    Rd.bad_blocks w' = [0x40000; 0xA0000] /\
    Rd.reported (Rd.trace w') = [0x40000; 0xA0000] /\
    length (Rd.markers (Rd.trace w')) = 1023%nat.
Proof.
  eexists. split; [vm_compute; reflexivity|]. vm_compute. repeat split.
Qed.


(** ** The bounds of a read *)

Section Rd_read_bounds.

Variable E : Rd.env.
Variable c : chip_info_t.

Lemma np_read_page_loop_grows (fuel0 fuel : nat) :
  forall l w res w',
    Rd.np_read_page_loop E fuel0 fuel c l w = Some (res, w') ->
    exists new, Rd.trace w' = Rd.trace w ++ new.
Proof.
  induction fuel as [|f IH]; intros l w res w' Hrun;
    cbn [Rd.np_read_page_loop] in Hrun;
    rewrite (rd_bind_eq Rd.get_page _ w (Rd.page w) w eq_refl) in Hrun;
    cbv zeta in Hrun;
    (destruct ((np_page_t.offset (Rd.page w) <? page_size c) && nonzero l);
     [|inversion Hrun; subst; exists []; symmetry; apply app_nil_r]).
  - discriminate Hrun.
  - apply rd_bind_inv in Hrun. destruct Hrun as ([] & w1 & Hwait & Hrun).
    apply wait_send_ready_spec in Hwait. destruct Hwait as (new1 & -> & _).
    revert Hrun. rd_prims. rd_simpl.
    match goal with
    | |- context [nonzero ?x] => destruct (nonzero x)
    end.
    + intros Hrun. inversion Hrun; subst. rd_simpl.
      rewrite <- app_assoc. eexists. reflexivity.
    + intros Hrun. apply IH in Hrun. destruct Hrun as (new2 & ->).
      rd_simpl. rewrite <- !app_assoc. eexists. reflexivity.
Qed.

Lemma np_read_loop_grows (fuel0 fuel : nat) :
  forall a l w r w',
    Rd.np_read_loop E fuel0 fuel c a l w = Some (r, w') ->
    exists new, Rd.trace w' = Rd.trace w ++ new.
Proof.
  induction fuel as [|f IH]; intros a l w r w' Hrun;
    cbn [Rd.np_read_loop] in Hrun;
    (destruct (nonzero l);
     [|inversion Hrun; subst; exists []; symmetry; apply app_nil_r]).
  - discriminate Hrun.
  - destruct (np_nand_read_spec E c a w) as (rc & tail & Hrd & _).
    rewrite (rd_bind_eq _ _ _ _ _ Hrd) in Hrun.
    destruct (nonzero rc).
    + inversion Hrun; subst. rd_simpl. eexists. reflexivity.
    + apply rd_bind_inv in Hrun. destruct Hrun as (res & w2 & Hin & Hrun).
      apply np_read_page_loop_grows in Hin. destruct Hin as (new & Ht).
      revert Ht. rd_simpl. intros Ht.
      destruct res as [r1|l'];
        [inversion Hrun; subst; rewrite Ht, <- app_assoc;
         eexists; reflexivity|].
      destruct (nonzero l');
        [|inversion Hrun; subst; rewrite Ht, <- app_assoc;
          eexists; reflexivity].
      cbv zeta in Hrun.
      destruct (u32 (a + page_size c) >=? size c);
        [inversion Hrun; subst; rewrite Ht, <- app_assoc;
         eexists; reflexivity|].
      revert Hrun. rd_prims. rd_simpl. intros Hrun.
      apply IH in Hrun. destruct Hrun as (new3 & ->). rd_simpl.
      rewrite Ht, <- !app_assoc. eexists. reflexivity.
Qed.

(** The first page of a read that passed the checks. *)
Lemma np_cmd_nand_read_first_page (fuel : nat) (cmd : np_rx_t)
    (w : Rd.world) (r : Z) (w' : Rd.world) :
  Rd.chip_info w = Some c ->
  pow2 (page_size c) -> page_size c < 2 ^ 32 ->
  Rd.read_check c cmd = None ->
  size c <= cmd_addr cmd ->
  Rd.np_cmd_nand_read E fuel cmd w = Some (r, w') ->
  exists st buf rest,
    Rd.trace w'
    = Rd.trace w
      ++ Rd.EvLed true
         :: Rd.EvReadPage (cmd_addr cmd / page_size c) (page_size c) st buf
         :: rest /\
    size c <= cmd_addr cmd / page_size c * page_size c.
Proof.
  intros Hc Hpow Hps32 Hck Hout Hrun.
  assert (Hps : 0 < page_size c) by apply Hpow.
  unfold Rd.np_cmd_nand_read in Hrun.
  apply rd_bind_inv in Hrun. destruct Hrun as ([] & w0 & Hled & Hrun).
  revert Hled. rd_prims. intros Hled. inversion Hled; subst w0; clear Hled.
  apply rd_bind_inv in Hrun. destruct Hrun as (r1 & w2 & Hrun & Hrest).
  revert Hrest. rd_prims. intros Hrest.
  inversion Hrest; subst r1 w'; clear Hrest. rd_simpl.
  rewrite (_np_cmd_nand_read_eq E c fuel cmd
             (Rd.mk_world (Rd.chip_info w) (Rd.page w) (Rd.bad_blocks w)
                (Rd.trace w ++ [Rd.EvLed true])) Hc Hpow Hps32), Hck in Hrun.
  revert Hrun. rd_simpl. intros Hrun.
  assert (Ha : cmd_addr cmd mod page_size c = 0 /\ cmd_len cmd <> 0).
  { revert Hck. unfold Rd.read_check.
    destruct (_ >? size c); [discriminate|].
    destruct (Z.eqb_spec (cmd_addr cmd mod page_size c) 0); [|discriminate].
    destruct (Z.eqb_spec (cmd_len cmd) 0); [discriminate|].
    intros _. split; assumption. }
  destruct Ha as [Ham Hl].
  destruct fuel as [|f]; cbn [Rd.np_read_loop] in Hrun;
    (destruct (nonzero (cmd_len cmd)) eqn:Hnz;
     [|apply nonzero_false in Hnz; contradiction]);
    [discriminate Hrun|].
  match type of Hrun with
  | Rd.bind (Rd.np_nand_read E ?a c) ?k ?w1 = _ =>
      destruct (np_nand_read_spec E c a w1) as (rc & tail & Hrd & _)
  end.
  rewrite (rd_bind_eq _ _ _ _ _ Hrd) in Hrun. revert Hrun. rd_simpl.
  intros Hrun.
  assert (Hrest : exists rest,
             Rd.trace w2
             = Rd.trace w
               ++ Rd.EvLed true
               :: Rd.EvReadPage (cmd_addr cmd / page_size c) (page_size c)
                    (fst (Rd.nand_read_page E (Rd.trace w ++ [Rd.EvLed true])
                            (np_page_t.buf (Rd.page w))
                            (cmd_addr cmd / page_size c) (page_size c)))
                    (snd (Rd.nand_read_page E (Rd.trace w ++ [Rd.EvLed true])
                            (np_page_t.buf (Rd.page w))
                            (cmd_addr cmd / page_size c) (page_size c)))
                  :: rest).
  { destruct (nonzero rc).
    - inversion Hrun; subst. rd_simpl. rewrite <- ?app_assoc. cbn [app].
      eexists. reflexivity.
    - apply rd_bind_inv in Hrun. destruct Hrun as (res & w3 & Hin & Hrun).
      apply np_read_page_loop_grows in Hin. destruct Hin as (new & Ht).
      revert Ht. rd_simpl. intros Ht.
      assert (Hdone : forall x, Some (x, w3) = Some (r, w2) ->
                 exists rest,
                   Rd.trace w2
                   = Rd.trace w
                     ++ Rd.EvLed true
                     :: Rd.EvReadPage (cmd_addr cmd / page_size c)
                          (page_size c)
                          (fst (Rd.nand_read_page E
                                  (Rd.trace w ++ [Rd.EvLed true])
                                  (np_page_t.buf (Rd.page w))
                                  (cmd_addr cmd / page_size c) (page_size c)))
                          (snd (Rd.nand_read_page E
                                  (Rd.trace w ++ [Rd.EvLed true])
                                  (np_page_t.buf (Rd.page w))
                                  (cmd_addr cmd / page_size c) (page_size c)))
                        :: rest).
      { intros x Hx. inversion Hx; subst. rewrite Ht, <- ?app_assoc.
        cbn [app]. eexists. reflexivity. }
      destruct res as [r1|l']; [exact (Hdone _ Hrun)|].
      destruct (nonzero l'); [|exact (Hdone _ Hrun)].
      cbv zeta in Hrun.
      destruct (u32 (cmd_addr cmd + page_size c) >=? size c);
        [exact (Hdone _ Hrun)|].
      revert Hrun. rd_prims. rd_simpl. intros Hrun.
      apply np_read_loop_grows in Hrun. destruct Hrun as (new3 & ->).
      rd_simpl. rewrite Ht, <- ?app_assoc. cbn [app].
      eexists. reflexivity. }
  destruct Hrest as (rest & Ht).
  exists (fst (Rd.nand_read_page E (Rd.trace w ++ [Rd.EvLed true])
                 (np_page_t.buf (Rd.page w))
                 (cmd_addr cmd / page_size c) (page_size c))),
         (snd (Rd.nand_read_page E (Rd.trace w ++ [Rd.EvLed true])
                 (np_page_t.buf (Rd.page w))
                 (cmd_addr cmd / page_size c) (page_size c))),
         (rest ++ [Rd.EvLed false]).
  split.
  - rewrite Ht, <- ?app_assoc. reflexivity.
  - rewrite aligned_div_mul by assumption. exact Hout.
Qed.

Hypothesis Hkeep : Rd.keeps_length E.

(** X12: the bounds check of a read is made on [addr + len] reduced to 32
    bits, and [addr] itself is not compared with the chip size before the
    first page is read.  A request that passes the checks with an address
    at or past the end of the chip, which it can when the sum wraps, is
    carried out: the command returns whenever the transport is ready when
    asked, and whatever it returns, the first thing it did after switching
    the read LED on was to read the page at that address, a page outside
    the chip. *)
Theorem np_cmd_nand_read_first_page_unchecked (cmd : np_rx_t)
    (w : Rd.world) :
  Rd.chip_info w = Some c ->
  pow2 (page_size c) -> page_size c <= NP_MAX_PAGE_SIZE ->
  Z.of_nat (length (np_page_t.buf (Rd.page w))) = NP_MAX_PAGE_SIZE ->
  rx_wf cmd ->
  Rd.read_check c cmd = None ->
  size c <= cmd_addr cmd ->
  (Rd.always_ready E ->
   exists r w',
     Rd.np_cmd_nand_read E (Rd.read_fuel c (cmd_len cmd)) cmd w
     = Some (r, w')) /\
  forall fuel r w',
    Rd.np_cmd_nand_read E fuel cmd w = Some (r, w') ->
    exists st buf rest,
      Rd.trace w'
      = Rd.trace w
        ++ Rd.EvLed true
           :: Rd.EvReadPage (cmd_addr cmd / page_size c) (page_size c) st buf
           :: rest /\
      size c <= cmd_addr cmd / page_size c * page_size c.
Proof.
  intros Hc Hpow Hmax Hbuf [Ha Hl] Hck Hout.
  assert (Hps : 0 < page_size c) by apply Hpow.
  assert (Hps32 : page_size c < 2 ^ 32)
    by (unfold NP_MAX_PAGE_SIZE in Hmax; lia).
  split.
  - intros Hr.
    set (w0 := Rd.mk_world (Rd.chip_info w) (Rd.page w) (Rd.bad_blocks w)
                 (Rd.trace w ++ [Rd.EvLed true])).
    change (exists r w',
               Rd.bind (Rd._np_cmd_nand_read E
                          (Rd.read_fuel c (cmd_len cmd)) cmd)
                 (fun r => Rd.bind (Rd.led_rd_set false)
                             (fun _ => Rd.ret r)) w0 = Some (r, w')).
    unfold Rd.bind at 1.
    rewrite (_np_cmd_nand_read_eq E c _ cmd w0 Hc Hpow Hps32), Hck.
    assert (Hlm : cmd_len cmd mod page_size c = 0).
    { revert Hck. unfold Rd.read_check.
      destruct (_ >? size c); [discriminate|].
      destruct (negb _); [discriminate|].
      destruct (cmd_len cmd =? 0); [discriminate|].
      destruct (Z.eqb_spec (cmd_len cmd mod page_size c) 0); [|discriminate].
      intros _. assumption. }
    destruct (np_read_loop_total E c Hkeep (Rd.read_fuel c (cmd_len cmd))
                (Rd.read_fuel c (cmd_len cmd)) Hr) with
        (a := cmd_addr cmd) (l := cmd_len cmd)
        (w := Rd.mk_world (Rd.chip_info w0)
                (np_page_t.mk (np_page_t.buf (Rd.page w0))
                   (cmd_addr cmd / page_size c) 0)
                (Rd.bad_blocks w0) (Rd.trace w0))
      as (r & w2 & Hloop);
      try (unfold Rd.read_fuel; rewrite Nat2Z.inj_succ, Z2Nat.id; nia);
      try (unfold w0; rd_simpl; unfold NP_MAX_PAGE_SIZE in *; lia);
      try assumption; try lia.
    rewrite Hloop. do 2 eexists. reflexivity.
  - intros fuel r w' Hrun.
    exact (np_cmd_nand_read_first_page fuel cmd w r w' Hc Hpow Hps32 Hck
             Hout Hrun).
Qed.

Lemma np_read_loop_in_chip (fuel0 fuel : nat) :
  forall a l w r w',
    0 < page_size c <= Z.of_nat (length (np_page_t.buf (Rd.page w))) ->
    np_page_t.offset (Rd.page w) = 0 ->
    np_page_t.page (Rd.page w) * page_size c = a ->
    0 <= a < size c -> size c mod page_size c = 0 -> size c < 2 ^ 32 ->
    0 <= l < 2 ^ 32 -> l mod page_size c = 0 ->
    Rd.np_read_loop E fuel0 fuel c a l w = Some (r, w') ->
    exists new,
      Rd.trace w' = Rd.trace w ++ new /\
      Forall (fun pg => 0 <= pg * page_size c < size c)
        (map fst (Rd.pages_read new)).
Proof.
  induction fuel as [|f IH];
    intros a l w r w' Hps Hoff Hpg Ha Hsm Hsz Hl Hlm Hrun;
    cbn [Rd.np_read_loop] in Hrun;
    (destruct (nonzero l) eqn:Hnz;
     [|inversion Hrun; subst; exists []; split;
       [symmetry; apply app_nil_r|constructor]]).
  - discriminate Hrun.
  - apply nonzero_true in Hnz.
    assert (Ham : a mod page_size c = 0)
      by (rewrite <- Hpg; apply Z.mod_mul; lia).
    assert (Hlps : page_size c <= l).
    { pose proof (aligned_step (page_size c) 0 l ltac:(lia)
                    (Z.mod_0_l (page_size c) ltac:(lia)) Hlm). lia. }
    assert (Hnext : a + page_size c <= size c)
      by (apply aligned_step; (assumption || lia)).
    destruct (np_nand_read_spec E c a w)
      as (rc & tail & Hrd & _ & Ht2 & _).
    rewrite (rd_bind_eq _ _ _ _ _ Hrd) in Hrun.
    set (rp := Rd.nand_read_page E (Rd.trace w) (np_page_t.buf (Rd.page w))
                 (np_page_t.page (Rd.page w)) (page_size c)) in *.
    set (pg := np_page_t.page (Rd.page w)) in *.
    set (ev := Rd.EvReadPage pg (page_size c) (fst rp) (snd rp)) in *.
    set (w1 := Rd.mk_world (Rd.chip_info w) (set_buf (snd rp) (Rd.page w))
                 (Rd.bad_blocks w) (Rd.trace w ++ ev :: tail)) in *.
    assert (Hblen : length (snd rp) = length (np_page_t.buf (Rd.page w)))
      by apply Hkeep.
    assert (Hhead : forall rest,
               map fst (Rd.pages_read ((ev :: tail) ++ rest))
               = pg :: map fst (Rd.pages_read rest)).
    { intros rest. rewrite rd_pages_read_app.
      change (Rd.pages_read (ev :: tail))
        with ((pg, firstn (Z.to_nat (page_size c)) (snd rp))
              :: Rd.pages_read tail).
      rewrite Ht2. reflexivity. }
    assert (Hin1 : 0 <= pg * page_size c < size c) by lia.
    destruct (nonzero rc).
    + inversion Hrun; subst r w'. exists (ev :: tail). unfold w1. rd_simpl.
      split; [reflexivity|].
      specialize (Hhead []). rewrite app_nil_r in Hhead. rewrite Hhead.
      repeat constructor; lia.
    + apply rd_bind_inv in Hrun. destruct Hrun as (res & w2 & Hin & Hrun).
      destruct (np_read_page_loop_spec E c fuel0 fuel0 l w1 res w2)
        as (new & Ht & _ & _ & Hbuf & Hpn & Hpr & _ & _ & _ & _ & _ & _
            & Hres);
        [unfold w1; rd_simpl; lia|lia|unfold w1; rd_simpl; lia
        |unfold w1; rd_simpl; lia|exact Hin|].
      revert Ht Hbuf Hpn Hres. unfold w1. rd_simpl.
      rewrite Hoff, Z.sub_0_r. intros Ht Hbuf Hpn Hres.
      assert (Hdone : forall x, Some (x, w2) = Some (r, w') ->
                 exists new0,
                   Rd.trace w' = Rd.trace w ++ new0 /\
                   Forall (fun p => 0 <= p * page_size c < size c)
                     (map fst (Rd.pages_read new0))).
      { intros x Hx. inversion Hx; subst x w'.
        exists ((ev :: tail) ++ new). rewrite Ht, <- app_assoc.
        split; [reflexivity|]. rewrite Hhead, Hpr.
        repeat constructor; lia. }
      destruct res as [r1|l']; [exact (Hdone _ Hrun)|].
      destruct Hres as [Hfull ->].
      destruct (nonzero (l - page_size c)) eqn:Hmore;
        [|exact (Hdone _ Hrun)].
      cbv zeta in Hrun. rewrite (u32_small (a + page_size c)) in Hrun by lia.
      destruct (Z.geb_spec (a + page_size c) (size c)) as [Hge|Hlt];
        [exact (Hdone _ Hrun)|].
      revert Hrun. rd_prims. rd_simpl. rewrite Hpn, Hbuf.
      fold pg. rewrite (u32_small (pg + 1)) by nia.
      intros Hrun. apply IH in Hrun; rd_simpl; try lia.
      * destruct Hrun as (new3 & Ht3 & Hall). revert Ht3. rd_simpl.
        rewrite Ht. intros Ht3.
        exists ((ev :: tail) ++ new ++ new3). rewrite Ht3, <- !app_assoc.
        split; [reflexivity|].
        rewrite Hhead, rd_pages_read_app, Hpr. cbn [app].
        constructor; [lia|exact Hall].
      * apply aligned_sub; (assumption || lia).
Qed.

(** X13: a read whose start address is inside the chip reads no page
    outside it, whatever its length: on a driver that leaves the page
    buffer as long as it is, every page the command reads begins before
    the end of the chip. *)
Theorem np_cmd_nand_read_in_chip (fuel : nat) (cmd : np_rx_t) (w : Rd.world)
    (r : Z) (w' : Rd.world) :
  Rd.chip_info w = Some c ->
  pow2 (page_size c) -> page_size c <= NP_MAX_PAGE_SIZE ->
  size c < 2 ^ 32 -> size c mod page_size c = 0 ->
  Z.of_nat (length (np_page_t.buf (Rd.page w))) = NP_MAX_PAGE_SIZE ->
  rx_wf cmd -> cmd_addr cmd < size c ->
  Rd.np_cmd_nand_read E fuel cmd w = Some (r, w') ->
  exists new,
    Rd.trace w' = Rd.trace w ++ Rd.EvLed true :: new ++ [Rd.EvLed false] /\
    Forall (fun pg => 0 <= pg * page_size c < size c)
      (map fst (Rd.pages_read new)).
Proof.
  intros Hc Hpow Hmax Hsz Hsm Hbuf [Ha Hl] Hin Hrun.
  assert (Hps : 0 < page_size c) by apply Hpow.
  assert (Hps32 : page_size c < 2 ^ 32)
    by (unfold NP_MAX_PAGE_SIZE in Hmax; lia).
  unfold Rd.np_cmd_nand_read in Hrun.
  apply rd_bind_inv in Hrun. destruct Hrun as ([] & w0 & Hled & Hrun).
  revert Hled. rd_prims. intros Hled. inversion Hled; subst w0; clear Hled.
  apply rd_bind_inv in Hrun. destruct Hrun as (r1 & w2 & Hrun & Hrest).
  revert Hrest. rd_prims. intros Hrest.
  inversion Hrest; subst r1 w'; clear Hrest. rd_simpl.
  rewrite (_np_cmd_nand_read_eq E c fuel cmd
             (Rd.mk_world (Rd.chip_info w) (Rd.page w) (Rd.bad_blocks w)
                (Rd.trace w ++ [Rd.EvLed true])) Hc Hpow Hps32) in Hrun.
  destruct (Rd.read_check c cmd) as [code|] eqn:Hck.
  - inversion Hrun; subst code w2. exists []. rd_simpl.
    rewrite <- app_assoc. split; [reflexivity|constructor].
  - assert (Hal : cmd_addr cmd mod page_size c = 0 /\
                  cmd_len cmd mod page_size c = 0).
    { revert Hck. unfold Rd.read_check.
      destruct (_ >? size c); [discriminate|].
      destruct (Z.eqb_spec (cmd_addr cmd mod page_size c) 0); [|discriminate].
      destruct (cmd_len cmd =? 0); [discriminate|].
      destruct (Z.eqb_spec (cmd_len cmd mod page_size c) 0); [|discriminate].
      intros _. split; assumption. }
    destruct Hal as [Ham Hlm].
    apply np_read_loop_in_chip in Hrun; rd_simpl; try lia; try assumption.
    + destruct Hrun as (new & Ht & Hall). revert Ht. rd_simpl. intros Ht.
      exists new. rewrite Ht, <- !app_assoc. split; [reflexivity|exact Hall].
    + apply aligned_div_mul; assumption.
Qed.

End Rd_read_bounds.


Lemma np_cmd_nand_read_first_page_unchecked_witness :
  (Rd.always_ready (Rd.bench_env NAND_READY []) ->
   exists r w',
     Rd.np_cmd_nand_read (Rd.bench_env NAND_READY [])
       (Rd.read_fuel bench_chip (cmd_len (Rd.cmd_read 0xFFFFF800 0x800)))
       (Rd.cmd_read 0xFFFFF800 0x800) (Rd.with_chip bench_chip Rd.power_on)
     = Some (r, w')) /\
  forall fuel r w',
    Rd.np_cmd_nand_read (Rd.bench_env NAND_READY []) fuel
      (Rd.cmd_read 0xFFFFF800 0x800) (Rd.with_chip bench_chip Rd.power_on)
    = Some (r, w') ->
    exists st buf rest,
      Rd.trace w'
      = Rd.trace (Rd.with_chip bench_chip Rd.power_on)
        ++ Rd.EvLed true
           :: Rd.EvReadPage
                (cmd_addr (Rd.cmd_read 0xFFFFF800 0x800)
                 / page_size bench_chip)
                (page_size bench_chip) st buf
           :: rest /\
      size bench_chip
      <= cmd_addr (Rd.cmd_read 0xFFFFF800 0x800) / page_size bench_chip
         * page_size bench_chip.
Proof.
  apply (np_cmd_nand_read_first_page_unchecked (Rd.bench_env NAND_READY [])
           bench_chip (rd_bench_keeps_length NAND_READY [])
           (Rd.cmd_read 0xFFFFF800 0x800)
           (Rd.with_chip bench_chip Rd.power_on)).
  - reflexivity.
  - split; [reflexivity|]. vm_compute. reflexivity.
  - vm_compute. discriminate.
  - vm_compute. reflexivity.
  - vm_compute. repeat split; intros H; discriminate H.
  - vm_compute. reflexivity.
  - vm_compute. discriminate.
Defined.

(** The last page of the bench chip with a length that makes the sum
    wrap to 0: the page is read, and the read stops at the end of the
    chip. *)
Lemma np_cmd_nand_read_in_chip_witness :
  exists w',
    Rd.np_cmd_nand_read (Rd.bench_env NAND_READY []) 40
      (Rd.cmd_read 0x3FFF800 0xFC000800)
      (Rd.with_chip bench_chip Rd.power_on)
    = Some (NP_ERR_ADDR_EXCEEDED, w') /\
    exists new,
      Rd.trace w'
      = Rd.trace (Rd.with_chip bench_chip Rd.power_on)
        ++ Rd.EvLed true :: new ++ [Rd.EvLed false] /\
      Forall (fun pg => 0 <= pg * page_size bench_chip < size bench_chip)
        (map fst (Rd.pages_read new)).
Proof.
  eexists. split; [vm_compute; reflexivity|].
  apply (np_cmd_nand_read_in_chip (Rd.bench_env NAND_READY []) bench_chip
           (rd_bench_keeps_length NAND_READY []) 40
           (Rd.cmd_read 0x3FFF800 0xFC000800)
           (Rd.with_chip bench_chip Rd.power_on) NP_ERR_ADDR_EXCEEDED).
  - reflexivity.
  - split; [reflexivity|]. vm_compute. reflexivity.
  - vm_compute. discriminate.
  - vm_compute. reflexivity.
  - vm_compute. reflexivity.
  - vm_compute. reflexivity.
  - vm_compute. repeat split; intros H; discriminate H.
  - vm_compute. reflexivity.
  - vm_compute. reflexivity.
Defined.

(** On the bench chip of 32768 pages, the read of one page at 0xFFFFF800
    returns 0 after it read page 2097151 and sent its 2048 bytes. *)
Example np_cmd_nand_read_wrap_bench :
  exists w',
    Rd.np_cmd_nand_read (Rd.bench_env NAND_READY []) 40
      (Rd.cmd_read 0xFFFFF800 0x800) (Rd.with_chip bench_chip Rd.power_on)
    = Some (0, w') /\
    map fst (Rd.pages_read (Rd.trace w')) = [2097151] /\
    length (Rd.sent_data (Rd.trace w')) = 2048%nat /\
    size bench_chip / page_size bench_chip = 32768.
Proof.
  eexists. split; [vm_compute; reflexivity|]. vm_compute. repeat split.
Qed.
